(** * SmartListas: the shopping-list optimizers and the city geo index

    A shallow embedding of
      - [backend/app/services/city_location.py]
      - [backend/app/services/shopping_optimizer.py]
      - [backend/app/services/app_shopping_optimizer.py]
    and the properties of these services.

    Conventions of the embedding.
      - Python [int] is [Z]; Python [float] (prices, quantities, subtotals,
        coordinates of centroids) is an exact rational [Q]: sums, products
        and comparisons are the mathematical ones, there is no rounding, NaN
        or infinity.  The trigonometry of [haversine_km] is taken over the
        real numbers [R].
      - A Python [dict] is an association list in insertion order
        ([PyDict]): iteration order is part of the behaviour of the
        optimizers (ties are broken by it).
      - A Python [str] is a [string] and its characters are [ascii]; the
        Unicode routines ([str.strip], [str.upper], [str.casefold],
        [unicodedata.normalize], [unicodedata.combining]) are parameters.
      - The database session is a record of tables ([DB]); a query is a
        filter over the rows in table order. *)

From Stdlib Require Import Reals.
From Stdlib Require Import List ZArith QArith Qminmax Bool Psatz String Ascii.
From Stdlib Require Import Permutation DecimalString.
Import ListNotations.

Set Implicit Arguments.

(* ------------------------------------------------------------------ *)
(** * Python values *)
(* ------------------------------------------------------------------ *)

Module Py.

(** [a < b] on floats, as a boolean. *)
Definition Qltb (a b : Q) : bool := negb (Qle_bool b a).

(** [sum(xs)] on floats; Python adds from the left, starting at 0. *)
Definition fsum (xs : list Q) : Q := fold_left Qplus xs 0%Q.

(** [min(xs, key=key, default=None)]: the first element whose key is
      minimal. *)
Definition min_by {A} (key : A -> Q) (xs : list A) : option A :=
    match xs with
    | [] => None
    | x :: t =>
        Some (fold_left (fun best y => if Qltb (key y) (key best) then y else best) t x)
    end.

(** [max(xs, key=key)]: the first element whose key is maximal; on an
      empty sequence Python raises [ValueError], here [None]. *)
Definition max_by {A} (key : A -> Q) (xs : list A) : option A :=
    match xs with
    | [] => None
    | x :: t =>
        Some (fold_left (fun best y => if Qltb (key best) (key y) then y else best) t x)
    end.

(** [list.sort] and [sorted] are stable.  [sort_by lt] puts [x] before
      the elements that followed it in the input unless one of them is
      strictly smaller ([lt y x]).  With [lt y x := key y < key x] this is
      [sort(key=key)]; with [lt y x := key y > key x] it is
      [sort(key=key, reverse=True)], which also keeps equal keys in input
      order. *)
Fixpoint insert_by {A} (lt : A -> A -> bool) (x : A) (l : list A) : list A :=
    match l with
    | [] => [x]
    | y :: t => if lt y x then y :: insert_by lt x t else x :: y :: t
    end.

Fixpoint sort_by {A} (lt : A -> A -> bool) (l : list A) : list A :=
    match l with
    | [] => []
    | x :: t => insert_by lt x (sort_by lt t)
    end.

(** [x in xs] for integers. *)
Definition mem (x : Z) (xs : list Z) : bool := existsb (Z.eqb x) xs.

(** A [set] of integers built from a sequence: the distinct elements, in
      order of first occurrence. *)
Fixpoint to_set (xs : list Z) : list Z :=
    match xs with
    | [] => []
    | x :: t => x :: filter (fun y => negb (Z.eqb y x)) (to_set t)
    end.

(** [==] on sets. *)
Definition set_eqb (a b : list Z) : bool :=
    forallb (fun x => mem x b) a && forallb (fun x => mem x a) b.

(** [x or y] on optional strings: [None] and the empty string are falsy. *)
Definition str_or (a b : option string) : option string :=
    match a with
    | Some s => if String.eqb s EmptyString then b else a
    | None => b
    end.

(** [str(n)] in an f-string. *)
Definition str_of_nat (n : nat) : string := NilZero.string_of_uint (Nat.to_uint n).
Definition str_of_Z (z : Z) : string := NilZero.string_of_int (Z.to_int z).

End Py.

(* ------------------------------------------------------------------ *)
(** * Insertion-ordered dictionaries with integer keys *)
(* ------------------------------------------------------------------ *)

Module PyDict.

Definition dict (V : Type) : Type := list (Z * V).

Section Ops.
Context {V : Type}.

(** [d.get(k)] *)
Fixpoint get (d : dict V) (k : Z) : option V :=
      match d with
      | [] => None
      | (k', v) :: t => if Z.eqb k k' then Some v else get t k
      end.

(** [d[k] = v]: an existing key keeps its place, a new key goes last. *)
Fixpoint put (d : dict V) (k : Z) (v : V) : dict V :=
      match d with
      | [] => [(k, v)]
      | (k', v') :: t => if Z.eqb k k' then (k', v) :: t else (k', v') :: put t k v
      end.

Definition keys (d : dict V) : list Z := map fst d.
Definition values (d : dict V) : list V := map snd d.

(** [d[k]] on a [defaultdict(dflt)], read only. *)
Definition get_or (d : dict V) (k : Z) (dflt : V) : V :=
      match get d k with Some v => v | None => dflt end.
End Ops.

(** [d[k].append(v)] on a [defaultdict(list)]. *)
Definition append {A} (d : dict (list A)) (k : Z) (v : A) : dict (list A) :=
    put d k (get_or d k [] ++ [v]).

(** [for x in l: d[key(x)].append(x)] *)
Definition grouped {A} (key : A -> Z) (l : list A) (d : dict (list A)) : dict (list A) :=
  fold_left (fun d x => append d (key x) x) l d.

(** The sum of [g] over all the elements of all the lists of [d]. *)
Definition weight {A} (g : A -> Q) (d : dict (list A)) : Q :=
  Py.fsum (map (fun kv : Z * list A => Py.fsum (map g (snd kv))) d).

(** [d[k] += x] on a [defaultdict(float)]. *)
Definition add (d : dict Q) (k : Z) (x : Q) : dict Q :=
    put d k (get_or d k 0 + x)%Q.

(** [d[k].add(x)] on a [defaultdict(set)]. *)
Definition set_add (d : dict (list Z)) (k : Z) (x : Z) : dict (list Z) :=
    put d k (let s := get_or d k [] in if Py.mem x s then s else s ++ [x]).

End PyDict.

(* ------------------------------------------------------------------ *)
(** * The database tables ([backend/app/models.py]) *)
(* ------------------------------------------------------------------ *)

Module Models.

(** [class CityLocation]: [uf] and [city] are not nullable. *)
Record CityLocation : Type := mkCityLocation {
    cl_uf : string;
    cl_city : string;
    latitude : Q;
    longitude : Q
  }.

(** [class Store] (table [lojas]); every column but [id] is nullable.
      There is no column or attribute [razao_social]. *)
Record Store : Type := mkStore {
    store_pk : Z;
    nome : option string;
    nome_fantasia : option string;
    endereco : option string;
    cidade : option string;
    uf : option string;
    lat : option Q;
    lng : option Q
  }.

(** [class Price] (table [precos]); [data_coleta] is seconds since the
      epoch. *)
Record Price : Type := mkPrice {
    canonical_id : option Z;
    loja_id : Z;
    preco_por_unidade : Q;
    data_coleta : option Z
  }.

(** [class ShoppingListItem] and [class AppShoppingListItem]: the columns
      the optimizers read. *)
Record ListItem : Type := mkListItem {
    item_pk : Z;
    item_canonical_id : Z;
    item_quantity : Q
  }.

(** [class ShoppingList] and [class AppShoppingList]. *)
Record ShoppingList : Type := mkShoppingList {
    list_pk : Z;
    max_stores : option Z;
    items : list ListItem
  }.

(** What a [Session] can read. *)
Record DB : Type := mkDB {
    city_locations : list CityLocation;
    lojas : list Store;
    precos : list Price;
    shopping_lists : list ShoppingList;
    app_shopping_lists : list ShoppingList
  }.

(** [db.get(Store, store_id)] *)
Definition get_store (db : DB) (store_id : Z) : option Store :=
    find (fun s => Z.eqb (store_pk s) store_id) (lojas db).

(** [db.get(ShoppingList, id)] and [db.get(AppShoppingList, id)] *)
Definition get_list (tbl : list ShoppingList) (id : Z) : option ShoppingList :=
    find (fun l => Z.eqb (list_pk l) id) tbl.

(** [shopping_list.max_stores or dflt]: [None] and 0 are falsy. *)
Definition max_stores_or (l : ShoppingList) (dflt : Z) : Z :=
    match max_stores l with
    | Some m => if Z.eqb m 0 then dflt else m
    | None => dflt
    end.

End Models.

(* ------------------------------------------------------------------ *)
(** * [services/city_location.py] *)
(* ------------------------------------------------------------------ *)

Module CityLocationService.
Import Models.

(** [@dataclass(frozen=True) class LatLng]; the coordinate type is [Q]
      for centroids read from the tables and [R] under [haversine_km]. *)
Record LatLng (T : Type) : Type := mkLatLng { ll_lat : T; ll_lng : T }.

Section Normalize.
(** [str.strip], [str.upper], [str.casefold],
        [unicodedata.normalize("NFKD", _)], [unicodedata.combining]. *)
Variables (strip upper casefold nfkd : string -> string).
Variable combining : ascii -> bool.

Definition _normalize_city (city : string) : string := strip city.

Definition _normalize_city_key (city : string) : string :=
      let c := _normalize_city city in
      let c := nfkd c in
      let c := string_of_list_ascii
                 (filter (fun ch => negb (combining ch)) (list_ascii_of_string c)) in
      casefold c.

Definition _normalize_uf (uf : string) : string := upper (strip uf).

Definition is_empty (s : string) : bool :=
      match s with EmptyString => true | _ => false end.

(** [sum(xs) / len(xs)] *)
Definition average (xs : list Q) : Q :=
      (Py.fsum xs / inject_Z (Z.of_nat (List.length xs)))%Q.

(** The rows of [lojas] with both coordinates, as pairs. *)
Definition coords (s : Store) : option (Q * Q) :=
      match lat s, lng s with
      | Some la, Some lo => Some (la, lo)
      | _, _ => None
      end.

Definition opt_str_eqb (a : option string) (b : string) : bool :=
      match a with Some x => String.eqb x b | None => false end.

Definition resolve_city_centroid (db : DB) (uf city : option string)
      : option (LatLng Q) :=
      let nuf := _normalize_uf (match uf with Some u => u | None => EmptyString end) in
      let ncity := _normalize_city (match city with Some c => c | None => EmptyString end) in
      if is_empty nuf || is_empty ncity then None else
      match find (fun r => String.eqb (cl_uf r) nuf && String.eqb (cl_city r) ncity)
                 (city_locations db) with
      | Some row => Some (mkLatLng (latitude row) (longitude row))
      | None =>
        let wanted := _normalize_city_key ncity in
        let candidates := filter (fun r => String.eqb (cl_uf r) nuf) (city_locations db) in
        match find (fun cand => String.eqb (_normalize_city_key (cl_city cand)) wanted)
                   candidates with
        | Some cand => Some (mkLatLng (latitude cand) (longitude cand))
        | None =>
          let stores :=
            flat_map (fun s =>
              if opt_str_eqb (Models.uf s) nuf && opt_str_eqb (cidade s) ncity
              then match coords s with Some c => [c] | None => [] end
              else []) (lojas db) in
          match stores with
          | [] =>
            let all_stores :=
              flat_map (fun s =>
                if opt_str_eqb (Models.uf s) nuf
                then match cidade s, coords s with
                     | Some c, Some (la, lo) => [(c, la, lo)]
                     | _, _ => []
                     end
                else []) (lojas db) in
            let tolerant :=
              filter (fun s => String.eqb (_normalize_city_key (fst (fst s))) wanted)
                     all_stores in
            match tolerant with
            | [] => None
            | _ =>
              let lat_avg := average (map (fun s => snd (fst s)) tolerant) in
              let lng_avg := average (map (fun s => snd s) tolerant) in
              Some (mkLatLng lat_avg lng_avg)
            end
          | _ =>
            let lat_avg := average (map fst stores) in
            let lng_avg := average (map snd stores) in
            Some (mkLatLng lat_avg lng_avg)
          end
        end
      end.

End Normalize.

(** [math.radians] *)
Definition radians (x : R) : R := (x * PI / 180)%R.

(** [haversine_km].  [math.sqrt] raises [ValueError] on a negative
    argument and [math.asin] outside [-1, 1]: the result is [None] there. *)
Definition haversine_km (a b : LatLng R) : option R :=
  let r := 6371%R in
  let lat1 := radians (ll_lat a) in
  let lat2 := radians (ll_lat b) in
  let dlat := (lat2 - lat1)%R in
  let dlng := radians (ll_lng b - ll_lng a) in
  let sin_dlat := sin (dlat / 2) in
  let sin_dlng := sin (dlng / 2) in
  let h := (sin_dlat * sin_dlat + cos lat1 * cos lat2 * sin_dlng * sin_dlng)%R in
  if Rlt_dec h 0 then None
  else
    let s := sqrt h in
    if Rlt_dec 1 s then None else Some (2 * r * asin s)%R.

End CityLocationService.

(* ------------------------------------------------------------------ *)
(** * The price queries shared by the two optimizers *)
(* ------------------------------------------------------------------ *)

Module PriceQueries.
Import Models.

(** A row of [latest_price_subq]:
      [canonical_id, loja_id, max(data_coleta)]. *)
Definition subq_row : Type := (Z * Z * option Z)%type.

(** SQL [max] ignores NULL. *)
Definition opt_max (a b : option Z) : option Z :=
    match a, b with
    | Some x, Some y => Some (Z.max x y)
    | Some x, None => Some x
    | None, o => o
    end.

Fixpoint upsert_group (g : list subq_row) (c l : Z) (d : option Z) : list subq_row :=
    match g with
    | [] => [(c, l, d)]
    | (c', l', d') :: t =>
        if Z.eqb c c' && Z.eqb l l' then (c', l', opt_max d' d) :: t
        else (c', l', d') :: upsert_group t c l d
    end.

(** [query(canonical_id, loja_id, max(data_coleta)).filter(...)
      .group_by(canonical_id, loja_id)]; [filt] holds the conditions on
      [loja_id] and [data_coleta], and [canonical_id IN canonical_ids] is
      false on NULL. *)
Definition latest_price_subq (canonical_ids : list Z) (filt : Price -> bool)
      (rows : list Price) : list subq_row :=
    fold_left
      (fun g p =>
         match canonical_id p with
         | Some c =>
             if Py.mem c canonical_ids && filt p
             then upsert_group g c (loja_id p) (data_coleta p)
             else g
         | None => g
         end) rows [].

(** The join condition with a row of the subquery; [=] is not true on
      NULL. *)
Definition joins (p : Price) (g : subq_row) : bool :=
    let '(c, l, d) := g in
    match canonical_id p, data_coleta p, d with
    | Some pc, Some pd, Some gd => Z.eqb pc c && Z.eqb (loja_id p) l && Z.eqb pd gd
    | _, _, _ => false
    end.

(** [query(Price, Store).join(Store, Price.loja_id == Store.id)
      .join(latest_price_subq, ...).all()] *)
Definition latest_prices (db : DB) (subq : list subq_row) : list (Price * Store) :=
    flat_map
      (fun p =>
         flat_map
           (fun s =>
              if Z.eqb (loja_id p) (store_pk s)
              then flat_map (fun g => if joins p g then [(p, s)] else []) subq
              else [])
           (lojas db))
      (precos db).

(** [data_coleta >= cutoff] *)
Definition since (cutoff : Z) (p : Price) : bool :=
    match data_coleta p with Some d => Z.leb cutoff d | None => false end.

(** [timedelta(days=n)] in seconds. *)
Definition days (n : Z) : Z := (n * 86400)%Z.

(** [{it.canonical_id: it for it in items}] *)
Definition canonical_item_map (its : list ListItem) : PyDict.dict ListItem :=
    fold_left (fun d it => PyDict.put d (item_canonical_id it) it) its [].

End PriceQueries.

(** An attribute that the class does not have raises [AttributeError]. *)
Inductive result (A : Type) : Type :=
| Ok (a : A)
| AttributeError.
Arguments AttributeError {A}.

Definition bind {A B} (m : result A) (f : A -> result B) : result B :=
  match m with Ok a => f a | AttributeError => AttributeError end.

Fixpoint mapM {A B} (f : A -> result B) (l : list A) : result (list B) :=
  match l with
  | [] => Ok []
  | x :: t => bind (f x) (fun y => bind (mapM f t) (fun ys => Ok (y :: ys)))
  end.

(** [itertools.combinations(l, k)], in its order. *)
Fixpoint combinations {A} (l : list A) (k : nat) : list (list A) :=
  match k with
  | O => [[]]
  | S k' =>
      match l with
      | [] => []
      | x :: t => map (cons x) (combinations t k') ++ combinations t k
      end
  end.

(* ------------------------------------------------------------------ *)
(** * The single-store baseline *)
(* ------------------------------------------------------------------ *)

(** Both services define [_calculate_single_store_cost] with the same body,
    each on its own [ItemPrice]; it is given once, over the three fields
    it reads. *)
Module Baseline.
Section Cost.
Context {ItemPrice : Type}.
Variables (store_id item_id : ItemPrice -> Z) (subtotal : ItemPrice -> Q).
Local Open Scope Q_scope.

Definition calculate_single_store_cost (item_prices : list ItemPrice) : Q :=
      let store_items :=
        fold_left (fun d ip => PyDict.set_add d (store_id ip) (item_id ip)) item_prices [] in
      let all_items := Py.to_set (map item_id item_prices) in
      let complete_stores :=
        map fst (filter (fun kv : Z * list Z => Py.set_eqb (snd kv) all_items) store_items) in
      match complete_stores with
      | [] =>
          let prices_by_item :=
            fold_left (fun d ip => PyDict.append d (item_id ip) (subtotal ip)) item_prices [] in
          Py.fsum (map (fun prices => match Py.max_by (fun x => x) prices with
                                      | Some m => m
                                      | None => 0
                                      end)
                       (PyDict.values prices_by_item))
      | _ =>
          let store_totals :=
            fold_left
              (fun d ip =>
                 if Py.mem (store_id ip) complete_stores
                 then PyDict.add d (store_id ip) (subtotal ip) else d)
              item_prices [] in
          match store_totals with
          | [] => 0
          | _ =>
              match Py.min_by (fun x => x)
                      (map (fun s => PyDict.get_or store_totals s 0) complete_stores) with
              | Some m => m
              | None => 0
              end
          end
      end.

End Cost.
End Baseline.

(* ------------------------------------------------------------------ *)
(** * [services/shopping_optimizer.py] *)
(* ------------------------------------------------------------------ *)

Module ShoppingOptimizer.
Import Models PriceQueries.
Local Open Scope Q_scope.

Record ItemPrice : Type := mkItemPrice {
    item_id : Z;
    canonical_id : Z;
    store_id : Z;
    store_name : string;
    price : Q;
    quantity : Q;
    subtotal : Q;
    worst_price : Q;
    worst_store_name : string;
    item_savings : Q
  }.

Record StoreAllocation : Type := mkStoreAllocation {
    sa_store_id : Z;
    sa_store_name : string;
    sa_store_address : string;
    sa_items : list ItemPrice;
    total : Q
  }.

Record OptimizationResult : Type := mkOptimizationResult {
    success : bool;
    message : string;
    allocations : list StoreAllocation;
    total_cost : Q;
    total_if_single_store : Q;
    savings : Q;
    savings_percent : Q;
    total_worst_cost : Q;
    potential_savings : Q;
    potential_savings_percent : Q;
    items_without_price : list Z
  }.

Definition price_lookback_days : Z := 30.

(** [store.nome_fantasia or store.razao_social]: [Store] has no
      [razao_social], so the right operand raises when it is evaluated. *)
Definition store_display_name (s : Store) : result string :=
    match nome_fantasia s with
    | Some n => if String.eqb n EmptyString then AttributeError else Ok n
    | None => AttributeError
    end.

(** [f"{x}"] of an optional column. *)
Definition fmt (o : option string) : string :=
    match o with Some s => s | None => "None"%string end.

(** [now] is [datetime.now(UTC)]. *)
Definition _get_item_prices (db : DB) (now : Z) (shopping_list : ShoppingList)
    : result (list ItemPrice) :=
    let cutoff_date := (now - days price_lookback_days)%Z in
    let canonical_ids := map item_canonical_id (items shopping_list) in
    let subq := latest_price_subq canonical_ids (since cutoff_date) (precos db) in
    let prices := latest_prices db subq in
    let cmap := canonical_item_map (items shopping_list) in
    bind
      (mapM
         (fun ps : Price * Store =>
            let (p, store) := ps in
            match Models.canonical_id p with
            | None => Ok []
            | Some c =>
                match PyDict.get cmap c with
                | None => Ok []
                | Some item =>
                    bind (store_display_name store) (fun name =>
                    Ok [mkItemPrice (item_pk item) c (store_pk store) name
                          (preco_por_unidade p) (item_quantity item)
                          (preco_por_unidade p * item_quantity item)
                          0 EmptyString 0])
                end
            end)
         prices)
      (fun rows => Ok (List.concat rows)).

(** [prices_by_item[ip.item_id].append(ip)] for every [ip]. *)
Definition group_by_item (item_prices : list ItemPrice) : PyDict.dict (list ItemPrice) :=
  PyDict.grouped item_id item_prices [].

(** [min((p for p in prices if p.store_id in store_set),
           key=lambda x: x.price, default=None)] *)
Definition best_in (store_set : list Z) (prices : list ItemPrice) : option ItemPrice :=
    Py.min_by price (filter (fun p => Py.mem (store_id p) store_set) prices).

(** [s.add(x)] *)
Definition set_insert (s : list Z) (x : Z) : list Z :=
    if Py.mem x s then s else s ++ [x].

(** The body of the loop over the combinations: [total], [missing] and
      [covered_count] of one combination. *)
Definition eval_combo (prices_by_item : PyDict.dict (list ItemPrice)) (combo : list Z)
    : Q * list Z * Z :=
    fold_left
      (fun (acc : Q * list Z * Z) (kv : Z * list ItemPrice) =>
         let '(total, missing, covered_count) := acc in
         match best_in combo (snd kv) with
         | None => (total, set_insert missing (fst kv), covered_count)
         | Some best => (total + subtotal best, missing, (covered_count + 1)%Z)
         end)
      prices_by_item (0, [], 0%Z).

Record search : Type := mkSearch {
    best_total : option Q;
    best_set : option (list Z);
    best_missing : list Z;
    best_covered_count : Z
  }.

Definition consider (prices_by_item : PyDict.dict (list ItemPrice))
      (st : search) (combo : list Z) : search :=
    let '(total, missing, covered_count) := eval_combo prices_by_item combo in
    if Z.ltb (best_covered_count st) covered_count then
      mkSearch (Some total) (Some combo) missing covered_count
    else if Z.eqb covered_count (best_covered_count st) && Z.ltb 0 covered_count then
      match best_total st with
      | None => mkSearch (Some total) (Some combo) missing (best_covered_count st)
      | Some bt =>
          if Py.Qltb total bt
          then mkSearch (Some total) (Some combo) missing (best_covered_count st)
          else st
      end
    else st.

(** The combinations in the order the two nested loops visit them:
      [for k in range(1, max_stores + 1):
         for combo in itertools.combinations(store_ids, k)]. *)
Definition enumeration (store_ids : list Z) (max_stores : Z) : list (list Z) :=
    flat_map (combinations store_ids) (seq 1 (Z.to_nat max_stores)).

Definition find_search (prices_by_item : PyDict.dict (list ItemPrice))
      (store_ids : list Z) (max_stores : Z) : search :=
    fold_left (consider prices_by_item) (enumeration store_ids max_stores)
      (mkSearch None None [] (-1)%Z).

Definition _find_best_store_set (prices_by_item : PyDict.dict (list ItemPrice))
      (store_ids : list Z) (max_stores : Z) : option (list Z) * list Z :=
    let st := find_search prices_by_item store_ids max_stores in
    (best_set st, best_missing st).

(** [_allocation_to_result]: one [StoreAllocation] per store with items,
      largest total first. *)
Definition _allocation_to_result (db : DB) (allocation : PyDict.dict (list ItemPrice))
    : result (list StoreAllocation) :=
    bind
      (mapM
         (fun kv : Z * list ItemPrice =>
            let (sid, its) := kv in
            match its with
            | [] => Ok []
            | _ =>
                let store := get_store db sid in
                bind (match store with
                      | Some s => store_display_name s
                      | None => Ok "Desconhecido"%string
                      end) (fun name =>
                Ok [mkStoreAllocation sid name
                      (match store with
                       | Some s => fmt (endereco s) ++ ", " ++ fmt (cidade s)
                       | None => EmptyString
                       end)
                      its (Py.fsum (map subtotal its))])
            end)
         allocation)
      (fun rows =>
         Ok (Py.sort_by (fun y x => Py.Qltb (total x) (total y)) (List.concat rows))).

(** [prices_by_item[item_id].sort(key=lambda x: x.price)] for every item. *)
Definition sort_prices (prices_by_item : PyDict.dict (list ItemPrice))
    : PyDict.dict (list ItemPrice) :=
    map (fun kv : Z * list ItemPrice =>
           (fst kv, Py.sort_by (fun y x => Py.Qltb (price y) (price x)) (snd kv)))
        prices_by_item.

(** The first pass: every item at its cheapest store. *)
Definition first_pass (prices_by_item : PyDict.dict (list ItemPrice))
    : PyDict.dict (list ItemPrice) * PyDict.dict ItemPrice :=
    fold_left
      (fun (acc : PyDict.dict (list ItemPrice) * PyDict.dict ItemPrice)
           (kv : Z * list ItemPrice) =>
         let (allocation, item_allocation) := acc in
         match snd kv with
         | best :: _ =>
             (PyDict.append allocation (store_id best) best,
              PyDict.put item_allocation (fst kv) best)
         | [] => acc
         end)
      prices_by_item ([], []).

(** [store_value]: what each store saves against the next best offer. *)
Definition store_values (prices_by_item : PyDict.dict (list ItemPrice))
      (item_allocation : PyDict.dict ItemPrice) : PyDict.dict Q :=
    fold_left
      (fun (sv : PyDict.dict Q) (kv : Z * ItemPrice) =>
         let (iid, chosen) := kv in
         match PyDict.get_or prices_by_item iid [] with
         | p0 :: p1 :: _ =>
             let second_best :=
               if Z.eqb (store_id p0) (store_id chosen) then subtotal p1 else subtotal p0 in
             PyDict.add sv (store_id chosen) (second_best - subtotal chosen)
         | _ => sv
         end)
      item_allocation [].

(** [required_stores]: the stores that are the only source of an item. *)
Definition required_stores_of (prices_by_item : PyDict.dict (list ItemPrice)) : list Z :=
    fold_left
      (fun (req : list Z) (kv : Z * list ItemPrice) =>
         let unique_stores := Py.to_set (map store_id (snd kv)) in
         if Nat.eqb (List.length unique_stores) 1
         then fold_left set_insert unique_stores req
         else req)
      prices_by_item [].

(** [for s in ranked_stores: if len(top_stores) >= max_stores: break; ...] *)
Fixpoint fill_top (max_stores : Z) (ranked : list Z) (top_stores : list Z) : list Z :=
    match ranked with
    | [] => top_stores
    | s :: t =>
        if Z.leb max_stores (Z.of_nat (List.length top_stores)) then top_stores
        else fill_top max_stores t
               (if Py.mem s top_stores then top_stores else top_stores ++ [s])
    end.

Definition top_stores_of (store_value : PyDict.dict Q) (required_stores : list Z)
      (max_stores : Z) : list Z :=
    let ranked_stores :=
      Py.sort_by
        (fun y x => Py.Qltb (PyDict.get_or store_value x 0) (PyDict.get_or store_value y 0))
        (PyDict.keys store_value) in
    let top_stores :=
      fold_left (fun top s => if Py.mem s top then top else top ++ [s])
                (Py.sort_by Z.ltb required_stores) [] in
    fill_top max_stores ranked_stores top_stores.

(** [best_in_top]: the first cheapest offer among the kept stores. *)
Definition best_in_top_of (top_stores_set : list Z) (prices : list ItemPrice)
    : option ItemPrice :=
    fold_left
      (fun (b : option ItemPrice) ip =>
         if Py.mem (store_id ip) top_stores_set then
           match b with
           | None => Some ip
           | Some bb => if Py.Qltb (price ip) (price bb) then Some ip else b
           end
         else b)
      prices None.

(** [len(required_stores) > max_stores] *)
Definition required_exceed (prices_by_item : PyDict.dict (list ItemPrice)) (max_stores : Z)
  : bool :=
  Z.ltb max_stores (Z.of_nat (List.length (required_stores_of prices_by_item))).

(** [top_stores_set]: the required stores, then the best ranked stores up
    to the cap; the required stores alone when they exceed the cap. *)
Definition kept_stores (prices_by_item : PyDict.dict (list ItemPrice))
    (item_allocation : PyDict.dict ItemPrice) (max_stores : Z) : list Z :=
  let store_value := store_values prices_by_item item_allocation in
  let required_stores := required_stores_of prices_by_item in
  let top_stores := top_stores_of store_value required_stores max_stores in
  if required_exceed prices_by_item max_stores
  then required_stores else Py.to_set top_stores.

(** The body of the last loop of [_redistribute]. *)
Definition reassign (top_stores_set : list Z)
    (acc : PyDict.dict (list ItemPrice) * PyDict.dict ItemPrice * bool)
    (kv : Z * list ItemPrice)
  : PyDict.dict (list ItemPrice) * PyDict.dict ItemPrice * bool :=
  let '(new_allocation, new_item_allocation, exceeded_store_limit) := acc in
  match best_in_top_of top_stores_set (snd kv) with
  | Some b =>
      (PyDict.append new_allocation (store_id b) b,
       PyDict.put new_item_allocation (fst kv) b,
       exceeded_store_limit)
  | None =>
      match snd kv with
      | best :: _ =>
          (PyDict.append new_allocation (store_id best) best,
           PyDict.put new_item_allocation (fst kv) best,
           if Py.mem (store_id best) top_stores_set
           then exceeded_store_limit else true)
      | [] => acc
      end
  end.

Definition _redistribute (prices_by_item : PyDict.dict (list ItemPrice))
    (allocation : PyDict.dict (list ItemPrice))
    (item_allocation : PyDict.dict ItemPrice) (max_stores : Z)
  : PyDict.dict (list ItemPrice) * PyDict.dict ItemPrice * bool :=
  fold_left (reassign (kept_stores prices_by_item item_allocation max_stores))
    prices_by_item ([], [], required_exceed prices_by_item max_stores).

(** The allocation of the exact search: every covered item at its
      cheapest offer inside [best_store_set]. *)
Definition allocate_in (prices_by_item : PyDict.dict (list ItemPrice))
      (best_store_set missing_items : list Z) : PyDict.dict (list ItemPrice) :=
    fold_left
      (fun (allocation : PyDict.dict (list ItemPrice)) (kv : Z * list ItemPrice) =>
         if Py.mem (fst kv) missing_items then allocation
         else match best_in best_store_set (snd kv) with
              | Some best => PyDict.append allocation (store_id best) best
              | None => allocation
              end)
      prices_by_item [].

(** [1 <= max_stores <= 3 and len(store_ids) <= 15] *)
Definition exact_search_gate (store_ids : list Z) (max_stores : Z) : bool :=
    Z.leb 1 max_stores && Z.leb max_stores 3 && Nat.leb (List.length store_ids) 15.

(** The greedy part of [_optimize_allocation], below the exact search. *)
Definition greedy_allocation (prices_by_item : PyDict.dict (list ItemPrice))
      (max_stores : Z) : PyDict.dict (list ItemPrice) * bool :=
    let prices_by_item := sort_prices prices_by_item in
    let (allocation, item_allocation) := first_pass prices_by_item in
    if Z.ltb max_stores (Z.of_nat (List.length allocation)) then
      let '(allocation, _, exceeded_store_limit) :=
        _redistribute prices_by_item allocation item_allocation max_stores in
      (allocation, exceeded_store_limit)
    else (allocation, false).

(** The allocation [store_id -> items] that [_optimize_allocation]
      converts, and its flag. *)
Definition choose_allocation (item_prices : list ItemPrice) (max_stores : Z)
    : PyDict.dict (list ItemPrice) * bool :=
    let prices_by_item := group_by_item item_prices in
    let store_ids := Py.sort_by Z.ltb (Py.to_set (map store_id item_prices)) in
    if exact_search_gate store_ids max_stores then
      match _find_best_store_set prices_by_item store_ids max_stores with
      | (Some (s :: rest), missing_items) =>
          (allocate_in prices_by_item (s :: rest) missing_items, false)
      | _ => greedy_allocation prices_by_item max_stores
      end
    else greedy_allocation prices_by_item max_stores.

Definition _optimize_allocation (db : DB) (item_prices : list ItemPrice) (max_stores : Z)
    : result (list StoreAllocation * bool) :=
    let (allocation, exceeded_store_limit) := choose_allocation item_prices max_stores in
    bind (_allocation_to_result db allocation) (fun r => Ok (r, exceeded_store_limit)).

(** [_add_price_comparison] writes [worst_price], [worst_store_name] and
      [item_savings] of the allocated offers.  The offers are shared with
      [item_prices], but nothing reads these three fields of an element of
      [item_prices] afterwards, so the update is made on the allocations. *)
Definition _add_price_comparison (allocs : list StoreAllocation)
      (all_prices : list ItemPrice) : list StoreAllocation :=
    let prices_by_item := group_by_item all_prices in
    map
      (fun a =>
         mkStoreAllocation (sa_store_id a) (sa_store_name a) (sa_store_address a)
           (map
              (fun item =>
                 match Py.max_by price (PyDict.get_or prices_by_item (item_id item) []) with
                 | Some worst =>
                     mkItemPrice (item_id item) (canonical_id item) (store_id item)
                       (store_name item) (price item) (quantity item) (subtotal item)
                       (price worst) (store_name worst)
                       ((price worst - price item) * quantity item)
                 | None => item
                 end)
              (sa_items a))
           (total a))
      allocs.

Definition _calculate_single_store_cost (item_prices : list ItemPrice) : Q :=
    Baseline.calculate_single_store_cost store_id item_id subtotal item_prices.

Definition failure (msg : string) (without_price : list Z) : OptimizationResult :=
    mkOptimizationResult false msg [] 0 0 0 0 0 0 0 without_price.

(** [x / y * 100 if y > 0 else 0] *)
Definition percent (x y : Q) : Q :=
    if Py.Qltb 0 y then x / y * 100 else 0.

(** [f"Lista otimizada em {n} supermercado(s)"] *)
Definition msg_optimized (n : nat) : string :=
    ("Lista otimizada em " ++ Py.str_of_nat n ++ " supermercado(s)")%string.

Definition msg_limited (n : nat) (max_stores : Z) (excluded : nat) : string :=
    ("Lista otimizada em " ++ Py.str_of_nat n ++ " supermercado(s) "
     ++ "(limitado a " ++ Py.str_of_Z max_stores ++ "; " ++ Py.str_of_nat excluded
     ++ " item(ns) ficaram sem preço dentro do limite)")%string.

(** [ip.worst_price if ip.worst_price and ip.worst_price > 0 else ip.price] *)
Definition worst_unit (ip : ItemPrice) : Q :=
    if negb (Qeq_bool (worst_price ip) 0) && Py.Qltb 0 (worst_price ip)
    then worst_price ip else price ip.

(** [optimize]; [now] is [datetime.now(UTC)].  The write of
      [_save_optimization] (the rows of [OptimizedShoppingItem] and the
      status of the list) is not part of the returned value. *)
Definition optimize (db : DB) (now : Z) (shopping_list_id : Z)
    : result OptimizationResult :=
    match get_list (shopping_lists db) shopping_list_id with
    | None => Ok (failure "Lista não encontrada" [])
    | Some shopping_list =>
      match items shopping_list with
      | [] => Ok (failure "Lista vazia" [])
      | _ =>
        let max_stores := max_stores_or shopping_list 3 in
        bind (_get_item_prices db now shopping_list) (fun item_prices =>
        match item_prices with
        | [] =>
            Ok (failure "Nenhum preço encontrado para os itens da lista"
                  (map item_pk (items shopping_list)))
        | _ =>
          let items_with_price := Py.to_set (map item_id item_prices) in
          let items_without_price :=
            map item_pk
              (filter (fun it => negb (Py.mem (item_pk it) items_with_price))
                      (items shopping_list)) in
          bind (_optimize_allocation db item_prices max_stores) (fun r =>
          let (allocs, exceeded_store_limit) := r in
          let allocated_item_ids :=
            Py.to_set (flat_map (fun a => map item_id (sa_items a)) allocs) in
          let excluded_by_limit :=
            map item_pk
              (filter (fun it => negb (Py.mem (item_pk it) allocated_item_ids)
                                 && negb (Py.mem (item_pk it) items_without_price))
                      (items shopping_list)) in
          let items_without_price := items_without_price ++ excluded_by_limit in
          let allocs := _add_price_comparison allocs item_prices in
          let total_cost := Py.fsum (map total allocs) in
          let total_worst_cost :=
            fold_left
              (fun acc a =>
                 fold_left (fun acc ip => acc + worst_unit ip * quantity ip) (sa_items a) acc)
              allocs 0 in
          let total_if_single_store := _calculate_single_store_cost item_prices in
          let savings := total_if_single_store - total_cost in
          let savings_percent := percent savings total_if_single_store in
          let potential_savings := total_worst_cost - total_cost in
          let potential_savings_percent := percent potential_savings total_worst_cost in
          let message :=
            match excluded_by_limit with
            | _ :: _ =>
                if Z.ltb 0 max_stores
                then msg_limited (List.length allocs) max_stores (List.length excluded_by_limit)
                else msg_optimized (List.length allocs)
            | [] => msg_optimized (List.length allocs)
            end in
          Ok (mkOptimizationResult true message allocs total_cost total_if_single_store
                savings savings_percent total_worst_cost potential_savings
                potential_savings_percent items_without_price))
        end)
      end
    end.

End ShoppingOptimizer.


(* ------------------------------------------------------------------ *)
(** * [services/app_shopping_optimizer.py] *)
(* ------------------------------------------------------------------ *)

Module AppShoppingOptimizer.
Import Models PriceQueries CityLocationService.
Local Open Scope Q_scope.

Record ItemPrice : Type := mkItemPrice {
  item_id : Z;
  canonical_id : Z;
  store_id : Z;
  store_name : string;
  price : Q;
  price_date : option Z;
  quantity : Q;
  subtotal : Q
}.

Record FallbackPrice : Type := mkFallbackPrice {
  fp_canonical_id : Z;
  fp_store_id : Z;
  fp_store_name : string;
  fp_price : Q;
  fp_price_date : option Z
}.

Record StoreAllocation : Type := mkStoreAllocation {
  sa_store_id : Z;
  sa_store_name : option string;
  sa_store_address : string;
  sa_items : list ItemPrice;
  total : Q
}.

Record OptimizationResult : Type := mkOptimizationResult {
  success : bool;
  message : string;
  allocations : list StoreAllocation;
  total_cost : Q;
  total_if_single_store : Q;
  savings : Q;
  savings_percent : Q;
  items_without_price : list Z
}.

Definition price_lookback_days : Z := 15.

(** [store.nome_fantasia or store.nome or "Loja"] *)
Definition store_display_name (s : Store) : string :=
  match Py.str_or (Py.str_or (nome_fantasia s) (nome s)) (Some "Loja"%string) with
  | Some n => n
  | None => "Loja"%string
  end.

(** [now] is [datetime.now(UTC)]. *)
Definition _get_item_prices (db : DB) (now : Z) (shopping_list : ShoppingList)
    (eligible_store_ids : list Z) : list ItemPrice :=
  let cutoff := (now - days price_lookback_days)%Z in
  let canonical_ids := map item_canonical_id (items shopping_list) in
  let subq :=
    latest_price_subq canonical_ids
      (fun p => since cutoff p && Py.mem (loja_id p) eligible_store_ids) (precos db) in
  let prices := latest_prices db subq in
  let cmap := canonical_item_map (items shopping_list) in
  flat_map
    (fun ps : Price * Store =>
       let (p, store) := ps in
       match Models.canonical_id p with
       | None => []
       | Some c =>
           match PyDict.get cmap c with
           | None => []
           | Some item =>
               [mkItemPrice (item_pk item) c (store_pk store) (store_display_name store)
                  (preco_por_unidade p) (data_coleta p) (item_quantity item)
                  (preco_por_unidade p * item_quantity item)]
           end
       end)
    prices.

(** The body of the loop of [_get_fallback_prices]. *)
Definition keep_cheapest (best_by_canonical : PyDict.dict FallbackPrice)
    (ps : Price * Store) : PyDict.dict FallbackPrice :=
  let (p, store) := ps in
  match Models.canonical_id p with
  | None => best_by_canonical
  | Some c =>
      let candidate :=
        mkFallbackPrice c (store_pk store) (store_display_name store)
          (preco_por_unidade p) (data_coleta p) in
      match PyDict.get best_by_canonical c with
      | None => PyDict.put best_by_canonical c candidate
      | Some prev =>
          if Py.Qltb (fp_price candidate) (fp_price prev)
          then PyDict.put best_by_canonical c candidate
          else best_by_canonical
      end
  end.

Definition _get_fallback_prices (db : DB) (canonical_ids eligible_store_ids : list Z)
  : PyDict.dict FallbackPrice :=
  match canonical_ids, eligible_store_ids with
  | [], _ | _, [] => []
  | _, _ =>
    let subq :=
      latest_price_subq canonical_ids
        (fun p => Py.mem (loja_id p) eligible_store_ids) (precos db) in
    let prices := latest_prices db subq in
    fold_left keep_cheapest prices []
  end.

(** [prices_by_item], every list sorted by price. *)
Definition group_by_item (item_prices : list ItemPrice) : PyDict.dict (list ItemPrice) :=
  map (fun kv : Z * list ItemPrice =>
         (fst kv, Py.sort_by (fun y x => Py.Qltb (price y) (price x)) (snd kv)))
      (PyDict.grouped item_id item_prices []).

(** [max(1, int(max_stores or 1))] *)
Definition clamp_max_stores (max_stores : Z) : Z :=
  Z.max 1 (if Z.eqb max_stores 0 then 1 else max_stores).

(** The body of [for p in prices]: [p] replaces the offer kept for the
    item at its store when it is cheaper. *)
Definition keep_best_at_store (item_id : Z) (sib : PyDict.dict (PyDict.dict ItemPrice))
    (p : ItemPrice) : PyDict.dict (PyDict.dict ItemPrice) :=
  let at_store := PyDict.get_or sib (store_id p) [] in
  match PyDict.get at_store item_id with
  | None => PyDict.put sib (store_id p) (PyDict.put at_store item_id p)
  | Some prev =>
      if Py.Qltb (price p) (price prev)
      then PyDict.put sib (store_id p) (PyDict.put at_store item_id p)
      else sib
  end.

(** [store_item_best]: store -> (item -> cheapest offer of the item at the
    store). *)
Definition store_item_best_of (prices_by_item : PyDict.dict (list ItemPrice))
  : PyDict.dict (PyDict.dict ItemPrice) :=
  fold_left
    (fun (sib : PyDict.dict (PyDict.dict ItemPrice)) (kv : Z * list ItemPrice) =>
       fold_left (keep_best_at_store (fst kv)) (snd kv) sib)
    prices_by_item [].

Definition INF : Q := inject_Z (10 ^ 12).
Definition penalty_missing : Q := inject_Z (10 ^ 9).

Section Greedy.
Variable prices_by_item : PyDict.dict (list ItemPrice).
Variable store_item_best : PyDict.dict (PyDict.dict ItemPrice).

(** [prices_by_item[item_id][0].quantity] *)
Definition quantity_of (iid : Z) : Q :=
  match PyDict.get_or prices_by_item iid [] with
  | p0 :: _ => quantity p0
  | [] => 0
  end.

(** The body of [for item_id in all_item_ids]. *)
Definition score_item (best_by_item : PyDict.dict ItemPrice) (sid : Z)
    (acc : Q * Z) (iid : Z) : Q * Z :=
  let (total, missing) := acc in
  let current := PyDict.get best_by_item iid in
  let cand := PyDict.get (PyDict.get_or store_item_best sid []) iid in
  match current, cand with
  | None, None => (total, (missing + 1)%Z)
  | _, _ =>
      let best_price := match current with Some c => price c | None => INF end in
      let best_price :=
        match cand with
        | Some c => if Py.Qltb (price c) best_price then price c else best_price
        | None => best_price
        end in
      if Qle_bool INF best_price then (total, (missing + 1)%Z)
      else (total + best_price * quantity_of iid, missing)
  end.

(** The score of store [sid] against the running [best_by_item]. *)
Definition score (best_by_item : PyDict.dict ItemPrice) (sid : Z) : Q :=
  let '(total, missing) :=
    fold_left (score_item best_by_item sid) (PyDict.keys prices_by_item) (0, 0%Z) in
  total + inject_Z missing * penalty_missing.

(** The body of [for sid in candidate_stores]. *)
Definition pick_step (selected : list Z) (best_by_item : PyDict.dict ItemPrice)
    (acc : option Z * option Q) (sid : Z) : option Z * option Q :=
  if Py.mem sid selected then acc
  else
    let sc := score best_by_item sid in
    match snd acc with
    | None => (Some sid, Some sc)
    | Some best_score => if Py.Qltb sc best_score then (Some sid, Some sc) else acc
    end.

(** [for sid in candidate_stores]: the first store of least score among
    those not yet selected. *)
Definition pick_store (selected : list Z) (best_by_item : PyDict.dict ItemPrice)
  : option Z :=
  fst (fold_left (pick_step selected best_by_item)
         (PyDict.keys store_item_best) (None, None)).

(** The body of [for item_id, cand in store_item_best[best_store].items()]. *)
Definition merge_item (bbi : PyDict.dict ItemPrice) (kv : Z * ItemPrice)
  : PyDict.dict ItemPrice :=
  let (iid, cand) := kv in
  match PyDict.get bbi iid with
  | None => PyDict.put bbi iid cand
  | Some current =>
      if Py.Qltb (price cand) (price current) then PyDict.put bbi iid cand else bbi
  end.

Definition merge_store (best_by_item : PyDict.dict ItemPrice) (best_store : Z)
  : PyDict.dict ItemPrice :=
  fold_left merge_item (PyDict.get_or store_item_best best_store []) best_by_item.

(** [for _ in range(n)], with its two [break]s. *)
Fixpoint select_loop (n : nat) (selected : list Z) (best_by_item : PyDict.dict ItemPrice)
  : list Z * PyDict.dict ItemPrice :=
  match n with
  | O => (selected, best_by_item)
  | S n' =>
      match pick_store selected best_by_item with
      | None => (selected, best_by_item)
      | Some best_store =>
          let selected := selected ++ [best_store] in
          let best_by_item := merge_store best_by_item best_store in
          if Nat.eqb (List.length best_by_item) (List.length (PyDict.keys prices_by_item))
          then (selected, best_by_item)
          else select_loop n' selected best_by_item
      end
  end.

End Greedy.

(** The stores [selected] by [_greedy_allocate] and its [best_by_item]. *)
Definition greedy_select (item_prices : list ItemPrice) (max_stores : Z)
  : list Z * PyDict.dict ItemPrice :=
  let prices_by_item := group_by_item item_prices in
  let max_stores := clamp_max_stores max_stores in
  let store_item_best := store_item_best_of prices_by_item in
  let candidate_stores := PyDict.keys store_item_best in
  select_loop prices_by_item store_item_best
    (Nat.min (Z.to_nat max_stores) (List.length candidate_stores)) [] [].

(** [store_address]: [", ".join(p for p in [endereco, cidade] if p)] *)
Definition store_address_of (s : Store) : string :=
  match Py.str_or (endereco s) None, Py.str_or (cidade s) None with
  | Some a, Some c => (a ++ ", " ++ c)%string
  | Some a, None => a
  | None, Some c => c
  | None, None => EmptyString
  end.

(** [for item_id in all_item_ids]: the chosen offers by store, and the
    items left outside the selected stores. *)
Definition place_items (selected : list Z) (best_by_item : PyDict.dict ItemPrice)
    (all_item_ids : list Z) : PyDict.dict (list ItemPrice) * list Z :=
  fold_left
    (fun (acc : PyDict.dict (list ItemPrice) * list Z) (iid : Z) =>
       let (allocation, items_outside) := acc in
       match PyDict.get best_by_item iid with
       | None => (allocation, items_outside ++ [iid])
       | Some best =>
           if Py.mem (store_id best) selected
           then (PyDict.append allocation (store_id best) best, items_outside)
           else (allocation, items_outside ++ [iid])
       end)
    all_item_ids ([], []).

(** The body of [for store_id, items in allocation.items()]. *)
Definition store_allocation (db : DB) (kv : Z * list ItemPrice) : StoreAllocation :=
  let (sid, its) := kv in
  let store := get_store db sid in
  mkStoreAllocation sid
    (match store with
     | Some s => Py.str_or (nome_fantasia s) (nome s)
     | None => Some "Desconhecido"%string
     end)
    (match store with Some s => store_address_of s | None => EmptyString end)
    its (Py.fsum (map subtotal its)).

Definition _greedy_allocate (db : DB) (item_prices : list ItemPrice) (max_stores : Z)
  : list StoreAllocation * list Z :=
  let prices_by_item := group_by_item item_prices in
  let store_item_best := store_item_best_of prices_by_item in
  match PyDict.keys store_item_best with
  | [] => ([], PyDict.keys prices_by_item)
  | _ =>
    let all_item_ids := PyDict.keys prices_by_item in
    let (selected, best_by_item) := greedy_select item_prices max_stores in
    let (allocation, items_outside) := place_items selected best_by_item all_item_ids in
    let result := map (store_allocation db) allocation in
    (Py.sort_by (fun y x => Py.Qltb (total x) (total y)) result, items_outside)
  end.

Definition _calculate_single_store_cost (item_prices : list ItemPrice) : Q :=
  Baseline.calculate_single_store_cost store_id item_id subtotal item_prices.

Definition failure (msg : string) (without_price : list Z) : OptimizationResult :=
  mkOptimizationResult false msg [] 0 0 0 0 without_price.

Definition msg_not_found : string := "Lista não encontrada".
Definition msg_empty : string := "Lista vazia".
Definition msg_no_uf_city : string :=
  "Informe UF e cidade no seu cadastro para otimizar a lista.".
Definition msg_no_centroid : string :=
  "Não foi possível localizar sua cidade para calcular o raio. Tente novamente mais tarde ou ajuste seu cadastro.".
Definition msg_no_stores : string :=
  "Não encontramos supermercados dentro do seu raio de compra.".
Definition msg_no_prices : string :=
  "Não encontramos preços recentes para os itens desta lista em supermercados dentro do seu raio.".
Definition msg_optimized (n : nat) : string :=
  ("Lista otimizada em " ++ Py.str_of_nat n ++ " supermercado(s)")%string.

(** [not s] on an optional string. *)
Definition falsy (s : option string) : bool :=
  match s with Some EmptyString | None => true | Some _ => false end.

Section Optimize.
(** The Unicode routines of [city_location.py]. *)
Variables (strip upper casefold nfkd : string -> string).
Variable combining : ascii -> bool.
(** [_eligible_stores_by_city_radius(user_center, radius_km, user_uf,
    user_city)]: the stores within the radius by [haversine_km], which is
    floating-point trigonometry; the set it returns is a parameter. *)
Variable _eligible_stores_by_city_radius :
  DB -> LatLng Q -> Q -> option string -> option string -> list Z.

(** [optimize_for_user_city]; [now] is [datetime.now(UTC)].  The write of
    [_save_optimization] is not part of the returned value. *)
Definition optimize_for_user_city (db : DB) (now : Z) (shopping_list_id : Z)
    (user_uf user_city : option string) (radius_km : Q) : OptimizationResult :=
  match get_list (app_shopping_lists db) shopping_list_id with
  | None => failure msg_not_found []
  | Some sl =>
    match items sl with
    | [] => failure msg_empty []
    | _ =>
      if falsy user_uf || falsy user_city
      then failure msg_no_uf_city (map item_pk (items sl))
      else
        match resolve_city_centroid strip upper casefold nfkd combining
                db user_uf user_city with
        | None => failure msg_no_centroid (map item_pk (items sl))
        | Some user_center =>
          match _eligible_stores_by_city_radius db user_center radius_km
                  user_uf user_city with
          | [] => failure msg_no_stores (map item_pk (items sl))
          | eligible_store_ids =>
            let max_stores := max_stores_or sl 3 in
            match _get_item_prices db now sl eligible_store_ids with
            | [] => failure msg_no_prices (map item_pk (items sl))
            | item_prices =>
              let (allocs, _items_outside_item_ids) :=
                _greedy_allocate db item_prices max_stores in
              let total_cost := Py.fsum (map total allocs) in
              let total_if_single_store := _calculate_single_store_cost item_prices in
              let savings := total_if_single_store - total_cost in
              let savings_percent :=
                if Py.Qltb 0 total_if_single_store
                then savings / total_if_single_store * 100 else 0 in
              let items_with_price := Py.to_set (map item_id item_prices) in
              let items_without_price :=
                map item_pk
                  (filter (fun it => negb (Py.mem (item_pk it) items_with_price))
                          (items sl)) in
              mkOptimizationResult true (msg_optimized (List.length allocs)) allocs
                total_cost total_if_single_store savings savings_percent
                items_without_price
            end
          end
        end
    end
  end.

End Optimize.

End AppShoppingOptimizer.

(* ------------------------------------------------------------------ *)
(** * The geo index as the specification words it *)
(* ------------------------------------------------------------------ *)

(** [resolveCentroid(uf, city)] as a sequence of steps, each a function of
    the tables; [resolve_city_centroid] is compared with it below. *)
Module GeoIndexSpec.
Import Models CityLocationService.

Section Steps.
Variables (strip upper casefold nfkd : string -> string).
Variable combining : ascii -> bool.

(** NFKD-fold, strip diacritics, case-fold. *)
Definition fold_key (city : string) : string :=
  _normalize_city_key strip casefold nfkd combining city.

Definition centroid_of (r : CityLocation) : LatLng Q :=
  mkLatLng (latitude r) (longitude r).

(** Step 1: exact match in the CityCentroid table. *)
Definition exact_centroid (db : DB) (uf city : string) : option (LatLng Q) :=
  option_map centroid_of
    (find (fun r => String.eqb (cl_uf r) uf && String.eqb (cl_city r) city)
          (city_locations db)).

(** Step 2: accent/case-insensitive match within the same [uf]. *)
Definition tolerant_centroid (db : DB) (uf city : string) : option (LatLng Q) :=
  option_map centroid_of
    (find (fun r => String.eqb (cl_uf r) uf
                    && String.eqb (fold_key (cl_city r)) (fold_key city))
          (city_locations db)).

Definition has_coords (s : Store) : bool :=
  match lat s, lng s with Some _, Some _ => true | _, _ => false end.

Definition lat_of (s : Store) : Q := match lat s with Some x => x | None => 0%Q end.
Definition lng_of (s : Store) : Q := match lng s with Some x => x | None => 0%Q end.

(** Step 3: the average of the coordinates of all the stores that match. *)
Definition store_average (matching : Store -> bool) (db : DB) : option (LatLng Q) :=
  match filter (fun s => matching s && has_coords s) (lojas db) with
  | [] => None
  | stores => Some (mkLatLng (average (map lat_of stores)) (average (map lng_of stores)))
  end.

Definition exact_store_average (db : DB) (uf city : string) : option (LatLng Q) :=
  store_average
    (fun s => opt_str_eqb (Models.uf s) uf && opt_str_eqb (cidade s) city) db.

Definition tolerant_store_average (db : DB) (uf city : string) : option (LatLng Q) :=
  store_average
    (fun s => opt_str_eqb (Models.uf s) uf
              && match cidade s with
                 | Some c => String.eqb (fold_key c) (fold_key city)
                 | None => false
                 end) db.

(** The steps in order. *)
Definition steps (db : DB) (uf city : string) : list (option (LatLng Q)) :=
  [exact_centroid db uf city; tolerant_centroid db uf city;
   exact_store_average db uf city; tolerant_store_average db uf city].

(** The result of the first step that succeeds. *)
Fixpoint first_success {A} (l : list (option A)) : option A :=
  match l with
  | [] => None
  | Some x :: _ => Some x
  | None :: t => first_success t
  end.

Definition resolveCentroid (db : DB) (uf city : string) : option (LatLng Q) :=
  first_success (steps db uf city).

End Steps.
End GeoIndexSpec.

(* ------------------------------------------------------------------ *)
(** * The price resolver as the specification words it *)
(* ------------------------------------------------------------------ *)

Module PriceResolverSpec.
Import Models PriceQueries.

(** The rows of [precos] that the subquery puts in the group [(c, l)]. *)
Definition in_group (canonical_ids : list Z) (filt : Price -> bool) (c l : Z) (q : Price)
  : bool :=
  match canonical_id q with
  | Some qc => Z.eqb qc c && Py.mem c canonical_ids && filt q && Z.eqb (loja_id q) l
  | None => false
  end.

(** The greatest [data_coleta] of a group. *)
Definition max_date (canonical_ids : list Z) (filt : Price -> bool) (c l : Z)
    (rows : list Price) : option Z :=
  fold_left
    (fun m q => if in_group canonical_ids filt c l q then opt_max m (data_coleta q) else m)
    rows None.

(** [p] is the most recent observation of product [c] at its store, the
    store is eligible and is a row of [lojas]: no lookback applies. *)
Definition latest_observation (db : DB) (eligible_store_ids : list Z) (c : Z) (p : Price)
  : Prop :=
  In p (precos db)
  /\ canonical_id p = Some c
  /\ In (loja_id p) eligible_store_ids
  /\ (exists s, In s (lojas db) /\ store_pk s = loja_id p)
  /\ exists d, data_coleta p = Some d
       /\ forall q d', In q (precos db) -> canonical_id q = Some c ->
            loja_id q = loja_id p -> data_coleta q = Some d' -> (d' <= d)%Z.

(** Any observation of product [c] at an eligible store, however old. *)
Definition observation (db : DB) (eligible_store_ids : list Z) (c : Z) (p : Price) : Prop :=
  In p (precos db)
  /\ canonical_id p = Some c
  /\ In (loja_id p) eligible_store_ids
  /\ (exists s, In s (lojas db) /\ store_pk s = loja_id p).

End PriceResolverSpec.

(* ------------------------------------------------------------------ *)
(** * The baseline as the specification words it *)
(* ------------------------------------------------------------------ *)

Module BaselineSpec.
Section Spec.
Context {ItemPrice : Type}.
Variables (store_id item_id : ItemPrice -> Z) (subtotal : ItemPrice -> Q).

(** A complete single-store covering: store [s] has an offer for every
    item that has any offer. *)
Definition sells_all (item_prices : list ItemPrice) (s : Z) : bool :=
  existsb (fun ip => Z.eqb (store_id ip) s) item_prices
  && forallb
       (fun ip =>
          existsb (fun ip' => Z.eqb (store_id ip') s && Z.eqb (item_id ip') (item_id ip))
                  item_prices)
       item_prices.

(** The total of the offers of store [s]. *)
Definition store_total (item_prices : list ItemPrice) (s : Z) : Q :=
  Py.fsum (map subtotal (filter (fun ip => Z.eqb (store_id ip) s) item_prices)).

End Spec.

Section Offers.
Context {ItemPrice : Type}.
Variables (item_id : ItemPrice -> Z) (price quantity subtotal : ItemPrice -> Q).

(** The offers are as [_get_item_prices] builds them from sane rows: the
    subtotal is the price times the quantity, the quantity is that of the
    list item, and neither is negative. *)
Definition well_formed (item_prices : list ItemPrice) : bool :=
  forallb
    (fun ip =>
       Qeq_bool (subtotal ip) (price ip * quantity ip)
       && Qle_bool 0 (price ip) && Qle_bool 0 (quantity ip)
       && forallb
            (fun ip' =>
               negb (Z.eqb (item_id ip') (item_id ip))
               || Qeq_bool (quantity ip') (quantity ip))
            item_prices)
    item_prices.

(** Every price is below [bound]. *)
Definition priced_below (bound : Q) (item_prices : list ItemPrice) : bool :=
  forallb (fun ip => Py.Qltb (price ip) bound) item_prices.

End Offers.
End BaselineSpec.

(* ------------------------------------------------------------------ *)
(** * The allocation engine as the specification words it *)
(* ------------------------------------------------------------------ *)

Module AllocationEngineSpec.
Import ShoppingOptimizer.

(** An item is covered by a set of stores when it has an offer inside. *)
Definition covers (stores : list Z) (prices : list ItemPrice) : bool :=
  existsb (fun p => Py.mem (store_id p) stores) prices.

(** Coverage: the number of items that have at least one offer inside the
    combination. *)
Definition coverage (prices_by_item : PyDict.dict (list ItemPrice)) (stores : list Z) : Z :=
  Z.of_nat (List.length (filter (fun kv => covers stores (snd kv)) prices_by_item)).

(** Total cost: for each covered item, the cheapest offer within the
    combination. *)
Definition cost (prices_by_item : PyDict.dict (list ItemPrice)) (stores : list Z) : Q :=
  Py.fsum
    (flat_map
       (fun kv : Z * list ItemPrice =>
          match best_in stores (snd kv) with Some b => [subtotal b] | None => [] end)
       prices_by_item).

(** [c] beats [b]: more coverage, or the same coverage at a lower cost. *)
Definition better (prices_by_item : PyDict.dict (list ItemPrice)) (c b : list Z) : Prop :=
  (coverage prices_by_item b < coverage prices_by_item c)%Z
  \/ (coverage prices_by_item c = coverage prices_by_item b
      /\ (cost prices_by_item c < cost prices_by_item b)%Q).

(** The stores that sell something, in increasing order. *)
Definition candidate_stores (item_prices : list ItemPrice) : list Z :=
  Py.sort_by Z.ltb (Py.to_set (map store_id item_prices)).

(** What the bounded exact search does on [item_prices]: the chosen
    combination [best] is returned with its missing items and is the one
    allocated; it is the first of the enumeration that no combination
    beats; the enumeration is made of the sets of 1 to [max_stores]
    candidate stores, all of them; every covered item is priced at a
    cheapest offer inside the combination; and no set of at most
    [max_stores] stores covers more items than [best]. *)
Definition exact_search_outcome (item_prices : list ItemPrice) (max_stores : Z) : Prop :=
  let pbi := group_by_item item_prices in
  let store_ids := candidate_stores item_prices in
  exists best before after,
    _find_best_store_set pbi store_ids max_stores
      = (Some best, snd (fst (eval_combo pbi best)))
    /\ choose_allocation item_prices max_stores
       = (allocate_in pbi best (snd (fst (eval_combo pbi best))), false)
    /\ enumeration store_ids max_stores = before ++ best :: after
    /\ (forall c, In c before -> better pbi best c)
    /\ (forall c, In c after -> ~ better pbi c best)
    /\ (forall c, In c (enumeration store_ids max_stores) ->
          (1 <= List.length c <= Z.to_nat max_stores)%nat /\ NoDup c /\ incl c store_ids)
    /\ (forall f : Z -> bool,
          (1 <= List.length (filter f store_ids) <= Z.to_nat max_stores)%nat ->
          In (filter f store_ids) (enumeration store_ids max_stores))
    /\ (forall c iid ps b, In (iid, ps) pbi -> best_in c ps = Some b ->
          In b ps /\ In (store_id b) c
          /\ forall p, In p ps -> In (store_id p) c -> (price b <= price p)%Q)
    /\ (forall stores, (Z.of_nat (List.length stores) <= max_stores)%Z ->
          (coverage pbi stores <= coverage pbi best)%Z).

(** [_optimize_allocation] reaches [_redistribute]: the exact search gave
    no set of stores, and the pass that takes every item at its cheapest
    store uses more than [max_stores] stores. *)
Definition redistributes (item_prices : list ItemPrice) (max_stores : Z) : bool :=
  let pbi := group_by_item item_prices in
  let store_ids := candidate_stores item_prices in
  let searched :=
    if exact_search_gate store_ids max_stores then
      match _find_best_store_set pbi store_ids max_stores with
      | (Some (_ :: _), _) => true
      | _ => false
      end
    else false in
  negb searched
  && Z.ltb max_stores (Z.of_nat (List.length (fst (first_pass (sort_prices pbi))))).

(** An item appears in some allocation. *)
Definition allocates (allocs : list StoreAllocation) (iid : Z) : Prop :=
  exists a ip, In a allocs /\ In ip (sa_items a) /\ item_id ip = iid.

Definition app_allocates (allocs : list AppShoppingOptimizer.StoreAllocation) (iid : Z)
  : Prop :=
  exists a ip, In a allocs /\ In ip (AppShoppingOptimizer.sa_items a)
               /\ AppShoppingOptimizer.item_id ip = iid.

(** Some item has offers, none of them at a kept store. *)
Definition unplaceable (prices_by_item : PyDict.dict (list ItemPrice)) (kept : list Z)
  : Prop :=
  exists iid ps, In (iid, ps) prices_by_item /\ ps <> []
                 /\ forall p, In p ps -> ~ In (store_id p) kept.

(** What [_optimize_allocation] guarantees about the store cap. *)
Definition cap_outcome (item_prices : list ItemPrice) (max_stores : Z)
    (allocs : list StoreAllocation) (exceeded_store_limit : bool) : Prop :=
  let sorted := sort_prices (group_by_item item_prices) in
  NoDup (map sa_store_id allocs)
  /\ (exceeded_store_limit = false -> (Z.of_nat (List.length allocs) <= max_stores)%Z)
  /\ (item_prices <> [] ->
      exact_search_gate (candidate_stores item_prices) max_stores = true ->
      exceeded_store_limit = false)
  /\ (exact_search_gate (candidate_stores item_prices) max_stores = false ->
      forall ip, In ip item_prices -> allocates allocs (item_id ip))
  /\ (exceeded_store_limit = true ->
      required_exceed sorted max_stores = true
      \/ unplaceable sorted (kept_stores sorted (snd (first_pass sorted)) max_stores)).

End AllocationEngineSpec.

(* ------------------------------------------------------------------ *)
(** * [services/city_location.py]: the write to [city_locations] *)
(* ------------------------------------------------------------------ *)

Module CityLocationWrites.
Import Models CityLocationService.

(** [db] after a commit that changed the table [city_locations] only. *)
Definition with_city_locations (db : DB) (rows : list CityLocation) : DB :=
  mkDB rows (lojas db) (precos db) (shopping_lists db) (app_shopping_lists db).

(** The object returned by [.first()] is changed in place: the first row
    that satisfies [f] becomes [g] of it. *)
Fixpoint update_first (f : CityLocation -> bool) (g : CityLocation -> CityLocation)
    (rows : list CityLocation) : list CityLocation :=
  match rows with
  | [] => []
  | r :: t => if f r then g r :: t else r :: update_first f g t
  end.

(** The unique key of the table. *)
Definition location_key (r : CityLocation) : string * string := (cl_uf r, cl_city r).

Section Upsert.
Variables (strip upper : string -> string).

(** [upsert_city_centroid]: the database after the commit and the row
    returned.  A new row goes last. *)
Definition upsert_city_centroid (db : DB) (uf city : string) (lat lng : Q)
    : DB * CityLocation :=
  let nuf := _normalize_uf strip upper uf in
  let ncity := _normalize_city strip city in
  let same_key := fun r => String.eqb (cl_uf r) nuf && String.eqb (cl_city r) ncity in
  match find same_key (city_locations db) with
  | Some existing =>
      let row := mkCityLocation (cl_uf existing) (cl_city existing) lat lng in
      (with_city_locations db (update_first same_key (fun _ => row) (city_locations db)),
       row)
  | None =>
      let row := mkCityLocation nuf ncity lat lng in
      (with_city_locations db (city_locations db ++ [row]), row)
  end.

End Upsert.
End CityLocationWrites.

(* ------------------------------------------------------------------ *)
(** * The recent offers, by what they are *)
(* ------------------------------------------------------------------ *)

Module RecentOfferSpec.
Import Models PriceQueries.

(** [p] is an observation of product [c] at a store that passes [keep],
    collected at [cutoff] or later, and no observation of [c] at that store
    is more recent. *)
Definition recent_latest (db : DB) (cutoff : Z) (keep : Z -> bool) (c : Z) (p : Price)
  : Prop :=
  In p (precos db)
  /\ canonical_id p = Some c
  /\ keep (loja_id p) = true
  /\ exists d, data_coleta p = Some d /\ (cutoff <= d)%Z
       /\ forall q d', In q (precos db) -> canonical_id q = Some c ->
            loja_id q = loja_id p -> data_coleta q = Some d' -> (d' <= d)%Z.

(** The item that [canonical_item_map] keeps for a product: the last
    item of the list with that product. *)
Definition item_of_product (its : list ListItem) (c : Z) : option ListItem :=
  find (fun it => Z.eqb (item_canonical_id it) c) (rev its).

(** No integer occurs twice. *)
Fixpoint distinct (l : list Z) : bool :=
  match l with
  | [] => true
  | x :: t => negb (Py.mem x t) && distinct t
  end.

(** No stored price and no quantity of the list is negative, and the
    items of the list have distinct ids (their primary key). *)
Definition sane (db : DB) (sl : ShoppingList) : bool :=
  forallb (fun p => Qle_bool 0 (preco_por_unidade p)) (precos db)
  && forallb (fun it => Qle_bool 0 (item_quantity it)) (items sl)
  && distinct (map item_pk (items sl)).

(** Every stored price is below [bound]. *)
Definition prices_below (bound : Q) (db : DB) : bool :=
  forallb (fun p => Py.Qltb (preco_por_unidade p) bound) (precos db).

End RecentOfferSpec.

(* ------------------------------------------------------------------ *)
(** * When the generic optimizer can report a loss *)
(* ------------------------------------------------------------------ *)

Module SavingsSpec.
Import ShoppingOptimizer AllocationEngineSpec BaselineSpec.

(** Some store has an offer for every item that has any offer. *)
Definition has_complete_store (item_prices : list ItemPrice) : bool :=
  existsb (sells_all store_id item_id item_prices) (candidate_stores item_prices).

End SavingsSpec.

(* ------------------------------------------------------------------ *)
(** * The order of the allocations in a result *)
(* ------------------------------------------------------------------ *)

Module ResultSpec.

(** No element is greater than an element before it. *)
Fixpoint descending (l : list Q) : bool :=
  match l with
  | [] => true
  | x :: t => forallb (fun y => Qle_bool y x) t && descending t
  end.

End ResultSpec.

(* ------------------------------------------------------------------ *)
(** * [services/app_shopping_optimizer.py]: the stores within the radius *)
(* ------------------------------------------------------------------ *)

Module EligibleStores.
Import Models CityLocationService.

(** [centroid_cache: dict[tuple[str, str], LatLng | None]] *)
Definition centroid_cache : Type := list (string * string * option (LatLng Q)).

Fixpoint cache_get (c : centroid_cache) (uf city : string) : option (option (LatLng Q)) :=
  match c with
  | [] => None
  | (u, ci, v) :: t =>
      if String.eqb uf u && String.eqb city ci then Some v else cache_get t uf city
  end.

(** [s or ''] *)
Definition or_empty (s : option string) : string :=
  match s with Some x => x | None => EmptyString end.

Section Eligible.
Variables (strip upper casefold nfkd : string -> string).
Variable combining : ascii -> bool.
(** [haversine_km] and [math.cos(math.radians(_))] on floats. *)
Variable haversine : LatLng Q -> LatLng Q -> Q.
Variable cos_radians : Q -> Q.
Local Open Scope Q_scope.

(** The rows of the query: the filter on the UF when [user_uf] is given,
    then [or_(has_coords, no_coords_same_uf)].  A comparison with a NULL
    column is not true. *)
Definition in_query (user_center : LatLng Q) (radius_km : Q) (user_uf : option string)
    (s : Store) : bool :=
  let lat := ll_lat user_center in
  let lng := ll_lng user_center in
  let delta_lat := radius_km / 111 in
  let denom := 111 * Qmax (1 # 10) (cos_radians lat) in
  let delta_lng := radius_km / denom in
  let min_lat := lat - delta_lat in
  let max_lat := lat + delta_lat in
  let min_lng := lng - delta_lng in
  let max_lng := lng + delta_lng in
  let has_coords :=
    match Models.lat s, Models.lng s with
    | Some la, Some lo =>
        Qle_bool min_lat la && Qle_bool la max_lat
        && Qle_bool min_lng lo && Qle_bool lo max_lng
    | _, _ => false
    end in
  let no_coords_same_uf :=
    match Models.lat s, Models.lng s with
    | None, None => opt_str_eqb (uf s) (or_empty user_uf)
    | _, _ => false
    end in
  (if AppShoppingOptimizer.falsy user_uf then true
   else opt_str_eqb (uf s) (or_empty user_uf))
  && (has_coords || no_coords_same_uf).

(** The body of [for s in stores]. *)
Definition visit (db : DB) (user_center : LatLng Q) (radius_km : Q)
    (st : centroid_cache * list Z) (s : Store) : centroid_cache * list Z :=
  let (cache, eligible) := st in
  match Models.lat s, Models.lng s with
  | Some la, Some lo =>
      let s_center := mkLatLng la lo in
      if Qle_bool (haversine user_center s_center) radius_km
      then (cache, ShoppingOptimizer.set_insert eligible (store_pk s))
      else (cache, eligible)
  | _, _ =>
      let uf := upper (strip (or_empty (Models.uf s))) in
      let city := strip (or_empty (cidade s)) in
      if is_empty uf || is_empty city then (cache, eligible)
      else
        let hit := cache_get cache uf city in
        let s_center :=
          match hit with
          | Some v => v
          | None =>
              resolve_city_centroid strip upper casefold nfkd combining db
                (Some uf) (Some city)
          end in
        let cache :=
          match hit with
          | Some _ => cache
          | None => cache ++ [(uf, city, s_center)]
          end in
        match s_center with
        | None => (cache, eligible)
        | Some c =>
            if Qle_bool (haversine user_center c) radius_km
            then (cache, ShoppingOptimizer.set_insert eligible (store_pk s))
            else (cache, eligible)
        end
  end.

(** [_eligible_stores_by_city_radius]; the body never reads [user_city].
    The set returned is listed in the order in which the ids were added;
    its callers only test membership and emptiness. *)
Definition _eligible_stores_by_city_radius (db : DB) (user_center : LatLng Q)
    (radius_km : Q) (user_uf user_city : option string) : list Z :=
  let stores := filter (in_query user_center radius_km user_uf) (lojas db) in
  snd (fold_left (visit db user_center radius_km) stores ([], [])).

End Eligible.
End EligibleStores.

(* ------------------------------------------------------------------ *)
(** * The stores within the radius, by what they are *)
(* ------------------------------------------------------------------ *)

Module EligibleStoresSpec.
Import Models CityLocationService EligibleStores.

Section Spec.
Variables (strip upper casefold nfkd : string -> string).
Variable combining : ascii -> bool.
Variable haversine : LatLng Q -> LatLng Q -> Q.

(** The point from which the distance to a store is measured: its
    coordinates, or the centroid of its city when a coordinate is missing
    and its UF and city are not blank. *)
Definition location_of (db : DB) (s : Store) : option (LatLng Q) :=
  match lat s, lng s with
  | Some la, Some lo => Some (mkLatLng la lo)
  | _, _ =>
      let uf := upper (strip (or_empty (Models.uf s))) in
      let city := strip (or_empty (cidade s)) in
      if is_empty uf || is_empty city then None
      else resolve_city_centroid strip upper casefold nfkd combining db
             (Some uf) (Some city)
  end.

(** The store is located and lies within the radius. *)
Definition within (db : DB) (user_center : LatLng Q) (radius_km : Q) (s : Store) : bool :=
  match location_of db s with
  | Some c => Qle_bool (haversine user_center c) radius_km
  | None => false
  end.

End Spec.
End EligibleStoresSpec.

(* ------------------------------------------------------------------ *)
(** * [routers/app_shopping.py]: the optimization of a local list *)
(* ------------------------------------------------------------------ *)

Module AppShoppingRouter.
Import Models CityLocationService.
Local Open Scope Q_scope.

(** [class CanonicalProduct] (table [produtos_canonicos]): the columns the
    endpoint reads; [nome] is not nullable. *)
Record CanonicalProduct : Type := mkCanonicalProduct {
  cp_id : Z;
  cp_nome : string
}.

(** [class AppOptimizationItemIn]; the schema admits [quantity > 0]. *)
Record AppOptimizationItemIn : Type := mkAppOptimizationItemIn {
  oi_canonical_id : Z;
  oi_quantity : Q
}.

(** [class AppOptimizationIn]; the schema admits [1 <= max_stores <= 5]. *)
Record AppOptimizationIn : Type := mkAppOptimizationIn {
  od_max_stores : Z;
  od_items : list AppOptimizationItemIn
}.

(** [class AppUser]: the columns the endpoint reads, all nullable. *)
Record AppUser : Type := mkAppUser {
  state : option string;
  city : option string;
  shopping_radius_km : option Q
}.

Record AppOptimizedItemOut : Type := mkAppOptimizedItemOut {
  io_item_id : Z;
  io_canonical_id : Z;
  io_product_name : string;
  io_quantity : Q;
  io_price : Q;
  io_subtotal : Q
}.

(** [class AppStoreAllocationOut]; [so_store_name] is the value the
    endpoint passes for [store_name], which is [None] for a store without
    [nome_fantasia] and [nome]. *)
Record AppStoreAllocationOut : Type := mkAppStoreAllocationOut {
  so_store_id : Z;
  so_store_name : option string;
  so_store_address : string;
  so_items : list AppOptimizedItemOut;
  so_total : Q
}.

Record AppFallbackPriceOut : Type := mkAppFallbackPriceOut {
  fo_canonical_id : Z;
  fo_store_id : Z;
  fo_store_name : string;
  fo_price : Q;
  fo_price_date : string
}.

Record AppOptimizationResultOut : Type := mkAppOptimizationResultOut {
  success : bool;
  message : string;
  allocations : list AppStoreAllocationOut;
  total_cost : Q;
  total_if_single_store : Q;
  savings : Q;
  savings_percent : Q;
  total_worst_cost : Q;
  potential_savings : Q;
  potential_savings_percent : Q;
  items_without_price : list Z;
  items_outside_selected_stores : list Z;
  unoptimized_prices : list AppFallbackPriceOut;
  fallback_prices : list AppFallbackPriceOut;
  price_lookback_days : Z
}.

(** What the endpoint does: [raise HTTPException] or [return]. *)
Inductive response : Type :=
| HTTPException (status_code : Z) (detail : string)
| Returned (out : AppOptimizationResultOut).

(** The unsuccessful results: the other fields keep the defaults of the
    schema. *)
Definition failure (msg : string) (data : AppOptimizationIn) : AppOptimizationResultOut :=
  mkAppOptimizationResultOut false msg [] 0 0 0 0 0 0 0
    (map oi_canonical_id (od_items data)) [] [] [] 15.

(** [_TempList(items=[_TempItem(id=it.canonical_id, ...)])]; a [_TempList]
    has no other attribute, and [_get_item_prices] reads no other. *)
Definition temp_list (data : AppOptimizationIn) : ShoppingList :=
  mkShoppingList 0 None
    (map (fun it => mkListItem (oi_canonical_id it) (oi_canonical_id it) (oi_quantity it))
         (od_items data)).

(** [max(0.0, x)] *)
Definition max0 (x : Q) : Q := if Py.Qltb 0 x then x else 0.

(** [(x / y * 100) if y > 0 and x > 0 else 0.0] *)
Definition percent (x y : Q) : Q :=
  if Py.Qltb 0 y && Py.Qltb 0 x then x / y * 100 else 0.

(** [float(current_user.shopping_radius_km or 10.0)] *)
Definition radius_of (u : AppUser) : Q :=
  match shopping_radius_km u with
  | Some r => if Qeq_bool r 0 then 10 else r
  | None => 10
  end.

(** [{ip.item_id for alloc in allocations for ip in alloc.items}] *)
Definition allocated_item_ids (allocations : list AppShoppingOptimizer.StoreAllocation)
  : list Z :=
  Py.to_set
    (flat_map (fun a => map AppShoppingOptimizer.item_id (AppShoppingOptimizer.sa_items a))
              allocations).

(** [for item_id in allocated_item_ids: ... total_worst_cost +=
    float(max(candidates))].  The loop runs over a set; the ids are taken
    here in the order in which the set received them. *)
Definition worst_cost (item_prices : list AppShoppingOptimizer.ItemPrice)
    (ids : list Z) : Q :=
  fold_left
    (fun total_worst_cost iid =>
       let candidates :=
         map AppShoppingOptimizer.subtotal
             (filter (fun ip => Z.eqb (AppShoppingOptimizer.item_id ip) iid) item_prices) in
       match Py.max_by (fun x : Q => x) candidates with
       | None => total_worst_cost
       | Some m => total_worst_cost + m
       end)
    ids 0.

(** [{p.id: p.nome for p in products}] over the products of the request. *)
Definition name_by_id (produtos_canonicos : list CanonicalProduct) (canonical_ids : list Z)
  : PyDict.dict string :=
  fold_left (fun d p => PyDict.put d (cp_id p) (cp_nome p))
            (filter (fun p => Py.mem (cp_id p) canonical_ids) produtos_canonicos) [].

(** The body of [for alloc in allocations]. *)
Definition allocation_out (db : DB) (names : PyDict.dict string)
    (alloc : AppShoppingOptimizer.StoreAllocation) : AppStoreAllocationOut :=
  let items_out :=
    map (fun ip =>
           mkAppOptimizedItemOut
             (AppShoppingOptimizer.item_id ip) (AppShoppingOptimizer.canonical_id ip)
             (match PyDict.get names (AppShoppingOptimizer.canonical_id ip) with
              | Some n => n
              | None => "Produto"%string
              end)
             (AppShoppingOptimizer.quantity ip) (AppShoppingOptimizer.price ip)
             (AppShoppingOptimizer.subtotal ip))
        (AppShoppingOptimizer.sa_items alloc) in
  let store_address :=
    match get_store db (AppShoppingOptimizer.sa_store_id alloc) with
    | Some store =>
        if is_empty (AppShoppingOptimizer.sa_store_address alloc)
        then AppShoppingOptimizer.store_address_of store
        else AppShoppingOptimizer.sa_store_address alloc
    | None => AppShoppingOptimizer.sa_store_address alloc
    end in
  mkAppStoreAllocationOut (AppShoppingOptimizer.sa_store_id alloc)
    (AppShoppingOptimizer.sa_store_name alloc) store_address items_out
    (AppShoppingOptimizer.total alloc).

Section Endpoint.
Variables (strip upper casefold nfkd : string -> string).
Variable combining : ascii -> bool.
(** [haversine_km] and [math.cos(math.radians(_))] on floats. *)
Variable haversine : LatLng Q -> LatLng Q -> Q.
Variable cos_radians : Q -> Q.
(** [datetime.isoformat] *)
Variable isoformat : Z -> string.

(** [price_date.isoformat() if price_date else ""] *)
Definition date_out (d : option Z) : string :=
  match d with Some t => isoformat t | None => EmptyString end.

(** The body of [for item_id in items_outside_item_ids]: the cheapest
    recent offer of the item. *)
Definition unoptimized_price (item_prices : list AppShoppingOptimizer.ItemPrice)
    (iid : Z) : list AppFallbackPriceOut :=
  let candidates :=
    filter (fun ip => Z.eqb (AppShoppingOptimizer.item_id ip) iid) item_prices in
  match Py.min_by AppShoppingOptimizer.price candidates with
  | None => []
  | Some best =>
      [mkAppFallbackPriceOut (AppShoppingOptimizer.canonical_id best)
         (AppShoppingOptimizer.store_id best) (AppShoppingOptimizer.store_name best)
         (AppShoppingOptimizer.price best)
         (date_out (AppShoppingOptimizer.price_date best))]
  end.

(** The body of [for cid in items_without_price]. *)
Definition fallback_price (fallback_map : PyDict.dict AppShoppingOptimizer.FallbackPrice)
    (cid : Z) : list AppFallbackPriceOut :=
  match PyDict.get fallback_map cid with
  | None => []
  | Some fp =>
      [mkAppFallbackPriceOut (AppShoppingOptimizer.fp_canonical_id fp)
         (AppShoppingOptimizer.fp_store_id fp) (AppShoppingOptimizer.fp_store_name fp)
         (AppShoppingOptimizer.fp_price fp)
         (date_out (AppShoppingOptimizer.fp_price_date fp))]
  end.

(** [optimize_local_payload]; [now] is [datetime.now(UTC)] and
    [produtos_canonicos] the table of the canonical products. *)
Definition optimize_local_payload (db : DB) (produtos_canonicos : list CanonicalProduct)
    (now : Z) (data : AppOptimizationIn) (current_user : AppUser) : response :=
  match od_items data with
  | [] => HTTPException 400 "Informe ao menos 1 item"
  | _ =>
    if AppShoppingOptimizer.falsy (state current_user)
       || AppShoppingOptimizer.falsy (city current_user)
    then Returned (failure AppShoppingOptimizer.msg_no_uf_city data)
    else
      let radius_km := radius_of current_user in
      match resolve_city_centroid strip upper casefold nfkd combining db
              (state current_user) (city current_user) with
      | None => Returned (failure AppShoppingOptimizer.msg_no_centroid data)
      | Some user_center =>
        match EligibleStores._eligible_stores_by_city_radius strip upper casefold nfkd
                combining haversine cos_radians db user_center radius_km
                (state current_user) (city current_user) with
        | [] => Returned (failure AppShoppingOptimizer.msg_no_stores data)
        | eligible_store_ids =>
          let temp := temp_list data in
          match AppShoppingOptimizer._get_item_prices db now temp eligible_store_ids with
          | [] => Returned (failure AppShoppingOptimizer.msg_no_prices data)
          | item_prices =>
            let (allocations, items_outside_item_ids) :=
              AppShoppingOptimizer._greedy_allocate db item_prices (od_max_stores data) in
            let total_cost := Py.fsum (map AppShoppingOptimizer.total allocations) in
            let total_if_single_store :=
              AppShoppingOptimizer._calculate_single_store_cost item_prices in
            let savings := max0 (total_if_single_store - total_cost) in
            let savings_percent := percent savings total_if_single_store in
            let total_worst_cost :=
              worst_cost item_prices (allocated_item_ids allocations) in
            let potential_savings := max0 (total_worst_cost - total_cost) in
            let potential_savings_percent := percent potential_savings total_worst_cost in
            let canonical_ids := map item_canonical_id (items temp) in
            let names := name_by_id produtos_canonicos canonical_ids in
            let allocations_out := map (allocation_out db names) allocations in
            let items_with_recent_price :=
              Py.to_set (map AppShoppingOptimizer.canonical_id item_prices) in
            let items_without_price :=
              filter (fun cid => negb (Py.mem cid items_with_recent_price)) canonical_ids in
            let outside_canonical_ids :=
              Py.sort_by Z.ltb (Py.to_set items_outside_item_ids) in
            let unoptimized_prices :=
              flat_map (unoptimized_price item_prices) items_outside_item_ids in
            let fallback_map :=
              AppShoppingOptimizer._get_fallback_prices db items_without_price
                eligible_store_ids in
            let fallback_prices :=
              flat_map (fallback_price fallback_map) items_without_price in
            Returned
              (mkAppOptimizationResultOut true
                 (AppShoppingOptimizer.msg_optimized (List.length allocations_out))
                 allocations_out total_cost total_if_single_store savings savings_percent
                 total_worst_cost potential_savings potential_savings_percent
                 items_without_price outside_canonical_ids unoptimized_prices
                 fallback_prices AppShoppingOptimizer.price_lookback_days)
          end
        end
      end
  end.

End Endpoint.
End AppShoppingRouter.

(* ------------------------------------------------------------------ *)
(** * The request and the answer of the endpoint, by what they are *)
(* ------------------------------------------------------------------ *)

Module PayloadSpec.
Import Models CityLocationService AppShoppingRouter.
Local Open Scope Q_scope.

(** The request passes the schema: [1 <= max_stores <= 5] and every
    [quantity > 0]. *)
Definition valid (data : AppOptimizationIn) : bool :=
  Z.leb 1 (od_max_stores data) && Z.leb (od_max_stores data) 5
  && forallb (fun it => Py.Qltb 0 (oi_quantity it)) (od_items data).

(** No stored price is negative. *)
Definition prices_nonneg (db : DB) : bool :=
  forallb (fun p => Qle_bool 0 (preco_por_unidade p)) (precos db).

(** Product [cid] is in an allocation of the answer. *)
Definition allocated (out : AppOptimizationResultOut) (cid : Z) : Prop :=
  exists a it, In a (allocations out) /\ In it (so_items a) /\ io_canonical_id it = cid.

Section Offers.
Variables (strip upper casefold nfkd : string -> string).
Variable combining : ascii -> bool.
Variable haversine : LatLng Q -> LatLng Q -> Q.
Variable cos_radians : Q -> Q.

(** The recent offers of the requested products at the stores within the
    radius of the user's city. *)
Definition offers_in_radius (db : DB) (now : Z) (data : AppOptimizationIn)
    (current_user : AppUser) : list AppShoppingOptimizer.ItemPrice :=
  match resolve_city_centroid strip upper casefold nfkd combining db
          (state current_user) (city current_user) with
  | None => []
  | Some user_center =>
      AppShoppingOptimizer._get_item_prices db now (temp_list data)
        (EligibleStores._eligible_stores_by_city_radius strip upper casefold nfkd
           combining haversine cos_radians db user_center (radius_of current_user)
           (state current_user) (city current_user))
  end.

End Offers.
End PayloadSpec.

(* ------------------------------------------------------------------ *)
(** * [services/app_shopping_optimizer.py]: what a run writes *)
(* ------------------------------------------------------------------ *)

Module AppSavedOptimization.
Import Models CityLocationService AppShoppingOptimizer.

(** The columns of an [AppShoppingListItem] that [_save_optimization]
    writes, beside the id of the item. *)
Record ItemColumns : Type := mkItemColumns {
  ic_item_id : Z;
  best_price : option Q;
  best_store_id : option Z
}.

(** The columns of the [AppShoppingList] that [_save_optimization]
    writes. *)
Record ListColumns : Type := mkListColumns {
  status : option string;
  total_estimated : option Q;
  total_savings : option Q;
  optimized_at : option Z
}.

(** The list and its items ([sl.items], in their order) as stored. *)
Record Saved : Type := mkSaved {
  list_columns : ListColumns;
  item_columns : list ItemColumns
}.

(** [for alloc in allocations: for ip in alloc.items:
    chosen_by_item[ip.item_id] = ip] *)
Definition chosen_by_item (allocations : list StoreAllocation) : PyDict.dict ItemPrice :=
  fold_left (fun d ip => PyDict.put d (item_id ip) ip) (flat_map sa_items allocations) [].

(** [_save_optimization]; [now] is [datetime.now(UTC)]. *)
Definition _save_optimization (now : Z) (sl : Saved) (allocations : list StoreAllocation)
    (total_cost savings : Q) : Saved :=
  let chosen_by_item := chosen_by_item allocations in
  mkSaved
    (mkListColumns (Some "optimized"%string) (Some total_cost) (Some savings) (Some now))
    (map (fun item =>
            match PyDict.get chosen_by_item (ic_item_id item) with
            | Some chosen =>
                mkItemColumns (ic_item_id item) (Some (price chosen))
                  (Some (store_id chosen))
            | None => item
            end)
         (item_columns sl)).

Section Optimize.
Variables (strip upper casefold nfkd : string -> string).
Variable combining : ascii -> bool.
Variable _eligible_stores_by_city_radius :
  DB -> LatLng Q -> Q -> option string -> option string -> list Z.

(** What [optimize_for_user_city] leaves in the stored list: it calls
    [_save_optimization] before its one successful [return] and on no
    other path.  [now] is the clock when the prices are read, [saved_at]
    when the list is written. *)
Definition saved_by_optimize (db : DB) (now saved_at : Z) (shopping_list_id : Z)
    (user_uf user_city : option string) (radius_km : Q) (sl : Saved) : Saved :=
  let r := optimize_for_user_city strip upper casefold nfkd combining
             _eligible_stores_by_city_radius db now shopping_list_id user_uf user_city
             radius_km in
  if success r
  then _save_optimization saved_at sl (allocations r) (total_cost r) (savings r)
  else sl.

End Optimize.
End AppSavedOptimization.

(* ------------------------------------------------------------------ *)
(** * [services/shopping_optimizer.py]: what a run writes *)
(* ------------------------------------------------------------------ *)

Module OptimizedItems.
Import Models ShoppingOptimizer.

(** [class OptimizedShoppingItem] (table [optimized_shopping_items]).
    Only [_save_optimization] creates rows, and it sets every column. *)
Record OptimizedShoppingItem : Type := mkOptimizedShoppingItem {
  os_shopping_list_id : Z;
  os_store_id : Z;
  os_item_id : Z;
  os_price : Q;
  os_quantity : Q;
  os_subtotal : Q;
  os_price_rank : Z
}.

(** The columns of a [ShoppingList] that the optimization reads or writes,
    beside those of [Models.ShoppingList]. *)
Record ListColumns : Type := mkListColumns {
  user_id : Z;
  status : option string;
  total_estimated : option Q;
  total_savings : option Q;
  optimized_at : option Z
}.

(** The table of the optimized items, in the order of its primary key,
    and the columns above of the list of each id. *)
Record Saved : Type := mkSaved {
  optimized_shopping_items : list OptimizedShoppingItem;
  list_columns : Z -> ListColumns
}.

(** [for allocation in allocations: for item_price in allocation.items:
    db.add(OptimizedShoppingItem(...))] *)
Definition new_rows (shopping_list_id : Z) (allocations : list StoreAllocation)
  : list OptimizedShoppingItem :=
  flat_map
    (fun allocation =>
       map (fun item_price =>
              mkOptimizedShoppingItem shopping_list_id (sa_store_id allocation)
                (item_id item_price) (price item_price) (quantity item_price)
                (subtotal item_price) 1)
           (sa_items allocation))
    allocations.

(** [_save_optimization]; [now] is [datetime.now(UTC)]. *)
Definition _save_optimization (now : Z) (st : Saved) (shopping_list : ShoppingList)
    (allocations : list StoreAllocation) (total_cost savings : Q) : Saved :=
  let id := list_pk shopping_list in
  mkSaved
    (filter (fun row => negb (Z.eqb (os_shopping_list_id row) id))
            (optimized_shopping_items st)
     ++ new_rows id allocations)
    (fun i =>
       if Z.eqb i id
       then mkListColumns (user_id (list_columns st i)) (Some "optimized"%string)
              (Some total_cost) (Some savings) (Some now)
       else list_columns st i).

(** What [optimize] leaves in the tables: it calls [_save_optimization]
    before its one successful [return] and on no other path.  [now] is the
    clock when the prices are read, [saved_at] when the list is written. *)
Definition saved_by_optimize (db : DB) (now saved_at : Z) (shopping_list_id : Z)
    (st : Saved) : Saved :=
  match get_list (shopping_lists db) shopping_list_id, optimize db now shopping_list_id with
  | Some shopping_list, Ok r =>
      if success r
      then _save_optimization saved_at st shopping_list (allocations r) (total_cost r)
             (savings r)
      else st
  | _, _ => st
  end.

End OptimizedItems.

(* ------------------------------------------------------------------ *)
(** * [routers/shopping.py]: the last optimization of a list *)
(* ------------------------------------------------------------------ *)

Module ShoppingRouter.
Import Models ShoppingOptimizer OptimizedItems.
Local Open Scope Q_scope.

Record OptimizedItemOut : Type := mkOptimizedItemOut {
  io_item_id : Z;
  io_product_name : string;
  io_quantity : Q;
  io_price : Q;
  io_subtotal : Q;
  io_worst_price : Q;
  io_worst_store_name : string;
  io_item_savings : Q
}.

Record StoreAllocationOut : Type := mkStoreAllocationOut {
  so_store_id : Z;
  so_store_name : string;
  so_store_address : string;
  so_items : list OptimizedItemOut;
  so_total : Q
}.

Record OptimizationResultOut : Type := mkOptimizationResultOut {
  out_success : bool;
  out_message : string;
  out_allocations : list StoreAllocationOut;
  out_total_cost : Q;
  out_total_if_single_store : Q;
  out_savings : Q;
  out_savings_percent : Q;
  out_total_worst_cost : Q;
  out_potential_savings : Q;
  out_potential_savings_percent : Q;
  out_items_without_price : list Z
}.

(** What the endpoint does: [return], or one of the exceptions it can
    raise. *)
Inductive response : Type :=
| Returned (out : OptimizationResultOut)
| HTTPException (status_code : Z) (detail : string)
| RaisedAttributeError
| RaisedZeroDivisionError.

(** [opt_item.item]: the [ShoppingListItem] of that id. *)
Definition get_item (db : DB) (item_id : Z) : option ListItem :=
  find (fun it => Z.eqb (item_pk it) item_id) (flat_map items (shopping_lists db)).

(** [opt_item.item.canonical_product.nome if opt_item.item and
    opt_item.item.canonical_product else "Produto"] *)
Definition product_name_of (db : DB)
    (produtos_canonicos : list AppShoppingRouter.CanonicalProduct) (item_id : Z) : string :=
  match get_item db item_id with
  | Some it =>
      match find (fun p => Z.eqb (AppShoppingRouter.cp_id p) (item_canonical_id it))
                 produtos_canonicos with
      | Some p => AppShoppingRouter.cp_nome p
      | None => "Produto"%string
      end
  | None => "Produto"%string
  end.

(** The item of the answer for a stored row: the worst price is reported
    only when it differs from the stored price. *)
Definition item_out (db : DB) (produtos_canonicos : list AppShoppingRouter.CanonicalProduct)
    (prices_by_item : PyDict.dict (list ItemPrice)) (opt_item : OptimizedShoppingItem)
  : OptimizedItemOut :=
  let item_prices := PyDict.get_or prices_by_item (os_item_id opt_item) [] in
  let '(worst_price, worst_store_name, item_savings) :=
    match Py.max_by price item_prices with
    | Some worst =>
        if negb (Qeq_bool (price worst) (os_price opt_item))
        then (price worst, store_name worst,
              (price worst - os_price opt_item) * os_quantity opt_item)
        else (0, EmptyString, 0)
    | None => (0, EmptyString, 0)
    end in
  mkOptimizedItemOut (os_item_id opt_item)
    (product_name_of db produtos_canonicos (os_item_id opt_item))
    (os_quantity opt_item) (os_price opt_item) (os_subtotal opt_item)
    worst_price worst_store_name item_savings.

(** The body of [for opt_item in shopping_list.optimized_items]: the
    entry of the store is created when the store is first met, then the
    item is appended to it and its subtotal added. *)
Definition visit_row (db : DB) (produtos_canonicos : list AppShoppingRouter.CanonicalProduct)
    (prices_by_item : PyDict.dict (list ItemPrice))
    (stores_dict : PyDict.dict StoreAllocationOut) (opt_item : OptimizedShoppingItem)
  : result (PyDict.dict StoreAllocationOut) :=
  let store_id := os_store_id opt_item in
  bind
    (match PyDict.get stores_dict store_id with
     | Some entry => Ok entry
     | None =>
         let store := get_store db store_id in
         bind (match store with
               | Some s => store_display_name s
               | None => Ok "Desconhecido"%string
               end) (fun name =>
         Ok (mkStoreAllocationOut store_id name
               (match store with
                | Some s => fmt (endereco s) ++ ", " ++ fmt (cidade s)
                | None => EmptyString
                end)%string
               [] 0))
     end)
    (fun entry =>
       Ok (PyDict.put stores_dict store_id
             (mkStoreAllocationOut (so_store_id entry) (so_store_name entry)
                (so_store_address entry)
                (so_items entry ++ [item_out db produtos_canonicos prices_by_item opt_item])
                (so_total entry + os_subtotal opt_item)))).

(** [for opt_item in shopping_list.optimized_items], with its exception. *)
Fixpoint visit_rows (db : DB) (produtos_canonicos : list AppShoppingRouter.CanonicalProduct)
    (prices_by_item : PyDict.dict (list ItemPrice))
    (rows : list OptimizedShoppingItem) (stores_dict : PyDict.dict StoreAllocationOut)
  : result (PyDict.dict StoreAllocationOut) :=
  match rows with
  | [] => Ok stores_dict
  | opt_item :: rest =>
      bind (visit_row db produtos_canonicos prices_by_item stores_dict opt_item)
           (visit_rows db produtos_canonicos prices_by_item rest)
  end.

(** [it.worst_price if it.worst_price and it.worst_price > 0 else it.price] *)
Definition worst_unit_out (it : OptimizedItemOut) : Q :=
  if negb (Qeq_bool (io_worst_price it) 0) && Py.Qltb 0 (io_worst_price it)
  then io_worst_price it else io_price it.

Definition msg_not_limited (n : nat) (max_stores : Z) : string :=
  ("Lista otimizada em " ++ Py.str_of_nat n ++ " supermercado(s) "
   ++ "(não foi possível limitar a " ++ Py.str_of_Z max_stores
   ++ " por falta de preço recente de alguns itens nas lojas selecionadas)")%string.

(** [x or 0] on a nullable float. *)
Definition or_zero (x : option Q) : Q :=
  match x with Some v => if Qeq_bool v 0 then 0 else v | None => 0 end.

(** [get_optimization]; [now] is [datetime.now(UTC)], [current_user] the
    id of the user. *)
Definition get_optimization (db : DB) (st : Saved)
    (produtos_canonicos : list AppShoppingRouter.CanonicalProduct) (now : Z)
    (list_id current_user : Z) : response :=
  match find (fun l => Z.eqb (list_pk l) list_id
                       && Z.eqb (user_id (list_columns st (list_pk l))) current_user)
             (shopping_lists db) with
  | None => HTTPException 404 "Lista não encontrada"
  | Some shopping_list =>
    let columns := list_columns st (list_pk shopping_list) in
    match status columns with
    | Some "optimized"%string =>
      match _get_item_prices db now shopping_list with
      | AttributeError => RaisedAttributeError
      | Ok latest_prices =>
        let prices_by_item := group_by_item latest_prices in
        let optimized_items :=
          filter (fun row => Z.eqb (os_shopping_list_id row) (list_pk shopping_list))
                 (optimized_shopping_items st) in
        match visit_rows db produtos_canonicos prices_by_item optimized_items [] with
        | AttributeError => RaisedAttributeError
        | Ok stores_dict =>
          let allocations :=
            Py.sort_by (fun y x => Py.Qltb (so_total x) (so_total y))
                       (PyDict.values stores_dict) in
          let total_cost := Py.fsum (map so_total allocations) in
          let total_worst_cost :=
            fold_left
              (fun acc alloc =>
                 fold_left (fun acc it => acc + worst_unit_out it * io_quantity it)
                           (so_items alloc) acc)
              allocations 0 in
          let potential_savings := total_worst_cost - total_cost in
          let potential_savings_percent :=
            if Py.Qltb 0 total_worst_cost
            then potential_savings / total_worst_cost * 100 else 0 in
          let max_stores := max_stores_or shopping_list 3 in
          let message :=
            if Z.ltb 0 max_stores && Z.ltb max_stores (Z.of_nat (List.length allocations))
            then msg_not_limited (List.length allocations) max_stores
            else msg_optimized (List.length allocations) in
          let result savings_percent :=
            Returned
              (mkOptimizationResultOut true message allocations total_cost
                 (total_cost + or_zero (total_savings columns))
                 (or_zero (total_savings columns)) savings_percent
                 total_worst_cost potential_savings potential_savings_percent []) in
          match total_savings columns with
          | None => result 0
          | Some s =>
              if Qeq_bool s 0 then result 0
              else if Qeq_bool (total_cost + s) 0 then RaisedZeroDivisionError
              else result (s / (total_cost + s) * 100)
          end
        end
      end
    | _ => HTTPException 400 "Lista não foi otimizada"
    end
  end.

End ShoppingRouter.

(* ------------------------------------------------------------------ *)
(** * Fixtures *)
(* ------------------------------------------------------------------ *)

(** Small tables and stand-ins for the Unicode routines, on which the
    definitions above are evaluated in the examples below. *)
Module Fixtures.
Import Models.

(** [str.casefold] on the letters A-Z. *)
Definition lower_char (c : ascii) : ascii :=
  let n := nat_of_ascii c in
  if Nat.leb 65 n && Nat.leb n 90 then ascii_of_nat (n + 32) else c.

Fixpoint lower (s : string) : string :=
  match s with
  | EmptyString => EmptyString
  | String c t => String (lower_char c) (lower t)
  end.

Definition same (s : string) : string := s.
Definition no_mark (c : ascii) : bool := false.

Definition store (id : Z) (name uf cidade : string) (coords : option (Q * Q)) : Store :=
  mkStore id None (Some name) None (Some cidade) (Some uf)
    (option_map fst coords) (option_map snd coords).

Definition item (id : Z) : ListItem := mkListItem id id 1.

(** A price observed at time 100. *)
Definition offer (canonical loja : Z) (p : Q) : Price :=
  mkPrice (Some canonical) loja p (Some 100%Z).

(** One centroid, no store. *)
Definition db_belem : DB :=
  mkDB [mkCityLocation "PA" "Belem" (-(29 # 20)) (-(97 # 2))] [] [] []
       [mkShoppingList 7 (Some 2%Z) [item 1; item 2]].

(** No centroid; one store whose city column is the empty string. *)
Definition db_blank_city : DB :=
  mkDB [] [store 1 "Mercado" "PA" "" (Some (1, 2))] [] [] [].

(** An offer of the generic optimizer: item, store, unit price; the
    quantity is 1. *)
Definition quote (item store : Z) (p : Q) : ShoppingOptimizer.ItemPrice :=
  ShoppingOptimizer.mkItemPrice item item store "S" p 1 (p * 1) 0 EmptyString 0.

(** Two items, two stores: store 1 sells them for 10 and 5, store 2 for 8
    and 9. *)
Definition two_by_two : list ShoppingOptimizer.ItemPrice :=
  [quote 1 1 10; quote 2 1 5; quote 1 2 8; quote 2 2 9].

(** Six stores and a list of five items capped at four stores.  Items 1
    to 4 cost 1 at the store of the same number and 3 at store 6; item 5
    costs 1 at store 5 and 2 at store 7. *)
Definition db_overflow : DB :=
  mkDB [] (map (fun i => store i "S" "PA" "Belem" None) [1; 2; 3; 4; 5; 6; 7]%Z)
       [offer 1 1 1; offer 1 6 3; offer 2 2 1; offer 2 6 3; offer 3 3 1; offer 3 6 3;
        offer 4 4 1; offer 4 6 3; offer 5 5 1; offer 5 7 2]
       [mkShoppingList 1 (Some 4%Z) (map item [1; 2; 3; 4; 5]%Z)] [].

(** Six stores and a list of five items capped at four stores.  Item [i]
    costs 1 at store [i] and 2 at store 6, which sells everything; item 5
    also costs 100 at store 1. *)
Definition db_dearer : DB :=
  mkDB [] (map (fun i => store i "S" "PA" "Belem" None) [1; 2; 3; 4; 5; 6]%Z)
       [offer 1 1 1; offer 1 6 2; offer 2 2 1; offer 2 6 2; offer 3 3 1; offer 3 6 2;
        offer 4 4 1; offer 4 6 2; offer 5 5 1; offer 5 6 2; offer 5 1 100]
       [mkShoppingList 1 (Some 4%Z) (map item [1; 2; 3; 4; 5]%Z)] [].

(** Two items, each sold by one store only, and a cap of one store. *)
Definition db_two_sources : DB :=
  mkDB [] (map (fun i => store i "S" "PA" "Belem" None) [1; 2]%Z)
       [offer 1 1 3; offer 2 2 4]
       [mkShoppingList 1 (Some 1%Z) (map item [1; 2]%Z)] [].

(** Two items and two stores that sell both: store 1 for 10 and 5,
    store 2 for 8 and 9; the same list for both optimizers. *)
Definition db_two_stores : DB :=
  mkDB [mkCityLocation "PA" "Belem" (-(29 # 20)) (-(97 # 2))]
       (map (fun i => store i "S" "PA" "Belem" None) [1; 2]%Z)
       [offer 1 1 10; offer 2 1 5; offer 1 2 8; offer 2 2 9]
       [mkShoppingList 1 (Some 2%Z) (map item [1; 2]%Z)]
       [mkShoppingList 1 (Some 2%Z) (map item [1; 2]%Z)].

(** Every store is within the radius. *)
Definition all_stores (db : DB) (center : CityLocationService.LatLng Q) (radius_km : Q)
    (user_uf user_city : option string) : list Z :=
  map store_pk (lojas db).

(** Product 1 at store 1: 5.00 at time 10, then 10.00 at time 20. *)
Definition db_history : DB :=
  mkDB [] [store 1 "Mercado" "PA" "Belem" None]
       [mkPrice (Some 1%Z) 1 5 (Some 10%Z); mkPrice (Some 1%Z) 1 10 (Some 20%Z)] [] [].


(** A distance on a flat map, in place of [haversine_km]: the larger of
    the differences of the two coordinates. *)
Definition chessboard (a b : CityLocationService.LatLng Q) : Q :=
  let dlat := CityLocationService.ll_lat a - CityLocationService.ll_lat b in
  let dlng := CityLocationService.ll_lng a - CityLocationService.ll_lng b in
  Qmax (Qmax dlat (- dlat)) (Qmax dlng (- dlng)).

(** The cosine at the equator. *)
Definition flat (x : Q) : Q := 1.

(** The list of [db_two_stores]. *)
Definition two_items : ShoppingList :=
  mkShoppingList 1 (Some 2%Z) (map item [1; 2]%Z).


(** Products 1 and 2 are sold by one store each, both within the radius
    of Belem; product 3 has no price. *)
Definition db_payload : DB :=
  mkDB [mkCityLocation "PA" "Belem" (-(29 # 20)) (-(97 # 2))]
       (map (fun i => store i "S" "PA" "Belem" None) [1; 2]%Z)
       [offer 1 1 3; offer 2 2 4] [] [].

(** A request for the three products, to be bought at one store. *)
Definition payload : AppShoppingRouter.AppOptimizationIn :=
  AppShoppingRouter.mkAppOptimizationIn 1
    (map (fun c => AppShoppingRouter.mkAppOptimizationItemIn c 1) [1; 2; 3]%Z).

Definition user_belem : AppShoppingRouter.AppUser :=
  AppShoppingRouter.mkAppUser (Some "PA"%string) (Some "Belem"%string) None.

Definition produtos : list AppShoppingRouter.CanonicalProduct :=
  [AppShoppingRouter.mkCanonicalProduct 1 "Arroz";
   AppShoppingRouter.mkCanonicalProduct 2 "Feijao"].

(** No optimization saved yet; user 7 owns every list. *)
Definition nothing_saved : OptimizedItems.Saved :=
  OptimizedItems.mkSaved []
    (fun _ => OptimizedItems.mkListColumns 7 (Some "draft"%string) None None None).

End Fixtures.

(* ================================================================== *)
(** * Properties *)
(* ================================================================== *)

(* ------------------------------------------------------------------ *)
(** ** Python values and dictionaries *)
(* ------------------------------------------------------------------ *)

Section PyFacts.

Lemma Qltb_lt (a b : Q) : Py.Qltb a b = true <-> (a < b)%Q.
Proof.
  unfold Py.Qltb. rewrite negb_true_iff. split; intro H.
  - apply Qnot_le_lt. intro Hle. apply Qle_bool_iff in Hle. congruence.
  - destruct (Qle_bool b a) eqn:E; [|reflexivity].
    apply Qle_bool_iff in E. exfalso. apply (Qlt_not_le _ _ H E).
Qed.

Lemma Qltb_ge (a b : Q) : Py.Qltb a b = false <-> (b <= a)%Q.
Proof.
  unfold Py.Qltb. rewrite negb_false_iff. apply Qle_bool_iff.
Qed.

Lemma mem_In (x : Z) (l : list Z) : Py.mem x l = true <-> In x l.
Proof.
  unfold Py.mem. rewrite existsb_exists. split.
  - intros [y [Hy E]]. apply Z.eqb_eq in E. subst. assumption.
  - intro H. exists x. split; [assumption | apply Z.eqb_refl].
Qed.

Lemma mem_not_In (x : Z) (l : list Z) : Py.mem x l = false <-> ~ In x l.
Proof.
  rewrite <- mem_In. destruct (Py.mem x l); split; congruence.
Qed.

Lemma to_set_In (x : Z) (l : list Z) : In x (Py.to_set l) <-> In x l.
Proof.
  induction l as [|y l IH]; simpl; [tauto|].
  rewrite filter_In, IH, negb_true_iff, Z.eqb_neq.
  destruct (Z.eq_dec y x); [subst; tauto|].
  split; [tauto|]. intros [H|H]; [tauto|]. right. split; [assumption|congruence].
Qed.

Lemma to_set_NoDup (l : list Z) : NoDup (Py.to_set l).
Proof.
  induction l as [|y l IH]; simpl; constructor.
  - rewrite filter_In, negb_true_iff, Z.eqb_neq. tauto.
  - apply NoDup_filter. exact IH.
Qed.

Lemma set_eqb_spec (a b : list Z) :
  Py.set_eqb a b = true <-> (forall x, In x a <-> In x b).
Proof.
  unfold Py.set_eqb. rewrite andb_true_iff, !forallb_forall. split.
  - intros [H1 H2] x. split; intro H; [apply mem_In, H1 | apply mem_In, H2]; assumption.
  - intros H. split; intros x Hx; apply mem_In, H; assumption.
Qed.

Context {A : Type}.
Variable lt : A -> A -> bool.

Lemma insert_by_perm (x : A) (l : list A) : Permutation (Py.insert_by lt x l) (x :: l).
Proof.
  induction l as [|y l IH]; simpl; [reflexivity|].
  destruct (lt y x); [|reflexivity].
  rewrite IH. apply perm_swap.
Qed.

Lemma sort_by_perm (l : list A) : Permutation (Py.sort_by lt l) l.
Proof.
  induction l as [|x l IH]; simpl; [reflexivity|].
  rewrite insert_by_perm. constructor. exact IH.
Qed.

Lemma sort_by_In (x : A) (l : list A) : In x (Py.sort_by lt l) <-> In x l.
Proof.
  split; apply Permutation_in; [|symmetry]; apply sort_by_perm.
Qed.

Lemma sort_by_length (l : list A) : List.length (Py.sort_by lt l) = List.length l.
Proof. apply Permutation_length, sort_by_perm. Qed.

End PyFacts.

Section DictFacts.
Import PyDict.
Context {V : Type}.

Lemma get_put_same (d : dict V) (k : Z) (v : V) : get (put d k v) k = Some v.
Proof.
  induction d as [|[k' v'] d IH]; simpl.
  - rewrite Z.eqb_refl. reflexivity.
  - destruct (Z.eqb k k') eqn:E; simpl; rewrite E; [reflexivity | exact IH].
Qed.

Lemma get_put_other (d : dict V) (k k' : Z) (v : V) :
  k' <> k -> get (put d k v) k' = get d k'.
Proof.
  intro Hne. induction d as [|[k0 v0] d IH]; simpl.
  - apply Z.eqb_neq in Hne. rewrite Hne. reflexivity.
  - destruct (Z.eqb k k0) eqn:E; simpl.
    + apply Z.eqb_eq in E. subst k0.
      apply Z.eqb_neq in Hne. rewrite Hne. reflexivity.
    + destruct (Z.eqb k' k0); [reflexivity | exact IH].
Qed.

Lemma get_Some_In (d : dict V) (k : Z) (v : V) : get d k = Some v -> In (k, v) d.
Proof.
  induction d as [|[k' v'] d IH]; simpl; [discriminate|].
  destruct (Z.eqb k k') eqn:E.
  - apply Z.eqb_eq in E. intro H. inversion H. subst. left. reflexivity.
  - intro H. right. apply IH, H.
Qed.

Lemma get_None_keys (d : dict V) (k : Z) : get d k = None <-> ~ In k (keys d).
Proof.
  induction d as [|[k' v'] d IH]; simpl; [tauto|].
  destruct (Z.eqb k k') eqn:E.
  - apply Z.eqb_eq in E. subst. split; [discriminate|tauto].
  - apply Z.eqb_neq in E. rewrite IH. split; [intros H [H'|H']; congruence | tauto].
Qed.

Lemma get_Some_keys (d : dict V) (k : Z) (v : V) : get d k = Some v -> In k (keys d).
Proof.
  intro H. apply get_Some_In in H. unfold keys.
  change k with (fst (k, v)). apply in_map, H.
Qed.

Lemma In_get (d : dict V) (k : Z) (v : V) :
  NoDup (keys d) -> In (k, v) d -> get d k = Some v.
Proof.
  induction d as [|[k' v'] d IH]; simpl; [tauto|].
  intros Hnd [H|H].
  - inversion H. subst. rewrite Z.eqb_refl. reflexivity.
  - inversion Hnd as [|? ? Hnot Hnd']. subst.
    destruct (Z.eqb k k') eqn:E.
    + apply Z.eqb_eq in E. subst. exfalso. apply Hnot.
      change k' with (fst (k', v)). apply in_map, H.
    + apply IH; assumption.
Qed.

Lemma keys_put (d : dict V) (k : Z) (v : V) :
  keys (put d k v) = if Py.mem k (keys d) then keys d else keys d ++ [k].
Proof.
  induction d as [|[k' v'] d IH]; simpl; [reflexivity|].
  unfold Py.mem. simpl.
  destruct (Z.eqb k k') eqn:E; simpl; [reflexivity|].
  fold (keys (put d k v)). rewrite IH. unfold Py.mem.
  fold (keys d). destruct (existsb (Z.eqb k) (keys d)); reflexivity.
Qed.

Lemma keys_put_NoDup (d : dict V) (k : Z) (v : V) :
  NoDup (keys d) -> NoDup (keys (put d k v)).
Proof.
  intro H. rewrite keys_put. destruct (Py.mem k (keys d)) eqn:E; [assumption|].
  apply mem_not_In in E.
  apply NoDup_app; [assumption | repeat constructor; simpl; tauto |].
  intros x Hx [Hk|[]]. subst. contradiction.
Qed.

Lemma keys_put_In (d : dict V) (k k' : Z) (v : V) :
  In k' (keys (put d k v)) <-> k' = k \/ In k' (keys d).
Proof.
  rewrite keys_put. destruct (Py.mem k (keys d)) eqn:E.
  - apply mem_In in E. split; [tauto|]. intros [H|H]; [subst|]; assumption.
  - rewrite in_app_iff. simpl. split; [intros [H|[H|[]]]; auto | intros [H|H]; auto].
Qed.

Lemma put_In (d : dict V) (k k' : Z) (v v' : V) :
  In (k', v') (put d k v) -> (k' = k /\ v' = v) \/ In (k', v') d.
Proof.
  induction d as [|[k0 v0] d IH]; simpl.
  - intros [H|[]]. inversion H. auto.
  - destruct (Z.eqb k k0) eqn:E; simpl.
    + apply Z.eqb_eq in E. subst k0. intros [H|H]; [inversion H|]; auto.
    + intros [H|H]; [auto|]. destruct (IH H) as [?|?]; auto.
Qed.

Lemma put_In_old (d : dict V) (k k' : Z) (v v' : V) :
  k' <> k -> In (k', v') d -> In (k', v') (put d k v).
Proof.
  intro Hne. induction d as [|[k0 v0] d IH]; simpl; [tauto|].
  destruct (Z.eqb k k0) eqn:E; simpl.
  - apply Z.eqb_eq in E. subst k0. intros [H|H]; [inversion H; congruence | auto].
  - intros [H|H]; auto.
Qed.

Lemma put_length (d : dict V) (k : Z) (v : V) :
  List.length (put d k v) = List.length (keys (put d k v)).
Proof. unfold keys. rewrite length_map. reflexivity. Qed.

End DictFacts.

(* ------------------------------------------------------------------ *)
(** ** The great-circle distance *)
(* ------------------------------------------------------------------ *)

Section HaversineFacts.
Import CityLocationService.
Local Open Scope R_scope.

(** The quantity under the square root lies in [0, 1] for all angles, so
    neither [math.sqrt] nor [math.asin] is called outside its domain. *)
Lemma haversine_h_bounds (lat1 lat2 dlng : R) :
  0 <= sin ((lat2 - lat1) / 2) * sin ((lat2 - lat1) / 2)
       + cos lat1 * cos lat2 * sin (dlng / 2) * sin (dlng / 2) <= 1.
Proof.
  pose proof (cos_2a_sin ((lat2 - lat1) / 2)) as Hd.
  replace (2 * ((lat2 - lat1) / 2)) with (lat2 - lat1) in Hd by field.
  pose proof (cos_minus lat2 lat1) as Hm.
  pose proof (cos_plus lat2 lat1) as Hp.
  pose proof (COS_bound (lat2 - lat1)) as [Hc1 Hc2].
  pose proof (COS_bound (lat2 + lat1)) as [Hs1 Hs2].
  pose proof (SIN_bound (dlng / 2)) as [Hg1 Hg2].
  set (x := sin ((lat2 - lat1) / 2)) in *.
  set (g := sin (dlng / 2)) in *.
  set (c1 := cos lat1) in *. set (c2 := cos lat2) in *.
  set (s1 := sin lat1) in *. set (s2 := sin lat2) in *.
  set (C := cos (lat2 - lat1)) in *. set (D := cos (lat2 + lat1)) in *.
  assert (Hcc : c1 * c2 = (C + D) / 2) by lra.
  assert (Hxx : x * x = (1 - C) / 2) by lra.
  assert (Hgg : 0 <= g * g <= 1) by nra.
  replace (x * x + c1 * c2 * g * g) with (x * x + (c1 * c2) * (g * g)) by ring.
  rewrite Hcc, Hxx.
  set (s := g * g) in *.
  split; nra.
Qed.

Lemma asin_nonneg (x : R) : 0 <= x <= 1 -> 0 <= asin x.
Proof.
  intros [H0 H1].
  destruct (Rle_lt_dec 0 (asin x)) as [|Hneg]; [assumption|].
  exfalso.
  pose proof (asin_bound x) as [Hlo _].
  pose proof PI_RGT_0 as Hpi.
  assert (Hs : sin (asin x) < 0) by (apply sin_lt_0_var; lra).
  rewrite sin_asin in Hs by lra. lra.
Qed.

Lemma haversine_km_value (a b : LatLng R) :
  haversine_km a b =
  Some (2 * 6371 *
        asin (sqrt (sin ((radians (ll_lat b) - radians (ll_lat a)) / 2)
                    * sin ((radians (ll_lat b) - radians (ll_lat a)) / 2)
                    + cos (radians (ll_lat a)) * cos (radians (ll_lat b))
                      * sin (radians (ll_lng b - ll_lng a) / 2)
                      * sin (radians (ll_lng b - ll_lng a) / 2)))).
Proof.
  unfold haversine_km.
  pose proof (haversine_h_bounds (radians (ll_lat a)) (radians (ll_lat b))
                (radians (ll_lng b - ll_lng a))) as [H0 H1].
  cbv zeta.
  destruct (Rlt_dec _ 0) as [Hlt|_]; [lra|].
  destruct (Rlt_dec 1 _) as [Hlt|_]; [|reflexivity].
  exfalso. apply sqrt_le_1_alt in H1. rewrite sqrt_1 in H1. lra.
Qed.


End HaversineFacts.

(* ------------------------------------------------------------------ *)
(** ** Resolving a city to its centroid *)
(* ------------------------------------------------------------------ *)

Section ListFacts.
Context {A B : Type}.

Lemma find_filter (f g : A -> bool) (l : list A) :
  find f (filter g l) = find (fun x => g x && f x) l.
Proof.
  induction l as [|x l IH]; simpl; [reflexivity|].
  destruct (g x); simpl; [destruct (f x); auto | exact IH].
Qed.

Lemma flat_map_filter_map (p : A -> bool) (f : A -> B) (l : list A) :
  flat_map (fun x => if p x then [f x] else []) l = map f (filter p l).
Proof.
  induction l as [|x l IH]; simpl; [reflexivity|].
  destruct (p x); simpl; rewrite IH; reflexivity.
Qed.

End ListFacts.

Section ResolveFacts.
Import Models CityLocationService GeoIndexSpec.
Variables (strip upper casefold nfkd : string -> string).
Variable combining : ascii -> bool.

Local Notation "'resolve'" := (resolve_city_centroid strip upper casefold nfkd combining).
Local Notation "'key'" := (fold_key strip casefold nfkd combining).

Lemma exact_stores_eq (db : DB) (nuf ncity : string) :
  flat_map (fun s =>
      if opt_str_eqb (Models.uf s) nuf && opt_str_eqb (cidade s) ncity
      then match coords s with Some c => [c] | None => [] end
      else []) (lojas db)
  = map (fun s => (lat_of s, lng_of s))
      (filter (fun s => (opt_str_eqb (Models.uf s) nuf && opt_str_eqb (cidade s) ncity)
                        && has_coords s) (lojas db)).
Proof.
  induction (lojas db) as [|s l IH]; simpl; [reflexivity|].
  rewrite IH. clear IH.
  unfold coords, has_coords, lat_of, lng_of.
  destruct (opt_str_eqb (Models.uf s) nuf && opt_str_eqb (cidade s) ncity); simpl;
    [|reflexivity].
  destruct (lat s) eqn:El, (lng s) eqn:Eg; simpl; rewrite ?El, ?Eg; reflexivity.
Qed.

Lemma tolerant_stores_eq (db : DB) (nuf wanted : string) :
  filter (fun s : string * Q * Q => String.eqb (key (fst (fst s))) wanted)
    (flat_map (fun s =>
        if opt_str_eqb (Models.uf s) nuf
        then match cidade s, coords s with
             | Some c, Some (la, lo) => [(c, la, lo)]
             | _, _ => []
             end
        else []) (lojas db))
  = map (fun s => (match cidade s with Some c => c | None => EmptyString end,
                    lat_of s, lng_of s))
      (filter (fun s => (opt_str_eqb (Models.uf s) nuf
                         && match cidade s with
                            | Some c => String.eqb (key c) wanted
                            | None => false
                            end)
                        && has_coords s) (lojas db)).
Proof.
  induction (lojas db) as [|s l IH]; simpl; [reflexivity|].
  rewrite filter_app, IH. clear IH.
  unfold coords, has_coords, lat_of, lng_of.
  destruct (opt_str_eqb (Models.uf s) nuf); simpl; [|reflexivity].
  destruct (cidade s) as [c|] eqn:Ec; simpl; [|reflexivity].
  destruct (lat s) eqn:El, (lng s) eqn:Eg; simpl;
    destruct (String.eqb (key c) wanted); simpl; rewrite ?El, ?Eg, ?Ec; reflexivity.
Qed.

(** [resolve_city_centroid] refines the steps of the specification on the
    normalised [uf] and [city], behind its guard on empty values. *)
Lemma resolve_city_centroid_steps (db : DB) (uf city : option string) :
  let nuf := _normalize_uf strip upper (match uf with Some u => u | None => EmptyString end) in
  let ncity := _normalize_city strip (match city with Some c => c | None => EmptyString end) in
  resolve db uf city =
  if is_empty nuf || is_empty ncity then None
  else resolveCentroid strip casefold nfkd combining db nuf ncity.
Proof.
  intros nuf ncity. unfold resolve_city_centroid. fold nuf ncity.
  destruct (is_empty nuf || is_empty ncity); [reflexivity|].
  unfold resolveCentroid, steps, first_success, exact_centroid, tolerant_centroid.
  destruct (find _ (city_locations db)) as [row|]; simpl; [reflexivity|].
  rewrite find_filter.
  fold (key ncity).
  change (fun cand => String.eqb (_normalize_city_key strip casefold nfkd combining (cl_city cand)) (key ncity))
    with (fun cand => String.eqb (key (cl_city cand)) (key ncity)).
  destruct (find _ (city_locations db)) as [cand|]; simpl; [reflexivity|].
  unfold exact_store_average, tolerant_store_average, store_average.
  rewrite exact_stores_eq.
  destruct (filter (fun s => (opt_str_eqb (Models.uf s) nuf && opt_str_eqb (cidade s) ncity)
                             && has_coords s) (lojas db)) as [|s0 ss]; simpl.
  - change (fun s : string * Q * Q =>
              String.eqb (_normalize_city_key strip casefold nfkd combining (fst (fst s))) (key ncity))
      with (fun s : string * Q * Q => String.eqb (key (fst (fst s))) (key ncity)).
    rewrite tolerant_stores_eq.
    destruct (filter _ (lojas db)) as [|t0 ts]; simpl; [reflexivity|].
    rewrite !map_map. reflexivity.
  - rewrite !map_map. reflexivity.
Qed.

End ResolveFacts.

Section FirstSuccess.
Import GeoIndexSpec.
Context {A : Type}.

Lemma first_success_none (l : list (option A)) :
  first_success l = None <-> Forall (fun o => o = None) l.
Proof.
  induction l as [|[x|] l IH]; simpl.
  - split; auto.
  - split; [discriminate|]. intro H. inversion H; discriminate.
  - rewrite IH. split; intro H; [constructor; auto | inversion H; assumption].
Qed.

Lemma first_success_at (pre post : list (option A)) (x : A) :
  Forall (fun o => o = None) pre ->
  first_success (pre ++ Some x :: post) = Some x.
Proof.
  induction 1 as [|o pre Ho _ IH]; simpl; [reflexivity|].
  subst o. exact IH.
Qed.

End FirstSuccess.

Section ResolveClaims.
Import Models CityLocationService GeoIndexSpec.

(** C8 (amended).  Let [nuf] be the [uf] stripped and upper-cased and
    [ncity] the [city] stripped.  When either is empty,
    [resolve_city_centroid] returns [None] and consults no step.
    Otherwise it is the first success among, in order: the exact match in
    the centroid table on [(nuf, ncity)], the accent- and case-insensitive
    match within [nuf], the average of the coordinates of the stores that
    match exactly, and the average over the stores that match tolerantly.
    It is [None] only when all four fail, and a step that succeeds after
    failures only is the result whatever the later steps are. *)
Theorem resolve_city_centroid_order
    (strip upper casefold nfkd : string -> string) (combining : ascii -> bool)
    (db : DB) (uf city : option string) :
  let nuf := _normalize_uf strip upper (match uf with Some u => u | None => EmptyString end) in
  let ncity := _normalize_city strip (match city with Some c => c | None => EmptyString end) in
  let r := resolve_city_centroid strip upper casefold nfkd combining db uf city in
  let ss := steps strip casefold nfkd combining db nuf ncity in
  (is_empty nuf || is_empty ncity = true -> r = None)
  /\ (is_empty nuf || is_empty ncity = false ->
      r = first_success ss
      /\ (r = None <-> Forall (fun o => o = None) ss)
      /\ (forall pre x post,
             ss = pre ++ Some x :: post -> Forall (fun o => o = None) pre -> r = Some x)).
Proof.
  intros nuf ncity r ss.
  pose proof (resolve_city_centroid_steps strip upper casefold nfkd combining db uf city) as H.
  cbv zeta in H. fold nuf ncity r in H.
  split; intro G; rewrite G in H; [exact H|].
  unfold resolveCentroid in H. fold ss in H.
  split; [exact H|]. split.
  - rewrite H. apply first_success_none.
  - intros pre x post E Hpre. rewrite H, E. apply first_success_at; assumption.
Qed.

(** With only the spelling "Belem" in the table, "BELEM" is resolved by
    the second step. *)
Lemma resolve_city_centroid_order_witness :
  resolve_city_centroid Fixtures.same Fixtures.same Fixtures.lower Fixtures.same
    Fixtures.no_mark Fixtures.db_belem (Some "PA"%string) (Some "BELEM"%string)
  = Some (mkLatLng (-(29 # 20)) (-(97 # 2)))%Q.
Proof.
  refine (proj2 (proj2 (proj2
    (resolve_city_centroid_order Fixtures.same Fixtures.same Fixtures.lower Fixtures.same
       Fixtures.no_mark Fixtures.db_belem (Some "PA"%string) (Some "BELEM"%string))
    _)) [None] _ _ _ _).
  - reflexivity.
  - reflexivity.
  - constructor; [reflexivity | constructor].
Defined.

(** The claim without the guard fails: the city [""] has a store in the
    tables, so the third step succeeds, yet the result is [None]. *)
Lemma resolve_city_centroid_guard_counterexample :
  resolve_city_centroid Fixtures.same Fixtures.same Fixtures.lower Fixtures.same
    Fixtures.no_mark Fixtures.db_blank_city (Some "PA"%string) (Some ""%string) = None
  /\ exact_store_average Fixtures.db_blank_city "PA" "" <> None.
Proof.
  split; [reflexivity | discriminate].
Qed.

End ResolveClaims.

(* ------------------------------------------------------------------ *)
(** ** The location-aware optimizer: an unresolved location *)
(* ------------------------------------------------------------------ *)

Section UnresolvedLocation.
Import Models CityLocationService AppShoppingOptimizer.

(** C7.  For a list that exists and has items, when the user's UF and
    city resolve to no centroid, [optimize_for_user_city] returns a result
    (it is a total function) with [success = false], no allocation, the
    ids of all the items of the list in [items_without_price], and a
    message about the location: the one asking for UF and city when one
    of them is missing, the one about the city that could not be located
    otherwise. *)
Theorem optimize_for_user_city_unresolved
    (strip upper casefold nfkd : string -> string) (combining : ascii -> bool)
    (eligible : DB -> LatLng Q -> Q -> option string -> option string -> list Z)
    (db : DB) (now id : Z) (sl : ShoppingList)
    (user_uf user_city : option string) (radius_km : Q) :
  get_list (app_shopping_lists db) id = Some sl ->
  items sl <> [] ->
  resolve_city_centroid strip upper casefold nfkd combining db user_uf user_city = None ->
  let r := optimize_for_user_city strip upper casefold nfkd combining eligible
             db now id user_uf user_city radius_km in
  success r = false
  /\ allocations r = []
  /\ items_without_price r = map item_pk (items sl)
  /\ message r = (if falsy user_uf || falsy user_city
                  then msg_no_uf_city else msg_no_centroid).
Proof.
  intros Hget Hitems Hres. unfold optimize_for_user_city.
  rewrite Hget. destruct (items sl) as [|it its] eqn:E; [congruence|].
  destruct (falsy user_uf || falsy user_city); [repeat split|].
  rewrite Hres. repeat split.
Qed.

Lemma optimize_for_user_city_unresolved_witness :
  let r := optimize_for_user_city Fixtures.same Fixtures.same Fixtures.lower Fixtures.same
             Fixtures.no_mark (fun _ _ _ _ _ => [1%Z])
             Fixtures.db_belem 100 7 (Some "PA"%string) (Some "Maraba"%string) 10 in
  success r = false
  /\ allocations r = []
  /\ items_without_price r = [1%Z; 2%Z]
  /\ message r = msg_no_centroid.
Proof.
  apply (optimize_for_user_city_unresolved Fixtures.same Fixtures.same Fixtures.lower
           Fixtures.same Fixtures.no_mark (fun _ _ _ _ _ => [1%Z])
           Fixtures.db_belem 100 7 (sl := mkShoppingList 7 (Some 2%Z) [Fixtures.item 1; Fixtures.item 2])
           (Some "PA"%string) (Some "Maraba"%string) 10).
  - reflexivity.
  - discriminate.
  - reflexivity.
Defined.

End UnresolvedLocation.

(* ------------------------------------------------------------------ *)
(** ** Loops and grouped dictionaries *)
(* ------------------------------------------------------------------ *)

Section FoldFacts.
Context {A S : Type}.

(** An invariant of a loop holds when it ends. *)
Lemma fold_left_inv (P : S -> Prop) (f : S -> A -> S) (l : list A) (s : S) :
  P s -> (forall acc x, In x l -> P acc -> P (f acc x)) -> P (fold_left f l s).
Proof.
  revert s. induction l as [|x l IH]; simpl; intros s Hs Hstep; [assumption|].
  apply IH; [apply Hstep; auto | intros; apply Hstep; auto].
Qed.

End FoldFacts.

Section GroupFacts.
Import PyDict.
Context {A : Type}.

Lemma get_or_cases {V} (d : dict V) (k : Z) (dflt : V) :
  (get d k = None /\ get_or d k dflt = dflt)
  \/ (exists v, get d k = Some v /\ get_or d k dflt = v /\ In (k, v) d).
Proof.
  unfold get_or. destruct (get d k) as [v|] eqn:E; [right | left; auto].
  exists v. repeat split. apply get_Some_In, E.
Qed.

Lemma append_In (d : dict (list A)) (k k' : Z) (v : A) (vs : list A) :
  In (k', vs) (append d k v) ->
  (k' = k /\ vs = get_or d k [] ++ [v]) \/ In (k', vs) d.
Proof. unfold append. apply put_In. Qed.

Lemma append_keys_NoDup (d : dict (list A)) (k : Z) (v : A) :
  NoDup (keys d) -> NoDup (keys (append d k v)).
Proof. apply keys_put_NoDup. Qed.

Lemma append_keys_In (d : dict (list A)) (k k' : Z) (v : A) :
  In k' (keys (append d k v)) <-> k' = k \/ In k' (keys d).
Proof. apply keys_put_In. Qed.

(** What holds of every appended element holds of every element of every
    list of the dictionary. *)
Lemma append_Forall (P : Z -> A -> Prop) (d : dict (list A)) (k : Z) (v : A) :
  (forall k' vs, In (k', vs) d -> Forall (P k') vs) ->
  P k v ->
  forall k' vs, In (k', vs) (append d k v) -> Forall (P k') vs.
Proof.
  intros Hd Hv k' vs H. apply append_In in H. destruct H as [[-> ->]|H]; [|eauto].
  apply Forall_app. split; [|repeat constructor; assumption].
  destruct (get_or_cases d k []) as [[_ ->]|[w [_ [-> Hw]]]]; [constructor | eauto].
Qed.

Variable key : A -> Z.
Local Notation "'grouped'" := (PyDict.grouped key).

Lemma grouped_Forall (P : Z -> A -> Prop) (l : list A) (d : dict (list A)) :
  (forall k' vs, In (k', vs) d -> Forall (P k') vs) ->
  (forall x, In x l -> P (key x) x) ->
  forall k' vs, In (k', vs) (grouped l d) -> Forall (P k') vs.
Proof.
  intros Hd Hl. unfold PyDict.grouped.
  apply (fold_left_inv (fun d => forall k' vs, In (k', vs) d -> Forall (P k') vs));
    [assumption|].
  intros acc x Hx Hacc. apply append_Forall; auto.
Qed.

Lemma grouped_keys_NoDup (l : list A) (d : dict (list A)) :
  NoDup (keys d) -> NoDup (keys (grouped l d)).
Proof.
  intro H. unfold PyDict.grouped. apply (fold_left_inv (fun d => NoDup (keys d))); [assumption|].
  intros. apply append_keys_NoDup. assumption.
Qed.

Lemma grouped_keys_In (l : list A) (d : dict (list A)) (k : Z) :
  In k (keys (grouped l d)) <-> In k (keys d) \/ In k (map key l).
Proof.
  revert d. induction l as [|x l IH]; intro d; simpl; [tauto|].
  unfold PyDict.grouped in *. simpl. rewrite IH, append_keys_In. intuition auto.
Qed.

Lemma grouped_nonempty (l : list A) (d : dict (list A)) :
  (forall k' vs, In (k', vs) d -> vs <> []) ->
  forall k' vs, In (k', vs) (grouped l d) -> vs <> [].
Proof.
  intro Hd. unfold PyDict.grouped.
  apply (fold_left_inv (fun d => forall k' vs, In (k', vs) d -> vs <> [])); [assumption|].
  intros acc x _ Hacc k' vs H. apply append_In in H.
  destruct H as [[-> ->]|H]; [|eauto].
  intro E. apply app_eq_nil in E. destruct E; discriminate.
Qed.

End GroupFacts.

(* ------------------------------------------------------------------ *)
(** ** The location-aware optimizer: the greedy selection *)
(* ------------------------------------------------------------------ *)

Section AppGreedyFacts.
Import PyDict AppShoppingOptimizer.

Lemma keys_map_snd {V W} (f : V -> W) (d : dict V) :
  keys (map (fun kv : Z * V => (fst kv, f (snd kv))) d) = keys d.
Proof. unfold keys. rewrite map_map. reflexivity. Qed.

(** Every list of [prices_by_item] holds offers of its item, all taken
    from [item_prices], and is not empty. *)
Lemma app_group_by_item_inv (item_prices : list ItemPrice) (iid : Z) (ps : list ItemPrice) :
  In (iid, ps) (group_by_item item_prices) ->
  ps <> [] /\ forall p, In p ps -> item_id p = iid /\ In p item_prices.
Proof.
  unfold group_by_item. intro H. apply in_map_iff in H.
  destruct H as [[k vs] [E H]]. simpl in E. inversion E. subst. clear E.
  split.
  - intro E. apply (grouped_nonempty item_id item_prices []) in H; [|simpl; tauto].
    apply H. apply Permutation_nil. rewrite <- E. apply sort_by_perm.
  - intros p Hp. apply sort_by_In in Hp.
    apply (grouped_Forall item_id (fun k x => item_id x = k /\ In x item_prices)) in H;
      [|simpl; tauto|auto].
    rewrite Forall_forall in H. apply H, Hp.
Qed.

Lemma app_group_by_item_NoDup (item_prices : list ItemPrice) :
  NoDup (keys (group_by_item item_prices)).
Proof.
  unfold group_by_item. rewrite keys_map_snd.
  apply grouped_keys_NoDup. constructor.
Qed.

Lemma app_group_by_item_keys (item_prices : list ItemPrice) (k : Z) :
  In k (keys (group_by_item item_prices)) <-> In k (map item_id item_prices).
Proof.
  unfold group_by_item. rewrite keys_map_snd, grouped_keys_In. simpl. tauto.
Qed.

(** An entry of [store_item_best] is an offer of that item at that store. *)
Lemma store_item_best_inv (pbi : dict (list ItemPrice)) (sid iid : Z)
      (m : dict ItemPrice) (p : ItemPrice) :
  In (sid, m) (store_item_best_of pbi) -> In (iid, p) m ->
  store_id p = sid /\ exists ps, In (iid, ps) pbi /\ In p ps.
Proof.
  unfold store_item_best_of. revert sid iid m p.
  apply (fold_left_inv
           (fun sib => forall sid iid m p, In (sid, m) sib -> In (iid, p) m ->
                       store_id p = sid /\ exists ps, In (iid, ps) pbi /\ In p ps));
    [simpl; tauto|].
  intros sib [k ps] Hkv Hsib. simpl.
  assert (Hstep : forall l, incl l ps ->
            forall sid iid m p,
              In (sid, m)
                 (fold_left
                    (fun (sib : dict (dict ItemPrice)) (p : ItemPrice) =>
                       let at_store := get_or sib (store_id p) [] in
                       match get at_store k with
                       | None => put sib (store_id p) (put at_store k p)
                       | Some prev =>
                           if Py.Qltb (price p) (price prev)
                           then put sib (store_id p) (put at_store k p)
                           else sib
                       end) l sib) ->
              In (iid, p) m ->
              store_id p = sid /\ exists ps, In (iid, ps) pbi /\ In p ps).
  { intros l Hl.
    apply (fold_left_inv
             (fun sib => forall sid iid m p, In (sid, m) sib -> In (iid, p) m ->
                         store_id p = sid /\ exists ps, In (iid, ps) pbi /\ In p ps));
      [exact Hsib|].
    intros acc q Hq Hacc sid iid m p Hm Hp. cbv zeta in Hm.
    assert (Hnew : In (sid, m) (put acc (store_id q) (put (get_or acc (store_id q) []) k q)) ->
                   store_id p = sid /\ exists ps, In (iid, ps) pbi /\ In p ps).
    { intro H. apply put_In in H. destruct H as [[-> ->]|H]; [|eauto].
      apply put_In in Hp. destruct Hp as [[-> ->]|Hp].
      - split; [reflexivity|]. exists ps. split; [assumption | apply Hl, Hq].
      - destruct (get_or_cases acc (store_id q) []) as [[_ E]|[w [_ [E Hw]]]];
          rewrite E in Hp; [destruct Hp | eauto]. }
    revert Hm.
    match goal with |- context [match ?g with Some _ => _ | None => _ end] =>
      destruct g as [prev|] end; [|exact Hnew].
    destruct (Py.Qltb (price q) (price prev));
      [exact Hnew | exact (fun Hm => Hacc _ _ _ _ Hm Hp)]. }
  apply Hstep. apply incl_refl.
Qed.

Section Loop.
Variable pbi : dict (list ItemPrice).
Variable sib : dict (dict ItemPrice).

Lemma merge_store_inv (R : Z -> ItemPrice -> Prop) (bbi : dict ItemPrice) (s : Z) :
  (forall iid p, In (iid, p) bbi -> R iid p) ->
  (forall iid p, In (iid, p) (get_or sib s []) -> R iid p) ->
  forall iid p, In (iid, p) (merge_store sib bbi s) -> R iid p.
Proof.
  intros Hb Hs. unfold merge_store.
  apply (fold_left_inv (fun bbi => forall iid p, In (iid, p) bbi -> R iid p)); [assumption|].
  intros acc [k c] Hkc Hacc iid p H. unfold merge_item in H.
  destruct (get acc k) as [cur|].
  - destruct (Py.Qltb (price c) (price cur)); [|eauto].
    apply put_In in H. destruct H as [[-> ->]|H]; eauto.
  - apply put_In in H. destruct H as [[-> ->]|H]; eauto.
Qed.

Lemma select_loop_length (n : nat) (sel : list Z) (bbi : dict ItemPrice) :
  (List.length (fst (select_loop pbi sib n sel bbi)) <= List.length sel + n)%nat.
Proof.
  revert sel bbi. induction n as [|n IH]; intros sel bbi; simpl; [lia|].
  destruct (pick_store pbi sib sel bbi) as [s|]; simpl; [|lia].
  destruct (Nat.eqb _ _); simpl.
  - rewrite length_app. simpl. lia.
  - specialize (IH (sel ++ [s]) (merge_store sib bbi s)).
    rewrite length_app in IH. simpl in IH. lia.
Qed.

(** Every running best offer is an entry of [store_item_best] for one of
    the selected stores. *)
Lemma select_loop_inv (n : nat) (sel : list Z) (bbi : dict ItemPrice) :
  (forall iid p, In (iid, p) bbi ->
     exists s, In s sel /\ In (iid, p) (get_or sib s [])) ->
  forall iid p, In (iid, p) (snd (select_loop pbi sib n sel bbi)) ->
     exists s, In s (fst (select_loop pbi sib n sel bbi))
               /\ In (iid, p) (get_or sib s []).
Proof.
  revert sel bbi. induction n as [|n IH]; intros sel bbi Hb; simpl; [assumption|].
  destruct (pick_store pbi sib sel bbi) as [s|]; simpl; [|assumption].
  assert (Hm : forall iid p, In (iid, p) (merge_store sib bbi s) ->
               exists s', In s' (sel ++ [s]) /\ In (iid, p) (get_or sib s' [])).
  { apply merge_store_inv.
    - intros iid p H. destruct (Hb iid p H) as [s' [Hs' Hp]].
      exists s'. split; [apply in_or_app; auto | assumption].
    - intros iid p H. exists s. split; [apply in_or_app; simpl; auto | assumption]. }
  destruct (Nat.eqb _ _); simpl; [assumption|].
  apply IH. assumption.
Qed.

End Loop.

(** The running best offers of [_greedy_allocate] are offers of
    [item_prices], each filed under its item and sold by a selected store. *)
Lemma greedy_select_inv (item_prices : list ItemPrice) (max_stores iid : Z) (p : ItemPrice) :
  In (iid, p) (snd (greedy_select item_prices max_stores)) ->
  In (store_id p) (fst (greedy_select item_prices max_stores))
  /\ item_id p = iid /\ In p item_prices.
Proof.
  unfold greedy_select. intro H.
  apply select_loop_inv in H; [|simpl; tauto].
  destruct H as [s [Hs Hp]].
  destruct (get_or_cases (store_item_best_of (group_by_item item_prices)) s [])
    as [[_ E]|[m [_ [E Hm]]]]; rewrite E in Hp; [destruct Hp|].
  destruct (store_item_best_inv _ _ _ _ _ Hm Hp) as [Hsid [ps [Hps Hin]]].
  destruct (app_group_by_item_inv _ _ _ Hps) as [_ Hall].
  destruct (Hall p Hin). subst s. auto.
Qed.

Lemma greedy_select_length (item_prices : list ItemPrice) (max_stores : Z) :
  (Z.of_nat (List.length (fst (greedy_select item_prices max_stores))) <= Z.max 1 max_stores)%Z.
Proof.
  unfold greedy_select.
  pose proof (select_loop_length (group_by_item item_prices)
                (store_item_best_of (group_by_item item_prices))
                (Nat.min (Z.to_nat (clamp_max_stores max_stores))
                   (List.length (keys (store_item_best_of (group_by_item item_prices)))))
                [] []) as H.
  simpl in H. unfold clamp_max_stores in *.
  destruct (Z.eqb max_stores 0) eqn:E; [apply Z.eqb_eq in E|]; lia.
Qed.

End AppGreedyFacts.

Section PlacedFacts.
Import PyDict.
Context {A : Type}.

(** An element filed under a key stays filed under it when another element
    is appended. *)
Lemma append_keeps (d : dict (list A)) (k k' : Z) (v x : A) (vs : list A) :
  NoDup (keys d) -> In (k', vs) d -> In x vs ->
  exists vs', In (k', vs') (append d k v) /\ In x vs'.
Proof.
  intros Hnd Hin Hx. destruct (Z.eq_dec k' k) as [->|Hne].
  - exists (get_or d k [] ++ [v]). split.
    + apply get_Some_In. unfold append. apply get_put_same.
    + unfold get_or. rewrite (In_get _ _ _ Hnd Hin). apply in_or_app. auto.
  - exists vs. split; [|assumption]. unfold append. apply put_In_old; assumption.
Qed.

Lemma append_files (d : dict (list A)) (k : Z) (v : A) :
  exists vs', In (k, vs') (append d k v) /\ In v vs'.
Proof.
  exists (get_or d k [] ++ [v]). split.
  - apply get_Some_In. unfold append. apply get_put_same.
  - apply in_or_app. simpl. auto.
Qed.

(** Every grouped element is filed under its key. *)
Lemma grouped_complete (key : A -> Z) (l : list A) (d : dict (list A)) (x : A) :
  NoDup (keys d) -> In x l ->
  exists vs, In (key x, vs) (grouped key l d) /\ In x vs.
Proof.
  revert d. induction l as [|y l IH]; intros d Hnd; simpl; [tauto|].
  assert (Hkeep : forall l' d' k vs, NoDup (keys d') -> In (k, vs) d' -> In x vs ->
            exists vs', In (k, vs') (grouped key l' d') /\ In x vs').
  { clear. induction l' as [|z l' IH']; intros d' k vs Hnd Hin Hx; simpl; [eauto|].
    destruct (append_keeps d' (key z) k z x vs Hnd Hin Hx) as [vs' [H1 H2]].
    apply (IH' _ _ _ (append_keys_NoDup _ _ _ Hnd) H1 H2). }
  intros [->|Hin].
  - destruct (append_files d (key x) x) as [vs [H1 H2]].
    apply (Hkeep _ _ _ _ (append_keys_NoDup _ _ _ Hnd) H1 H2).
  - apply IH; [apply append_keys_NoDup, Hnd | assumption].
Qed.

End PlacedFacts.

Section AppPlaceFacts.
Import PyDict AppShoppingOptimizer.

Variable selected : list Z.
Variable bbi : dict ItemPrice.
Hypothesis bbi_keyed : forall iid p, get bbi iid = Some p -> item_id p = iid.

Lemma place_items_sound (ids : list Z) :
  NoDup (keys (fst (place_items selected bbi ids)))
  /\ (forall sid its,
        In (sid, its) (fst (place_items selected bbi ids)) ->
        In sid selected
        /\ forall ip, In ip its ->
             store_id ip = sid /\ In (item_id ip) ids /\ get bbi (item_id ip) = Some ip)
  /\ (forall iid, In iid (snd (place_items selected bbi ids)) ->
        In iid ids /\ forall p, get bbi iid = Some p -> ~ In (store_id p) selected).
Proof.
  unfold place_items.
  apply (fold_left_inv
    (fun acc : dict (list ItemPrice) * list Z =>
       NoDup (keys (fst acc))
       /\ (forall sid its, In (sid, its) (fst acc) ->
             In sid selected
             /\ forall ip, In ip its ->
                  store_id ip = sid /\ In (item_id ip) ids
                  /\ get bbi (item_id ip) = Some ip)
       /\ (forall iid, In iid (snd acc) ->
             In iid ids /\ forall p, get bbi iid = Some p -> ~ In (store_id p) selected))).
  - simpl. split; [constructor|]. split; intros; contradiction.
  - intros [al out] iid Hiid [Hnd [Hal Hout]]. simpl in *.
    assert (Hskip : forall q, (forall p, get bbi iid = Some p -> ~ In (store_id p) selected) ->
              q = (al, out ++ [iid]) ->
              NoDup (keys (fst q))
              /\ (forall sid its, In (sid, its) (fst q) ->
                    In sid selected
                    /\ forall ip, In ip its ->
                         store_id ip = sid /\ In (item_id ip) ids
                         /\ get bbi (item_id ip) = Some ip)
              /\ (forall iid, In iid (snd q) ->
                    In iid ids /\ forall p, get bbi iid = Some p -> ~ In (store_id p) selected)).
    { intros q Hno ->. simpl. split; [assumption|]. split; [assumption|].
      intros i Hi. apply in_app_or in Hi. destruct Hi as [Hi|[<-|[]]]; auto. }
    destruct (get bbi iid) as [best|] eqn:Eb.
    + destruct (Py.mem (store_id best) selected) eqn:Em.
      * apply mem_In in Em. simpl. split; [apply append_keys_NoDup, Hnd|].
        split; [|assumption].
        intros sid its Hin. apply append_In in Hin.
        destruct Hin as [[-> ->]|Hin]; [|eauto].
        split; [assumption|]. intros ip Hip.
        apply in_app_or in Hip. destruct Hip as [Hip|[<-|[]]].
        -- destruct (get_or_cases al (store_id best) []) as [[_ E]|[w [_ [E Hw]]]];
             rewrite E in Hip; [destruct Hip | apply (Hal _ _ Hw), Hip].
        -- rewrite (bbi_keyed _ Eb). auto.
      * apply mem_not_In in Em. apply Hskip; [|reflexivity].
        intros p Hp. inversion Hp. subst. assumption.
    + apply Hskip; [discriminate | reflexivity].
Qed.

(** Every item is placed at a store or left outside. *)
Lemma place_items_complete (ids : list Z) (iid : Z) :
  In iid ids ->
  In iid (snd (place_items selected bbi ids))
  \/ exists sid its ip,
       In (sid, its) (fst (place_items selected bbi ids)) /\ In ip its /\ item_id ip = iid.
Proof.
  unfold place_items.
  set (step := fun (acc : dict (list ItemPrice) * list Z) (iid : Z) =>
       let (allocation, items_outside) := acc in
       match get bbi iid with
       | None => (allocation, items_outside ++ [iid])
       | Some best =>
           if Py.mem (store_id best) selected
           then (append allocation (store_id best) best, items_outside)
           else (allocation, items_outside ++ [iid])
       end).
  assert (Hmono : forall l acc,
            NoDup (keys (fst acc)) ->
            NoDup (keys (fst (fold_left step l acc)))
            /\ (forall i, In i (snd acc) -> In i (snd (fold_left step l acc)))
            /\ (forall sid its ip, In (sid, its) (fst acc) -> In ip its ->
                  exists its', In (sid, its') (fst (fold_left step l acc)) /\ In ip its')).
  { induction l as [|x l IH]; intros [al out] Hnd; simpl.
    - split; [assumption|]. split; [auto|]. intros sid its ip H1 H2. exists its. auto.
    - assert (Hnd' : NoDup (keys (fst (step (al, out) x)))).
      { unfold step. destruct (get bbi x); [destruct (Py.mem _ _)|]; simpl;
          try assumption. apply append_keys_NoDup, Hnd. }
      destruct (IH _ Hnd') as [H1 [H2 H3]]. split; [assumption|]. split.
      + intros i Hi. apply H2. unfold step.
        destruct (get bbi x); [destruct (Py.mem _ _)|]; simpl in *;
          try assumption; apply in_or_app; auto.
      + intros sid its ip Hin Hip.
        assert (exists its', In (sid, its') (fst (step (al, out) x)) /\ In ip its')
          as [its' [Hin' Hip']].
        { unfold step. destruct (get bbi x); [destruct (Py.mem _ _)|]; simpl in *;
            try (exists its; auto; fail).
          eapply append_keeps; eassumption. }
        eapply H3; eassumption. }
  assert (Hnd0 : forall acc0, NoDup (keys (fst acc0)) -> In iid ids ->
    In iid (snd (fold_left step ids acc0)) \/
    (exists sid its ip, In (sid, its) (fst (fold_left step ids acc0)) /\ In ip its
                        /\ item_id ip = iid)).
  { induction ids as [|x l IH]; intros [al out] Hnd; simpl; [tauto|].
    intros [->|Hin].
    - assert (Hnd' : NoDup (keys (fst (step (al, out) iid)))).
      { unfold step. destruct (get bbi iid); [destruct (Py.mem _ _)|]; simpl;
          try assumption. apply append_keys_NoDup, Hnd. }
      destruct (Hmono l _ Hnd') as [_ [H2 H3]].
      assert (In iid (snd (step (al, out) iid))
              \/ exists its ip sid, In (sid, its) (fst (step (al, out) iid)) /\ In ip its
                                /\ item_id ip = iid) as [Ho|[its [ip [sid [Ha [Hb Hc]]]]]].
      { unfold step. destruct (get bbi iid) as [best|] eqn:Eb;
          [destruct (Py.mem _ _)|]; simpl; try (left; apply in_or_app; simpl; auto; fail).
        right. destruct (append_files al (store_id best) best) as [vs [Hv1 Hv2]].
        exists vs, best, (store_id best). repeat split; try assumption.
        apply bbi_keyed, Eb. }
      + left. apply H2, Ho.
      + right. destruct (H3 _ _ _ Ha Hb) as [its' [Ha' Hb']].
        exists sid, its', ip. auto.
    - apply IH; [|assumption].
      unfold step. destruct (get bbi x); [destruct (Py.mem _ _)|]; simpl;
        try assumption. apply append_keys_NoDup, Hnd. }
  intro Hin. apply Hnd0; [constructor | assumption].
Qed.

End AppPlaceFacts.

Section AppAllocateFacts.
Import Models PyDict AppShoppingOptimizer.

Lemma greedy_select_keyed (item_prices : list ItemPrice) (max_stores : Z) :
  forall iid p, get (snd (greedy_select item_prices max_stores)) iid = Some p ->
                item_id p = iid.
Proof.
  intros iid p H. apply get_Some_In in H.
  apply greedy_select_inv in H. tauto.
Qed.

Lemma store_allocation_id (db : DB) (kv : Z * list ItemPrice) :
  sa_store_id (store_allocation db kv) = fst kv
  /\ sa_items (store_allocation db kv) = snd kv
  /\ total (store_allocation db kv) = Py.fsum (map subtotal (snd kv)).
Proof. destruct kv. simpl. auto. Qed.

(** The allocations of [_greedy_allocate] are the entries of the
    allocation dictionary, reordered. *)
Lemma greedy_allocate_shape (db : DB) (item_prices : list ItemPrice) (max_stores : Z) :
  keys (store_item_best_of (group_by_item item_prices)) <> [] ->
  let sb := greedy_select item_prices max_stores in
  let pl := place_items (fst sb) (snd sb) (keys (group_by_item item_prices)) in
  Permutation (fst (_greedy_allocate db item_prices max_stores))
              (map (store_allocation db) (fst pl))
  /\ snd (_greedy_allocate db item_prices max_stores) = snd pl.
Proof.
  intros Hne sb pl. unfold _greedy_allocate.
  destruct (keys (store_item_best_of (group_by_item item_prices))) eqn:E; [congruence|].
  subst pl sb. destruct (greedy_select item_prices max_stores) as [sel bbi]. simpl.
  destruct (place_items sel bbi (keys (group_by_item item_prices))) as [al out]. simpl.
  split; [apply sort_by_perm | reflexivity].
Qed.

End AppAllocateFacts.

(* ------------------------------------------------------------------ *)
(** ** The location-aware optimizer: the store cap *)
(* ------------------------------------------------------------------ *)

Section AppCap.
Import Models PyDict AppShoppingOptimizer.

(** C9.  [_greedy_allocate] returns at most [max(1, max_stores)]
    allocations, each for a different store, for every input.  Every
    allocated offer is an offer of [item_prices] at the store of its
    allocation, and that store is one of the selected stores: an item
    whose only offers are at other stores is in no allocation, it never
    adds a store. *)
Theorem greedy_allocate_store_cap
    (db : DB) (item_prices : list ItemPrice) (max_stores : Z) :
  let allocs := fst (_greedy_allocate db item_prices max_stores) in
  let selected := fst (greedy_select item_prices max_stores) in
  NoDup (map sa_store_id allocs)
  /\ (Z.of_nat (List.length allocs) <= Z.max 1 max_stores)%Z
  /\ (forall a ip, In a allocs -> In ip (sa_items a) ->
        In ip item_prices /\ store_id ip = sa_store_id a /\ In (sa_store_id a) selected)
  /\ (forall iid,
        (forall ip, In ip item_prices -> item_id ip = iid -> ~ In (store_id ip) selected) ->
        forall a ip, In a allocs -> In ip (sa_items a) -> item_id ip <> iid).
Proof.
  intros allocs selected.
  assert (Hmain :
    NoDup (map sa_store_id allocs)
    /\ (Z.of_nat (List.length allocs) <= Z.max 1 max_stores)%Z
    /\ (forall a ip, In a allocs -> In ip (sa_items a) ->
          In ip item_prices /\ store_id ip = sa_store_id a /\ In (sa_store_id a) selected)).
  { subst allocs selected.
    destruct (keys (store_item_best_of (group_by_item item_prices))) as [|c cs] eqn:Ec.
    { unfold _greedy_allocate. rewrite Ec. simpl.
      split; [constructor|]. split; [lia | intros; contradiction]. }
    destruct (greedy_allocate_shape db item_prices max_stores) as [Hperm _];
      [rewrite Ec; discriminate|].
    pose proof (place_items_sound (fst (greedy_select item_prices max_stores))
                  (snd (greedy_select item_prices max_stores))
                  (greedy_select_keyed item_prices max_stores)
                  (keys (group_by_item item_prices))) as [Hnd [Hal _]].
    set (al := fst (place_items (fst (greedy_select item_prices max_stores))
                      (snd (greedy_select item_prices max_stores))
                      (keys (group_by_item item_prices)))) in *.
    assert (Hids : map sa_store_id (map (store_allocation db) al) = keys al).
    { rewrite map_map. unfold keys. apply map_ext. intros [k v]. reflexivity. }
    split; [|split].
    - apply (Permutation_NoDup (l := keys al)); [|assumption].
      rewrite <- Hids. symmetry. apply Permutation_map, Hperm.
    - rewrite (Permutation_length Hperm), length_map.
      pose proof (greedy_select_length item_prices max_stores) as Hlen.
      assert (List.length al <= List.length (fst (greedy_select item_prices max_stores)))%nat.
      { replace (List.length al) with (List.length (keys al))
          by (unfold keys; apply length_map).
        apply NoDup_incl_length; [assumption|].
        intros k Hk. unfold keys in Hk. apply in_map_iff in Hk.
        destruct Hk as [[k' its] [<- Hin]]. apply (Hal _ _ Hin). }
      lia.
    - intros a ip Ha Hip.
      apply (Permutation_in _ Hperm) in Ha. apply in_map_iff in Ha.
      destruct Ha as [[sid its] [<- Hin]]. simpl in *.
      destruct (Hal _ _ Hin) as [Hsel Hits].
      destruct (Hits _ Hip) as [Hs [_ Hg]].
      apply get_Some_In, greedy_select_inv in Hg.
      tauto. }
  destruct Hmain as [H1 [H2 H3]]. repeat split; try assumption; try apply (H3 _ _ H H0).
  intros iid Hout a ip Ha Hip E.
  destruct (H3 _ _ Ha Hip) as [Hin [Hs Hsel]].
  apply (Hout ip Hin E). rewrite Hs. assumption.
Qed.

End AppCap.

(* ------------------------------------------------------------------ *)
(** ** The latest-price subquery *)
(* ------------------------------------------------------------------ *)

Section SubqueryFacts.
Import Models PriceQueries PriceResolverSpec.
Variable ids : list Z.
Variable filt : Price -> bool.

Local Notation "'ing'" := (in_group ids filt).
Local Notation "'maxd'" := (max_date ids filt).

Lemma max_date_snoc (c l : Z) (rows : list Price) (q : Price) :
  maxd c l (rows ++ [q])
  = if ing c l q then opt_max (maxd c l rows) (data_coleta q) else maxd c l rows.
Proof. unfold max_date. rewrite fold_left_app. reflexivity. Qed.

Lemma max_date_sound (c l : Z) (rows : list Price) :
  (forall d, maxd c l rows = Some d ->
     (exists q, In q rows /\ ing c l q = true /\ data_coleta q = Some d)
     /\ forall q d', In q rows -> ing c l q = true -> data_coleta q = Some d' -> (d' <= d)%Z)
  /\ (maxd c l rows = None ->
      forall q, In q rows -> ing c l q = true -> data_coleta q = None).
Proof.
  induction rows as [|q rows [IH1 IH2]] using rev_ind.
  - split; [discriminate | intros _ q []].
  - rewrite max_date_snoc. destruct (ing c l q) eqn:Eq.
    + destruct (maxd c l rows) as [m|] eqn:Em; destruct (data_coleta q) as [dq|] eqn:Ed;
        simpl; (split; [intros d Hd; inversion Hd; subst; clear Hd | try discriminate]).
      * destruct (IH1 m eq_refl) as [[q0 [Hq0 [Hg0 Hd0]]] Hmax]. split.
        -- destruct (Z.max_spec m dq) as [[_ ->]|[_ ->]].
           ++ exists q. rewrite in_app_iff. simpl. auto.
           ++ exists q0. rewrite in_app_iff. auto.
        -- intros q' d' Hin Hg Hd'. apply in_app_or in Hin. destruct Hin as [Hin|[<-|[]]].
           ++ specialize (Hmax _ _ Hin Hg Hd'). lia.
           ++ rewrite Ed in Hd'. inversion Hd'. lia.
      * destruct (IH1 d eq_refl) as [[q0 [Hq0 [Hg0 Hd0]]] Hmax]. split.
        -- exists q0. rewrite in_app_iff. auto.
        -- intros q' d' Hin Hg Hd'. apply in_app_or in Hin. destruct Hin as [Hin|[<-|[]]];
             [eauto | congruence].
      * split.
        -- exists q. rewrite in_app_iff. simpl. auto.
        -- intros q' d' Hin Hg Hd'. apply in_app_or in Hin. destruct Hin as [Hin|[<-|[]]].
           ++ rewrite (IH2 eq_refl _ Hin Hg) in Hd'. discriminate.
           ++ rewrite Ed in Hd'. inversion Hd'. lia.
      * intros _ q' Hin Hg. apply in_app_or in Hin. destruct Hin as [Hin|[<-|[]]];
          [eauto | assumption].
    + split.
      * intros d Hd. destruct (IH1 d Hd) as [[q0 [Hq0 [Hg0 Hd0]]] Hmax]. split.
        -- exists q0. rewrite in_app_iff. auto.
        -- intros q' d' Hin Hg Hd'. apply in_app_or in Hin. destruct Hin as [Hin|[<-|[]]];
             [eauto | congruence].
      * intros Hn q' Hin Hg. apply in_app_or in Hin. destruct Hin as [Hin|[<-|[]]];
          [eauto | congruence].
Qed.

(** The greatest date of a group is the date of a member that no member
    exceeds. *)
Lemma max_date_complete (c l : Z) (rows : list Price) (q : Price) (d : Z) :
  In q rows -> ing c l q = true -> data_coleta q = Some d ->
  (forall q' d', In q' rows -> ing c l q' = true -> data_coleta q' = Some d' -> (d' <= d)%Z) ->
  maxd c l rows = Some d.
Proof.
  intros Hin Hg Hd Hmax. destruct (max_date_sound c l rows) as [H1 H2].
  destruct (maxd c l rows) as [m|] eqn:Em.
  - destruct (H1 m eq_refl) as [[q0 [Hq0 [Hg0 Hd0]]] Hm].
    specialize (Hm _ _ Hin Hg Hd). specialize (Hmax _ _ Hq0 Hg0 Hd0).
    f_equal. lia.
  - rewrite (H2 eq_refl _ Hin Hg) in Hd. discriminate.
Qed.

Lemma upsert_group_spec (g : list subq_row) (c l : Z) (d : option Z) :
  NoDup (map fst g) ->
  NoDup (map fst (upsert_group g c l d))
  /\ forall c' l' md',
       In (c', l', md') (upsert_group g c l d) <->
       ((c', l') = (c, l)
        /\ ((exists md0, In (c, l, md0) g /\ md' = opt_max md0 d)
            \/ (~ In (c, l) (map fst g) /\ md' = d)))
       \/ ((c', l') <> (c, l) /\ In (c', l', md') g).
Proof.
  induction g as [|[[c0 l0] d0] g IH]; simpl; intro Hnd.
  - split; [repeat constructor; simpl; tauto|].
    intros c' l' md'. split.
    + intros [H|[]]. inversion H. subst. left. split; [reflexivity|]. right. tauto.
    + intros [[H [[md0 [[] _]]|[_ ->]]]|[_ []]]. inversion H. auto.
  - inversion Hnd as [|? ? Hnot Hnd']. subst.
    destruct (Z.eqb c c0 && Z.eqb l l0) eqn:E; simpl.
    + apply andb_true_iff in E. destruct E as [E1 E2].
      apply Z.eqb_eq in E1, E2. subst c0 l0.
      split; [constructor; assumption|].
      intros c' l' md'. split.
      * intros [H|H].
        -- inversion H. subst. left. split; [reflexivity|]. left. exists d0. auto.
        -- right. split; [|auto]. intro E. inversion E. subst.
           apply Hnot. change (c, l) with (fst (c, l, md')). apply in_map, H.
      * intros [[H [[md0 [[Hin|Hin] ->]]|[Hno _]]]|[Hne [Hin|Hin]]].
        -- inversion H. inversion Hin. subst. auto.
        -- exfalso. apply Hnot. change (c, l) with (fst (c, l, md0)). apply in_map, Hin.
        -- exfalso. apply Hno. auto.
        -- inversion Hin. subst. congruence.
        -- auto.
    + destruct (IH Hnd') as [IHnd IHin].
      assert (Hk : (c0, l0) <> (c, l)).
      { intro H. inversion H. subst. rewrite !Z.eqb_refl in E. discriminate. }
      split.
      * constructor; [|assumption].
        intro Hin. apply in_map_iff in Hin. destruct Hin as [[[c1 l1] d1] [E1 Hin]].
        simpl in E1. inversion E1. subst c1 l1.
        apply IHin in Hin. destruct Hin as [[H _]|[_ Hin]]; [congruence|].
        apply Hnot. change (c0, l0) with (fst (c0, l0, d1)). apply in_map, Hin.
      * intros c' l' md'. rewrite IHin. split.
        -- intros [H|[[H [[md0 [Hin ->]]|[Hno ->]]]|[Hne Hin]]].
           ++ inversion H. subst. right. split; [assumption | auto].
           ++ left. split; [assumption|]. left. exists md0. auto.
           ++ left. split; [assumption|]. right. split; [|reflexivity].
              intros [Hc|Hc]; [congruence | contradiction].
           ++ right. auto.
        -- intros [[H [[md0 [[Hin|Hin] ->]]|[Hno ->]]]|[Hne [Hin|Hin]]].
           ++ inversion Hin. congruence.
           ++ right. left. split; [assumption|]. left. exists md0. auto.
           ++ right. left. split; [assumption|]. right. split; [tauto | reflexivity].
           ++ left. assumption.
           ++ right. right. auto.
Qed.

Lemma in_group_iff (c l : Z) (q : Price) :
  ing c l q = true <->
  canonical_id q = Some c /\ In c ids /\ filt q = true /\ loja_id q = l.
Proof.
  unfold in_group. destruct (canonical_id q) as [qc|].
  - rewrite !andb_true_iff, !Z.eqb_eq, mem_In. split.
    + intros [[[-> H1] H2] H3]. auto.
    + intros [H [H1 [H2 H3]]]. inversion H. auto.
  - split; [discriminate | intros [H _]; discriminate].
Qed.

Lemma latest_price_subq_snoc (rows : list Price) (q : Price) :
  latest_price_subq ids filt (rows ++ [q])
  = match canonical_id q with
    | Some c =>
        if Py.mem c ids && filt q
        then upsert_group (latest_price_subq ids filt rows) c (loja_id q) (data_coleta q)
        else latest_price_subq ids filt rows
    | None => latest_price_subq ids filt rows
    end.
Proof. unfold latest_price_subq. rewrite fold_left_app. reflexivity. Qed.

(** The subquery has one row per group that has a member, with the
    greatest date of the group. *)
Lemma latest_price_subq_spec (rows : list Price) :
  NoDup (map fst (latest_price_subq ids filt rows))
  /\ forall c l md,
       In (c, l, md) (latest_price_subq ids filt rows) <->
       (exists q, In q rows /\ ing c l q = true) /\ md = maxd c l rows.
Proof.
  induction rows as [|q rows [IHnd IH]] using rev_ind.
  - split; [constructor|]. intros c l md. simpl. split; [tauto|].
    intros [[q [[] _]] _].
  - rewrite latest_price_subq_snoc.
    assert (Hskip : (forall c l, ing c l q = false) ->
              NoDup (map fst (latest_price_subq ids filt rows))
              /\ forall c l md,
                   In (c, l, md) (latest_price_subq ids filt rows) <->
                   (exists q0, In q0 (rows ++ [q]) /\ ing c l q0 = true)
                   /\ md = maxd c l (rows ++ [q])).
    { intro Hq. split; [assumption|]. intros c l md.
      rewrite IH, max_date_snoc, Hq. split; intros [[q0 [Hin Hg]] Hmd]; (split; [|assumption]).
      - exists q0. rewrite in_app_iff. auto.
      - exists q0. apply in_app_or in Hin. destruct Hin as [Hin|[<-|[]]]; [auto|].
        rewrite Hq in Hg. discriminate. }
    destruct (canonical_id q) as [c0|] eqn:Ec.
    2:{ apply Hskip. intros c l. unfold in_group. rewrite Ec. reflexivity. }
    destruct (Py.mem c0 ids && filt q) eqn:Ef.
    2:{ apply Hskip. intros c l. unfold in_group. rewrite Ec.
        destruct (Z.eqb c0 c) eqn:E; [|reflexivity]. apply Z.eqb_eq in E. subst c.
        simpl. rewrite Ef. reflexivity. }
    destruct (upsert_group_spec _ c0 (loja_id q) (data_coleta q) IHnd) as [Hnd Hup].
    split; [assumption|]. intros c l md. rewrite Hup, max_date_snoc.
    assert (Hself : ing c0 (loja_id q) q = true).
    { unfold in_group. rewrite Ec, Z.eqb_refl. simpl. rewrite Ef, Z.eqb_refl. reflexivity. }
    split.
    + intros [[H Hcase]|[Hne Hin]].
      * inversion H. subst c l. clear H. rewrite Hself. split.
        -- exists q. rewrite in_app_iff. simpl. auto.
        -- destruct Hcase as [[md0 [Hin ->]]|[Hno ->]].
           ++ apply IH in Hin. destruct Hin as [_ ->]. reflexivity.
           ++ destruct (maxd c0 (loja_id q) rows) as [m|] eqn:Em; [|reflexivity].
              exfalso. apply Hno.
              destruct (max_date_sound c0 (loja_id q) rows) as [H1 _].
              destruct (H1 m Em) as [[q0 [Hq0 [Hg0 _]]] _].
              change (c0, loja_id q) with (fst (c0, loja_id q, maxd c0 (loja_id q) rows)).
              apply in_map. apply IH. split; [eauto | reflexivity].
      * assert (Hq : ing c l q = false).
        { destruct (ing c l q) eqn:E; [|reflexivity]. exfalso. apply Hne.
          apply in_group_iff in E. destruct E as [E1 [_ [_ E2]]]. congruence. }
        rewrite Hq. apply IH in Hin. destruct Hin as [[q0 [Hq0 Hg0]] ->].
        split; [|reflexivity]. exists q0. rewrite in_app_iff. auto.
    + intros [[q0 [Hq0 Hg0]] ->].
      destruct (ing c l q) eqn:Eq.
      * apply in_group_iff in Eq. destruct Eq as [E1 [_ [_ E2]]].
        assert (c = c0) by congruence. subst c l.
        left. split; [reflexivity|].
        destruct (existsb (fun r : subq_row =>
                             Z.eqb (fst (fst r)) c0 && Z.eqb (snd (fst r)) (loja_id q))
                          (latest_price_subq ids filt rows)) eqn:Ex.
        -- left. apply existsb_exists in Ex. destruct Ex as [[[c1 l1] d1] [Hin E]].
           simpl in E. apply andb_true_iff in E. destruct E as [E1' E2'].
           apply Z.eqb_eq in E1', E2'. subst c1 l1.
           exists d1. split; [assumption|].
           apply IH in Hin. destruct Hin as [_ ->]. reflexivity.
        -- assert (Hno : ~ In (c0, loja_id q) (map fst (latest_price_subq ids filt rows))).
           { intro Hin. apply in_map_iff in Hin. destruct Hin as [[[c1 l1] d1] [E Hin]].
             simpl in E. inversion E. subst c1 l1.
             assert (Ht : existsb (fun r : subq_row =>
                             Z.eqb (fst (fst r)) c0 && Z.eqb (snd (fst r)) (loja_id q))
                          (latest_price_subq ids filt rows) = true).
             { apply existsb_exists. exists (c0, loja_id q, d1). split; [assumption|].
               simpl. rewrite !Z.eqb_refl. reflexivity. }
             congruence. }
           right. split; [assumption|].
           destruct (maxd c0 (loja_id q) rows) as [m|] eqn:Em; [|reflexivity].
           exfalso. apply Hno.
           destruct (max_date_sound c0 (loja_id q) rows) as [H1 _].
           destruct (H1 m Em) as [[q1 [Hq1 [Hg1 _]]] _].
           change (c0, loja_id q) with (fst (c0, loja_id q, maxd c0 (loja_id q) rows)).
           apply in_map. apply IH. split; [eauto | reflexivity].
      * right. split.
        -- intro E. inversion E. subst c l. congruence.
        -- apply IH. split; [|reflexivity].
           apply in_app_or in Hq0. destruct Hq0 as [Hq0|[<-|[]]]; [eauto | congruence].
Qed.

End SubqueryFacts.

(* ------------------------------------------------------------------ *)
(** ** Fallback prices *)
(* ------------------------------------------------------------------ *)

Section FallbackFacts.
Import Models PriceQueries PriceResolverSpec AppShoppingOptimizer.

Lemma joins_iff (p : Price) (c l : Z) (md : option Z) :
  joins p (c, l, md) = true <->
  Models.canonical_id p = Some c /\ loja_id p = l
  /\ exists d, data_coleta p = Some d /\ md = Some d.
Proof.
  unfold joins.
  destruct (Models.canonical_id p) as [pc|], (data_coleta p) as [pd|], md as [gd|];
    try (split; [discriminate | intros [H1 [H2 [d [H3 H4]]]]; discriminate]).
  rewrite !andb_true_iff, !Z.eqb_eq. split.
  - intros [[-> ->] ->]. repeat split. exists gd. auto.
  - intros [H1 [H2 [d [H3 H4]]]]. inversion H1. inversion H3. inversion H4. subst. auto.
Qed.

Lemma latest_prices_In (db : DB) (subq : list subq_row) (p : Price) (s : Store) :
  In (p, s) (latest_prices db subq) <->
  In p (precos db) /\ In s (lojas db) /\ loja_id p = store_pk s
  /\ exists g, In g subq /\ joins p g = true.
Proof.
  unfold latest_prices. rewrite in_flat_map. split.
  - intros [p' [Hp H]]. apply in_flat_map in H. destruct H as [s' [Hs H]].
    destruct (Z.eqb (loja_id p') (store_pk s')) eqn:E; [|destruct H].
    apply in_flat_map in H. destruct H as [g [Hg H]].
    destruct (joins p' g) eqn:Ej; [|destruct H].
    destruct H as [H|[]]. inversion H. subst. apply Z.eqb_eq in E. eauto 10.
  - intros [Hp [Hs [E [g [Hg Hj]]]]]. exists p. split; [assumption|].
    apply in_flat_map. exists s. split; [assumption|].
    apply Z.eqb_eq in E. rewrite E.
    apply in_flat_map. exists g. split; [assumption|]. rewrite Hj. simpl. auto.
Qed.

(** The joined rows of the fallback query are the latest observations. *)
Lemma fallback_rows_latest (db : DB) (ids eligible : list Z) (c : Z) (p : Price) :
  In c ids ->
  (latest_observation db eligible c p <->
   Models.canonical_id p = Some c
   /\ exists s, In (p, s)
        (latest_prices db
           (latest_price_subq ids (fun p => Py.mem (loja_id p) eligible) (precos db)))).
Proof.
  intro Hc.
  destruct (latest_price_subq_spec ids (fun p => Py.mem (loja_id p) eligible) (precos db))
    as [_ Hsub].
  split.
  - intros [Hp [Hcan [Hel [[s [Hs Hpk]] [d [Hd Hmax]]]]]].
    split; [assumption|]. exists s. apply latest_prices_In.
    repeat split; auto. exists (c, loja_id p, Some d). split.
    + apply Hsub.
      assert (Hg : in_group ids (fun p => Py.mem (loja_id p) eligible) c (loja_id p) p = true).
      { apply in_group_iff. repeat split; auto. apply mem_In, Hel. }
      split; [eauto|]. symmetry. apply max_date_complete with (q := p); auto.
      intros q' d' Hq' Hg' Hd'. apply in_group_iff in Hg'.
      destruct Hg' as [H1 [_ [_ H2]]]. eauto.
    + apply joins_iff. repeat split; auto. eauto.
  - intros [Hcan [s Hin]]. apply latest_prices_In in Hin.
    destruct Hin as [Hp [Hs [Hpk [[[c' l'] md] [Hg Hj]]]]].
    apply joins_iff in Hj. destruct Hj as [Hc' [Hl [d [Hd ->]]]].
    assert (c' = c) by congruence. subst c' l'.
    apply Hsub in Hg. destruct Hg as [[q [Hq Hgq]] Hmd].
    apply in_group_iff in Hgq. destruct Hgq as [_ [_ [Hel Hlq]]].
    apply mem_In in Hel. rewrite Hlq in Hel.
    repeat split; auto; [eauto|].
    exists d. split; [assumption|].
    intros q' d' Hq' Hcq' Hlq' Hd'.
    destruct (max_date_sound ids (fun p => Py.mem (loja_id p) eligible) c (loja_id p)
                (precos db)) as [H1 _].
    destruct (H1 d (eq_sym Hmd)) as [_ Hmax]. apply (Hmax q' d'); auto.
    apply in_group_iff. repeat split; auto. rewrite Hlq'. apply mem_In, Hel.
Qed.

(** The loop of [_get_fallback_prices] keeps, for each product, the first
    cheapest row. *)
Lemma fallback_fold_spec (rows : list (Price * Store)) (c : Z) :
  match PyDict.get (fold_left keep_cheapest rows []) c with
  | Some fp =>
      (exists p s, In (p, s) rows /\ Models.canonical_id p = Some c
                   /\ fp = mkFallbackPrice c (store_pk s) (store_display_name s)
                             (preco_por_unidade p) (data_coleta p))
      /\ forall p s, In (p, s) rows -> Models.canonical_id p = Some c ->
                     (fp_price fp <= preco_por_unidade p)%Q
  | None => forall p s, In (p, s) rows -> Models.canonical_id p <> Some c
  end.
Proof.
  induction rows as [|[q sq] rows IH] using rev_ind; [simpl; tauto|].
  rewrite fold_left_app. simpl.
  set (best := fold_left keep_cheapest rows []) in *.
  assert (Hkeep : match PyDict.get best c with
    | Some fp =>
        (exists p s, In (p, s) rows /\ Models.canonical_id p = Some c
                     /\ fp = mkFallbackPrice c (store_pk s) (store_display_name s)
                               (preco_por_unidade p) (data_coleta p))
        /\ forall p s, In (p, s) rows -> Models.canonical_id p = Some c ->
                       (fp_price fp <= preco_por_unidade p)%Q
    | None => forall p s, In (p, s) rows -> Models.canonical_id p <> Some c
    end ->
    Models.canonical_id q <> Some c \/
      (exists prev, PyDict.get best c = Some prev
                    /\ (fp_price prev <= preco_por_unidade q)%Q) ->
    match PyDict.get best c with
    | Some fp =>
        (exists p s, In (p, s) (rows ++ [(q, sq)]) /\ Models.canonical_id p = Some c
                     /\ fp = mkFallbackPrice c (store_pk s) (store_display_name s)
                               (preco_por_unidade p) (data_coleta p))
        /\ forall p s, In (p, s) (rows ++ [(q, sq)]) -> Models.canonical_id p = Some c ->
                       (fp_price fp <= preco_por_unidade p)%Q
    | None => forall p s, In (p, s) (rows ++ [(q, sq)]) -> Models.canonical_id p <> Some c
    end).
  { intros H Hq. destruct (PyDict.get best c) as [fp|].
    - destruct H as [[p [s [Hin [Hc ->]]]] Hmin]. split.
      + exists p, s. rewrite in_app_iff. auto.
      + intros p' s' Hin' Hc'. apply in_app_or in Hin'.
        destruct Hin' as [Hin'|[Hin'|[]]]; [eauto|]. inversion Hin'. subst.
        destruct Hq as [Hq|[prev [Hp Hle]]]; [contradiction|].
        inversion Hp. subst. assumption.
    - intros p' s' Hin'. apply in_app_or in Hin'.
      destruct Hin' as [Hin'|[Hin'|[]]]; [eauto|]. inversion Hin'. subst.
      destruct Hq as [Hq|[prev [Hp _]]]; [assumption | discriminate]. }
  destruct (Models.canonical_id q) as [cq|] eqn:Ecq;
    [|apply Hkeep; [exact IH | left; discriminate]].
  destruct (Z.eq_dec cq c) as [->|Hne].
  2:{ assert (Hsame : forall d, PyDict.get (PyDict.put best cq d) c = PyDict.get best c)
        by (intro d; apply get_put_other; congruence).
      destruct (PyDict.get best cq) as [prev|];
        [destruct (Py.Qltb _ _)|]; rewrite ?Hsame;
        (apply Hkeep; [exact IH | left; congruence]). }
  destruct (PyDict.get best c) as [prev|] eqn:Eb.
  - simpl. destruct (Py.Qltb (preco_por_unidade q) (fp_price prev)) eqn:El.
    + rewrite get_put_same. apply Qltb_lt in El.
      destruct IH as [_ Hmin]. split.
      * exists q, sq. rewrite in_app_iff. simpl. auto.
      * intros p' s' Hin' Hc'. simpl. apply in_app_or in Hin'.
        destruct Hin' as [Hin'|[Hin'|[]]].
        -- specialize (Hmin _ _ Hin' Hc'). lra.
        -- inversion Hin'. subst. lra.
    + apply Qltb_ge in El. rewrite Eb.
      apply Hkeep; [exact IH | right; exists prev; auto].
  - rewrite get_put_same. split.
    + exists q, sq. rewrite in_app_iff. simpl. auto.
    + intros p' s' Hin' Hc'. simpl. apply in_app_or in Hin'.
      destruct Hin' as [Hin'|[Hin'|[]]].
      * exfalso. apply (IH _ _ Hin' Hc').
      * inversion Hin'. subst. lra.
Qed.

End FallbackFacts.

Section FallbackClaims.
Import Models PriceQueries PriceResolverSpec AppShoppingOptimizer.




End FallbackClaims.

(* ------------------------------------------------------------------ *)
(** ** The generic optimizer: the bounded exact search *)
(* ------------------------------------------------------------------ *)

Section CombinationFacts.
Context {A : Type}.

Lemma combinations_length (l : list A) (k : nat) (c : list A) :
  In c (combinations l k) -> List.length c = k.
Proof.
  revert k c. induction l as [|x l IH]; intros [|k] c; simpl.
  - intros [<-|[]]. reflexivity.
  - tauto.
  - intros [<-|[]]. reflexivity.
  - intro H. apply in_app_or in H. destruct H as [H|H].
    + apply in_map_iff in H. destruct H as [c' [<- H]]. simpl. f_equal. apply IH, H.
    + apply IH, H.
Qed.

Lemma combinations_incl (l : list A) (k : nat) (c : list A) :
  In c (combinations l k) -> incl c l.
Proof.
  revert k c. induction l as [|x l IH]; intros [|k] c; simpl.
  - intros [<-|[]]. apply incl_nil_l.
  - tauto.
  - intros [<-|[]]. apply incl_nil_l.
  - intro H. apply in_app_or in H. destruct H as [H|H].
    + apply in_map_iff in H. destruct H as [c' [<- H]].
      apply incl_cons; [left; reflexivity | apply incl_tl, (IH _ _ H)].
    + apply incl_tl, (IH _ _ H).
Qed.

Lemma combinations_NoDup (l : list A) (k : nat) (c : list A) :
  NoDup l -> In c (combinations l k) -> NoDup c.
Proof.
  revert k c. induction l as [|x l IH]; intros [|k] c Hnd; simpl.
  - intros [<-|[]]. constructor.
  - tauto.
  - intros [<-|[]]. constructor.
  - inversion Hnd as [|? ? Hx Hl]. subst.
    intro H. apply in_app_or in H. destruct H as [H|H].
    + apply in_map_iff in H. destruct H as [c' [<- H]]. constructor.
      * intro Hin. apply Hx. apply (combinations_incl _ _ _ H), Hin.
      * apply (IH _ _ Hl H).
    + apply (IH _ _ Hl H).
Qed.

(** Every subset of [l], taken in the order of [l], is enumerated. *)
Lemma combinations_filter (f : A -> bool) (l : list A) :
  In (filter f l) (combinations l (List.length (filter f l))).
Proof.
  induction l as [|x l IH]; simpl; [auto|].
  destruct (f x); simpl.
  - apply in_or_app. left. apply in_map, IH.
  - destruct (List.length (filter f l)) as [|k] eqn:E.
    + apply length_zero_iff_nil in E. rewrite E. simpl. auto.
    + apply in_or_app. right. exact IH.
Qed.

End CombinationFacts.

Section MinByFacts.
Context {A : Type}.
Variable key : A -> Q.

Lemma min_by_fold (l : list A) (x : A) :
  let m := fold_left (fun best y => if Py.Qltb (key y) (key best) then y else best) l x in
  In m (x :: l) /\ forall y, In y (x :: l) -> (key m <= key y)%Q.
Proof.
  revert x. induction l as [|z l IH]; intro x; simpl.
  - split; [auto|]. intros y [<-|[]]. apply Qle_refl.
  - destruct (Py.Qltb (key z) (key x)) eqn:E.
    + apply Qltb_lt in E. destruct (IH z) as [H1 H2]. simpl in *. split; [tauto|].
      intros y [<-|Hy]; [|auto].
      specialize (H2 z (or_introl eq_refl)). lra.
    + apply Qltb_ge in E. destruct (IH x) as [H1 H2]. simpl in *. split; [tauto|].
      intros y [<-|[<-|Hy]]; auto.
      specialize (H2 x (or_introl eq_refl)). lra.
Qed.

Lemma min_by_Some (l : list A) (m : A) :
  Py.min_by key l = Some m -> In m l /\ forall y, In y l -> (key m <= key y)%Q.
Proof.
  destruct l as [|x l]; simpl; [discriminate|].
  intro H. inversion H. apply min_by_fold.
Qed.

Lemma min_by_None (l : list A) : Py.min_by key l = None <-> l = [].
Proof. destruct l; simpl; split; congruence. Qed.

End MinByFacts.

Section SearchFacts.
Import PyDict ShoppingOptimizer AllocationEngineSpec.
Variable pbi : dict (list ItemPrice).

Lemma best_in_None (stores : list Z) (prices : list ItemPrice) :
  best_in stores prices = None <-> covers stores prices = false.
Proof.
  unfold best_in, covers. rewrite min_by_None.
  induction prices as [|p ps IH]; simpl; [tauto|].
  destruct (Py.mem (store_id p) stores); simpl; [split; discriminate | exact IH].
Qed.

Lemma best_in_Some (stores : list Z) (prices : list ItemPrice) (b : ItemPrice) :
  best_in stores prices = Some b ->
  In b prices /\ In (store_id b) stores
  /\ forall p, In p prices -> In (store_id p) stores -> (price b <= price p)%Q.
Proof.
  unfold best_in. intro H. apply min_by_Some in H. destruct H as [H1 H2].
  apply filter_In in H1. destruct H1 as [H1 H3]. apply mem_In in H3.
  repeat split; auto. intros p Hp Hs. apply H2, filter_In. split; [assumption|].
  apply mem_In, Hs.
Qed.

Lemma covers_best_in (stores : list Z) (prices : list ItemPrice) :
  covers stores prices = true -> exists b, best_in stores prices = Some b.
Proof.
  intro H. destruct (best_in stores prices) as [b|] eqn:E; [eauto|].
  apply best_in_None in E. congruence.
Qed.

(** [eval_combo] computes the cost and the coverage of a combination. *)
Lemma eval_combo_spec (combo : list Z) :
  fst (fst (eval_combo pbi combo)) = cost pbi combo
  /\ snd (eval_combo pbi combo) = coverage pbi combo.
Proof.
  unfold eval_combo, cost, coverage, Py.fsum.
  generalize (@nil Z) as m. generalize 0%Q as t.
  assert (H : forall l (t : Q) (m : list Z) (n : Z),
    fst (fst (fold_left
      (fun (acc : Q * list Z * Z) (kv : Z * list ItemPrice) =>
         let '(total, missing, covered_count) := acc in
         match best_in combo (snd kv) with
         | None => (total, set_insert missing (fst kv), covered_count)
         | Some best => ((total + subtotal best)%Q, missing, (covered_count + 1)%Z)
         end) l (t, m, n)))
    = fold_left Qplus
        (flat_map (fun kv : Z * list ItemPrice =>
           match best_in combo (snd kv) with Some b => [subtotal b] | None => [] end) l) t
    /\ snd (fold_left
      (fun (acc : Q * list Z * Z) (kv : Z * list ItemPrice) =>
         let '(total, missing, covered_count) := acc in
         match best_in combo (snd kv) with
         | None => (total, set_insert missing (fst kv), covered_count)
         | Some best => ((total + subtotal best)%Q, missing, (covered_count + 1)%Z)
         end) l (t, m, n))
    = (n + Z.of_nat (List.length (filter (fun kv => covers combo (snd kv)) l)))%Z).
  { induction l as [|kv l IH]; intros t m n; simpl; [split; [reflexivity | lia]|].
    destruct (best_in combo (snd kv)) as [b|] eqn:E.
    - assert (Hc : covers combo (snd kv) = true).
      { destruct (covers combo (snd kv)) eqn:Ec; [reflexivity|].
        apply best_in_None in Ec. congruence. }
      rewrite Hc. destruct (IH (t + subtotal b)%Q m (n + 1)%Z) as [H1 H2].
      rewrite H1, H2. simpl. split; [reflexivity | lia].
    - apply best_in_None in E. rewrite E. apply IH. }
  intros t m. destruct (H pbi t m 0%Z) as [H1 H2]. split; [exact H1|].
  rewrite H2. lia.
Qed.

Lemma coverage_nonneg (stores : list Z) : (0 <= coverage pbi stores)%Z.
Proof. unfold coverage. lia. Qed.

Lemma cost_uncovered (stores : list Z) : coverage pbi stores = 0%Z -> cost pbi stores = 0%Q.
Proof.
  unfold coverage, cost. intro H.
  assert (E : filter (fun kv : Z * list ItemPrice => covers stores (snd kv)) pbi = []).
  { apply length_zero_iff_nil. lia. }
  assert (F : flat_map (fun kv : Z * list ItemPrice =>
                match best_in stores (snd kv) with Some b => [subtotal b] | None => [] end)
                pbi = []).
  { clear H. induction pbi as [|kv l IH]; simpl in *; [reflexivity|].
    destruct (covers stores (snd kv)) eqn:Ec; [discriminate|].
    apply best_in_None in Ec. rewrite Ec. simpl. apply IH, E. }
  rewrite F. reflexivity.
Qed.

(** More stores never cover less. *)
Lemma coverage_mono (s1 s2 : list Z) :
  (forall kv p, In kv pbi -> In p (snd kv) -> In (store_id p) s1 -> In (store_id p) s2) ->
  (coverage pbi s1 <= coverage pbi s2)%Z.
Proof.
  unfold coverage. intro H. apply inj_le.
  induction pbi as [|kv l IH]; simpl; [lia|].
  assert (IH' : (List.length (filter (fun kv => covers s1 (snd kv)) l)
                 <= List.length (filter (fun kv => covers s2 (snd kv)) l))%nat).
  { apply IH. intros kv' p Hkv. apply H. right. assumption. }
  destruct (covers s1 (snd kv)) eqn:E1.
  - assert (E2 : covers s2 (snd kv) = true).
    { unfold covers in *. apply existsb_exists in E1. destruct E1 as [p [Hp Hm]].
      apply existsb_exists. exists p. split; [assumption|].
      apply mem_In. apply (H kv p); [left; reflexivity | assumption | apply mem_In, Hm]. }
    rewrite E2. simpl. lia.
  - destruct (covers s2 (snd kv)); simpl; lia.
Qed.

(** The state of the search when [b] is the best combination so far. *)
Local Notation "'state_of' b" :=
  (mkSearch (Some (cost pbi b)) (Some b%list) (snd (fst (eval_combo pbi b))) (coverage pbi b))
  (at level 10).

Lemma better_dec (c b : list Z) : {better pbi c b} + {~ better pbi c b}.
Proof.
  unfold better.
  destruct (Z_lt_dec (coverage pbi b) (coverage pbi c)); [left; auto|].
  destruct (Z.eq_dec (coverage pbi c) (coverage pbi b)) as [E|E].
  - destruct (Qlt_le_dec (cost pbi c) (cost pbi b)); [left; auto|].
    right. intros [H|[_ H]]; [lia | lra].
  - right. intros [H|[H _]]; [lia | congruence].
Qed.

Lemma consider_first (c : list Z) :
  consider pbi (mkSearch None None [] (-1)%Z) c = state_of c.
Proof.
  unfold consider. destruct (eval_combo_spec c) as [H1 H2].
  destruct (eval_combo pbi c) as [[t m] n]. simpl in *. subst.
  pose proof (coverage_nonneg c).
  destruct (Z.ltb_spec (-1) (coverage pbi c)); [reflexivity | lia].
Qed.

Lemma consider_next (b c : list Z) :
  consider pbi (state_of b) c = if better_dec c b then state_of c else state_of b.
Proof.
  unfold consider. destruct (eval_combo_spec c) as [H1 H2].
  destruct (eval_combo pbi c) as [[t m] n] eqn:Ee. simpl in H1, H2. subst.
  cbn [best_covered_count best_total].
  destruct (better_dec c b) as [Hb|Hb]; unfold better in Hb.
  - destruct (Z.ltb_spec (coverage pbi b) (coverage pbi c)) as [Hlt|Hge].
    + reflexivity.
    + destruct Hb as [Hb|[Hb1 Hb2]]; [lia|].
      rewrite Hb1, Z.eqb_refl.
      destruct (Z.ltb_spec 0 (coverage pbi b)) as [Hpos|Hz]; simpl.
      * apply Qltb_lt in Hb2. rewrite Hb2. reflexivity.
      * exfalso. pose proof (coverage_nonneg b).
        assert (Hb0 : coverage pbi b = 0%Z) by lia.
        assert (Hc0 : coverage pbi c = 0%Z) by lia.
        rewrite (cost_uncovered _ Hb0), (cost_uncovered _ Hc0) in Hb2.
        apply (Qlt_irrefl _ Hb2).
  - destruct (Z.ltb_spec (coverage pbi b) (coverage pbi c)) as [Hlt|Hge]; [tauto|].
    destruct (Z.eqb_spec (coverage pbi c) (coverage pbi b)) as [He|Hne]; simpl;
      [|reflexivity].
    destruct (Z.ltb (0) (coverage pbi c)); [|reflexivity].
    destruct (Py.Qltb (cost pbi c) (cost pbi b)) eqn:El; [|reflexivity].
    apply Qltb_lt in El. tauto.
Qed.

Lemma better_trans (x y z : list Z) : better pbi x y -> better pbi y z -> better pbi x z.
Proof. unfold better. intros [H1|[H1 H2]] [H3|[H3 H4]]; [left; lia ..|right; split; [lia | lra]]. Qed.

Lemma better_not_better (x y z : list Z) :
  better pbi x y -> ~ better pbi z y -> better pbi x z.
Proof.
  unfold better. intros Hxy Hzy.
  destruct (Z_lt_dec (coverage pbi y) (coverage pbi z)); [tauto|].
  destruct (Z.eq_dec (coverage pbi z) (coverage pbi y)) as [E|E].
  - destruct (Qlt_le_dec (cost pbi z) (cost pbi y)); [tauto|].
    destruct Hxy as [H|[H1 H2]]; [left; lia | right; split; [lia | lra]].
  - destruct Hxy as [H|[H1 H2]]; left; lia.
Qed.

(** The loop keeps the first combination that none beats. *)
Lemma fold_consider (l : list (list Z)) (b : list Z) :
  exists b' l1 l2,
    fold_left (consider pbi) l (state_of b) = state_of b'
    /\ b :: l = l1 ++ b' :: l2
    /\ (forall c, In c l1 -> better pbi b' c)
    /\ (forall c, In c l2 -> ~ better pbi c b').
Proof.
  revert b. induction l as [|c l IH]; intro b; simpl.
  - exists b, [], []. simpl. repeat split; tauto.
  - rewrite consider_next. destruct (better_dec c b) as [Hb|Hb].
    + destruct (IH c) as [b' [l1 [l2 [Hf [Hs [H1 H2]]]]]].
      exists b', (b :: l1), l2. rewrite Hf, Hs. repeat split; auto.
      intros x [<-|Hx]; [|auto].
      destruct l1 as [|y l1]; simpl in Hs; inversion Hs; subst; [assumption|].
      apply (better_trans (H1 _ (or_introl eq_refl)) Hb).
    + destruct (IH b) as [b' [l1 [l2 [Hf [Hs [H1 H2]]]]]].
      destruct l1 as [|y l1]; simpl in Hs; inversion Hs; subst.
      * exists b', [], (c :: l2). rewrite Hf. repeat split; auto.
        intros x [<-|Hx]; auto.
      * exists b', (y :: c :: l1), l2. rewrite Hf. repeat split; auto.
        intros x [<-|[<-|Hx]]; [apply H1; left; reflexivity| |apply H1; right; assumption].
        apply (better_not_better (H1 _ (or_introl eq_refl)) Hb).
Qed.

End SearchFacts.

Section GenericGroupFacts.
Import PyDict ShoppingOptimizer AllocationEngineSpec.

Lemma group_by_item_inv (item_prices : list ItemPrice) (iid : Z) (ps : list ItemPrice) :
  In (iid, ps) (group_by_item item_prices) ->
  ps <> [] /\ forall p, In p ps -> item_id p = iid /\ In p item_prices.
Proof.
  unfold group_by_item. intro H. split.
  - apply (grouped_nonempty item_id item_prices []) in H; [assumption | simpl; tauto].
  - apply (grouped_Forall item_id (fun k x => item_id x = k /\ In x item_prices)) in H;
      [|simpl; tauto|auto].
    rewrite Forall_forall in H. exact H.
Qed.

Lemma group_by_item_NoDup (item_prices : list ItemPrice) :
  NoDup (keys (group_by_item item_prices)).
Proof. apply grouped_keys_NoDup. constructor. Qed.

Lemma group_by_item_complete (item_prices : list ItemPrice) (ip : ItemPrice) :
  In ip item_prices ->
  exists ps, In (item_id ip, ps) (group_by_item item_prices) /\ In ip ps.
Proof. apply grouped_complete. constructor. Qed.

Lemma candidate_stores_In (item_prices : list ItemPrice) (s : Z) :
  In s (candidate_stores item_prices) <-> exists ip, In ip item_prices /\ store_id ip = s.
Proof.
  unfold candidate_stores. rewrite sort_by_In, to_set_In, in_map_iff.
  split; intros [ip [H1 H2]]; exists ip; auto.
Qed.

Lemma candidate_stores_NoDup (item_prices : list ItemPrice) :
  NoDup (candidate_stores item_prices).
Proof.
  unfold candidate_stores.
  apply (Permutation_NoDup (l := Py.to_set (map store_id item_prices)));
    [symmetry; apply sort_by_perm | apply to_set_NoDup].
Qed.

Lemma enumeration_In (store_ids : list Z) (max_stores : Z) (c : list Z) :
  In c (enumeration store_ids max_stores) <->
  exists k, (1 <= k <= Z.to_nat max_stores)%nat /\ In c (combinations store_ids k).
Proof.
  unfold enumeration. rewrite in_flat_map. split; intros [k [H1 H2]]; exists k.
  - apply in_seq in H1. split; [lia | assumption].
  - split; [apply in_seq; lia | assumption].
Qed.

Lemma enumeration_head (s : Z) (store_ids : list Z) (max_stores : Z) :
  (1 <= max_stores)%Z ->
  exists rest, enumeration (s :: store_ids) max_stores = [s] :: rest.
Proof.
  intro H. unfold enumeration.
  destruct (Z.to_nat max_stores) as [|n] eqn:E; [lia|].
  simpl. replace (combinations store_ids 0) with [@nil Z] by (destruct store_ids; reflexivity).
  simpl. eexists. reflexivity.
Qed.

End GenericGroupFacts.

Section ExactSearchClaim.
Import PyDict ShoppingOptimizer AllocationEngineSpec.

(** The outcome of the bounded exact search under its gate. *)
Lemma exact_search_outcome_holds (item_prices : list ItemPrice) (max_stores : Z) :
  item_prices <> [] ->
  (1 <= max_stores <= 3)%Z ->
  (List.length (candidate_stores item_prices) <= 15)%nat ->
  exact_search_outcome item_prices max_stores.
Proof.
  intros Hne Hms Hlen. unfold exact_search_outcome.
  set (pbi := group_by_item item_prices).
  set (store_ids := candidate_stores item_prices).
  assert (Hcand : store_ids <> []).
  { destruct item_prices as [|ip ips]; [congruence|].
    intro E. assert (Hin : In (store_id ip) store_ids).
    { apply candidate_stores_In. exists ip. simpl. auto. }
    rewrite E in Hin. destruct Hin. }
  destruct store_ids as [|s0 ss] eqn:Es; [congruence|]. rewrite <- Es in *.
  destruct (@enumeration_head s0 ss max_stores) as [rest Hen]; [lia|].
  rewrite <- Es in Hen.
  destruct (fold_consider pbi rest [s0]) as [best [before [after [Hf [Hsplit [Hb Ha]]]]]].
  assert (Hfind : find_search pbi store_ids max_stores
                  = mkSearch (Some (cost pbi best)) (Some best)
                      (snd (fst (eval_combo pbi best))) (coverage pbi best)).
  { unfold find_search. rewrite Hen. simpl. rewrite consider_first. exact Hf. }
  assert (Henum : forall c, In c (enumeration store_ids max_stores) ->
            (1 <= List.length c <= Z.to_nat max_stores)%nat /\ NoDup c /\ incl c store_ids).
  { intros c Hc. apply enumeration_In in Hc. destruct Hc as [k [Hk Hc]].
    rewrite (combinations_length _ _ _ Hc). split; [assumption|]. split.
    - eapply combinations_NoDup; [apply (candidate_stores_NoDup item_prices) | exact Hc].
    - eapply combinations_incl; exact Hc. }
  assert (Hall : forall f : Z -> bool,
            (1 <= List.length (filter f store_ids) <= Z.to_nat max_stores)%nat ->
            In (filter f store_ids) (enumeration store_ids max_stores)).
  { intros f Hf'. apply enumeration_In. exists (List.length (filter f store_ids)).
    split; [assumption | apply combinations_filter]. }
  assert (Hbest_in : In best (enumeration store_ids max_stores)).
  { rewrite Hen, Hsplit. apply in_or_app. right. left. reflexivity. }
  assert (Hnotbetter : forall c, In c (enumeration store_ids max_stores) ->
                                 ~ better pbi c best).
  { intros c Hc. rewrite Hen, Hsplit in Hc. apply in_app_or in Hc.
    destruct Hc as [Hc|[<-|Hc]].
    - intro Hcb. specialize (Hb _ Hc). unfold better in *.
      destruct Hb as [?|[? ?]], Hcb as [?|[? ?]]; try lia. lra.
    - unfold better. intros [?|[_ ?]]; [lia | lra].
    - apply Ha, Hc. }
  exists best, before, after.
  split; [unfold _find_best_store_set; rewrite Hfind; reflexivity|].
  split.
  { unfold choose_allocation. fold pbi. fold (candidate_stores item_prices). fold store_ids.
    assert (Hgate : exact_search_gate store_ids max_stores = true).
    { unfold exact_search_gate. rewrite !andb_true_iff, !Z.leb_le, Nat.leb_le.
      fold store_ids in Hlen. lia. }
    rewrite Hgate. unfold _find_best_store_set. rewrite Hfind. simpl.
    destruct best as [|b0 bs]; [|reflexivity].
    destruct (Henum _ Hbest_in) as [[H1 _] _]. simpl in H1. lia. }
  split; [rewrite Hen, Hsplit; reflexivity|].
  split; [exact Hb|]. split; [exact Ha|]. split; [exact Henum|]. split; [exact Hall|].
  split; [intros c iid ps b _ Hbi; apply (best_in_Some _ _ Hbi)|].
  intros stores Hsz.
  set (f := fun s => Py.mem s stores).
  assert (Hmono : (coverage pbi stores <= coverage pbi (filter f store_ids))%Z).
  { apply coverage_mono. intros [iid ps] p Hkv Hp Hs. simpl in Hp.
    apply filter_In. split; [|apply mem_In, Hs].
    apply candidate_stores_In. exists p. split; [|reflexivity].
    apply (group_by_item_inv _ _ _ Hkv), Hp. }
  assert (Hsub : (List.length (filter f store_ids) <= List.length stores)%nat).
  { apply NoDup_incl_length.
    - apply NoDup_filter, candidate_stores_NoDup.
    - intros x Hx. apply filter_In in Hx. apply mem_In. tauto. }
  destruct (filter f store_ids) as [|x xs] eqn:Ef.
  - pose proof (coverage_nonneg pbi best).
    assert (coverage pbi [] = 0%Z); [|lia].
    unfold coverage. replace (filter _ pbi) with (@nil (Z * list ItemPrice)); [reflexivity|].
    symmetry. clear. induction pbi as [|kv l IH]; simpl; [reflexivity|].
    unfold covers at 1. replace (existsb _ (snd kv)) with false; [exact IH|].
    symmetry. clear. induction (snd kv); simpl; auto.
  - assert (Hin : In (x :: xs) (enumeration store_ids max_stores)).
    { rewrite <- Ef. apply Hall. rewrite Ef. simpl in *. lia. }
    specialize (Hnotbetter _ Hin). unfold better in Hnotbetter. lia.
Qed.



End ExactSearchClaim.

(* ------------------------------------------------------------------ *)
(** ** Allocation dictionaries *)
(* ------------------------------------------------------------------ *)

Section PickFacts.
Import PyDict.
Context {A B : Type}.
Variable pick : B -> option A.
Variable key : A -> Z.

(** The loop [for x in l: b = pick(x); if b: d[key(b)].append(b)]. *)
Local Notation "'file'" :=
  (fun (d : dict (list A)) (x : B) =>
     match pick x with Some b => append d (key b) b | None => d end).

Lemma file_NoDup (l : list B) (d : dict (list A)) :
  NoDup (keys d) -> NoDup (keys (fold_left file l d)).
Proof.
  intro H. apply (fold_left_inv (fun d => NoDup (keys d))); [assumption|].
  intros acc x _ Hacc. destruct (pick x); [apply append_keys_NoDup|]; assumption.
Qed.

Lemma file_sound (P : Z -> A -> Prop) (l : list B) (d : dict (list A)) :
  (forall k vs, In (k, vs) d -> vs <> [] /\ Forall (P k) vs) ->
  (forall x b, In x l -> pick x = Some b -> P (key b) b) ->
  forall k vs, In (k, vs) (fold_left file l d) -> vs <> [] /\ Forall (P k) vs.
Proof.
  intros Hd Hl.
  apply (fold_left_inv (fun d => forall k vs, In (k, vs) d -> vs <> [] /\ Forall (P k) vs));
    [assumption|].
  intros acc x Hx Hacc k vs Hin. destruct (pick x) as [b|] eqn:E; [|auto].
  split.
  - apply append_In in Hin. destruct Hin as [[_ ->]|Hin]; [|apply (Hacc _ _ Hin)].
    intro E'. apply app_eq_nil in E'. destruct E'. discriminate.
  - revert k vs Hin. apply append_Forall; [intros k vs H; apply (Hacc _ _ H) | eauto].
Qed.

Lemma file_keeps (l : list B) (d : dict (list A)) (k : Z) (vs : list A) (v : A) :
  NoDup (keys d) -> In (k, vs) d -> In v vs ->
  exists vs', In (k, vs') (fold_left file l d) /\ In v vs'.
Proof.
  revert d k vs. induction l as [|x l IH]; intros d k vs Hnd Hin Hv; simpl; [eauto|].
  destruct (pick x) as [b|]; [|eauto].
  destruct (append_keeps d (key b) k b v vs Hnd Hin Hv) as [vs' [H1 H2]].
  apply (IH _ _ _ (append_keys_NoDup _ _ _ Hnd) H1 H2).
Qed.

Lemma file_complete (l : list B) (d : dict (list A)) (x : B) (b : A) :
  NoDup (keys d) -> In x l -> pick x = Some b ->
  exists vs, In (key b, vs) (fold_left file l d) /\ In b vs.
Proof.
  revert d. induction l as [|y l IH]; intros d Hnd; simpl; [tauto|].
  intros [->|Hin] Hb.
  - rewrite Hb. destruct (append_files d (key b) b) as [vs [H1 H2]].
    eapply file_keeps; [apply append_keys_NoDup, Hnd | exact H1 | exact H2].
  - apply IH; auto. destruct (pick y); [apply append_keys_NoDup|]; assumption.
Qed.

(** The keys are keys of filed elements. *)
Lemma file_keys (l : list B) (k : Z) :
  In k (keys (fold_left file l [])) -> exists x b, In x l /\ pick x = Some b /\ key b = k.
Proof.
  apply (fold_left_inv
           (fun d => In k (keys d) -> exists x b, In x l /\ pick x = Some b /\ key b = k)).
  - simpl. tauto.
  - intros acc x Hx Hacc Hin. destruct (pick x) as [b|] eqn:E; [|auto].
    apply append_keys_In in Hin. destruct Hin as [->|Hin]; [eauto|auto].
Qed.

End PickFacts.

Section GenericAllocationFacts.
Import PyDict ShoppingOptimizer AllocationEngineSpec.

Lemma fold_left_ext {S X} (f g : S -> X -> S) (l : list X) (s : S) :
  (forall a x, f a x = g a x) -> fold_left f l s = fold_left g l s.
Proof.
  intro H. revert s. induction l as [|x l IH]; intro s; simpl; [reflexivity|].
  rewrite H. apply IH.
Qed.

(** The three loops that build an allocation file one offer per item. *)
Lemma allocate_in_file (pbi : dict (list ItemPrice)) (stores missing : list Z) :
  allocate_in pbi stores missing
  = fold_left
      (fun d (kv : Z * list ItemPrice) =>
         match (if Py.mem (fst kv) missing then None else best_in stores (snd kv)) with
         | Some b => append d (store_id b) b
         | None => d
         end) pbi [].
Proof.
  unfold allocate_in. apply fold_left_ext. intros a kv.
  destruct (Py.mem (fst kv) missing); reflexivity.
Qed.

Lemma first_pass_file (pbi : dict (list ItemPrice)) :
  fst (first_pass pbi)
  = fold_left
      (fun d (kv : Z * list ItemPrice) =>
         match hd_error (snd kv) with Some b => append d (store_id b) b | None => d end)
      pbi [].
Proof.
  unfold first_pass. generalize (@nil (Z * ItemPrice)) as ia.
  generalize (@nil (Z * list ItemPrice)) as al.
  induction pbi as [|kv l IH]; intros al ia; simpl; [reflexivity|].
  destruct (snd kv) as [|best ps]; simpl; apply IH.
Qed.

Lemma redistribute_file (top : list Z) (pbi : dict (list ItemPrice))
      (acc : dict (list ItemPrice) * dict ItemPrice * bool) :
  fst (fst (fold_left (reassign top) pbi acc))
  = fold_left
      (fun d (kv : Z * list ItemPrice) =>
         match (match best_in_top_of top (snd kv) with
                | Some b => Some b
                | None => hd_error (snd kv)
                end) with
         | Some b => append d (store_id b) b
         | None => d
         end) pbi (fst (fst acc)).
Proof.
  revert acc. induction pbi as [|kv l IH]; intros [[al ia] e]; simpl; [reflexivity|].
  rewrite IH. f_equal. unfold reassign.
  destruct (best_in_top_of top (snd kv)); [reflexivity|].
  destruct (snd kv); reflexivity.
Qed.

Lemma best_in_top_of_spec (top : list Z) (prices : list ItemPrice) :
  match best_in_top_of top prices with
  | Some b => In b prices /\ In (store_id b) top
  | None => forall p, In p prices -> ~ In (store_id p) top
  end.
Proof.
  unfold best_in_top_of.
  assert (H : forall l o,
    match o with Some b => In b prices /\ In (store_id b) top | None => True end ->
    incl l prices ->
    match fold_left
            (fun (b : option ItemPrice) ip =>
               if Py.mem (store_id ip) top then
                 match b with
                 | None => Some ip
                 | Some bb => if Py.Qltb (price ip) (price bb) then Some ip else b
                 end
               else b) l o with
    | Some b => In b prices /\ In (store_id b) top
    | None => o = None /\ forall p, In p l -> ~ In (store_id p) top
    end).
  { induction l as [|ip l IH]; intros o Ho Hl; simpl.
    - destruct o; [assumption | split; [reflexivity | intros p []]].
    - assert (Hip : In ip prices) by (apply Hl; left; reflexivity).
      assert (Hl' : incl l prices) by (intros x Hx; apply Hl; right; assumption).
      destruct (Py.mem (store_id ip) top) eqn:Em.
      + apply mem_In in Em.
        specialize (IH (match o with
                        | None => Some ip
                        | Some bb => if Py.Qltb (price ip) (price bb) then Some ip else o
                        end)).
        destruct (fold_left _ l _) as [b|].
        * apply IH; [|assumption]. destruct o as [bb|]; [|auto].
          destruct (Py.Qltb (price ip) (price bb)); auto.
        * exfalso. destruct IH as [E _]; [|assumption|].
          -- destruct o as [bb|]; [|auto].
             destruct (Py.Qltb (price ip) (price bb)); auto.
          -- destruct o as [bb|]; [|discriminate].
             destruct (Py.Qltb (price ip) (price bb)); discriminate.
      + apply mem_not_In in Em. specialize (IH o Ho Hl').
        destruct (fold_left _ l o) as [b|]; [assumption|].
        destruct IH as [E Hno]. split; [assumption|].
        intros p [<-|Hp]; auto. }
  specialize (H prices None I (incl_refl _)).
  destruct (fold_left _ prices None); [assumption | apply H].
Qed.

Lemma sort_prices_In (pbi : dict (list ItemPrice)) (iid : Z) (ps : list ItemPrice) :
  In (iid, ps) (sort_prices pbi) ->
  exists ps0, In (iid, ps0) pbi /\ Permutation ps ps0.
Proof.
  unfold sort_prices. intro H. apply in_map_iff in H.
  destruct H as [[k vs] [E H]]. simpl in E. inversion E. subst.
  exists vs. split; [assumption | apply sort_by_perm].
Qed.

Lemma sort_prices_In_rev (pbi : dict (list ItemPrice)) (iid : Z) (ps0 : list ItemPrice) :
  In (iid, ps0) pbi ->
  exists ps, In (iid, ps) (sort_prices pbi) /\ Permutation ps ps0.
Proof.
  intro H. exists (Py.sort_by (fun y x => Py.Qltb (price y) (price x)) ps0).
  split; [|apply sort_by_perm].
  unfold sort_prices. apply in_map_iff. exists (iid, ps0). auto.
Qed.

Lemma find_search_member (pbi : dict (list ItemPrice)) (ids : list Z) (ms : Z) (b : list Z) :
  best_set (find_search pbi ids ms) = Some b -> In b (enumeration ids ms).
Proof.
  unfold find_search. revert b.
  apply (fold_left_inv
           (fun st => forall b, best_set st = Some b -> In b (enumeration ids ms)));
    [simpl; discriminate|].
  intros st c Hc Hst b. unfold consider.
  destruct (eval_combo pbi c) as [[t m] n].
  destruct (Z.ltb (best_covered_count st) n); simpl.
  - intro E. inversion E. subst. assumption.
  - destruct (Z.eqb n (best_covered_count st) && Z.ltb 0 n); [|auto].
    destruct (best_total st) as [bt|]; simpl.
    + destruct (Py.Qltb t bt); simpl; [|auto]. intro E. inversion E. subst. assumption.
    + intro E. inversion E. subst. assumption.
Qed.

End GenericAllocationFacts.

Section GenericCapFacts.
Import PyDict ShoppingOptimizer AllocationEngineSpec.

Lemma to_set_length (l : list Z) : (List.length (Py.to_set l) <= List.length l)%nat.
Proof.
  induction l as [|x l IH]; simpl; [lia|].
  pose proof (filter_length_le (fun y => negb (Z.eqb y x)) (Py.to_set l)). lia.
Qed.

Lemma fill_top_length (ms : Z) (ranked top : list Z) :
  (Z.of_nat (List.length (fill_top ms ranked top)) <= Z.max ms (Z.of_nat (List.length top)))%Z.
Proof.
  revert top. induction ranked as [|s t IH]; intro top; simpl; [lia|].
  destruct (Z.leb_spec ms (Z.of_nat (List.length top))); [lia|].
  specialize (IH (if Py.mem s top then top else top ++ [s])).
  destruct (Py.mem s top); [lia|].
  rewrite length_app in IH. simpl in IH. lia.
Qed.

Lemma dedup_length (l acc : list Z) :
  (List.length (fold_left (fun top s => if Py.mem s top then top else top ++ [s]) l acc)
   <= List.length acc + List.length l)%nat.
Proof.
  revert acc. induction l as [|s l IH]; intro acc; simpl; [lia|].
  specialize (IH (if Py.mem s acc then acc else acc ++ [s])).
  destruct (Py.mem s acc); [lia|]. rewrite length_app in IH. simpl in IH. lia.
Qed.

(** Unless the required stores exceed the cap, at most [max_stores] stores
    are kept. *)
Lemma kept_stores_length (pbi : dict (list ItemPrice)) (ia : dict ItemPrice) (ms : Z) :
  required_exceed pbi ms = false ->
  (Z.of_nat (List.length (kept_stores pbi ia ms)) <= ms)%Z.
Proof.
  intro H. unfold kept_stores. rewrite H. unfold required_exceed in H.
  apply Z.ltb_ge in H.
  pose proof (to_set_length
                (top_stores_of (store_values pbi ia) (required_stores_of pbi) ms)) as H1.
  unfold top_stores_of in *.
  match goal with
  | H1 : (_ <= List.length (fill_top ms ?r ?t))%nat |- _ =>
      pose proof (fill_top_length ms r t) as H2;
      assert (H3 : (List.length t <= List.length (required_stores_of pbi))%nat)
  end.
  { match goal with |- (List.length (fold_left _ ?l _) <= _)%nat =>
      pose proof (dedup_length l []) as H4 end.
    rewrite sort_by_length in H4. simpl in H4. exact H4. }
  lia.
Qed.

Lemma reassign_flag (top : list Z) (pbi : dict (list ItemPrice))
      (acc : dict (list ItemPrice) * dict ItemPrice * bool) :
  snd (fold_left (reassign top) pbi acc) = false ->
  snd acc = false
  /\ forall kv b, In kv pbi ->
       match best_in_top_of top (snd kv) with
       | Some b => Some b
       | None => hd_error (snd kv)
       end = Some b ->
       In (store_id b) top.
Proof.
  revert acc. induction pbi as [|kv l IH]; intros [[al ia] e]; simpl.
  - intro H. split; [assumption | intros kv b []].
  - intro H. apply IH in H. destruct H as [He Hl].
    pose proof (best_in_top_of_spec top (snd kv)) as Hs.
    unfold reassign in He.
    destruct (best_in_top_of top (snd kv)) as [b0|] eqn:Eb.
    + simpl in He. split; [assumption|].
      intros kv' b [<-|Hin]; [|apply Hl, Hin].
      rewrite Eb. intro E. inversion E. subst. tauto.
    + destruct (snd kv) as [|best ps] eqn:Ep; simpl in He.
      * split; [assumption|]. intros kv' b [<-|Hin]; [|apply Hl, Hin].
        rewrite Ep, Eb. discriminate.
      * destruct (Py.mem (store_id best) top) eqn:Em; [|discriminate].
        split; [assumption|]. intros kv' b [<-|Hin]; [|apply Hl, Hin].
        rewrite Ep, Eb. simpl. intro E. inversion E. subst. apply mem_In, Em.
Qed.

Lemma redistribute_cap (pbi al : dict (list ItemPrice)) (ia : dict ItemPrice) (ms : Z) :
  snd (_redistribute pbi al ia ms) = false ->
  (Z.of_nat (List.length (fst (fst (_redistribute pbi al ia ms)))) <= ms)%Z.
Proof.
  unfold _redistribute. intro H. apply reassign_flag in H. simpl in H.
  destruct H as [Hover Hall].
  pose proof (@kept_stores_length pbi ia ms Hover) as Hk.
  rewrite redistribute_file. simpl.
  set (pick := fun kv : Z * list ItemPrice =>
         match best_in_top_of (kept_stores pbi ia ms) (snd kv) with
         | Some b => Some b
         | None => hd_error (snd kv)
         end) in *.
  match goal with |- (Z.of_nat (List.length ?d) <= _)%Z => set (al' := d) end.
  assert (Hnd : NoDup (keys al')).
  { apply (file_NoDup pick store_id). constructor. }
  assert (Hincl : incl (keys al') (kept_stores pbi ia ms)).
  { intros k Hkin. apply (file_keys pick store_id) in Hkin.
    destruct Hkin as [kv [b [Hkv [Hp <-]]]]. apply (Hall kv b Hkv Hp). }
  pose proof (NoDup_incl_length Hnd Hincl) as Hlen.
  unfold keys in Hlen. rewrite length_map in Hlen. lia.
Qed.

(** When the flag is not raised the allocation has at most [max_stores]
    stores. *)
Lemma choose_allocation_cap (item_prices : list ItemPrice) (ms : Z) :
  snd (choose_allocation item_prices ms) = false ->
  (Z.of_nat (List.length (fst (choose_allocation item_prices ms))) <= ms)%Z.
Proof.
  unfold choose_allocation.
  set (pbi := group_by_item item_prices).
  set (ids := Py.sort_by Z.ltb (Py.to_set (map store_id item_prices))).
  assert (Hgreedy : snd (greedy_allocation pbi ms) = false ->
            (Z.of_nat (List.length (fst (greedy_allocation pbi ms))) <= ms)%Z).
  { unfold greedy_allocation.
    destruct (first_pass (sort_prices pbi)) as [al ia].
    destruct (Z.ltb_spec ms (Z.of_nat (List.length al))) as [Hlt|Hge]; [|simpl; lia].
    pose proof (redistribute_cap (sort_prices pbi) al ia ms) as Hr.
    destruct (_redistribute (sort_prices pbi) al ia ms) as [[al' ia'] e]. simpl in *.
    exact Hr. }
  destruct (exact_search_gate ids ms) eqn:Eg; [|exact Hgreedy].
  unfold _find_best_store_set.
  destruct (best_set (find_search pbi ids ms)) as [[|s rest]|] eqn:Eb; try exact Hgreedy.
  intros _. simpl.
  apply find_search_member in Eb. apply enumeration_In in Eb.
  destruct Eb as [k [Hk Hc]].
  pose proof (combinations_length _ _ _ Hc) as Hlen.
  rewrite allocate_in_file.
  set (pick := fun kv : Z * list ItemPrice =>
         if Py.mem (fst kv) (best_missing (find_search pbi ids ms)) then None
         else best_in (s :: rest) (snd kv)).
  match goal with |- (Z.of_nat (List.length ?d) <= _)%Z => set (al' := d) end.
  assert (Hnd : NoDup (keys al')).
  { apply (file_NoDup pick store_id). constructor. }
  assert (Hincl : incl (keys al') (s :: rest)).
  { intros x Hx. apply (file_keys pick store_id) in Hx.
    destruct Hx as [kv [b [Hkv [Hp <-]]]]. unfold pick in Hp.
    destruct (Py.mem (fst kv) _); [discriminate|].
    apply best_in_Some in Hp. tauto. }
  pose proof (NoDup_incl_length Hnd Hincl) as Hl.
  unfold keys in Hl. rewrite length_map in Hl.
  unfold exact_search_gate in Eg. rewrite !andb_true_iff, !Z.leb_le in Eg.
  lia.
Qed.

End GenericCapFacts.

Section GenericSoundFacts.
Import Models PyDict ShoppingOptimizer AllocationEngineSpec.

Lemma hd_error_In {X} (l : list X) (x : X) : hd_error l = Some x -> In x l.
Proof. destruct l; simpl; [discriminate|]. intro H. inversion H. auto. Qed.

(** Every offer of the chosen allocation is an offer of [item_prices],
    filed under its store; no store has an empty list. *)
Lemma choose_allocation_sound (item_prices : list ItemPrice) (ms : Z) :
  NoDup (keys (fst (choose_allocation item_prices ms)))
  /\ forall sid its, In (sid, its) (fst (choose_allocation item_prices ms)) ->
       its <> [] /\ Forall (fun ip => store_id ip = sid /\ In ip item_prices) its.
Proof.
  unfold choose_allocation.
  set (pbi := group_by_item item_prices).
  set (ids := Py.sort_by Z.ltb (Py.to_set (map store_id item_prices))).
  assert (Hsorted : forall kv p, In kv (sort_prices pbi) -> In p (snd kv) -> In p item_prices).
  { intros [iid ps] p Hkv Hp. apply sort_prices_In in Hkv.
    destruct Hkv as [ps0 [Hin Hperm]]. simpl in Hp.
    apply (Permutation_in _ Hperm) in Hp.
    apply (group_by_item_inv _ _ _ Hin), Hp. }
  assert (Hgreedy :
    NoDup (keys (fst (greedy_allocation pbi ms)))
    /\ forall sid its, In (sid, its) (fst (greedy_allocation pbi ms)) ->
         its <> [] /\ Forall (fun ip => store_id ip = sid /\ In ip item_prices) its).
  { unfold greedy_allocation.
    pose proof (first_pass_file (sort_prices pbi)) as Hfp.
    destruct (first_pass (sort_prices pbi)) as [al ia]. simpl in Hfp.
    destruct (Z.ltb ms (Z.of_nat (List.length al))).
    - pose proof (redistribute_file (kept_stores (sort_prices pbi) ia ms) (sort_prices pbi)
                    ([], [], required_exceed (sort_prices pbi) ms)) as Hrf.
      unfold _redistribute.
      destruct (fold_left (reassign _) (sort_prices pbi) _) as [[al' ia'] e].
    simpl in *. subst al'.
      split.
      + apply (file_NoDup
                 (fun kv : Z * list ItemPrice =>
                    match best_in_top_of (kept_stores (sort_prices pbi) ia ms) (snd kv) with
                    | Some b => Some b
                    | None => hd_error (snd kv)
                    end) store_id). constructor.
      + apply (file_sound
                 (fun kv : Z * list ItemPrice =>
                    match best_in_top_of (kept_stores (sort_prices pbi) ia ms) (snd kv) with
                    | Some b => Some b
                    | None => hd_error (snd kv)
                    end) store_id
                 (fun k ip => store_id ip = k /\ In ip item_prices)); [simpl; tauto|].
        intros kv b Hkv Hp. split; [reflexivity|].
        pose proof (best_in_top_of_spec (kept_stores (sort_prices pbi) ia ms) (snd kv)) as Hs.
        destruct (best_in_top_of _ (snd kv)) as [b0|].
        * inversion Hp. subst. apply (Hsorted kv); tauto.
        * apply (Hsorted kv); [assumption | apply hd_error_In, Hp].
    - simpl. subst al. split.
      + apply (file_NoDup (fun kv : Z * list ItemPrice => hd_error (snd kv)) store_id).
        constructor.
      + apply (file_sound (fun kv : Z * list ItemPrice => hd_error (snd kv)) store_id
                 (fun k ip => store_id ip = k /\ In ip item_prices)); [simpl; tauto|].
        intros kv b Hkv Hp. split; [reflexivity|].
        apply (Hsorted kv); [assumption | apply hd_error_In, Hp]. }
  destruct (exact_search_gate ids ms); [|exact Hgreedy].
  unfold _find_best_store_set.
  destruct (best_set (find_search pbi ids ms)) as [[|s rest]|]; try exact Hgreedy.
  simpl. rewrite allocate_in_file. split.
  - apply (file_NoDup
             (fun kv : Z * list ItemPrice =>
                if Py.mem (fst kv) (best_missing (find_search pbi ids ms)) then None
                else best_in (s :: rest) (snd kv)) store_id). constructor.
  - apply (file_sound
             (fun kv : Z * list ItemPrice =>
                if Py.mem (fst kv) (best_missing (find_search pbi ids ms)) then None
                else best_in (s :: rest) (snd kv)) store_id
             (fun k ip => store_id ip = k /\ In ip item_prices)); [simpl; tauto|].
    intros [iid ps] b Hkv Hp. simpl in Hp. split; [reflexivity|].
    destruct (Py.mem iid _); [discriminate|].
    apply best_in_Some in Hp. apply (group_by_item_inv _ _ _ Hkv). tauto.
Qed.

(** Outside the exact search no item is dropped: an item that has an
    offer is allocated. *)
Lemma greedy_allocation_complete (item_prices : list ItemPrice) (ms : Z) (ip : ItemPrice) :
  In ip item_prices ->
  exists sid its ip',
    In (sid, its) (fst (greedy_allocation (group_by_item item_prices) ms))
    /\ In ip' its /\ item_id ip' = item_id ip.
Proof.
  intro Hip. set (pbi := group_by_item item_prices).
  destruct (group_by_item_complete item_prices ip Hip) as [ps0 [Hps0 Hin0]].
  destruct (sort_prices_In_rev pbi _ _ Hps0) as [ps [Hps Hperm]].
  assert (Hne : exists b t, ps = b :: t).
  { destruct ps as [|b t]; [|eauto].
    apply Permutation_nil in Hperm. subst. destruct Hin0. }
  destruct Hne as [b [t ->]].
  assert (Hb : item_id b = item_id ip).
  { assert (In b ps0) by (apply (Permutation_in _ Hperm); left; reflexivity).
    apply (group_by_item_inv _ _ _ Hps0). assumption. }
  assert (Hitem : forall p, In p (b :: t) -> item_id p = item_id ip).
  { intros p Hp. apply (Permutation_in _ Hperm) in Hp.
    apply (group_by_item_inv _ _ _ Hps0). assumption. }
  unfold greedy_allocation. fold pbi.
  pose proof (first_pass_file (sort_prices pbi)) as Hfp.
  destruct (first_pass (sort_prices pbi)) as [al ia]. simpl in Hfp.
  destruct (Z.ltb ms (Z.of_nat (List.length al))).
  - pose proof (redistribute_file (kept_stores (sort_prices pbi) ia ms) (sort_prices pbi)
                  ([], [], required_exceed (sort_prices pbi) ms)) as Hrf.
    unfold _redistribute.
    destruct (fold_left (reassign _) (sort_prices pbi) _) as [[al' ia'] e].
    simpl in *. subst al'.
    set (pick := fun kv : Z * list ItemPrice =>
           match best_in_top_of (kept_stores (sort_prices pbi) ia ms) (snd kv) with
           | Some b => Some b
           | None => hd_error (snd kv)
           end).
    assert (Hp : exists b', pick (item_id ip, b :: t) = Some b' /\ In b' (b :: t)).
    { unfold pick. simpl.
      pose proof (best_in_top_of_spec (kept_stores (sort_prices pbi) ia ms) (b :: t)) as Hs.
      destruct (best_in_top_of _ (b :: t)) as [b0|]; [exists b0; tauto|].
      exists b. simpl. auto. }
    destruct Hp as [b' [Hp Hb']].
    destruct (@file_complete _ _ pick store_id (sort_prices pbi) [] (item_id ip, b :: t) b')
      as [vs [H1 H2]]; [constructor | assumption | assumption|].
    exists (store_id b'), vs, b'. repeat split; auto.
  - simpl. subst al.
    destruct (@file_complete _ _ (fun kv : Z * list ItemPrice => hd_error (snd kv)) store_id
                (sort_prices pbi) [] (item_id ip, b :: t) b)
      as [vs [H1 H2]]; [constructor | assumption | reflexivity|].
    exists (store_id b), vs, b. auto.
Qed.

Lemma mapM_Ok {X Y} (f : X -> result Y) (l : list X) (rows : list Y) :
  mapM f l = Ok rows -> Forall2 (fun x r => f x = Ok r) l rows.
Proof.
  revert rows. induction l as [|x l IH]; intros rows; simpl.
  - intro H. inversion H. constructor.
  - destruct (f x) as [y|] eqn:E; simpl; [|discriminate].
    destruct (mapM f l) as [ys|]; simpl; [|discriminate].
    intro H. inversion H. subst. constructor; auto.
Qed.

(** [_allocation_to_result], when it returns, returns the entries of the
    allocation, reordered, each with the sum of its subtotals. *)
Lemma allocation_to_result_spec (db : DB) (al : dict (list ItemPrice))
      (allocs : list StoreAllocation) :
  (forall sid its, In (sid, its) al -> its <> []) ->
  _allocation_to_result db al = Ok allocs ->
  Permutation (map (fun a => (sa_store_id a, sa_items a)) allocs) al
  /\ forall a, In a allocs -> total a = Py.fsum (map subtotal (sa_items a)).
Proof.
  intros Hne. unfold _allocation_to_result.
  destruct (mapM _ al) as [rows|] eqn:E; simpl; [|discriminate].
  intro H. inversion H. subst allocs. clear H.
  apply mapM_Ok in E.
  assert (Hrows : map (fun a => (sa_store_id a, sa_items a)) (List.concat rows) = al
                  /\ forall a, In a (List.concat rows) ->
                       total a = Py.fsum (map subtotal (sa_items a))).
  { induction E as [|[sid its] r al rows Hf E IH]; simpl; [tauto|].
    destruct IH as [IH1 IH2]; [intros; eapply Hne; right; eassumption|].
    destruct its as [|i0 its]; [exfalso; apply (Hne sid []); [left|]; reflexivity|].
    destruct (match get_store db sid with
              | Some s => store_display_name s
              | None => Ok "Desconhecido"%string
              end) as [name|]; simpl in Hf; [|discriminate].
    inversion Hf. subst r. simpl. rewrite IH1. split; [reflexivity|].
    intros a [<-|Ha]; [reflexivity | auto]. }
  destruct Hrows as [H1 H2]. split.
  - rewrite <- H1. apply Permutation_map, sort_by_perm.
  - intros a Ha. apply H2. apply sort_by_In in Ha. exact Ha.
Qed.

End GenericSoundFacts.

(* ------------------------------------------------------------------ *)
(** ** The generic optimizer: the store cap *)
(* ------------------------------------------------------------------ *)

Section GenericCapClaim.
Import Models PyDict ShoppingOptimizer AllocationEngineSpec.

Lemma reassign_flag_true (top : list Z) (pbi : dict (list ItemPrice))
      (acc : dict (list ItemPrice) * dict ItemPrice * bool) :
  snd (fold_left (reassign top) pbi acc) = true ->
  snd acc = true \/ unplaceable pbi top.
Proof.
  revert acc. induction pbi as [|kv l IH]; intros [[al ia] e]; simpl; [auto|].
  intro H. apply IH in H. destruct H as [H|[iid [ps [Hin Hrest]]]].
  - unfold reassign in H.
    pose proof (best_in_top_of_spec top (snd kv)) as Hs.
    destruct (best_in_top_of top (snd kv)) as [b|]; [left; exact H|].
    destruct (snd kv) as [|best ps] eqn:Ep; [left; exact H|]. simpl in H.
    destruct (Py.mem (store_id best) top) eqn:Em; [left; exact H|].
    right. exists (fst kv), (best :: ps). split; [left; rewrite <- Ep; destruct kv; auto|].
    split; [discriminate | exact Hs].
  - right. exists iid, ps. split; [right; assumption | assumption].
Qed.

Lemma allocs_store_ids (allocs : list StoreAllocation) (al : dict (list ItemPrice)) :
  Permutation (map (fun a => (sa_store_id a, sa_items a)) allocs) al ->
  Permutation (map sa_store_id allocs) (keys al).
Proof.
  intro H. apply (Permutation_map fst) in H. rewrite map_map in H. exact H.
Qed.

Lemma allocs_allocates (allocs : list StoreAllocation) (al : dict (list ItemPrice)) (iid : Z) :
  Permutation (map (fun a => (sa_store_id a, sa_items a)) allocs) al ->
  (allocates allocs iid <->
   exists sid its ip, In (sid, its) al /\ In ip its /\ item_id ip = iid).
Proof.
  intro H. unfold allocates. split.
  - intros [a [ip [Ha [Hip E]]]]. exists (sa_store_id a), (sa_items a), ip.
    split; [|auto]. apply (Permutation_in _ H).
    apply (in_map (fun a => (sa_store_id a, sa_items a))), Ha.
  - intros [sid [its [ip [Hin [Hip E]]]]].
    apply (Permutation_in _ (Permutation_sym H)) in Hin. apply in_map_iff in Hin.
    destruct Hin as [a [Ea Ha]]. inversion Ea. subst. eauto.
Qed.

(** C3 (amended).  When [_optimize_allocation] returns, its allocations
    are for distinct stores.  They number at most [max_stores] whenever
    its flag [exceeded_store_limit] is not raised, which is always the case
    under the bounded exact search (there the cap is kept and the items
    left out are dropped from the allocation).  Outside the exact search no
    item that has an offer is dropped, and the flag is raised, and the cap
    may be exceeded, only when the required stores alone exceed the cap or
    when some item has no offer at any kept store. *)
Theorem optimize_allocation_cap
    (db : DB) (item_prices : list ItemPrice) (max_stores : Z)
    (allocs : list StoreAllocation) (exceeded_store_limit : bool) :
  _optimize_allocation db item_prices max_stores = Ok (allocs, exceeded_store_limit) ->
  cap_outcome item_prices max_stores allocs exceeded_store_limit.
Proof.
  unfold _optimize_allocation.
  pose proof (choose_allocation_sound item_prices max_stores) as [Hnd Hsound].
  pose proof (choose_allocation_cap item_prices max_stores) as Hcap.
  destruct (choose_allocation item_prices max_stores) as [al e] eqn:Ech. simpl in *.
  destruct (_allocation_to_result db al) as [r|] eqn:Er; simpl; [|discriminate].
  intro H. inversion H. subst r e. clear H.
  destruct (allocation_to_result_spec db al (allocs := allocs)) as [Hperm _];
    [intros sid its Hin; apply (Hsound _ _ Hin) | assumption |].
  pose proof (@allocs_store_ids allocs al Hperm) as Hids.
  unfold cap_outcome. split; [|split; [|split; [|split]]].
  - apply (Permutation_NoDup (Permutation_sym Hids) Hnd).
  - intro He. specialize (Hcap He).
    rewrite <- (length_map sa_store_id), (Permutation_length Hids).
    unfold keys. rewrite length_map. exact Hcap.
  - intros Hne Hgate.
    destruct (Z.leb_spec 1 max_stores) as [H1|H1];
      [|unfold exact_search_gate in Hgate; rewrite !andb_true_iff, !Z.leb_le in Hgate; lia].
    assert (Hout : exact_search_outcome item_prices max_stores).
    { unfold exact_search_gate in Hgate.
      rewrite !andb_true_iff, !Z.leb_le, Nat.leb_le in Hgate.
      apply exact_search_outcome_holds; [assumption | lia | tauto]. }
    destruct Hout as [best [before [after [_ [Hc _]]]]].
    rewrite Hc in Ech. inversion Ech. reflexivity.
  - intros Hgate ip Hip. apply (@allocs_allocates allocs al (item_id ip) Hperm).
    unfold choose_allocation in Ech. fold (candidate_stores item_prices) in Ech.
    rewrite Hgate in Ech.
    pose proof (greedy_allocation_complete item_prices max_stores ip Hip) as Hc.
    rewrite Ech in Hc. exact Hc.
  - intro He. subst exceeded_store_limit.
    assert (Hg : greedy_allocation (group_by_item item_prices) max_stores = (al, true)).
    { unfold choose_allocation in Ech.
      destruct (exact_search_gate _ max_stores); [|exact Ech].
      destruct (_find_best_store_set _ _ max_stores) as [[[|s rest]|] missing];
        try exact Ech. inversion Ech. }
    unfold greedy_allocation in Hg.
    destruct (first_pass (sort_prices (group_by_item item_prices))) as [al0 ia] eqn:Efp.
    simpl.
    destruct (Z.ltb max_stores (Z.of_nat (List.length al0))); [|inversion Hg].
    unfold _redistribute in Hg.
    pose proof (reassign_flag_true
                  (kept_stores (sort_prices (group_by_item item_prices)) ia max_stores)
                  (sort_prices (group_by_item item_prices))
                  ([], [], required_exceed (sort_prices (group_by_item item_prices)) max_stores))
      as Hflag.
    destruct (fold_left (reassign _) _ _) as [[al' ia'] e']. inversion Hg. subst.
    simpl in Hflag. apply Hflag. reflexivity.
Qed.

End GenericCapClaim.

Section GenericCapExamples.
Import Models PyDict ShoppingOptimizer AllocationEngineSpec.

Lemma optimize_allocation_cap_witness :
  exists allocs e,
    _optimize_allocation Fixtures.db_two_sources Fixtures.two_by_two 2 = Ok (allocs, e)
    /\ cap_outcome Fixtures.two_by_two 2 allocs e.
Proof.
  eexists. eexists. split; [vm_compute; reflexivity|].
  apply (@optimize_allocation_cap Fixtures.db_two_sources Fixtures.two_by_two 2).
  vm_compute. reflexivity.
Defined.

(** With a cap of four stores and no required store, five stores are
    allocated, and the message of the result says nothing of it. *)
Lemma optimize_cap_counterexample :
  exists r ips,
    _get_item_prices Fixtures.db_overflow 100
      (mkShoppingList 1 (Some 4%Z) (map Fixtures.item [1; 2; 3; 4; 5]%Z)) = Ok ips
    /\ optimize Fixtures.db_overflow 100 1 = Ok r
    /\ List.length (allocations r) = 5%nat
    /\ required_stores_of (group_by_item ips) = []
    /\ message r = msg_optimized 5.
Proof.
  eexists. eexists. split; [vm_compute; reflexivity|].
  split; [vm_compute; reflexivity|].
  split; [reflexivity|]. split; vm_compute; reflexivity.
Qed.

End GenericCapExamples.

(* ------------------------------------------------------------------ *)
(** ** Coverage: where every item of the list ends up *)
(* ------------------------------------------------------------------ *)

Section CoverageFacts.
Import Models PyDict AllocationEngineSpec.

Lemma optimize_allocation_sound
      (db : DB) (item_prices : list ShoppingOptimizer.ItemPrice) (ms : Z)
      (allocs : list ShoppingOptimizer.StoreAllocation) (e : bool) :
  ShoppingOptimizer._optimize_allocation db item_prices ms = Ok (allocs, e) ->
  forall a ip, In a allocs -> In ip (ShoppingOptimizer.sa_items a) ->
               In ip item_prices /\ ShoppingOptimizer.store_id ip = ShoppingOptimizer.sa_store_id a.
Proof.
  unfold ShoppingOptimizer._optimize_allocation.
  pose proof (choose_allocation_sound item_prices ms) as [Hnd Hsound].
  destruct (ShoppingOptimizer.choose_allocation item_prices ms) as [al e'].
  simpl in *.
  destruct (ShoppingOptimizer._allocation_to_result db al) as [r|] eqn:Er; simpl;
    [|discriminate].
  intro H. inversion H. subst r e'. clear H.
  destruct (allocation_to_result_spec db al (allocs := allocs)) as [Hperm _];
    [intros sid its Hin; apply (Hsound _ _ Hin) | assumption |].
  intros a ip Ha Hip.
  assert (Hin : In (ShoppingOptimizer.sa_store_id a, ShoppingOptimizer.sa_items a) al).
  { apply (Permutation_in _ Hperm).
    apply (in_map (fun a => (ShoppingOptimizer.sa_store_id a, ShoppingOptimizer.sa_items a))).
    exact Ha. }
  destruct (Hsound _ _ Hin) as [_ Hall]. rewrite Forall_forall in Hall.
  destruct (Hall ip Hip). auto.
Qed.

Lemma add_price_comparison_allocates
      (allocs : list ShoppingOptimizer.StoreAllocation)
      (all_prices : list ShoppingOptimizer.ItemPrice) (iid : Z) :
  allocates (ShoppingOptimizer._add_price_comparison allocs all_prices) iid
  <-> allocates allocs iid.
Proof.
  unfold allocates, ShoppingOptimizer._add_price_comparison. split.
  - intros [a [ip [Ha [Hip E]]]]. apply in_map_iff in Ha. destruct Ha as [a0 [<- Ha0]].
    simpl in Hip. apply in_map_iff in Hip. destruct Hip as [ip0 [<- Hip0]].
    exists a0, ip0. repeat split; auto.
    destruct (Py.max_by _ _); exact E.
  - intros [a [ip [Ha [Hip E]]]].
    eexists. eexists. split; [apply in_map, Ha|]. simpl. split.
    + apply in_map, Hip.
    + destruct (Py.max_by _ _); exact E.
Qed.

Lemma allocated_ids_spec (allocs : list ShoppingOptimizer.StoreAllocation) (iid : Z) :
  Py.mem iid
    (Py.to_set (flat_map (fun a => map ShoppingOptimizer.item_id (ShoppingOptimizer.sa_items a))
                         allocs)) = true
  <-> allocates allocs iid.
Proof.
  rewrite mem_In, to_set_In, in_flat_map. unfold allocates. split.
  - intros [a [Ha Hin]]. apply in_map_iff in Hin. destruct Hin as [ip [E Hip]]. eauto.
  - intros [a [ip [Ha [Hip E]]]]. exists a. split; [assumption|].
    apply in_map_iff. eauto.
Qed.

(** The generic optimizer: an item of the list is in an allocation or in
    [items_without_price], never in both. *)
Lemma optimize_partition (db : DB) (now id : Z) (sl : ShoppingList)
      (r : ShoppingOptimizer.OptimizationResult) :
  get_list (shopping_lists db) id = Some sl ->
  ShoppingOptimizer.optimize db now id = Ok r ->
  forall it, In it (items sl) ->
    (allocates (ShoppingOptimizer.allocations r) (item_pk it)
     <-> ~ In (item_pk it) (ShoppingOptimizer.items_without_price r)).
Proof.
  intros Hget. unfold ShoppingOptimizer.optimize. rewrite Hget.
  destruct (items sl) as [|i0 its0] eqn:Ei; [intros _ it []|].
  rewrite <- Ei. clear Ei i0 its0.
  destruct (ShoppingOptimizer._get_item_prices db now sl) as [ips|]; simpl; [|discriminate].
  destruct ips as [|ip0 ips0] eqn:Eips.
  { intro H. inversion H. subst r. simpl. intros it Hit. split.
    - intros [a [ip [[] _]]].
    - intro Hn. exfalso. apply Hn. apply in_map, Hit. }
  rewrite <- Eips. clear Eips ip0 ips0.
  destruct (ShoppingOptimizer._optimize_allocation db ips _) as [[allocs e]|] eqn:Eo;
    simpl; [|discriminate].
  intro H. inversion H. subst r. clear H. simpl.
  intros it Hit. rewrite add_price_comparison_allocates.
  pose proof (optimize_allocation_sound _ _ _ Eo) as Hsound.
  rewrite in_app_iff, !in_map_iff. split.
  - intros Hal [[it' [E Hf]]|[it' [E Hf]]]; apply filter_In in Hf; destruct Hf as [_ Hf].
    + rewrite E in Hf. apply negb_true_iff, mem_not_In in Hf. apply Hf.
      apply to_set_In. destruct Hal as [a [ip [Ha [Hip Eid]]]].
      apply in_map_iff. exists ip. split; [assumption | apply (Hsound a ip Ha Hip)].
    + rewrite E in Hf. apply andb_true_iff in Hf. destruct Hf as [Hf _].
      apply negb_true_iff in Hf. apply allocated_ids_spec in Hal. congruence.
  - intro Hn.
    destruct (Py.mem (item_pk it)
                (Py.to_set (flat_map (fun a => map ShoppingOptimizer.item_id
                                                    (ShoppingOptimizer.sa_items a)) allocs)))
      eqn:Ea; [apply allocated_ids_spec, Ea|].
    exfalso. apply Hn.
    destruct (Py.mem (item_pk it)
                (map item_pk
                   (filter (fun it => negb (Py.mem (item_pk it)
                              (Py.to_set (map ShoppingOptimizer.item_id ips))))
                           (items sl)))) eqn:Ew.
    + left. apply mem_In in Ew. apply in_map_iff in Ew. exact Ew.
    + right. exists it. split; [reflexivity|]. apply filter_In. split; [assumption|].
      rewrite Ea, Ew. reflexivity.
Qed.

(** The location-aware optimizer: an item that has an offer is in an
    allocation or in the list of items outside the selected stores, never
    in both. *)
Lemma greedy_allocate_partition
      (db : DB) (item_prices : list AppShoppingOptimizer.ItemPrice) (ms : Z)
      (ip : AppShoppingOptimizer.ItemPrice) :
  In ip item_prices ->
  (app_allocates (fst (AppShoppingOptimizer._greedy_allocate db item_prices ms))
                 (AppShoppingOptimizer.item_id ip)
   <-> ~ In (AppShoppingOptimizer.item_id ip)
            (snd (AppShoppingOptimizer._greedy_allocate db item_prices ms))).
Proof.
  intro Hip.
  assert (Hkey : In (AppShoppingOptimizer.item_id ip)
                    (keys (AppShoppingOptimizer.group_by_item item_prices))).
  { apply app_group_by_item_keys, in_map, Hip. }
  destruct (keys (AppShoppingOptimizer.store_item_best_of
                    (AppShoppingOptimizer.group_by_item item_prices))) as [|c cs] eqn:Ec.
  { unfold AppShoppingOptimizer._greedy_allocate. rewrite Ec. simpl. split.
    - intros [a [p [[] _]]].
    - intro Hn. contradiction. }
  destruct (greedy_allocate_shape db item_prices ms) as [Hperm Hout];
    [rewrite Ec; discriminate|].
  rewrite Hout.
  pose proof (place_items_sound
                (fst (AppShoppingOptimizer.greedy_select item_prices ms))
                (snd (AppShoppingOptimizer.greedy_select item_prices ms))
                (greedy_select_keyed item_prices ms)
                (keys (AppShoppingOptimizer.group_by_item item_prices)))
    as [Hnd [Hal Hno]].
  pose proof (place_items_complete
                (fst (AppShoppingOptimizer.greedy_select item_prices ms))
                (snd (AppShoppingOptimizer.greedy_select item_prices ms))
                (greedy_select_keyed item_prices ms)
                (keys (AppShoppingOptimizer.group_by_item item_prices))
                (AppShoppingOptimizer.item_id ip) Hkey) as Hcomp.
  unfold app_allocates. split.
  - intros [a [p [Ha [Hp E]]]] Hin.
    apply (Permutation_in _ Hperm) in Ha. apply in_map_iff in Ha.
    destruct Ha as [[sid its] [<- Hkv]]. simpl in Hp.
    destruct (Hal _ _ Hkv) as [Hsel Hits]. destruct (Hits _ Hp) as [Hs [_ Hg]].
    destruct (Hno _ Hin) as [_ Hnot]. rewrite E in Hg.
    apply (Hnot _ Hg). rewrite Hs. exact Hsel.
  - intro Hn. destruct Hcomp as [Ho|[sid [its [p [Hkv [Hp E]]]]]]; [contradiction|].
    exists (AppShoppingOptimizer.store_allocation db (sid, its)), p.
    split; [|split; [exact Hp | exact E]].
    apply (Permutation_in _ (Permutation_sym Hperm)).
    apply in_map, Hkv.
Qed.

End CoverageFacts.

Section CoverageClaim.
Import Models PyDict AllocationEngineSpec.

(** C1 (amended).  In every run of the generic list optimizer each item
    of the list appears in exactly one of: some allocation, or
    [items_without_price]; its result has no list of items outside the
    selected stores, and an item that has a fresh price only at stores not
    selected under the cap is reported in [items_without_price].  In the
    location-aware optimizer [_greedy_allocate] puts each item that has a
    fresh price in exactly one of: some allocation, or its list of items
    outside the selected stores. *)
Theorem coverage_partition :
  (forall (db : DB) (now id : Z) (sl : ShoppingList)
          (r : ShoppingOptimizer.OptimizationResult),
      get_list (shopping_lists db) id = Some sl ->
      ShoppingOptimizer.optimize db now id = Ok r ->
      forall it, In it (items sl) ->
        (allocates (ShoppingOptimizer.allocations r) (item_pk it)
         <-> ~ In (item_pk it) (ShoppingOptimizer.items_without_price r)))
  /\ (forall (db : DB) (item_prices : list AppShoppingOptimizer.ItemPrice) (ms : Z)
             (ip : AppShoppingOptimizer.ItemPrice),
        In ip item_prices ->
        (app_allocates (fst (AppShoppingOptimizer._greedy_allocate db item_prices ms))
                       (AppShoppingOptimizer.item_id ip)
         <-> ~ In (AppShoppingOptimizer.item_id ip)
                  (snd (AppShoppingOptimizer._greedy_allocate db item_prices ms)))).
Proof.
  split; [exact optimize_partition | exact greedy_allocate_partition].
Qed.

Lemma coverage_partition_witness :
  exists r,
    ShoppingOptimizer.optimize Fixtures.db_two_sources 100 1 = Ok r
    /\ (allocates (ShoppingOptimizer.allocations r) 1
        <-> ~ In 1%Z (ShoppingOptimizer.items_without_price r)).
Proof.
  eexists. split; [vm_compute; reflexivity|].
  apply (proj1 coverage_partition Fixtures.db_two_sources 100%Z 1%Z
           (mkShoppingList 1 (Some 1%Z) (map Fixtures.item [1; 2]%Z)) _
           eq_refl eq_refl (Fixtures.item 1)).
  simpl. auto.
Defined.

(** Item 2 has a fresh price, at store 2 only; under the cap of one store
    it is in no allocation and is listed in [items_without_price]. *)
Lemma coverage_counterexample :
  exists r ips,
    ShoppingOptimizer._get_item_prices Fixtures.db_two_sources 100
      (mkShoppingList 1 (Some 1%Z) (map Fixtures.item [1; 2]%Z)) = Ok ips
    /\ ShoppingOptimizer.optimize Fixtures.db_two_sources 100 1 = Ok r
    /\ In 2%Z (map ShoppingOptimizer.item_id ips)
    /\ In 2%Z (ShoppingOptimizer.items_without_price r)
    /\ flat_map (fun a => map ShoppingOptimizer.item_id (ShoppingOptimizer.sa_items a))
                (ShoppingOptimizer.allocations r) = [1%Z].
Proof.
  eexists. eexists. split; [vm_compute; reflexivity|].
  split; [vm_compute; reflexivity|].
  split; [simpl; auto|]. split; [simpl; auto | reflexivity].
Qed.

End CoverageClaim.

(* ------------------------------------------------------------------ *)
(** ** Savings *)
(* ------------------------------------------------------------------ *)

Section SavingsClaim.
Import Models ShoppingOptimizer.

(** C2.  [optimize] does not clamp [savings]: on the list of
    [Fixtures.db_dearer] (five items, a cap of four stores, store 6 selling
    everything for 10.00 in total) the redistribution allocates for 104.00
    and the result has [savings = -94] and [savings_percent = -940]. *)
Theorem optimize_savings_unclamped :
  exists r,
    optimize Fixtures.db_dearer 100 1 = Ok r
    /\ success r = true
    /\ (total_cost r == 104)%Q
    /\ (total_if_single_store r == 10)%Q
    /\ (savings r == -94)%Q
    /\ (savings_percent r == -940)%Q
    /\ ~ (savings r == Qmax 0 (total_if_single_store r - total_cost r))%Q.
Proof.
  eexists. split; [vm_compute; reflexivity|].
  split; [reflexivity|].
  repeat split; try (vm_compute; reflexivity).
  vm_compute. discriminate.
Qed.

End SavingsClaim.

(* ------------------------------------------------------------------ *)
(** ** Sums of subtotals *)
(* ------------------------------------------------------------------ *)

Section SumFacts.
Local Open Scope Q_scope.

Lemma fold_Qplus (l : list Q) (a : Q) : fold_left Qplus l a == a + Py.fsum l.
Proof.
  unfold Py.fsum. revert a. induction l as [|x l IH]; intro a; simpl; [lra|].
  rewrite (IH (a + x)), (IH (0 + x)). lra.
Qed.

Lemma fsum_cons (x : Q) (l : list Q) : Py.fsum (x :: l) == x + Py.fsum l.
Proof. unfold Py.fsum at 1. simpl. rewrite fold_Qplus. lra. Qed.

Lemma fsum_app (l1 l2 : list Q) : Py.fsum (l1 ++ l2) == Py.fsum l1 + Py.fsum l2.
Proof.
  induction l1 as [|x l1 IH]; simpl; [unfold Py.fsum at 2; simpl; lra|].
  rewrite !fsum_cons, IH. lra.
Qed.

Lemma fsum_perm (l1 l2 : list Q) : Permutation l1 l2 -> Py.fsum l1 == Py.fsum l2.
Proof.
  induction 1 as [|x l1 l2 _ IH|x y l|l1 l2 l3 _ IH1 _ IH2].
  - reflexivity.
  - rewrite !fsum_cons, IH. reflexivity.
  - rewrite !fsum_cons. lra.
  - rewrite IH1. exact IH2.
Qed.

Lemma fsum_nonneg (l : list Q) : (forall x, In x l -> 0 <= x) -> 0 <= Py.fsum l.
Proof.
  induction l as [|x l IH]; intro H; [unfold Py.fsum; simpl; lra|].
  rewrite fsum_cons.
  assert (0 <= x) by (apply H; left; reflexivity).
  assert (0 <= Py.fsum l) by (apply IH; intros; apply H; right; assumption).
  lra.
Qed.

(** A sum taken term by term over the same list. *)
Lemma fsum_map_le {X} (f g : X -> Q) (l : list X) :
  (forall x, In x l -> f x <= g x) -> Py.fsum (map f l) <= Py.fsum (map g l).
Proof.
  induction l as [|x l IH]; intro H; simpl; [lra|].
  rewrite !fsum_cons.
  assert (f x <= g x) by (apply H; left; reflexivity).
  assert (Py.fsum (map f l) <= Py.fsum (map g l))
    by (apply IH; intros; apply H; right; assumption).
  lra.
Qed.

Lemma fsum_map_eq {X} (f g : X -> Q) (l : list X) :
  (forall x, In x l -> f x == g x) -> Py.fsum (map f l) == Py.fsum (map g l).
Proof.
  induction l as [|x l IH]; intro H; simpl; [lra|].
  rewrite !fsum_cons, IH, (H x); [reflexivity | left; reflexivity |].
  intros; apply H; right; assumption.
Qed.

(** One term of a sum of non-negative terms is at most the sum. *)
Lemma fsum_In_le {X} (f : X -> Q) (l : list X) (x : X) :
  (forall y, In y l -> 0 <= f y) -> In x l -> f x <= Py.fsum (map f l).
Proof.
  induction l as [|y l IH]; intros Hpos Hin; [destruct Hin|].
  destruct Hin as [->|Hin]; simpl; rewrite fsum_cons.
  - assert (0 <= Py.fsum (map f l)).
    { apply fsum_nonneg. intros z Hz. apply in_map_iff in Hz.
      destruct Hz as [w [<- Hw]]. apply Hpos. right. assumption. }
    lra.
  - assert (0 <= f y) by (apply Hpos; left; reflexivity).
    assert (f x <= Py.fsum (map f l)) by (apply IH; [intros; apply Hpos; right|]; assumption).
    lra.
Qed.

End SumFacts.

Section WeightFacts.
Import PyDict.
Local Open Scope Q_scope.
Context {A : Type}.
Variable g : A -> Q.

Lemma get_or_cons_other {V} (d : dict V) (k k' : Z) (v dflt : V) :
  k <> k' -> get_or ((k', v) :: d) k dflt = get_or d k dflt.
Proof.
  intro H. unfold get_or. simpl. apply Z.eqb_neq in H. rewrite H. reflexivity.
Qed.

Lemma weight_cons (k : Z) (vs : list A) (d : dict (list A)) :
  weight g ((k, vs) :: d) == Py.fsum (map g vs) + weight g d.
Proof. unfold weight. simpl. apply fsum_cons. Qed.

Lemma weight_append (d : dict (list A)) (k : Z) (v : A) :
  weight g (append d k v) == weight g d + g v.
Proof.
  unfold append. induction d as [|[k' vs] d IH].
  - unfold get_or, weight, Py.fsum. simpl. lra.
  - simpl. destruct (Z.eqb k k') eqn:E.
    + apply Z.eqb_eq in E. subst k'. unfold get_or. simpl. rewrite Z.eqb_refl.
      rewrite !weight_cons, map_app, fsum_app. simpl. rewrite fsum_cons.
      change (Py.fsum []) with 0. lra.
    + apply Z.eqb_neq in E. rewrite get_or_cons_other by assumption.
      rewrite !weight_cons, IH. lra.
Qed.

Lemma grouped_weight (key : A -> Z) (l : list A) (d : dict (list A)) :
  weight g (grouped key l d) == weight g d + Py.fsum (map g l).
Proof.
  revert d. induction l as [|x l IH]; intro d; simpl.
  - unfold Py.fsum. simpl. lra.
  - unfold grouped in *. simpl. rewrite IH, weight_append, fsum_cons. lra.
Qed.

Lemma file_weight {B} (pick : B -> option A) (key : A -> Z) (l : list B)
      (d : dict (list A)) :
  weight g (fold_left
              (fun d x => match pick x with Some b => append d (key b) b | None => d end)
              l d)
  == weight g d
     + Py.fsum (map (fun x => match pick x with Some b => g b | None => 0 end) l).
Proof.
  revert d. induction l as [|x l IH]; intro d; simpl.
  - unfold Py.fsum. simpl. lra.
  - rewrite IH, fsum_cons. destruct (pick x); [rewrite weight_append|]; lra.
Qed.

Lemma weight_perm (d1 d2 : dict (list A)) :
  Permutation d1 d2 -> weight g d1 == weight g d2.
Proof. intro H. unfold weight. apply fsum_perm, Permutation_map, H. Qed.

Lemma weight_map_perm (f : list A -> list A) (d : dict (list A)) :
  (forall vs, Permutation (f vs) vs) ->
  weight g (map (fun kv : Z * list A => (fst kv, f (snd kv))) d) == weight g d.
Proof.
  intro H. unfold weight. rewrite map_map. apply fsum_map_eq.
  intros kv _. simpl. apply fsum_perm, Permutation_map, H.
Qed.

End WeightFacts.

(* ------------------------------------------------------------------ *)
(** ** The single-store baseline *)
(* ------------------------------------------------------------------ *)

Section BaselineFacts.
Import PyDict BaselineSpec.
Local Open Scope Q_scope.
Context {ItemPrice : Type}.
Variables (store_id item_id : ItemPrice -> Z) (subtotal : ItemPrice -> Q).

Local Notation "'store_items_of' l" :=
  (fold_left (fun d ip => set_add d (store_id ip) (item_id ip)) l [])
  (at level 10).

(** [store_items[s]] is the set of the items that store [s] offers. *)
Lemma store_items_get (l : list ItemPrice) (s : Z) :
  match get (store_items_of l) s with
  | Some items =>
      (exists ip, In ip l /\ store_id ip = s)
      /\ forall x, In x items <-> exists ip, In ip l /\ store_id ip = s /\ item_id ip = x
  | None => forall ip, In ip l -> store_id ip <> s
  end.
Proof.
  induction l as [|q l IH] using rev_ind; [simpl; tauto|].
  rewrite fold_left_app. simpl.
  set (d := store_items_of l) in *.
  unfold set_add. cbv zeta.
  destruct (Z.eq_dec s (store_id q)) as [->|Hne].
  - rewrite get_put_same. split; [exists q; rewrite in_app_iff; simpl; auto|].
    intro x.
    assert (Hold : forall y, In y (get_or d (store_id q) []) <->
              exists ip, In ip l /\ store_id ip = store_id q /\ item_id ip = y).
    { intro y. unfold get_or. destruct (get d (store_id q)) as [w|].
      - apply IH.
      - split; [intros []|]. intros [ip [Hip [Hs _]]]. exfalso. apply (IH ip Hip Hs). }
    destruct (Py.mem (item_id q) (get_or d (store_id q) [])) eqn:Em.
    + apply mem_In in Em. rewrite Hold. split.
      * intros [ip [Hip H]]. exists ip. rewrite in_app_iff. auto.
      * intros [ip [Hip [Hs Hi]]]. apply in_app_or in Hip.
        destruct Hip as [Hip|[<-|[]]]; [eauto|].
        subst x. apply Hold, Em.
    + rewrite in_app_iff, Hold. simpl. split.
      * intros [[ip [Hip H]]|[<-|[]]].
        -- exists ip. rewrite in_app_iff. auto.
        -- exists q. rewrite in_app_iff. simpl. auto.
      * intros [ip [Hip [Hs Hi]]]. apply in_app_or in Hip.
        destruct Hip as [Hip|[<-|[]]]; [left; eauto | right; left; assumption].
  - rewrite get_put_other by assumption.
    destruct (get d s) as [items|].
    + destruct IH as [[ip [Hip Hs]] Hx]. split.
      * exists ip. rewrite in_app_iff. auto.
      * intro x. rewrite Hx. split.
        -- intros [ip' [Hip' H]]. exists ip'. rewrite in_app_iff. auto.
        -- intros [ip' [Hip' [Hs' Hi]]]. apply in_app_or in Hip'.
           destruct Hip' as [Hip'|[<-|[]]]; [eauto | congruence].
    + intros ip Hip. apply in_app_or in Hip.
      destruct Hip as [Hip|[<-|[]]]; [auto | congruence].
Qed.

Lemma store_items_NoDup (l : list ItemPrice) : NoDup (keys (store_items_of l)).
Proof.
  apply (fold_left_inv (fun d => NoDup (keys d))); [constructor|].
  intros acc x _ H. unfold set_add. apply keys_put_NoDup, H.
Qed.

Lemma add_get_or (d : dict Q) (k k' : Z) (x : Q) :
  get_or (add d k x) k' 0 = if Z.eqb k' k then get_or d k 0 + x else get_or d k' 0.
Proof.
  unfold add, get_or at 1. destruct (Z.eqb_spec k' k) as [->|Hne].
  - rewrite get_put_same. reflexivity.
  - rewrite get_put_other by assumption. reflexivity.
Qed.

Section Totals.
Variable complete : list Z.

Local Notation "'store_totals_of' l" :=
  (fold_left
     (fun d ip =>
        if Py.mem (store_id ip) complete then add d (store_id ip) (subtotal ip) else d)
     l [])
  (at level 10).

Lemma store_totals_get (l : list ItemPrice) (s : Z) :
  In s complete ->
  get_or (store_totals_of l) s 0 == store_total store_id subtotal l s.
Proof.
  intro Hs. unfold store_total.
  induction l as [|q l IH] using rev_ind; [reflexivity|].
  rewrite fold_left_app, filter_app, map_app, fsum_app. simpl.
  destruct (Z.eqb_spec (store_id q) s) as [E|Hne].
  - subst s. apply mem_In in Hs. rewrite Hs, add_get_or, Z.eqb_refl, IH. simpl.
    rewrite fsum_cons. change (Py.fsum []) with 0. lra.
  - destruct (Py.mem (store_id q) complete).
    + rewrite add_get_or. apply not_eq_sym in Hne. apply Z.eqb_neq in Hne.
      rewrite Hne, IH. simpl. change (Py.fsum []) with 0. lra.
    + rewrite IH. simpl. change (Py.fsum []) with 0. lra.
Qed.

Lemma store_totals_nonempty (l : list ItemPrice) (ip : ItemPrice) :
  In ip l -> In (store_id ip) complete -> store_totals_of l <> [].
Proof.
  intros Hip Hc.
  assert (H : In (store_id ip) (keys (store_totals_of l))).
  { revert Hip. induction l as [|q l IH] using rev_ind; [intros []|].
    intro Hin. rewrite fold_left_app. simpl. apply in_app_or in Hin.
    destruct Hin as [Hin|[<-|[]]].
    - destruct (Py.mem (store_id q) complete); [|auto].
      unfold add. apply keys_put_In. auto.
    - apply mem_In in Hc. rewrite Hc. unfold add. apply keys_put_In. auto. }
  intro E. rewrite E in H. destruct H.
Qed.

End Totals.

Lemma sells_all_iff (l : list ItemPrice) (s : Z) :
  sells_all store_id item_id l s = true
  <-> (exists ip, In ip l /\ store_id ip = s)
      /\ forall ip, In ip l ->
           exists ip', In ip' l /\ store_id ip' = s /\ item_id ip' = item_id ip.
Proof.
  unfold sells_all. rewrite andb_true_iff, existsb_exists, forallb_forall.
  split; intros [[ip0 [H0 E0]] Hall]; (split; [exists ip0; split; [assumption|]|]).
  - apply Z.eqb_eq, E0.
  - intros ip Hip. specialize (Hall ip Hip). apply existsb_exists in Hall.
    destruct Hall as [ip' [H1 H2]]. apply andb_true_iff in H2. destruct H2 as [H2 H3].
    apply Z.eqb_eq in H2, H3. eauto.
  - apply Z.eqb_eq, E0.
  - intros ip Hip. destruct (Hall ip Hip) as [ip' [H1 [H2 H3]]].
    apply existsb_exists. exists ip'. split; [assumption|].
    apply andb_true_iff. split; apply Z.eqb_eq; assumption.
Qed.

(** The stores that the code finds complete are the stores that sell
    every item. *)
Lemma complete_stores_spec (l : list ItemPrice) (s : Z) :
  In s (map fst (filter (fun kv : Z * list Z =>
                           Py.set_eqb (snd kv) (Py.to_set (map item_id l)))
                        (store_items_of l)))
  <-> sells_all store_id item_id l s = true.
Proof.
  pose proof (store_items_get l s) as Hget.
  rewrite in_map_iff, sells_all_iff. split.
  - intros [[s' items] [E Hin]]. simpl in E. subst s'.
    apply filter_In in Hin. destruct Hin as [Hin Heq]. simpl in Heq.
    rewrite (In_get _ _ _ (store_items_NoDup l) Hin) in Hget.
    destruct Hget as [Hex Hx]. split; [assumption|].
    intros ip Hip. rewrite set_eqb_spec in Heq.
    assert (Hi : In (item_id ip) items).
    { apply Heq, to_set_In, in_map, Hip. }
    apply Hx in Hi. destruct Hi as [ip' [H1 [H2 H3]]]. eauto.
  - intros [[ip0 [Hip0 Hs0]] Hall].
    destruct (get (store_items_of l) s) as [items|] eqn:Eg;
      [|exfalso; apply (Hget ip0 Hip0 Hs0)].
    destruct Hget as [_ Hx].
    exists (s, items). split; [reflexivity|]. apply filter_In.
    split; [apply get_Some_In, Eg|]. simpl. apply set_eqb_spec. intro x.
    rewrite Hx, to_set_In, in_map_iff. split.
    + intros [ip [Hip [_ Hi]]]. eauto.
    + intros [ip [Hi Hip]]. destruct (Hall ip Hip) as [ip' [H1 [H2 H3]]].
      exists ip'. repeat split; auto. congruence.
Qed.

(** When some store sells every item, the baseline is the total of the
    offers of such a store. *)
Lemma single_store_cost_complete (l : list ItemPrice) :
  (exists s, sells_all store_id item_id l s = true) ->
  exists s, sells_all store_id item_id l s = true
            /\ Baseline.calculate_single_store_cost store_id item_id subtotal l
               == store_total store_id subtotal l s.
Proof.
  intros [s0 Hs0]. unfold Baseline.calculate_single_store_cost.
  set (complete := map fst (filter (fun kv : Z * list Z =>
                                      Py.set_eqb (snd kv) (Py.to_set (map item_id l)))
                                   (store_items_of l))).
  assert (Hc0 : In s0 complete) by (apply complete_stores_spec, Hs0).
  destruct complete as [|c cs] eqn:Ec; [destruct Hc0|]. rewrite <- Ec in *.
  cbv zeta.
  apply sells_all_iff in Hs0. destruct Hs0 as [[ip0 [Hip0 Hst0]] _].
  pose proof (store_totals_nonempty complete l ip0 Hip0) as Hne.
  rewrite Hst0 in Hne. specialize (Hne Hc0).
  pose proof (store_totals_get complete l) as Hget.
  match type of Hne with ?d <> _ => set (totals := d) in * end.
  destruct totals as [|t0 ts] eqn:Et; [congruence|]. rewrite <- Et in *.
  destruct (Py.min_by (fun x => x) (map (fun s => get_or totals s 0) complete))
    as [m|] eqn:Em.
  - apply min_by_Some in Em. destruct Em as [Hin _]. apply in_map_iff in Hin.
    destruct Hin as [s [<- Hs]]. exists s. split; [apply complete_stores_spec, Hs|].
    apply Hget, Hs.
  - apply min_by_None in Em. rewrite Ec in Em. discriminate.
Qed.

Lemma fsum_filter (f : ItemPrice -> bool) (l : list ItemPrice) :
  Py.fsum (map subtotal (filter f l))
  == Py.fsum (map (fun x => if f x then subtotal x else 0) l).
Proof.
  induction l as [|x l IH]; simpl; [reflexivity|].
  destruct (f x); simpl; rewrite ?fsum_cons, IH; lra.
Qed.

(** A regrouping [d] of the offers [l], and one amount per group that is
    nothing or at most an offer of store [s] in the group: the amounts add
    up to at most the total of store [s]. *)
Lemma cover_le_store_total (l : list ItemPrice) (d : dict (list ItemPrice))
      (pick : Z * list ItemPrice -> Q) (s : Z) :
  (forall ip, In ip l -> 0 <= subtotal ip) ->
  (forall g : ItemPrice -> Q, weight g d == Py.fsum (map g l)) ->
  (forall kv p, In kv d -> In p (snd kv) -> In p l) ->
  (forall kv, In kv d ->
     pick kv == 0
     \/ exists p, In p (snd kv) /\ store_id p = s /\ pick kv <= subtotal p) ->
  Py.fsum (map pick d) <= store_total store_id subtotal l s.
Proof.
  intros Hpos Hw Hin Hpick. unfold store_total.
  rewrite fsum_filter,
    <- (Hw (fun x => if Z.eqb (store_id x) s then subtotal x else 0)).
  unfold weight. apply fsum_map_le. intros kv Hkv.
  rewrite <- fsum_filter.
  destruct (Hpick kv Hkv) as [E|[p [Hp [Hs Hle]]]].
  - rewrite E. apply fsum_nonneg. intros x Hx. apply in_map_iff in Hx.
    destruct Hx as [y [<- Hy]]. apply filter_In in Hy.
    apply Hpos, (Hin kv); tauto.
  - apply Qle_trans with (subtotal p); [assumption|].
    apply fsum_In_le.
    + intros y Hy. apply filter_In in Hy. apply Hpos, (Hin kv); tauto.
    + apply filter_In. split; [assumption | apply Z.eqb_eq, Hs].
Qed.

End BaselineFacts.

Section WellFormedFacts.
Import BaselineSpec.
Local Open Scope Q_scope.
Context {ItemPrice : Type}.
Variables (item_id : ItemPrice -> Z) (price quantity subtotal : ItemPrice -> Q).
Variable l : list ItemPrice.
Hypothesis Hwf : well_formed item_id price quantity subtotal l = true.

Lemma well_formed_spec (ip : ItemPrice) :
  In ip l ->
  subtotal ip == price ip * quantity ip /\ 0 <= price ip /\ 0 <= quantity ip
  /\ forall ip', In ip' l -> item_id ip' = item_id ip -> quantity ip' == quantity ip.
Proof.
  intro Hip. unfold well_formed in Hwf. rewrite forallb_forall in Hwf.
  specialize (Hwf ip Hip). rewrite !andb_true_iff in Hwf.
  destruct Hwf as [[[H1 H2] H3] H4].
  apply Qeq_bool_iff in H1. apply Qle_bool_iff in H2, H3.
  repeat split; try assumption.
  intros ip' Hip' E. rewrite forallb_forall in H4. specialize (H4 ip' Hip').
  apply orb_true_iff in H4. destruct H4 as [H4|H4].
  - apply negb_true_iff, Z.eqb_neq in H4. contradiction.
  - apply Qeq_bool_iff, H4.
Qed.

Lemma well_formed_nonneg (ip : ItemPrice) : In ip l -> 0 <= subtotal ip.
Proof.
  intro Hip. destruct (well_formed_spec ip Hip) as [E [Hp [Hq _]]].
  rewrite E. apply Qmult_le_0_compat; assumption.
Qed.

(** Within one item, a lower price is a lower subtotal. *)
Lemma well_formed_le (b p : ItemPrice) :
  In b l -> In p l -> item_id b = item_id p -> price b <= price p ->
  subtotal b <= subtotal p.
Proof.
  intros Hb Hp E Hle.
  destruct (well_formed_spec b Hb) as [Eb [_ [Hq _]]].
  destruct (well_formed_spec p Hp) as [Ep [_ [_ Hsame]]].
  rewrite Eb, Ep, <- (Hsame b Hb E).
  apply Qmult_le_compat_r; assumption.
Qed.

End WellFormedFacts.

Section SortedFacts.
Local Open Scope Q_scope.
Context {A : Type}.
Variable key : A -> Q.

Local Notation "'by_key'" := (fun y x : A => Py.Qltb (key y) (key x)).

Lemma insert_by_sorted (x : A) (l : list A) :
  (forall pre y t, l = pre ++ y :: t -> forall z, In z t -> key y <= key z) ->
  forall pre y t, Py.insert_by by_key x l = pre ++ y :: t ->
                  forall z, In z t -> key y <= key z.
Proof.
  induction l as [|w l IH]; intros Hl pre y t; simpl.
  - destruct pre as [|p0 pre]; simpl; intro H; inversion H; subst; [intros z []|].
    destruct pre; discriminate.
  - destruct (Py.Qltb (key w) (key x)) eqn:E.
    + apply Qltb_lt in E. destruct pre as [|p0 pre]; simpl; intro H; inversion H; subst.
      * intros z Hz. apply (Permutation_in _ (insert_by_perm _ x l)) in Hz.
        destruct Hz as [->|Hz]; [lra | apply (Hl [] y l eq_refl z Hz)].
      * apply (IH (fun pre' y' t' E' => Hl (p0 :: pre') y' t' (f_equal (cons p0) E'))
                  pre y t); assumption.
    + apply Qltb_ge in E. destruct pre as [|p0 pre]; simpl; intro H; inversion H; subst.
      * intros z [->|Hz]; [assumption|].
        apply Qle_trans with (key w); [assumption | apply (Hl [] w l eq_refl z Hz)].
      * apply (Hl pre y t); assumption.
Qed.

Lemma sort_by_sorted (l : list A) (pre : list A) (y : A) (t : list A) :
  Py.sort_by by_key l = pre ++ y :: t -> forall z, In z t -> key y <= key z.
Proof.
  revert pre y t. induction l as [|x l IH]; intros pre y t; simpl.
  - destruct pre; discriminate.
  - apply insert_by_sorted. exact IH.
Qed.

(** The head of a sorted list has the least key. *)
Lemma sort_by_head (l : list A) (b : A) (rest : list A) :
  Py.sort_by by_key l = b :: rest -> forall z, In z l -> key b <= key z.
Proof.
  intros H z Hz. apply (Permutation_in _ (Permutation_sym (sort_by_perm by_key l))) in Hz.
  rewrite H in Hz. destruct Hz as [->|Hz]; [lra|].
  apply (@sort_by_sorted l [] b rest H z Hz).
Qed.

End SortedFacts.

(* ------------------------------------------------------------------ *)
(** ** The single-store baseline against the allocation *)
(* ------------------------------------------------------------------ *)

Section GenericBaselineFacts.
Import PyDict ShoppingOptimizer AllocationEngineSpec BaselineSpec.
Local Open Scope Q_scope.

Lemma filter_all {X} (f : X -> bool) (l : list X) :
  (forall x, In x l -> f x = true) -> filter f l = l.
Proof.
  induction l as [|x l IH]; intro H; simpl; [reflexivity|].
  rewrite (H x (or_introl eq_refl)), IH; [reflexivity|].
  intros y Hy. apply H. right. assumption.
Qed.

Lemma filter_eqb_NoDup (x : Z) (l : list Z) :
  NoDup l -> In x l -> filter (Z.eqb x) l = [x].
Proof.
  induction 1 as [|y l Hy Hnd IH]; intros Hin; [destruct Hin|]. simpl.
  destruct (Z.eqb_spec x y) as [->|Hne].
  - f_equal. clear IH Hin. induction l as [|z l IH]; [reflexivity|]. simpl.
    destruct (Z.eqb_spec y z) as [->|_].
    + exfalso. apply Hy. left. reflexivity.
    + apply IH; [intro H; apply Hy; right; assumption|].
      inversion Hnd. assumption.
  - destruct Hin as [->|Hin]; [congruence | apply IH, Hin].
Qed.

Lemma weight_nil {X} (g : X -> Q) : weight g [] == 0.
Proof. reflexivity. Qed.

Lemma cost_sum (pbi : dict (list ItemPrice)) (stores : list Z) :
  cost pbi stores
  == Py.fsum (map (fun kv : Z * list ItemPrice =>
                     match best_in stores (snd kv) with
                     | Some b => subtotal b
                     | None => 0
                     end) pbi).
Proof.
  unfold cost. induction pbi as [|kv l IH]; simpl; [reflexivity|].
  rewrite fsum_app, fsum_cons, IH. destruct (best_in stores (snd kv)); simpl.
  - rewrite fsum_cons. change (Py.fsum []) with 0. lra.
  - change (Py.fsum []) with 0. lra.
Qed.

Lemma coverage_le_length (pbi : dict (list ItemPrice)) (stores : list Z) :
  (coverage pbi stores <= Z.of_nat (List.length pbi))%Z.
Proof. unfold coverage. apply inj_le, filter_length_le. Qed.

Variable item_prices : list ItemPrice.
Variable s : Z.
Hypothesis Hwf : well_formed item_id price quantity subtotal item_prices = true.
Hypothesis Hs : sells_all store_id item_id item_prices s = true.

Local Notation "'pbi'" := (group_by_item item_prices).

(** Every group of offers holds an offer of the complete store. *)
Lemma sells_all_group (iid : Z) (ps : list ItemPrice) :
  In (iid, ps) pbi -> exists p, In p ps /\ store_id p = s.
Proof.
  intro Hin. destruct (group_by_item_inv _ _ _ Hin) as [Hne Hall].
  destruct ps as [|p0 ps']; [congruence|].
  destruct (Hall p0 (or_introl eq_refl)) as [E0 H0].
  destruct (proj1 (sells_all_iff store_id item_id item_prices s) Hs) as [_ Hs'].
  destruct (Hs' p0 H0) as [ip' [H1 [H2 H3]]].
  destruct (group_by_item_complete _ _ H1) as [ps2 [Hg Hip]].
  rewrite H3, E0 in Hg.
  assert (E : ps2 = p0 :: ps').
  { pose proof (In_get _ _ _ (group_by_item_NoDup item_prices) Hg).
    pose proof (In_get _ _ _ (group_by_item_NoDup item_prices) Hin). congruence. }
  subst ps2. eauto.
Qed.

Lemma offers_nonempty : item_prices <> [].
Proof.
  destruct (proj1 (sells_all_iff store_id item_id item_prices s) Hs) as [[ip [H _]] _].
  intro E. rewrite E in H. destruct H.
Qed.

Lemma group_weight (g : ItemPrice -> Q) : weight g pbi == Py.fsum (map g item_prices).
Proof. unfold group_by_item. rewrite grouped_weight, weight_nil. lra. Qed.

Lemma cost_complete_store :
  cost pbi [s] <= store_total store_id subtotal item_prices s.
Proof.
  rewrite cost_sum. apply cover_le_store_total with (item_id := item_id).
  - intros ip Hip. apply (well_formed_nonneg _ _ _ _ _ Hwf ip Hip).
  - apply group_weight.
  - intros [iid ps] p Hkv Hp. apply (group_by_item_inv _ _ _ Hkv), Hp.
  - intros [iid ps] Hkv. simpl. destruct (best_in [s] ps) as [b|] eqn:E;
      [right | left; reflexivity].
    apply best_in_Some in E. destruct E as [H1 [H2 _]].
    exists b. split; [assumption|]. split; [|lra].
    destruct H2 as [->|[]]. reflexivity.
Qed.

Lemma coverage_complete_store : coverage pbi [s] = Z.of_nat (List.length pbi).
Proof.
  unfold coverage. rewrite filter_all; [reflexivity|].
  intros [iid ps] Hkv. simpl. destruct (sells_all_group _ _ Hkv) as [p [Hp E]].
  unfold covers. apply existsb_exists. exists p. split; [assumption|].
  apply mem_In. left. symmetry. exact E.
Qed.

(** The exact search allocates for no more than the complete store
    charges. *)
Lemma exact_search_cost (ms : Z) :
  exact_search_outcome item_prices ms ->
  weight subtotal (fst (choose_allocation item_prices ms))
  <= store_total store_id subtotal item_prices s.
Proof.
  intro H. unfold exact_search_outcome in H. cbv zeta in H.
  destruct H as [best [before [after [_ [Hch [Hsplit [Hb [Ha [Hen [Hfil _]]]]]]]]]].
  rewrite Hch. simpl fst. rewrite allocate_in_file, file_weight, weight_nil, Qplus_0_l.
  apply Qle_trans with (cost pbi best).
  { rewrite cost_sum. apply fsum_map_le. intros [iid ps] Hkv. simpl.
    destruct (Py.mem iid _); [|lra].
    destruct (best_in best ps) as [b|] eqn:E; [|lra].
    apply best_in_Some in E. destruct E as [E _].
    apply (well_formed_nonneg _ _ _ _ _ Hwf b).
    apply (group_by_item_inv _ _ _ Hkv), E. }
  apply Qle_trans with (cost pbi [s]); [|apply cost_complete_store].
  assert (Hin : In [s] (enumeration (candidate_stores item_prices) ms)).
  { rewrite <- (@filter_eqb_NoDup s (candidate_stores item_prices)).
    - apply Hfil. rewrite filter_eqb_NoDup.
      + assert (Hbest : In best (enumeration (candidate_stores item_prices) ms)).
        { rewrite Hsplit. apply in_or_app. right. left. reflexivity. }
        destruct (Hen best Hbest) as [Hl _]. simpl. lia.
      + apply candidate_stores_NoDup.
      + apply candidate_stores_In.
        destruct (proj1 (sells_all_iff store_id item_id item_prices s) Hs) as [H _].
        exact H.
    - apply candidate_stores_NoDup.
    - apply candidate_stores_In.
      destruct (proj1 (sells_all_iff store_id item_id item_prices s) Hs) as [H _].
      exact H. }
  pose proof (coverage_le_length pbi best) as Hle.
  pose proof coverage_complete_store as Hfull.
  rewrite Hsplit in Hin. apply in_app_or in Hin. destruct Hin as [Hin|[Hin|Hin]].
  - destruct (Hb _ Hin) as [Hlt|[_ Hlt]]; [lia | lra].
  - rewrite Hin. lra.
  - destruct (Qlt_le_dec (cost pbi [s]) (cost pbi best)) as [Hlt|Hge]; [|exact Hge].
    exfalso. apply (Ha _ Hin). unfold better.
    destruct (Z.eq_dec (coverage pbi [s]) (coverage pbi best)) as [E|Hne];
      [right; auto | left; lia].
Qed.

(** Taking every item at its cheapest store costs no more than the
    complete store charges. *)
Lemma first_pass_cost :
  weight subtotal (fst (first_pass (sort_prices pbi)))
  <= store_total store_id subtotal item_prices s.
Proof.
  rewrite first_pass_file, file_weight, weight_nil, Qplus_0_l.
  apply cover_le_store_total with (item_id := item_id).
  - intros ip Hip. apply (well_formed_nonneg _ _ _ _ _ Hwf ip Hip).
  - intro g. unfold sort_prices. rewrite weight_map_perm; [apply group_weight|].
    intro vs. apply sort_by_perm.
  - intros [iid ps] p Hkv Hp. apply sort_prices_In in Hkv.
    destruct Hkv as [ps0 [Hin Hperm]]. simpl in Hp.
    apply (Permutation_in _ Hperm) in Hp. apply (group_by_item_inv _ _ _ Hin), Hp.
  - intros kv Hkv. unfold sort_prices in Hkv. apply in_map_iff in Hkv.
    destruct Hkv as [[iid ps0] [<- Hin]]. simpl.
    destruct (Py.sort_by _ ps0) as [|b rest] eqn:Es; simpl; [left; reflexivity | right].
    destruct (sells_all_group _ _ Hin) as [p [Hp Hsp]].
    destruct (group_by_item_inv _ _ _ Hin) as [_ Hall].
    assert (Hb : In b ps0).
    { apply (sort_by_In (fun y x => Py.Qltb (price y) (price x))). rewrite Es. left.
      reflexivity. }
    assert (Hps : In p (Py.sort_by (fun y x => Py.Qltb (price y) (price x)) ps0))
      by apply sort_by_In, Hp.
    rewrite Es in Hps.
    exists p. split; [exact Hps|split; [assumption|]].
    apply (well_formed_le _ _ _ _ _ Hwf); try apply Hall; try assumption.
    + destruct (Hall b Hb) as [Eb _]. destruct (Hall p Hp) as [Ep _]. congruence.
    + apply (sort_by_head price ps0 Es p Hp).
Qed.

Lemma choose_allocation_baseline (ms : Z) :
  redistributes item_prices ms = false ->
  weight subtotal (fst (choose_allocation item_prices ms))
  <= store_total store_id subtotal item_prices s.
Proof.
  intro Hr. destruct (exact_search_gate (candidate_stores item_prices) ms) eqn:Eg.
  - apply exact_search_cost, exact_search_outcome_holds.
    + apply offers_nonempty.
    + unfold exact_search_gate in Eg. rewrite !andb_true_iff in Eg. lia.
    + unfold exact_search_gate in Eg. rewrite !andb_true_iff in Eg.
      destruct Eg as [_ Eg]. apply Nat.leb_le, Eg.
  - unfold redistributes in Hr. cbv zeta in Hr. rewrite Eg in Hr. simpl in Hr.
    unfold choose_allocation. cbv zeta.
    change (Py.sort_by Z.ltb (Py.to_set (map store_id item_prices)))
      with (candidate_stores item_prices).
    rewrite Eg. unfold greedy_allocation. cbv zeta.
    pose proof first_pass_cost as Hfp.
    destruct (first_pass (sort_prices pbi)) as [al ia]. simpl in Hr, Hfp.
    rewrite Hr. exact Hfp.
Qed.

End GenericBaselineFacts.

Section GenericBaseline.
Import Models PyDict ShoppingOptimizer AllocationEngineSpec BaselineSpec.
Local Open Scope Q_scope.

(** [total_cost] is the sum of the subtotals of the allocated offers. *)
Lemma allocs_total (db : DB) (al : dict (list ItemPrice)) (allocs : list StoreAllocation)
      (item_prices : list ItemPrice) :
  (forall sid its, In (sid, its) al -> its <> []) ->
  _allocation_to_result db al = Ok allocs ->
  Py.fsum (map total (_add_price_comparison allocs item_prices)) == weight subtotal al.
Proof.
  intros Hne Hr.
  destruct (@allocation_to_result_spec db al allocs Hne Hr) as [Hperm Htot].
  unfold _add_price_comparison. rewrite map_map. simpl.
  rewrite <- (weight_perm subtotal Hperm). unfold weight. rewrite map_map. simpl.
  apply fsum_map_eq. intros a Ha. rewrite (Htot a Ha). reflexivity.
Qed.

(** Outside the redistribution, the generic optimizer spends no more
    than the single-store baseline when a store sells everything. *)
Lemma optimize_allocation_baseline
      (db : DB) (item_prices : list ItemPrice) (ms : Z)
      (allocs : list StoreAllocation) (e : bool) :
  well_formed item_id price quantity subtotal item_prices = true ->
  (exists s, sells_all store_id item_id item_prices s = true) ->
  redistributes item_prices ms = false ->
  _optimize_allocation db item_prices ms = Ok (allocs, e) ->
  Py.fsum (map total (_add_price_comparison allocs item_prices))
  <= _calculate_single_store_cost item_prices.
Proof.
  intros Hwf Hex Hr. unfold _optimize_allocation.
  pose proof (choose_allocation_sound item_prices ms) as [_ Hsound].
  destruct (single_store_cost_complete store_id item_id subtotal item_prices Hex)
    as [s [Hs Hcost]].
  pose proof (@choose_allocation_baseline item_prices s Hwf Hs ms Hr) as Hle.
  destruct (choose_allocation item_prices ms) as [al e']. simpl in *.
  destruct (_allocation_to_result db al) as [r|] eqn:Er; simpl; [|discriminate].
  intro H. inversion H. subst r e'. clear H.
  rewrite (@allocs_total db al allocs item_prices
             (fun sid its Hin => proj1 (Hsound sid its Hin)) Er).
  unfold _calculate_single_store_cost. rewrite Hcost. exact Hle.
Qed.

End GenericBaseline.

Section StoreItemBestFacts.
Import PyDict AppShoppingOptimizer.

Lemma get_or_put {V} (d : dict V) (k k' : Z) (v dflt : V) :
  get_or (put d k v) k' dflt = if Z.eqb k' k then v else get_or d k' dflt.
Proof.
  unfold get_or. destruct (Z.eqb_spec k' k) as [->|Hne].
  - rewrite get_put_same. reflexivity.
  - rewrite get_put_other by assumption. reflexivity.
Qed.

(** Store [st] keeps an offer for item [iid]. *)
Local Notation "'kept' sib st iid" :=
  (exists c : ItemPrice, get (get_or sib st []) iid = Some c)
  (at level 10, sib at level 9, st at level 9, iid at level 9).

Lemma keep_best_kept (k : Z) (sib : dict (dict ItemPrice)) (p : ItemPrice) (st iid : Z) :
  kept sib st iid -> kept (keep_best_at_store k sib p) st iid.
Proof.
  intros [c Hc]. unfold keep_best_at_store. cbv zeta.
  assert (Hput : kept (put sib (store_id p) (put (get_or sib (store_id p) []) k p)) st iid).
  { rewrite get_or_put. destruct (Z.eqb_spec st (store_id p)) as [->|_]; [|eauto].
    destruct (Z.eq_dec iid k) as [->|Hne].
    - rewrite get_put_same. eauto.
    - rewrite get_put_other by assumption. eauto. }
  destruct (get (get_or sib (store_id p) []) k) as [prev|]; [|exact Hput].
  destruct (Py.Qltb (price p) (price prev)); [exact Hput | eauto].
Qed.

Lemma keep_best_sets (k : Z) (sib : dict (dict ItemPrice)) (p : ItemPrice) :
  kept (keep_best_at_store k sib p) (store_id p) k.
Proof.
  unfold keep_best_at_store. cbv zeta.
  assert (Hput : kept (put sib (store_id p) (put (get_or sib (store_id p) []) k p))
                      (store_id p) k).
  { rewrite get_or_put, Z.eqb_refl, get_put_same. eauto. }
  destruct (get (get_or sib (store_id p) []) k) as [prev|] eqn:E; [|exact Hput].
  destruct (Py.Qltb (price p) (price prev)); [exact Hput | eauto].
Qed.

Lemma keep_best_NoDup (k : Z) (sib : dict (dict ItemPrice)) (p : ItemPrice) :
  (forall st, NoDup (keys (get_or sib st []))) ->
  forall st, NoDup (keys (get_or (keep_best_at_store k sib p) st [])).
Proof.
  intros H st. unfold keep_best_at_store. cbv zeta.
  assert (Hput : NoDup (keys (get_or (put sib (store_id p)
                                        (put (get_or sib (store_id p) []) k p)) st []))).
  { rewrite get_or_put. destruct (Z.eqb st (store_id p)); [|apply H].
    apply keys_put_NoDup, H. }
  destruct (get (get_or sib (store_id p) []) k) as [prev|]; [|exact Hput].
  destruct (Py.Qltb (price p) (price prev)); [exact Hput | apply H].
Qed.

Lemma fold_keep_kept (k : Z) (l : list ItemPrice) (sib : dict (dict ItemPrice))
      (st iid : Z) :
  kept sib st iid -> kept (fold_left (keep_best_at_store k) l sib) st iid.
Proof.
  revert sib. induction l as [|p l IH]; intros sib H; simpl; [exact H|].
  apply IH, keep_best_kept, H.
Qed.

Lemma fold_keep_sets (k : Z) (l : list ItemPrice) (sib : dict (dict ItemPrice))
      (p : ItemPrice) :
  In p l -> kept (fold_left (keep_best_at_store k) l sib) (store_id p) k.
Proof.
  revert sib. induction l as [|q l IH]; intros sib; simpl; [tauto|].
  intros [->|Hin]; [apply fold_keep_kept, keep_best_sets | apply IH, Hin].
Qed.

(** Every offer has an entry for its item at its store. *)
Lemma store_item_best_complete (pbi : dict (list ItemPrice)) (iid : Z)
      (ps : list ItemPrice) (p : ItemPrice) :
  In (iid, ps) pbi -> In p ps -> kept (store_item_best_of pbi) (store_id p) iid.
Proof.
  unfold store_item_best_of. generalize (@nil (Z * dict ItemPrice)) as sib.
  induction pbi as [|kv l IH]; intros sib; simpl; [tauto|].
  intros [->|Hin] Hp.
  - simpl.
    assert (H : kept (fold_left (keep_best_at_store iid) ps sib) (store_id p) iid)
      by apply fold_keep_sets, Hp.
    revert H. generalize (fold_left (keep_best_at_store iid) ps sib) as sib'.
    clear IH. induction l as [|kv' l IH]; intros sib' H; simpl; [exact H|].
    apply IH, fold_keep_kept, H.
  - apply IH; assumption.
Qed.

Lemma store_item_best_NoDup (pbi : dict (list ItemPrice)) (st : Z) :
  NoDup (keys (get_or (store_item_best_of pbi) st [])).
Proof.
  revert st. unfold store_item_best_of.
  apply (fold_left_inv (fun sib => forall st, NoDup (keys (get_or sib st [])))).
  - intro st. constructor.
  - intros sib kv _ Hsib.
    apply (fold_left_inv (fun sib => forall st, NoDup (keys (get_or sib st []))));
      [exact Hsib|].
    intros acc p _ Hacc. apply keep_best_NoDup, Hacc.
Qed.

(** An entry kept for an item at a store is an offer of the item there. *)
Lemma store_item_best_get (pbi : dict (list ItemPrice)) (st iid : Z) (c : ItemPrice) :
  get (get_or (store_item_best_of pbi) st []) iid = Some c ->
  store_id c = st /\ exists ps, In (iid, ps) pbi /\ In c ps.
Proof.
  intro H.
  destruct (get_or_cases (store_item_best_of pbi) st []) as [[_ E]|[m [_ [E Hm]]]];
    rewrite E in H; [discriminate|].
  apply (store_item_best_inv _ _ _ _ _ Hm (get_Some_In _ _ H)).
Qed.

End StoreItemBestFacts.

Section MergeFacts.
Import PyDict AppShoppingOptimizer.

(** The running best after a store is merged in: the cheaper of the two
    offers, the running one on a tie. *)
Lemma merge_fold_get (m bbi : dict ItemPrice) (iid : Z) :
  NoDup (keys m) ->
  get (fold_left merge_item m bbi) iid
  = match get bbi iid, get m iid with
    | Some c, Some d => if Py.Qltb (price d) (price c) then Some d else Some c
    | Some c, None => Some c
    | None, Some d => Some d
    | None, None => None
    end.
Proof.
  revert bbi. induction m as [|[k c] m IH]; intros bbi Hnd; simpl.
  - destruct (get bbi iid); reflexivity.
  - inversion Hnd as [|? ? Hk Hnd']. subst. rewrite IH by assumption.
    unfold merge_item. destruct (Z.eqb_spec iid k) as [->|Hne].
    + assert (Em : get m k = None) by (apply get_None_keys, Hk). rewrite Em.
      destruct (get bbi k) as [cur|] eqn:Eb.
      * destruct (Py.Qltb (price c) (price cur));
          [rewrite get_put_same | rewrite Eb]; reflexivity.
      * rewrite get_put_same. reflexivity.
    + destruct (get bbi k) as [cur|]; [destruct (Py.Qltb (price c) (price cur))|];
        rewrite ?get_put_other by assumption; reflexivity.
Qed.

Lemma merge_store_NoDup (sib : dict (dict ItemPrice)) (bbi : dict ItemPrice) (st : Z) :
  NoDup (keys bbi) -> NoDup (keys (merge_store sib bbi st)).
Proof.
  intro H. unfold merge_store.
  apply (fold_left_inv (fun b : dict ItemPrice => NoDup (keys b))); [exact H|].
  intros acc [k c] _ Hacc. unfold merge_item.
  destruct (get acc k) as [cur|]; [destruct (Py.Qltb (price c) (price cur))|];
    try assumption; apply keys_put_NoDup, Hacc.
Qed.

End MergeFacts.

Section PickStoreFacts.
Import PyDict AppShoppingOptimizer.
Local Open Scope Q_scope.
Variable pbi : dict (list ItemPrice).
Variable sib : dict (dict ItemPrice).
Variables (sel : list Z) (bbi : dict ItemPrice).

Local Notation "'score_of' st" := (score pbi sib bbi st) (at level 10).

Lemma pick_step_eq (acc : option Z * option Q) (x : Z) :
  pick_step pbi sib sel bbi acc x
  = if Py.mem x sel then acc
    else match snd acc with
         | None => (Some x, Some (score_of x))
         | Some best_score =>
             if Py.Qltb (score_of x) best_score then (Some x, Some (score_of x)) else acc
         end.
Proof. reflexivity. Qed.

Lemma pick_fold (l : list Z) :
  (fold_left (pick_step pbi sib sel bbi) l (None, None) = (None, None)
   /\ forall st, In st l -> In st sel)
  \/ exists P,
       fold_left (pick_step pbi sib sel bbi) l (None, None) = (Some P, Some (score_of P))
       /\ In P l /\ ~ In P sel
       /\ forall st, In st l -> ~ In st sel -> score_of P <= score_of st.
Proof.
  induction l as [|x l IH] using rev_ind.
  - left. simpl. split; [reflexivity | tauto].
  - rewrite fold_left_app. simpl. rewrite pick_step_eq.
    destruct (Py.mem x sel) eqn:Ex.
    + apply mem_In in Ex. destruct IH as [[E H]|[P [E [H1 [H2 H3]]]]].
      * left. split; [exact E|]. intros st Hst. apply in_app_or in Hst.
        destruct Hst as [Hst|[<-|[]]]; auto.
      * right. exists P. split; [exact E|]. split; [apply in_or_app; auto|].
        split; [assumption|]. intros st Hst Hn. apply in_app_or in Hst.
        destruct Hst as [Hst|[<-|[]]]; [auto | contradiction].
    + apply mem_not_In in Ex. right.
      destruct IH as [[E H]|[P [E [H1 [H2 H3]]]]]; rewrite E; simpl.
      * exists x. split; [reflexivity|]. split; [apply in_or_app; simpl; auto|].
        split; [assumption|]. intros st Hst Hn. apply in_app_or in Hst.
        destruct Hst as [Hst|[<-|[]]]; [exfalso; auto | lra].
      * destruct (Py.Qltb (score_of x) (score_of P)) eqn:El.
        -- apply Qltb_lt in El. exists x. split; [reflexivity|].
           split; [apply in_or_app; simpl; auto|]. split; [assumption|].
           intros st Hst Hn. apply in_app_or in Hst.
           destruct Hst as [Hst|[<-|[]]]; [|lra].
           specialize (H3 st Hst Hn). lra.
        -- apply Qltb_ge in El. exists P. split; [reflexivity|].
           split; [apply in_or_app; auto|]. split; [assumption|].
           intros st Hst Hn. apply in_app_or in Hst.
           destruct Hst as [Hst|[<-|[]]]; [auto | exact El].
Qed.

(** The store picked has the least score among the stores not yet
    selected. *)
Lemma pick_store_Some (P : Z) :
  pick_store pbi sib sel bbi = Some P ->
  In P (keys sib) /\ ~ In P sel
  /\ forall st, In st (keys sib) -> ~ In st sel -> score_of P <= score_of st.
Proof.
  unfold pick_store.
  destruct (pick_fold (keys sib)) as [[E _]|[P' [E H]]]; rewrite E; simpl; intro H0;
    [discriminate|].
  inversion H0. subst. exact H.
Qed.

End PickStoreFacts.

Section AppBaselineFacts.
Import Models PyDict AppShoppingOptimizer BaselineSpec.
Local Open Scope Q_scope.

Variable item_prices : list ItemPrice.
Variable s : Z.
Hypothesis Hwf : well_formed item_id price quantity subtotal item_prices = true.
Hypothesis Hs : sells_all store_id item_id item_prices s = true.
Hypothesis Hinf : forall ip, In ip item_prices -> price ip < INF.

Local Notation "'pbi'" := (group_by_item item_prices).
Local Notation "'sib'" := (store_item_best_of (group_by_item item_prices)).
Local Notation "'ids'" := (keys (group_by_item item_prices)).
Local Notation "'T'" := (store_total store_id subtotal item_prices s).

(** What item [iid] costs under the running best offers [b], at the
    quantity the score uses. *)
Local Notation "'cc' b" :=
  (fun iid : Z =>
     match get b iid with
     | Some c => price c * quantity_of (group_by_item item_prices) iid
     | None => 0
     end)
  (at level 10, b at level 9).

Lemma app_group_complete (ip : ItemPrice) :
  In ip item_prices -> exists ps, In (item_id ip, ps) pbi /\ In ip ps.
Proof.
  intro Hip.
  destruct (@grouped_complete _ item_id item_prices [] ip (NoDup_nil _) Hip)
    as [vs [Hg Hin]].
  exists (Py.sort_by (fun y x => Py.Qltb (price y) (price x)) vs). split.
  - unfold group_by_item. apply in_map_iff. exists (item_id ip, vs). auto.
  - apply sort_by_In, Hin.
Qed.

Lemma app_group_unique (iid : Z) (ps ps' : list ItemPrice) :
  In (iid, ps) pbi -> In (iid, ps') pbi -> ps = ps'.
Proof.
  intros H H'.
  pose proof (In_get _ _ _ (app_group_by_item_NoDup item_prices) H).
  pose proof (In_get _ _ _ (app_group_by_item_NoDup item_prices) H'). congruence.
Qed.

Lemma app_sells_all_group (iid : Z) (ps : list ItemPrice) :
  In (iid, ps) pbi -> exists p, In p ps /\ store_id p = s.
Proof.
  intro Hin. destruct (app_group_by_item_inv _ _ _ Hin) as [Hne Hall].
  destruct ps as [|p0 ps']; [congruence|].
  destruct (Hall p0 (or_introl eq_refl)) as [E0 H0].
  destruct (proj1 (sells_all_iff store_id item_id item_prices s) Hs) as [_ Hs'].
  destruct (Hs' p0 H0) as [ip' [H1 [H2 H3]]].
  destruct (app_group_complete _ H1) as [ps2 [Hg Hip]].
  rewrite H3, E0 in Hg. rewrite (app_group_unique _ _ _ Hin Hg). eauto.
Qed.

Lemma ids_group (iid : Z) : In iid ids -> exists ps, In (iid, ps) pbi.
Proof.
  intro H. apply in_map_iff in H. destruct H as [[k ps] [E H]].
  simpl in E. subst k. eauto.
Qed.

Lemma quantity_of_eq (iid : Z) (c : ItemPrice) :
  In iid ids -> In c item_prices -> item_id c = iid ->
  quantity_of pbi iid == quantity c.
Proof.
  intros Hiid Hc E. destruct (ids_group _ Hiid) as [ps Hin].
  unfold quantity_of, get_or.
  rewrite (In_get _ _ _ (app_group_by_item_NoDup item_prices) Hin).
  destruct (app_group_by_item_inv _ _ _ Hin) as [Hne Hall].
  destruct ps as [|p0 ps']; [congruence|].
  destruct (Hall p0 (or_introl eq_refl)) as [E0 H0].
  destruct (well_formed_spec _ _ _ _ _ Hwf c Hc) as [_ [_ [_ Hsame]]].
  apply Hsame; [assumption | congruence].
Qed.

Lemma quantity_of_nonneg (iid : Z) : 0 <= quantity_of pbi iid.
Proof.
  unfold quantity_of.
  destruct (get_or_cases pbi iid []) as [[_ E]|[ps [_ [E Hin]]]]; rewrite E; [lra|].
  destruct ps as [|p0 ps']; [lra|].
  destruct (app_group_by_item_inv _ _ _ Hin) as [_ Hall].
  destruct (Hall p0 (or_introl eq_refl)) as [_ H0].
  destruct (well_formed_spec _ _ _ _ _ Hwf p0 H0) as [_ [_ [Hq _]]]. exact Hq.
Qed.

Lemma kept_offer (st iid : Z) (c : ItemPrice) :
  get (get_or sib st []) iid = Some c ->
  In c item_prices /\ item_id c = iid /\ store_id c = st /\ In iid ids
  /\ forall ps, In (iid, ps) pbi -> In c ps.
Proof.
  intro H. destruct (store_item_best_get _ _ _ H) as [Hst [ps [Hin Hc]]].
  destruct (app_group_by_item_inv _ _ _ Hin) as [_ Hall].
  destruct (Hall c Hc) as [E Hip]. repeat split; try assumption.
  - apply in_map_iff. exists (iid, ps). auto.
  - intros ps' Hin'. rewrite (app_group_unique _ _ _ Hin' Hin). exact Hc.
Qed.

Lemma kept_complete (iid : Z) :
  In iid ids -> exists d, get (get_or sib s []) iid = Some d.
Proof.
  intro H. destruct (ids_group _ H) as [ps Hin].
  destruct (app_sells_all_group _ _ Hin) as [p [Hp <-]].
  apply (store_item_best_complete _ _ _ _ Hin Hp).
Qed.

Lemma complete_store_candidate : In s (keys sib).
Proof.
  destruct (proj1 (sells_all_iff store_id item_id item_prices s) Hs) as [[ip [Hip E]] _].
  destruct (app_group_complete _ Hip) as [ps [Hin Hp]].
  destruct (store_item_best_complete _ _ _ _ Hin Hp) as [c Hc]. rewrite E in Hc.
  destruct (get_or_cases sib s []) as [[_ E']|[m [Hm _]]].
  - rewrite E' in Hc. discriminate.
  - apply (get_Some_keys _ _ Hm).
Qed.

Lemma total_nonneg : 0 <= T.
Proof.
  unfold store_total. apply fsum_nonneg. intros x Hx. apply in_map_iff in Hx.
  destruct Hx as [ip [<- Hip]]. apply filter_In in Hip.
  apply (well_formed_nonneg _ _ _ _ _ Hwf ip). tauto.
Qed.

(** The complete store alone costs no more than its total. *)
Lemma complete_cost : Py.fsum (map (cc (get_or sib s [])) ids) <= T.
Proof.
  unfold keys. rewrite map_map.
  apply cover_le_store_total with (item_id := item_id).
  - intros ip Hip. apply (well_formed_nonneg _ _ _ _ _ Hwf ip Hip).
  - intro g. unfold group_by_item. rewrite weight_map_perm.
    + rewrite grouped_weight, weight_nil. lra.
    + intro vs. apply sort_by_perm.
  - intros [iid ps] p Hkv Hp. apply (app_group_by_item_inv _ _ _ Hkv), Hp.
  - intros [iid ps] Hkv. simpl.
    destruct (get (get_or sib s []) iid) as [d|] eqn:Ed; [right | left; reflexivity].
    destruct (kept_offer _ _ Ed) as [Hd [Ei [Est [Hids Hps]]]].
    exists d. split; [apply Hps, Hkv|]. split; [assumption|].
    destruct (well_formed_spec _ _ _ _ _ Hwf d Hd) as [Esub _].
    rewrite Esub, (@quantity_of_eq iid d Hids Hd Ei). lra.
Qed.

(** The running best offers are offers of the list, filed under their
    item. *)
Local Notation "'valid' b" :=
  (forall (iid : Z) (c : ItemPrice),
     get b iid = Some c -> In c item_prices /\ item_id c = iid)
  (at level 10, b at level 9).

Lemma merge_valid (bbi : dict ItemPrice) (P : Z) :
  valid bbi -> valid (merge_store sib bbi P).
Proof.
  intros Hv iid c Hc. unfold merge_store in Hc.
  rewrite merge_fold_get in Hc by apply store_item_best_NoDup.
  destruct (get bbi iid) as [c0|] eqn:Ec;
    destruct (get (get_or sib P []) iid) as [d|] eqn:Ed.
  - destruct (Py.Qltb (price d) (price c0)); inversion Hc; subst.
    + destruct (kept_offer _ _ Ed) as [H1 [H2 _]]. auto.
    + apply Hv, Ec.
  - inversion Hc; subst. apply Hv, Ec.
  - inversion Hc; subst. destruct (kept_offer _ _ Ed) as [H1 [H2 _]]. auto.
  - discriminate.
Qed.

Lemma valid_keys (bbi : dict ItemPrice) (iid : Z) :
  valid bbi -> In iid (keys bbi) -> In iid ids.
Proof.
  intros Hv Hin. destruct (get bbi iid) as [c|] eqn:E.
  - destruct (Hv iid c E) as [Hc Ei]. apply app_group_by_item_keys.
    apply in_map_iff. exists c. auto.
  - apply get_None_keys in E. contradiction.
Qed.

(** Once the complete store is merged in, every item has an offer. *)
Lemma merge_complete_length (bbi : dict ItemPrice) :
  valid bbi -> NoDup (keys bbi) ->
  List.length (merge_store sib bbi s) = List.length ids.
Proof.
  intros Hv Hnd.
  assert (E : List.length (keys (merge_store sib bbi s)) = List.length ids).
  { apply Permutation_length, NoDup_Permutation.
    - apply merge_store_NoDup, Hnd.
    - apply app_group_by_item_NoDup.
    - intro iid. split; [apply valid_keys, merge_valid, Hv|].
      intro Hiid. destruct (kept_complete iid Hiid) as [d Ed].
      destruct (get (merge_store sib bbi s) iid) as [c|] eqn:Eg;
        [apply (get_Some_keys _ _ Eg)|].
      unfold merge_store in Eg.
      rewrite merge_fold_get, Ed in Eg by apply store_item_best_NoDup.
      destruct (get bbi iid) as [c0|]; [destruct (Py.Qltb (price d) (price c0))|];
        discriminate. }
  rewrite <- E. unfold keys. rewrite length_map. reflexivity.
Qed.

Lemma score_item_lower (bbi : dict ItemPrice) (P : Z) (t : Q) (m iid : Z) :
  valid bbi ->
  t + cc (merge_store sib bbi P) iid <= fst (score_item pbi sib bbi P (t, m) iid)
  /\ (m <= snd (score_item pbi sib bbi P (t, m) iid))%Z.
Proof.
  intro Hv. unfold score_item, merge_store. cbv beta zeta.
  rewrite merge_fold_get by apply store_item_best_NoDup.
  destruct (get bbi iid) as [c|] eqn:Ec;
    destruct (get (get_or sib P []) iid) as [d|] eqn:Ed; cbv beta iota.
  - assert (Hc : price c < INF) by (apply Hinf; exact (proj1 (Hv iid c Ec))).
    assert (Hd : price d < INF) by (apply Hinf; exact (proj1 (kept_offer _ _ Ed))).
    destruct (Py.Qltb (price d) (price c));
      match goal with |- context [Qle_bool INF ?x] => destruct (Qle_bool INF x) eqn:Ei end;
      try (apply Qle_bool_iff in Ei; exfalso; lra);
      unfold fst, snd; split; [lra | lia | lra | lia].
  - assert (Hc : price c < INF) by (apply Hinf; exact (proj1 (Hv iid c Ec))).
    destruct (Qle_bool INF (price c)) eqn:Ei;
      [apply Qle_bool_iff in Ei; exfalso; lra|].
    unfold fst, snd. split; [lra | lia].
  - assert (Hd : price d < INF) by (apply Hinf; exact (proj1 (kept_offer _ _ Ed))).
    destruct (Py.Qltb (price d) INF) eqn:El; [|apply Qltb_ge in El; exfalso; lra].
    destruct (Qle_bool INF (price d)) eqn:Ei;
      [apply Qle_bool_iff in Ei; exfalso; lra|].
    unfold fst, snd. split; [lra | lia].
  - unfold fst, snd. split; [lra | lia].
Qed.

Lemma score_fold_lower (bbi : dict ItemPrice) (P : Z) (l : list Z) (t : Q) (m : Z) :
  valid bbi -> (0 <= m)%Z ->
  t + Py.fsum (map (cc (merge_store sib bbi P)) l)
  <= fst (fold_left (score_item pbi sib bbi P) l (t, m))
  /\ (0 <= snd (fold_left (score_item pbi sib bbi P) l (t, m)))%Z.
Proof.
  intro Hv. revert t m. induction l as [|iid l IH]; intros t m Hm; cbn [fold_left map].
  - change (Py.fsum []) with 0. unfold fst, snd. split; [lra | assumption].
  - destruct (score_item_lower bbi P t m iid Hv) as [H1 H2].
    destruct (score_item pbi sib bbi P (t, m) iid) as [t1 m1]. unfold fst, snd in H1, H2.
    destruct (IH t1 m1) as [H3 H4]; [lia|]. rewrite fsum_cons. split; [|assumption].
    cbv beta in H1. lra.
Qed.

(** The score of a store is at least what the items cost once it is
    merged in. *)
Lemma score_lower (bbi : dict ItemPrice) (P : Z) :
  valid bbi ->
  Py.fsum (map (cc (merge_store sib bbi P)) ids) <= score pbi sib bbi P.
Proof.
  intro Hv. unfold score.
  destruct (@score_fold_lower bbi P ids 0 0%Z Hv) as [H1 H2]; [lia|].
  destruct (fold_left (score_item pbi sib bbi P) ids (0, 0%Z)) as [total missing].
  unfold fst, snd in H1, H2.
  assert (0 <= inject_Z missing * penalty_missing).
  { apply Qmult_le_0_compat.
    - change 0 with (inject_Z 0). rewrite <- Zle_Qle. assumption.
    - unfold penalty_missing. change 0 with (inject_Z 0). rewrite <- Zle_Qle.
      apply Z.pow_nonneg. lia. }
  lra.
Qed.

Lemma score_item_upper (bbi : dict ItemPrice) (t : Q) (m iid : Z) (d : ItemPrice) :
  valid bbi -> get (get_or sib s []) iid = Some d ->
  fst (score_item pbi sib bbi s (t, m) iid) <= t + price d * quantity_of pbi iid
  /\ snd (score_item pbi sib bbi s (t, m) iid) = m.
Proof.
  intros Hv Ed. unfold score_item. cbv beta zeta. rewrite Ed.
  assert (Hd : price d < INF) by (apply Hinf; exact (proj1 (kept_offer _ _ Ed))).
  pose proof (quantity_of_nonneg iid) as Hq.
  destruct (get bbi iid) as [c|] eqn:Ec; cbv beta iota.
  - assert (Hc : price c < INF) by (apply Hinf; exact (proj1 (Hv iid c Ec))).
    destruct (Py.Qltb (price d) (price c)) eqn:El;
      match goal with |- context [Qle_bool INF ?x] => destruct (Qle_bool INF x) eqn:Ei end;
      try (apply Qle_bool_iff in Ei; exfalso; lra);
      unfold fst, snd; (split; [|reflexivity]); [lra|].
    apply Qltb_ge in El.
    pose proof (Qmult_le_compat_r _ _ (quantity_of pbi iid) El Hq). lra.
  - destruct (Py.Qltb (price d) INF) eqn:El; [|apply Qltb_ge in El; exfalso; lra].
    destruct (Qle_bool INF (price d)) eqn:Ei;
      [apply Qle_bool_iff in Ei; exfalso; lra|].
    unfold fst, snd. split; [lra | reflexivity].
Qed.

Lemma score_fold_upper (bbi : dict ItemPrice) (l : list Z) (t : Q) (m : Z) :
  valid bbi -> (forall iid, In iid l -> In iid ids) ->
  fst (fold_left (score_item pbi sib bbi s) l (t, m))
  <= t + Py.fsum (map (cc (get_or sib s [])) l)
  /\ snd (fold_left (score_item pbi sib bbi s) l (t, m)) = m.
Proof.
  intro Hv. revert t m. induction l as [|iid l IH]; intros t m Hl; cbn [fold_left map].
  - change (Py.fsum []) with 0. unfold fst, snd. split; [lra | reflexivity].
  - destruct (kept_complete iid (Hl iid (or_introl eq_refl))) as [d Ed].
    destruct (score_item_upper bbi t m iid Hv Ed) as [H1 H2].
    destruct (score_item pbi sib bbi s (t, m) iid) as [t1 m1]. unfold fst, snd in H1, H2.
    destruct (IH t1 m1) as [H3 H4]; [intros; apply Hl; right; assumption|].
    rewrite fsum_cons, Ed. split; [lra | congruence].
Qed.

(** The score of the complete store is at most what it charges for the
    items. *)
Lemma score_upper (bbi : dict ItemPrice) :
  valid bbi ->
  score pbi sib bbi s <= Py.fsum (map (cc (get_or sib s [])) ids).
Proof.
  intro Hv. unfold score.
  destruct (@score_fold_upper bbi ids 0 0%Z Hv) as [H1 H2]; [auto|].
  destruct (fold_left (score_item pbi sib bbi s) ids (0, 0%Z)) as [total missing].
  unfold fst, snd in H1, H2. subst missing. change (inject_Z 0) with 0. lra.
Qed.

(** While the complete store is not selected, the running best offers
    cost no more than it charges; and once it is selected the loop
    stops. *)
Lemma select_loop_cost (n : nat) (sel : list Z) (bbi : dict ItemPrice) :
  valid bbi -> NoDup (keys bbi) -> ~ In s sel ->
  Py.fsum (map (cc bbi) ids) <= T ->
  valid (snd (select_loop pbi sib n sel bbi))
  /\ Py.fsum (map (cc (snd (select_loop pbi sib n sel bbi))) ids) <= T.
Proof.
  revert sel bbi. induction n as [|n IH]; intros sel bbi Hv Hnd Hsel Hc;
    cbn [select_loop]; [split; assumption|].
  destruct (pick_store pbi sib sel bbi) as [P|] eqn:Ep; [|split; assumption].
  destruct (pick_store_Some _ _ _ _ Ep) as [HP [HPsel Hmin]].
  pose proof (merge_valid bbi P Hv) as Hv'.
  assert (Hc' : Py.fsum (map (cc (merge_store sib bbi P)) ids) <= T).
  { apply Qle_trans with (score pbi sib bbi P); [apply score_lower, Hv|].
    apply Qle_trans with (score pbi sib bbi s);
      [apply Hmin; [apply complete_store_candidate | assumption]|].
    apply Qle_trans with (Py.fsum (map (cc (get_or sib s [])) ids));
      [apply score_upper, Hv | apply complete_cost]. }
  destruct (Nat.eqb (List.length (merge_store sib bbi P)) (List.length ids)) eqn:El;
    [split; assumption|].
  apply IH; try assumption; [apply merge_store_NoDup, Hnd|].
  intro Hin. apply in_app_or in Hin. destruct Hin as [Hin|[->|[]]]; [contradiction|].
  rewrite merge_complete_length, Nat.eqb_refl in El by assumption. discriminate.
Qed.

Lemma fsum_zero {X} (f : X -> Q) (l : list X) :
  (forall x, In x l -> f x == 0) -> Py.fsum (map f l) == 0.
Proof.
  induction l as [|x l IH]; intro H; simpl; [reflexivity|].
  rewrite fsum_cons, (H x (or_introl eq_refl)), IH; [lra|].
  intros y Hy. apply H. right. assumption.
Qed.

Lemma place_items_file (sel : list Z) (bbi : dict ItemPrice) (l : list Z) :
  fst (place_items sel bbi l)
  = fold_left
      (fun d iid =>
         match (match get bbi iid with
                | Some b => if Py.mem (store_id b) sel then Some b else None
                | None => None
                end) with
         | Some b => append d (store_id b) b
         | None => d
         end) l [].
Proof.
  unfold place_items.
  assert (H : forall (al : dict (list ItemPrice)) (out : list Z),
    fst (fold_left
           (fun (acc : dict (list ItemPrice) * list Z) (iid : Z) =>
              let (allocation, items_outside) := acc in
              match get bbi iid with
              | None => (allocation, items_outside ++ [iid])
              | Some best =>
                  if Py.mem (store_id best) sel
                  then (append allocation (store_id best) best, items_outside)
                  else (allocation, items_outside ++ [iid])
              end) l (al, out))
    = fold_left
        (fun d iid =>
           match (match get bbi iid with
                  | Some b => if Py.mem (store_id b) sel then Some b else None
                  | None => None
                  end) with
           | Some b => append d (store_id b) b
           | None => d
           end) l al).
  { induction l as [|iid l IH]; intros al out; simpl; [reflexivity|].
    destruct (get bbi iid) as [b|]; [destruct (Py.mem (store_id b) sel)|]; apply IH. }
  apply H.
Qed.

(** The location-aware allocation costs no more than the complete store
    charges. *)
Lemma greedy_allocate_cost (db : DB) (ms : Z) :
  Py.fsum (map total (fst (_greedy_allocate db item_prices ms))) <= T.
Proof.
  unfold _greedy_allocate. cbv zeta.
  destruct (keys sib) as [|k0 ks] eqn:Ek.
  { simpl. change (Py.fsum []) with 0. apply total_nonneg. }
  unfold greedy_select. cbv zeta.
  match goal with |- context [select_loop _ _ ?n [] []] =>
    destruct (@select_loop_cost n [] []) as [Hv Hc];
      [intros iid c H; discriminate | constructor | simpl; tauto
      | rewrite fsum_zero; [apply total_nonneg | reflexivity] |];
    destruct (select_loop pbi sib n [] []) as [sel bbi]
  end.
  unfold snd in Hv, Hc.
  destruct (place_items sel bbi ids) as [al out] eqn:Epl. unfold fst.
  assert (Eal : al = fst (place_items sel bbi ids)) by (rewrite Epl; reflexivity).
  rewrite (fsum_perm (Permutation_map total (sort_by_perm _ _))), map_map.
  assert (Et : Py.fsum (map (fun kv => total (store_allocation db kv)) al)
               == weight subtotal al).
  { unfold weight. apply fsum_map_eq. intros [sid its] _. reflexivity. }
  rewrite Et, Eal, place_items_file, file_weight, weight_nil, Qplus_0_l.
  apply Qle_trans with (Py.fsum (map (cc bbi) ids)); [|exact Hc].
  apply fsum_map_le. intros iid Hiid. cbv beta.
  destruct (get bbi iid) as [b|] eqn:Eb; [|lra].
  destruct (Hv iid b Eb) as [Hb Ei].
  destruct (well_formed_spec _ _ _ _ _ Hwf b Hb) as [Esub [Hp _]].
  destruct (Py.mem (store_id b) sel).
  - rewrite Esub, (@quantity_of_eq iid b Hiid Hb Ei). lra.
  - apply Qmult_le_0_compat; [assumption | apply quantity_of_nonneg].
Qed.

End AppBaselineFacts.

Section AppBaseline.
Import Models PyDict CityLocationService AppShoppingOptimizer BaselineSpec.
Local Open Scope Q_scope.

Lemma priced_below_spec (bound : Q) (item_prices : list ItemPrice) :
  priced_below price bound item_prices = true ->
  forall ip, In ip item_prices -> price ip < bound.
Proof.
  unfold priced_below. rewrite forallb_forall. intros H ip Hip.
  apply Qltb_lt, H, Hip.
Qed.

(** The location-aware optimizer spends no more than the single-store
    baseline when a store sells everything. *)
Lemma greedy_allocate_baseline (db : DB) (item_prices : list ItemPrice) (ms : Z) :
  well_formed item_id price quantity subtotal item_prices = true ->
  priced_below price INF item_prices = true ->
  (exists s, sells_all store_id item_id item_prices s = true) ->
  Py.fsum (map total (fst (_greedy_allocate db item_prices ms)))
  <= _calculate_single_store_cost item_prices.
Proof.
  intros Hwf Hb Hex.
  destruct (single_store_cost_complete store_id item_id subtotal item_prices Hex)
    as [s [Hs Hcost]].
  unfold _calculate_single_store_cost. rewrite Hcost.
  apply (@greedy_allocate_cost item_prices s Hwf Hs (priced_below_spec _ _ Hb) db ms).
Qed.

Lemma optimize_for_user_city_baseline
    (strip upper casefold nfkd : string -> string) (combining : ascii -> bool)
    (eligible : DB -> LatLng Q -> Q -> option string -> option string -> list Z)
    (db : DB) (now id : Z) (sl : ShoppingList)
    (user_uf user_city : option string) (radius_km : Q) (center : LatLng Q) (s : Z) :
  get_list (app_shopping_lists db) id = Some sl ->
  resolve_city_centroid strip upper casefold nfkd combining db user_uf user_city
    = Some center ->
  well_formed item_id price quantity subtotal
    (_get_item_prices db now sl (eligible db center radius_km user_uf user_city)) = true ->
  priced_below price INF
    (_get_item_prices db now sl (eligible db center radius_km user_uf user_city)) = true ->
  sells_all store_id item_id
    (_get_item_prices db now sl (eligible db center radius_km user_uf user_city)) s = true ->
  total_cost (optimize_for_user_city strip upper casefold nfkd combining eligible
                db now id user_uf user_city radius_km)
  <= total_if_single_store
       (optimize_for_user_city strip upper casefold nfkd combining eligible
          db now id user_uf user_city radius_km).
Proof.
  intros Hget Hres. unfold optimize_for_user_city. rewrite Hget.
  destruct (items sl) as [|it its]; [intros; simpl; lra|].
  destruct (falsy user_uf || falsy user_city); [intros; simpl; lra|].
  rewrite Hres.
  destruct (eligible db center radius_km user_uf user_city) as [|e0 es];
    [intros; simpl; lra|].
  destruct (_get_item_prices db now sl (e0 :: es)) as [|ip0 ips0];
    [intros; simpl; lra|].
  intros Hwf Hb Hs.
  pose proof (@greedy_allocate_baseline db (ip0 :: ips0) (max_stores_or sl 3) Hwf Hb
                (ex_intro _ s Hs)) as H.
  destruct (_greedy_allocate db (ip0 :: ips0) (max_stores_or sl 3)) as [allocs out].
  exact H.
Qed.

End AppBaseline.

Section GenericOptimizeBaseline.
Import Models PyDict ShoppingOptimizer AllocationEngineSpec BaselineSpec.
Local Open Scope Q_scope.

Lemma optimize_baseline (db : DB) (now id : Z) (sl : ShoppingList)
      (item_prices : list ItemPrice) (r : OptimizationResult) (s : Z) :
  get_list (shopping_lists db) id = Some sl ->
  _get_item_prices db now sl = Ok item_prices ->
  well_formed item_id price quantity subtotal item_prices = true ->
  sells_all store_id item_id item_prices s = true ->
  redistributes item_prices (max_stores_or sl 3) = false ->
  optimize db now id = Ok r ->
  total_cost r <= total_if_single_store r.
Proof.
  intros Hget Hips Hwf Hs Hr. unfold optimize. rewrite Hget.
  destruct (items sl) as [|i0 its0]; [intro H; inversion H; simpl; lra|].
  rewrite Hips. simpl.
  destruct item_prices as [|ip0 ips0] eqn:Eips; [discriminate|].
  rewrite <- Eips in *. clear Eips ip0 ips0.
  destruct (_optimize_allocation db item_prices (max_stores_or sl 3)) as [[allocs e]|]
    eqn:Eo; simpl; [|discriminate].
  intro H. inversion H. subst r. clear H. simpl.
  apply (@optimize_allocation_baseline db item_prices (max_stores_or sl 3) allocs e
           Hwf (ex_intro _ s Hs) Hr Eo).
Qed.

End GenericOptimizeBaseline.

Section MonotonicBaselineClaim.
Import Models PyDict CityLocationService AllocationEngineSpec BaselineSpec.
Local Open Scope Q_scope.




End MonotonicBaselineClaim.

(* ------------------------------------------------------------------ *)
(** ** Writing a city centroid *)
(* ------------------------------------------------------------------ *)

Section UpdateFirstFacts.
Import Models CityLocationService CityLocationWrites.
Variable f : CityLocation -> bool.

Lemma find_update_first (g : CityLocation -> CityLocation) (rows : list CityLocation)
      (e : CityLocation) :
  find f rows = Some e -> f (g e) = true -> find f (update_first f g rows) = Some (g e).
Proof.
  induction rows as [|r t IH]; simpl; [discriminate|].
  destruct (f r) eqn:E; simpl.
  - intros H Hg. inversion H. subst. rewrite Hg. reflexivity.
  - rewrite E. exact IH.
Qed.

Lemma find_app_last (rows : list CityLocation) (x : CityLocation) :
  find f rows = None -> f x = true -> find f (rows ++ [x]) = Some x.
Proof.
  induction rows as [|r t IH]; simpl; intros H Hx; [rewrite Hx; reflexivity|].
  destruct (f r); [discriminate | apply IH; assumption].
Qed.

Lemma update_first_keys (row : CityLocation) (rows : list CityLocation) (e : CityLocation) :
  find f rows = Some e -> location_key row = location_key e ->
  map location_key (update_first f (fun _ => row) rows) = map location_key rows.
Proof.
  induction rows as [|r t IH]; simpl; [discriminate|].
  destruct (f r); simpl; intros H Hk.
  - inversion H. subst. rewrite Hk. reflexivity.
  - rewrite IH by assumption. reflexivity.
Qed.

Lemma update_first_same (rows : list CityLocation) (e : CityLocation) :
  find f rows = Some e -> update_first f (fun _ => e) rows = rows.
Proof.
  induction rows as [|r t IH]; simpl; [reflexivity|].
  destruct (f r); intro H; [inversion H; reflexivity | rewrite IH by assumption; reflexivity].
Qed.

Lemma update_first_length (g : CityLocation -> CityLocation) (rows : list CityLocation) :
  List.length (update_first f g rows) = List.length rows.
Proof.
  induction rows as [|r t IH]; simpl; [reflexivity|].
  destruct (f r); simpl; [reflexivity | rewrite IH; reflexivity].
Qed.

Lemma update_first_In (row : CityLocation) (rows : list CityLocation) (r : CityLocation) :
  f row = true -> f r = false ->
  (In r (update_first f (fun _ => row) rows) <-> In r rows).
Proof.
  intros Hrow Hr. induction rows as [|x t IH]; simpl; [tauto|].
  destruct (f x) eqn:E; simpl; [|rewrite IH; tauto].
  split; intros [H|H]; auto; subst; congruence.
Qed.

Lemma update_first_new (row : CityLocation) (rows : list CityLocation) (e : CityLocation) :
  find f rows = Some e -> In row (update_first f (fun _ => row) rows).
Proof.
  induction rows as [|x t IH]; simpl; [discriminate|].
  destruct (f x); simpl; auto.
Qed.

End UpdateFirstFacts.

Section UpsertFacts.
Import Models CityLocationService CityLocationWrites.
Variables (strip upper : string -> string).

Local Notation "'nuf_of' uf" := (_normalize_uf strip upper uf) (at level 10).
Local Notation "'ncity_of' city" := (_normalize_city strip city) (at level 10).
Local Notation "'same_key' uf city" :=
  (fun r : CityLocation =>
     String.eqb (cl_uf r) (_normalize_uf strip upper uf)
     && String.eqb (cl_city r) (_normalize_city strip city))
  (at level 10, uf at level 9, city at level 9).

Lemma same_key_iff (uf city : string) (r : CityLocation) :
  same_key uf city r = true <-> location_key r = (nuf_of uf, ncity_of city).
Proof.
  cbv beta. unfold location_key. rewrite andb_true_iff, !String.eqb_eq.
  split; [intros [-> ->]; reflexivity | intro H; inversion H; auto].
Qed.

(** X1.  Round trip: after [upsert_city_centroid(db, uf, city, lat, lng)]
    with a [uf] and a [city] that are not blank, [resolve_city_centroid]
    on the same [uf] and [city] returns exactly [(lat, lng)], whatever the
    table held before. *)
Theorem upsert_then_resolve
    (casefold nfkd : string -> string) (combining : ascii -> bool)
    (db : DB) (uf city : string) (lat lng : Q) :
  is_empty (nuf_of uf) = false ->
  is_empty (ncity_of city) = false ->
  resolve_city_centroid strip upper casefold nfkd combining
    (fst (upsert_city_centroid strip upper db uf city lat lng)) (Some uf) (Some city)
  = Some (mkLatLng lat lng).
Proof.
  intros Hu Hc. unfold resolve_city_centroid, upsert_city_centroid. cbv zeta.
  rewrite Hu, Hc. cbn [orb].
  destruct (find (same_key uf city) (city_locations db)) as [e|] eqn:Ef;
    unfold with_city_locations; cbn [fst city_locations].
  - pose proof (find_some _ _ Ef) as [_ He].
    rewrite (@find_update_first (same_key uf city)
               (fun _ => mkCityLocation (cl_uf e) (cl_city e) lat lng) _ e Ef He).
    reflexivity.
  - rewrite (@find_app_last (same_key uf city) _
               (mkCityLocation (nuf_of uf) (ncity_of city) lat lng) Ef);
      [reflexivity|].
    cbn [cl_uf cl_city]. rewrite !String.eqb_refl. reflexivity.
Qed.

Lemma upsert_outcome (db : DB) (uf city : string) (lat lng : Q) :
  let db' := fst (upsert_city_centroid strip upper db uf city lat lng) in
  let row := snd (upsert_city_centroid strip upper db uf city lat lng) in
  lojas db' = lojas db /\ precos db' = precos db
  /\ shopping_lists db' = shopping_lists db
  /\ app_shopping_lists db' = app_shopping_lists db
  /\ In row (city_locations db')
  /\ location_key row = (nuf_of uf, ncity_of city)
  /\ latitude row = lat /\ longitude row = lng
  /\ (forall r, location_key r <> (nuf_of uf, ncity_of city) ->
        (In r (city_locations db') <-> In r (city_locations db)))
  /\ List.length (city_locations db')
     = (List.length (city_locations db)
        + if existsb (same_key uf city) (city_locations db) then 0 else 1)%nat.
Proof.
  cbv zeta. unfold upsert_city_centroid. cbv zeta.
  destruct (find (same_key uf city) (city_locations db)) as [e|] eqn:Ef;
    unfold with_city_locations;
    cbn [fst snd city_locations lojas precos shopping_lists app_shopping_lists
         latitude longitude].
  - pose proof (find_some _ _ Ef) as [Hin He].
    assert (Hk : location_key (mkCityLocation (cl_uf e) (cl_city e) lat lng)
                 = (nuf_of uf, ncity_of city)) by (apply same_key_iff, He).
    do 4 (split; [reflexivity|]).
    split; [apply (update_first_new _ _ _ Ef)|].
    split; [exact Hk|]. do 2 (split; [reflexivity|]). split.
    + intros r Hr. apply update_first_In; [exact He|].
      destruct (same_key uf city r) eqn:Er; [|reflexivity].
      apply same_key_iff in Er. contradiction.
    + rewrite update_first_length.
      assert (Hex : existsb (same_key uf city) (city_locations db) = true).
      { apply existsb_exists. exists e. auto. }
      rewrite Hex. lia.
  - do 4 (split; [reflexivity|]).
    split; [apply in_or_app; right; left; reflexivity|].
    do 3 (split; [reflexivity|]). split.
    + intros r Hr. rewrite in_app_iff. simpl. split; [|tauto].
      intros [H|[<-|[]]]; [assumption|]. exfalso. apply Hr. reflexivity.
    + rewrite length_app. simpl.
      assert (Hex : existsb (same_key uf city) (city_locations db) = false).
      { destruct (existsb (same_key uf city) (city_locations db)) eqn:E; [|reflexivity].
        apply existsb_exists in E. destruct E as [x [Hx Hfx]].
        apply (find_none _ _ Ef) in Hx. congruence. }
      rewrite Hex. reflexivity.
Qed.

(** X2.  [upsert_city_centroid] changes the row of its own key only: the
    other tables are untouched, the returned row is in the table with the
    normalised key and the new coordinates, every row with another key is
    kept, and the table grows by one row exactly when the key was absent. *)
Theorem upsert_frame (db : DB) (uf city : string) (lat lng : Q) :
  let db' := fst (upsert_city_centroid strip upper db uf city lat lng) in
  let row := snd (upsert_city_centroid strip upper db uf city lat lng) in
  lojas db' = lojas db /\ precos db' = precos db
  /\ shopping_lists db' = shopping_lists db
  /\ app_shopping_lists db' = app_shopping_lists db
  /\ In row (city_locations db')
  /\ location_key row = (nuf_of uf, ncity_of city)
  /\ latitude row = lat /\ longitude row = lng
  /\ (forall r, location_key r <> (nuf_of uf, ncity_of city) ->
        (In r (city_locations db') <-> In r (city_locations db)))
  /\ List.length (city_locations db')
     = (List.length (city_locations db)
        + if existsb (same_key uf city) (city_locations db) then 0 else 1)%nat.
Proof. apply upsert_outcome. Qed.

(** X3.  [upsert_city_centroid] keeps the unique constraint of the table:
    if no two rows share [(uf, city)], no two rows share it afterwards. *)
Theorem upsert_keeps_unique (db : DB) (uf city : string) (lat lng : Q) :
  NoDup (map location_key (city_locations db)) ->
  NoDup (map location_key
           (city_locations (fst (upsert_city_centroid strip upper db uf city lat lng)))).
Proof.
  intro Hnd. unfold upsert_city_centroid. cbv zeta.
  destruct (find (same_key uf city) (city_locations db)) as [e|] eqn:Ef;
    unfold with_city_locations; cbn [fst city_locations].
  - rewrite (@update_first_keys (same_key uf city) _ _ e Ef); [assumption | reflexivity].
  - rewrite map_app. apply NoDup_app; [assumption | repeat constructor; simpl; tauto|].
    intros k Hk [<-|[]]. apply in_map_iff in Hk. destruct Hk as [r [Hr Hin]].
    apply (find_none _ _ Ef) in Hin.
    assert (same_key uf city r = true) by (apply same_key_iff, Hr). congruence.
Qed.

(** X4.  [upsert_city_centroid] is idempotent: repeating the call with
    the same arguments returns the same row and leaves the database as the
    first call left it. *)
Theorem upsert_idempotent (db : DB) (uf city : string) (lat lng : Q) :
  upsert_city_centroid strip upper
    (fst (upsert_city_centroid strip upper db uf city lat lng)) uf city lat lng
  = upsert_city_centroid strip upper db uf city lat lng.
Proof.
  unfold upsert_city_centroid. cbv zeta.
  destruct (find (same_key uf city) (city_locations db)) as [e|] eqn:Ef;
    unfold with_city_locations;
    cbn [fst city_locations lojas precos shopping_lists app_shopping_lists].
  - pose proof (find_some _ _ Ef) as [_ He].
    rewrite (@find_update_first (same_key uf city)
               (fun _ => mkCityLocation (cl_uf e) (cl_city e) lat lng) _ e Ef He).
    cbn [cl_uf cl_city].
    rewrite (@update_first_same (same_key uf city) _
               (mkCityLocation (cl_uf e) (cl_city e) lat lng)); [reflexivity|].
    apply (@find_update_first (same_key uf city)
             (fun _ => mkCityLocation (cl_uf e) (cl_city e) lat lng) _ e Ef He).
  - assert (Hrow : same_key uf city (mkCityLocation (nuf_of uf) (ncity_of city) lat lng)
                   = true).
    { cbn [cl_uf cl_city]. rewrite !String.eqb_refl. reflexivity. }
    rewrite (@find_app_last (same_key uf city) _ _ Ef Hrow). cbn [cl_uf cl_city].
    rewrite (@update_first_same (same_key uf city) _
               (mkCityLocation (nuf_of uf) (ncity_of city) lat lng)); [reflexivity|].
    apply (@find_app_last (same_key uf city) _ _ Ef Hrow).
Qed.

(** X5.  [upsert_city_centroid] has no guard on blank names: when the
    normalised [uf] or [city] is empty the row is stored all the same, and
    [resolve_city_centroid] on the same [uf] and [city] still returns
    [None]. *)
Theorem upsert_blank_not_resolved
    (casefold nfkd : string -> string) (combining : ascii -> bool)
    (db : DB) (uf city : string) (lat lng : Q) :
  is_empty (nuf_of uf) || is_empty (ncity_of city) = true ->
  In (mkCityLocation (nuf_of uf) (ncity_of city) lat lng)
     (city_locations (fst (upsert_city_centroid strip upper db uf city lat lng)))
  /\ resolve_city_centroid strip upper casefold nfkd combining
       (fst (upsert_city_centroid strip upper db uf city lat lng)) (Some uf) (Some city)
     = None.
Proof.
  intro Hb. split.
  - destruct (upsert_outcome db uf city lat lng) as [_ [_ [_ [_ [Hin [Hk [Hla [Hlo _]]]]]]]].
    cbv zeta in Hin, Hk, Hla, Hlo.
    destruct (snd (upsert_city_centroid strip upper db uf city lat lng)) as [u c la lo].
    unfold location_key in Hk. cbn [cl_uf cl_city latitude longitude] in Hk, Hla, Hlo.
    inversion Hk. subst. exact Hin.
  - unfold resolve_city_centroid. cbv zeta. rewrite Hb. reflexivity.
Qed.

End UpsertFacts.

Section UpsertExamples.
Import Models CityLocationService CityLocationWrites.

Lemma upsert_then_resolve_witness :
  resolve_city_centroid Fixtures.same Fixtures.same Fixtures.lower Fixtures.same
    Fixtures.no_mark
    (fst (upsert_city_centroid Fixtures.same Fixtures.same Fixtures.db_belem
            "PA" "Belem" 3 4))
    (Some "PA"%string) (Some "Belem"%string)
  = Some (mkLatLng 3 4).
Proof.
  apply (@upsert_then_resolve Fixtures.same Fixtures.same Fixtures.lower Fixtures.same
           Fixtures.no_mark); reflexivity.
Defined.


Lemma upsert_keeps_unique_witness :
  NoDup (map location_key
           (city_locations
              (fst (upsert_city_centroid Fixtures.same Fixtures.same Fixtures.db_belem
                      "PA" "Maraba" 3 4)))).
Proof.
  apply (@upsert_keeps_unique Fixtures.same Fixtures.same).
  simpl. repeat constructor. simpl. tauto.
Defined.

Lemma upsert_blank_not_resolved_witness :
  In (mkCityLocation "PA" EmptyString 3 4)
     (city_locations
        (fst (upsert_city_centroid Fixtures.same Fixtures.same Fixtures.db_belem
                "PA" EmptyString 3 4)))
  /\ resolve_city_centroid Fixtures.same Fixtures.same Fixtures.lower Fixtures.same
       Fixtures.no_mark
       (fst (upsert_city_centroid Fixtures.same Fixtures.same Fixtures.db_belem
               "PA" EmptyString 3 4))
       (Some "PA"%string) (Some EmptyString)
     = None.
Proof.
  apply (@upsert_blank_not_resolved Fixtures.same Fixtures.same Fixtures.lower
           Fixtures.same Fixtures.no_mark).
  reflexivity.
Defined.

End UpsertExamples.

(* ------------------------------------------------------------------ *)
(** ** The recent offers that the optimizers read *)
(* ------------------------------------------------------------------ *)

Section RecentRowsFacts.
Import Models PyDict PriceQueries PriceResolverSpec RecentOfferSpec.

(** [canonical_item_map] keeps, for a product, the last item of the list
    with that product. *)
Lemma canonical_item_map_get (its : list ListItem) (c : Z) :
  get (canonical_item_map its) c = item_of_product its c.
Proof.
  unfold canonical_item_map, item_of_product.
  induction its as [|it its IH] using rev_ind; [reflexivity|].
  rewrite fold_left_app, rev_app_distr. simpl.
  destruct (Z.eqb_spec (item_canonical_id it) c) as [<-|Hne].
  - apply get_put_same.
  - rewrite get_put_other by congruence. exact IH.
Qed.

Lemma item_of_product_Some (its : list ListItem) (c : Z) (it : ListItem) :
  item_of_product its c = Some it -> In it its /\ item_canonical_id it = c.
Proof.
  unfold item_of_product. intro H. apply find_some in H. destruct H as [H1 H2].
  split; [apply in_rev, H1 | apply Z.eqb_eq, H2].
Qed.

Lemma item_of_product_In (its : list ListItem) (c : Z) :
  In c (map item_canonical_id its) -> exists it, item_of_product its c = Some it.
Proof.
  intro H. apply in_map_iff in H. destruct H as [it [E Hin]].
  unfold item_of_product.
  destruct (find (fun it => Z.eqb (item_canonical_id it) c) (rev its)) as [x|] eqn:Ef;
    [eauto|].
  apply in_rev in Hin. apply (find_none _ _ Ef) in Hin.
  apply Z.eqb_neq in Hin. contradiction.
Qed.

(** The rows that the main query joins with the subquery of the latest
    dates: the most recent observation of each listed product at each
    store that is kept, when it is not older than the cutoff. *)
Lemma recent_rows (db : DB) (cutoff : Z) (keep : Z -> bool) (filt : Price -> bool)
      (ids : list Z) (p : Price) (s : Store) :
  (forall q, filt q = since cutoff q && keep (loja_id q)) ->
  (In (p, s) (latest_prices db (latest_price_subq ids filt (precos db)))
   <-> In s (lojas db) /\ loja_id p = store_pk s
       /\ exists c, In c ids /\ recent_latest db cutoff keep c p).
Proof.
  intro Hfilt.
  destruct (latest_price_subq_spec ids filt (precos db)) as [_ Hsub].
  rewrite latest_prices_In. split.
  - intros [Hp [Hs [Hpk [[[c l] md] [Hg Hj]]]]].
    apply joins_iff in Hj. destruct Hj as [Hc [Hl [d [Hd Hmd]]]]. subst l md.
    apply Hsub in Hg. destruct Hg as [_ Hmax]. symmetry in Hmax.
    destruct (max_date_sound ids filt c (loja_id p) (precos db)) as [Hsound _].
    destruct (Hsound d Hmax) as [[q0 [Hq0 [Hg0 Hd0]]] Hle].
    apply in_group_iff in Hg0. destruct Hg0 as [Hc0 [Hids [Hf0 Hl0]]].
    rewrite Hfilt in Hf0. apply andb_true_iff in Hf0. destruct Hf0 as [Hs0 Hk0].
    unfold since in Hs0. rewrite Hd0 in Hs0. apply Z.leb_le in Hs0. rewrite Hl0 in Hk0.
    repeat split; try assumption. exists c. split; [assumption|].
    repeat split; try assumption. exists d. repeat split; try assumption.
    intros q d' Hq Hqc Hql Hqd.
    destruct (Z_le_gt_dec cutoff d') as [Hfresh|Hold]; [|lia].
    apply (Hle q d' Hq); [|assumption].
    apply in_group_iff. repeat split; try assumption.
    rewrite Hfilt. unfold since. rewrite Hqd, Hql, Hk0.
    apply andb_true_iff. split; [apply Z.leb_le, Hfresh | reflexivity].
  - intros [Hs [Hpk [c [Hids [Hp [Hc [Hk [d [Hd [Hfresh Hlatest]]]]]]]]]].
    repeat split; try assumption.
    assert (Hg : in_group ids filt c (loja_id p) p = true).
    { apply in_group_iff. repeat split; try assumption.
      rewrite Hfilt. unfold since. rewrite Hd, Hk.
      apply andb_true_iff. split; [apply Z.leb_le, Hfresh | reflexivity]. }
    exists (c, loja_id p, Some d). split.
    + apply Hsub. split; [eauto|]. symmetry.
      apply (max_date_complete ids filt c (loja_id p) (precos db) p Hp Hg Hd).
      intros q' d' Hq' Hg' Hd'. apply in_group_iff in Hg'.
      destruct Hg' as [Hc' [_ [_ Hl']]]. apply (Hlatest q' d'); assumption.
    + apply joins_iff. repeat split; try assumption. eauto.
Qed.

End RecentRowsFacts.

Section AppRecentOffers.
Import Models PyDict PriceQueries RecentOfferSpec AppShoppingOptimizer.

Lemma app_get_item_prices_In (db : DB) (now : Z) (sl : ShoppingList) (eligible : list Z)
      (ip : ItemPrice) :
  In ip (_get_item_prices db now sl eligible) <->
  exists p s it,
    In s (lojas db) /\ loja_id p = store_pk s
    /\ recent_latest db (now - days price_lookback_days) (fun l => Py.mem l eligible)
         (item_canonical_id it) p
    /\ item_of_product (items sl) (item_canonical_id it) = Some it
    /\ ip = mkItemPrice (item_pk it) (item_canonical_id it) (store_pk s)
              (store_display_name s) (preco_por_unidade p) (data_coleta p)
              (item_quantity it) (preco_por_unidade p * item_quantity it).
Proof.
  unfold _get_item_prices. cbv zeta. rewrite in_flat_map. split.
  - intros [[p s] [Hin H]].
    apply (recent_rows db (now - days price_lookback_days) (fun l => Py.mem l eligible))
      in Hin; [|reflexivity].
    destruct Hin as [Hs [Hpk [c [Hids Hrec]]]].
    pose proof Hrec as [_ [Hc _]]. rewrite Hc, canonical_item_map_get in H.
    destruct (item_of_product (items sl) c) as [it|] eqn:Eit; [|destruct H].
    destruct H as [<-|[]].
    destruct (item_of_product_Some _ _ Eit) as [_ Ec]. subst c.
    exists p, s, it. auto.
  - intros [p [s [it [Hs [Hpk [Hrec [Hit ->]]]]]]].
    exists (p, s). split.
    + apply (recent_rows db (now - days price_lookback_days)
               (fun l => Py.mem l eligible)); [reflexivity|].
      refine (conj Hs (conj Hpk _)). exists (item_canonical_id it).
      split; [|assumption].
      apply in_map, (item_of_product_Some _ _ Hit).
    + pose proof Hrec as [_ [Hc _]]. rewrite Hc, canonical_item_map_get, Hit.
      left. reflexivity.
Qed.

(** X6.  [_get_item_prices] of the location-aware optimizer returns
    exactly one offer for each most recent observation, collected within
    the lookback of 15 days, of a product of the list at an eligible store
    that is a row of [lojas]: the offer carries the last item of the list
    with that product, its quantity, the observed unit price and
    [subtotal = price * quantity]. *)
Theorem app_item_prices_recent (db : DB) (now : Z) (sl : ShoppingList)
        (eligible : list Z) (ip : ItemPrice) :
  In ip (_get_item_prices db now sl eligible) <->
  exists p s it,
    In s (lojas db) /\ loja_id p = store_pk s
    /\ recent_latest db (now - days 15) (fun l => Py.mem l eligible)
         (item_canonical_id it) p
    /\ item_of_product (items sl) (item_canonical_id it) = Some it
    /\ ip = mkItemPrice (item_pk it) (item_canonical_id it) (store_pk s)
              (store_display_name s) (preco_por_unidade p) (data_coleta p)
              (item_quantity it) (preco_por_unidade p * item_quantity it).
Proof. apply app_get_item_prices_In. Qed.

End AppRecentOffers.

Section GenericRecentOffers.
Import Models PyDict PriceQueries RecentOfferSpec ShoppingOptimizer.

Lemma mapM_error {X Y} (f : X -> result Y) (l : list X) :
  mapM f l = AttributeError <-> exists x, In x l /\ f x = AttributeError.
Proof.
  induction l as [|x l IH]; simpl.
  - split; [discriminate | intros [x [[] _]]].
  - destruct (f x) as [y|] eqn:E; simpl.
    + destruct (mapM f l) as [ys|]; simpl.
      * split; [discriminate|]. intros [x' [[<-|Hin] H]]; [congruence|].
        assert (H' : Ok ys = AttributeError) by (apply IH; eauto).
        discriminate.
      * split; [|reflexivity]. intros _.
        destruct (proj1 IH eq_refl) as [x' [Hin H]]. eauto.
    + split; [|reflexivity]. intros _. eauto.
Qed.

Lemma mapM_concat_In {X Y} (f : X -> result (list Y)) (l : list X) (rows : list (list Y))
      (y : Y) :
  mapM f l = Ok rows ->
  (In y (List.concat rows) <-> exists x r, In x l /\ f x = Ok r /\ In y r).
Proof.
  intro H. apply mapM_Ok in H. induction H as [|x r l rows Hx _ IH]; simpl.
  - split; [tauto | intros [x [r [[] _]]]].
  - rewrite in_app_iff, IH. split.
    + intros [Hy|[x' [r' [H1 [H2 H3]]]]]; [exists x, r; auto | exists x', r'; auto].
    + intros [x' [r' [[<-|H1] [H2 H3]]]].
      * left. congruence.
      * right. eauto.
Qed.

Lemma store_display_name_error (s : Store) :
  store_display_name s = AttributeError
  <-> nome_fantasia s = None \/ nome_fantasia s = Some EmptyString.
Proof.
  unfold store_display_name. destruct (nome_fantasia s) as [n|].
  - destruct (String.eqb_spec n EmptyString) as [->|Hne].
    + split; auto.
    + split; [discriminate|]. intros [H|H]; [discriminate | inversion H; contradiction].
  - split; auto.
Qed.

Lemma store_display_name_Ok (s : Store) (name : string) :
  store_display_name s = Ok name
  <-> nome_fantasia s = Some name /\ name <> EmptyString.
Proof.
  unfold store_display_name. destruct (nome_fantasia s) as [n|].
  - destruct (String.eqb_spec n EmptyString) as [->|Hne].
    + split; [discriminate|]. intros [H Hn]. inversion H. subst. contradiction.
    + split; [intro H; inversion H; subst; auto|]. intros [H _]. inversion H. reflexivity.
  - split; [discriminate | intros [H _]; discriminate].
Qed.

(** The rows that [_get_item_prices] turns into offers. *)
Local Notation "'listed' db now sl p s it" :=
  (In s (lojas db) /\ loja_id p = store_pk s
   /\ recent_latest db (now - days price_lookback_days) (fun _ => true)
        (item_canonical_id it) p
   /\ item_of_product (items sl) (item_canonical_id it) = Some it)
  (at level 10, db at level 9, now at level 9, sl at level 9, p at level 9,
   s at level 9, it at level 9).

Lemma listed_rows (db : DB) (now : Z) (sl : ShoppingList) (p : Price) (s : Store) :
  In (p, s)
     (latest_prices db
        (latest_price_subq (map item_canonical_id (items sl))
           (since (now - days price_lookback_days)) (precos db)))
  <-> In s (lojas db) /\ loja_id p = store_pk s
      /\ exists c, In c (map item_canonical_id (items sl))
                   /\ recent_latest db (now - days price_lookback_days) (fun _ => true) c p.
Proof.
  apply recent_rows. intro q. rewrite andb_true_r. reflexivity.
Qed.

Lemma generic_get_item_prices_error (db : DB) (now : Z) (sl : ShoppingList) :
  _get_item_prices db now sl = AttributeError
  <-> exists p s it,
        listed db now sl p s it
        /\ (nome_fantasia s = None \/ nome_fantasia s = Some EmptyString).
Proof.
  unfold _get_item_prices. cbv zeta.
  match goal with |- bind ?m _ = _ <-> _ =>
    assert (Hb : forall k : list (list ItemPrice) -> result (list ItemPrice),
               (forall rows, k rows <> AttributeError) ->
               (bind m k = AttributeError <-> m = AttributeError))
  end.
  { intros k Hk. destruct (mapM _ _) as [rows|]; simpl; [|tauto].
    split; [intro H; exfalso; apply (Hk rows H) | discriminate]. }
  rewrite Hb by (intros rows; discriminate). clear Hb.
  rewrite mapM_error. split.
  - intros [[p s] [Hin H]]. apply listed_rows in Hin.
    destruct Hin as [Hs [Hpk [c [Hids Hrec]]]].
    pose proof Hrec as [_ [Hc _]]. rewrite Hc, canonical_item_map_get in H.
    destruct (item_of_product (items sl) c) as [it|] eqn:Eit; [|discriminate].
    destruct (item_of_product_Some _ _ Eit) as [_ Ec]. subst c.
    exists p, s, it. refine (conj (conj Hs (conj Hpk (conj Hrec Eit))) _).
    apply store_display_name_error.
    destruct (store_display_name s); [discriminate | reflexivity].
  - intros [p [s [it [[Hs [Hpk [Hrec Hit]]] Hname]]]].
    exists (p, s). split.
    + apply listed_rows. refine (conj Hs (conj Hpk _)).
      exists (item_canonical_id it). split; [|assumption].
      apply in_map, (item_of_product_Some _ _ Hit).
    + pose proof Hrec as [_ [Hc _]]. rewrite Hc, canonical_item_map_get, Hit.
      apply store_display_name_error in Hname. rewrite Hname. reflexivity.
Qed.

Lemma generic_get_item_prices_In (db : DB) (now : Z) (sl : ShoppingList)
      (ips : list ItemPrice) (ip : ItemPrice) :
  _get_item_prices db now sl = Ok ips ->
  (In ip ips <->
   exists p s it name,
     listed db now sl p s it
     /\ nome_fantasia s = Some name /\ name <> EmptyString
     /\ ip = mkItemPrice (item_pk it) (item_canonical_id it) (store_pk s) name
               (preco_por_unidade p) (item_quantity it)
               (preco_por_unidade p * item_quantity it) 0 EmptyString 0).
Proof.
  unfold _get_item_prices. cbv zeta.
  destruct (mapM _ _) as [rows|] eqn:Em; simpl; [|discriminate].
  intro H. inversion H. subst ips. clear H.
  rewrite (mapM_concat_In _ _ ip Em). split.
  - intros [[p s] [r [Hin [Hf Hr]]]]. apply listed_rows in Hin.
    destruct Hin as [Hs [Hpk [c [Hids Hrec]]]].
    pose proof Hrec as [_ [Hc _]]. rewrite Hc, canonical_item_map_get in Hf.
    destruct (item_of_product (items sl) c) as [it|] eqn:Eit;
      [|inversion Hf; subst; destruct Hr].
    destruct (item_of_product_Some _ _ Eit) as [_ Ec]. subst c.
    destruct (store_display_name s) as [name|] eqn:En; simpl in Hf; [|discriminate].
    inversion Hf. subst r. destruct Hr as [<-|[]].
    apply store_display_name_Ok in En. destruct En as [En Hne].
    exists p, s, it, name.
    exact (conj (conj Hs (conj Hpk (conj Hrec Eit))) (conj En (conj Hne eq_refl))).
  - intros [p [s [it [name [[Hs [Hpk [Hrec Hit]]] [Hn [Hne ->]]]]]]].
    exists (p, s). eexists. split; [|split].
    + apply listed_rows. refine (conj Hs (conj Hpk _)).
      exists (item_canonical_id it). split; [|assumption].
      apply in_map, (item_of_product_Some _ _ Hit).
    + pose proof Hrec as [_ [Hc _]]. rewrite Hc, canonical_item_map_get, Hit.
      rewrite (proj2 (store_display_name_Ok s name) (conj Hn Hne)). reflexivity.
    + left. reflexivity.
Qed.

(** X7.  [_get_item_prices] of the generic optimizer reads
    [store.razao_social], which [Store] does not have, whenever
    [nome_fantasia] is empty: it raises [AttributeError] exactly when some
    most recent observation, within the lookback of 30 days, of a product
    of the list is at a store whose [nome_fantasia] is [None] or empty.
    When it returns, it returns exactly one offer for each such observation,
    named by [nome_fantasia], with [subtotal = price * quantity]. *)
Theorem generic_item_prices_outcome (db : DB) (now : Z) (sl : ShoppingList) :
  (_get_item_prices db now sl = AttributeError
   <-> exists p s it,
         In s (lojas db) /\ loja_id p = store_pk s
         /\ recent_latest db (now - days 30) (fun _ => true) (item_canonical_id it) p
         /\ item_of_product (items sl) (item_canonical_id it) = Some it
         /\ (nome_fantasia s = None \/ nome_fantasia s = Some EmptyString))
  /\ forall ips, _get_item_prices db now sl = Ok ips ->
       forall ip,
         In ip ips <->
         exists p s it name,
           In s (lojas db) /\ loja_id p = store_pk s
           /\ recent_latest db (now - days 30) (fun _ => true) (item_canonical_id it) p
           /\ item_of_product (items sl) (item_canonical_id it) = Some it
           /\ nome_fantasia s = Some name /\ name <> EmptyString
           /\ ip = mkItemPrice (item_pk it) (item_canonical_id it) (store_pk s) name
                     (preco_por_unidade p) (item_quantity it)
                     (preco_por_unidade p * item_quantity it) 0 EmptyString 0.
Proof.
  split.
  - rewrite generic_get_item_prices_error. split.
    + intros [p [s [it [[H1 [H2 [H3 H4]]] H5]]]]. exists p, s, it. auto.
    + intros [p [s [it [H1 [H2 [H3 [H4 H5]]]]]]]. exists p, s, it. auto.
  - intros ips Hips ip. rewrite (@generic_get_item_prices_In db now sl ips ip Hips). split.
    + intros [p [s [it [name [[H1 [H2 [H3 H4]]] H5]]]]]. exists p, s, it, name. tauto.
    + intros [p [s [it [name [H1 [H2 [H3 [H4 H5]]]]]]]]. exists p, s, it, name. tauto.
Qed.

End GenericRecentOffers.

Section OffersWellFormed.
Import Models PyDict PriceQueries RecentOfferSpec BaselineSpec.
Local Open Scope Q_scope.

Lemma distinct_NoDup (l : list Z) : distinct l = true -> NoDup l.
Proof.
  induction l as [|x l IH]; simpl; [constructor|].
  rewrite andb_true_iff, negb_true_iff. intros [Hx Hl].
  constructor; [apply mem_not_In, Hx | apply IH, Hl].
Qed.

Lemma NoDup_map_eq {X} (f : X -> Z) (l : list X) (a b : X) :
  NoDup (map f l) -> In a l -> In b l -> f a = f b -> a = b.
Proof.
  induction l as [|x l IH]; simpl; [tauto|].
  intros Hnd Ha Hb E. inversion Hnd as [|? ? Hx Hnd']. subst.
  destruct Ha as [->|Ha], Hb as [->|Hb]; auto.
  - exfalso. apply Hx. rewrite E. apply in_map, Hb.
  - exfalso. apply Hx. rewrite <- E. apply in_map, Ha.
Qed.

Lemma sane_spec (db : DB) (sl : ShoppingList) :
  sane db sl = true ->
  (forall p, In p (precos db) -> 0 <= preco_por_unidade p)
  /\ (forall it, In it (items sl) -> 0 <= item_quantity it)
  /\ NoDup (map item_pk (items sl)).
Proof.
  unfold sane. rewrite !andb_true_iff, !forallb_forall. intros [[H1 H2] H3].
  split; [|split].
  - intros p Hp. apply Qle_bool_iff, H1, Hp.
  - intros it Hit. apply Qle_bool_iff, H2, Hit.
  - apply distinct_NoDup, H3.
Qed.

Lemma well_formed_intro {ItemPrice} (item_id : ItemPrice -> Z)
      (price quantity subtotal : ItemPrice -> Q) (l : list ItemPrice) :
  (forall ip, In ip l ->
     subtotal ip == price ip * quantity ip /\ 0 <= price ip /\ 0 <= quantity ip
     /\ forall ip', In ip' l -> item_id ip' = item_id ip -> quantity ip' == quantity ip) ->
  well_formed item_id price quantity subtotal l = true.
Proof.
  intro H. unfold well_formed. apply forallb_forall. intros ip Hip.
  destruct (H ip Hip) as [H1 [H2 [H3 H4]]].
  rewrite !andb_true_iff. repeat split.
  - apply Qeq_bool_iff, H1.
  - apply Qle_bool_iff, H2.
  - apply Qle_bool_iff, H3.
  - apply forallb_forall. intros ip' Hip'.
    destruct (Z.eqb_spec (item_id ip') (item_id ip)) as [E|_]; [|reflexivity].
    simpl. apply Qeq_bool_iff, H4; assumption.
Qed.

Lemma app_item_prices_well_formed (db : DB) (now : Z) (sl : ShoppingList)
      (eligible : list Z) :
  sane db sl = true ->
  well_formed AppShoppingOptimizer.item_id AppShoppingOptimizer.price
    AppShoppingOptimizer.quantity AppShoppingOptimizer.subtotal
    (AppShoppingOptimizer._get_item_prices db now sl eligible) = true.
Proof.
  intro Hsane. destruct (sane_spec _ _ Hsane) as [Hp [Hq Hnd]].
  apply well_formed_intro. intros ip Hip.
  apply app_get_item_prices_In in Hip.
  destruct Hip as [p [s [it [_ [_ [[Hin _] [Hit ->]]]]]]]. simpl.
  destruct (item_of_product_Some _ _ Hit) as [Hit' _].
  split; [reflexivity|]. split; [apply Hp, Hin|]. split; [apply Hq, Hit'|].
  intros ip' Hip' E. apply app_get_item_prices_In in Hip'.
  destruct Hip' as [p' [s' [it' [_ [_ [_ [Hit2 ->]]]]]]]. simpl in *.
  destruct (item_of_product_Some _ _ Hit2) as [Hit2' _].
  rewrite (NoDup_map_eq item_pk _ _ _ Hnd Hit2' Hit' E). reflexivity.
Qed.

Lemma generic_item_prices_well_formed (db : DB) (now : Z) (sl : ShoppingList)
      (ips : list ShoppingOptimizer.ItemPrice) :
  sane db sl = true ->
  ShoppingOptimizer._get_item_prices db now sl = Ok ips ->
  well_formed ShoppingOptimizer.item_id ShoppingOptimizer.price
    ShoppingOptimizer.quantity ShoppingOptimizer.subtotal ips = true.
Proof.
  intros Hsane Hips. destruct (sane_spec _ _ Hsane) as [Hp [Hq Hnd]].
  apply well_formed_intro. intros ip Hip.
  apply (@generic_get_item_prices_In db now sl ips ip Hips) in Hip.
  destruct Hip as [p [s [it [name [[_ [_ [[Hin _] Hit]]] [_ [_ ->]]]]]]]. simpl.
  destruct (item_of_product_Some _ _ Hit) as [Hit' _].
  split; [reflexivity|]. split; [apply Hp, Hin|]. split; [apply Hq, Hit'|].
  intros ip' Hip' E. apply (@generic_get_item_prices_In db now sl ips ip' Hips) in Hip'.
  destruct Hip' as [p' [s' [it' [name' [[_ [_ [_ Hit2]]] [_ [_ ->]]]]]]]. simpl in *.
  destruct (item_of_product_Some _ _ Hit2) as [Hit2' _].
  rewrite (NoDup_map_eq item_pk _ _ _ Hnd Hit2' Hit' E). reflexivity.
Qed.

(** X8.  When no stored price and no quantity of the list is negative and
    the items of the list have distinct ids, the offers that both
    [_get_item_prices] build are well formed: [subtotal = price * quantity],
    nothing is negative, and all the offers of one item carry the same
    quantity. *)
Theorem item_prices_well_formed (db : DB) (now : Z) (sl : ShoppingList) :
  sane db sl = true ->
  (forall eligible,
      well_formed AppShoppingOptimizer.item_id AppShoppingOptimizer.price
        AppShoppingOptimizer.quantity AppShoppingOptimizer.subtotal
        (AppShoppingOptimizer._get_item_prices db now sl eligible) = true)
  /\ (forall ips,
        ShoppingOptimizer._get_item_prices db now sl = Ok ips ->
        well_formed ShoppingOptimizer.item_id ShoppingOptimizer.price
          ShoppingOptimizer.quantity ShoppingOptimizer.subtotal ips = true).
Proof.
  intro Hsane. split.
  - intro eligible. apply app_item_prices_well_formed, Hsane.
  - intros ips Hips. apply (@generic_item_prices_well_formed db now sl ips Hsane Hips).
Qed.

End OffersWellFormed.

(* ------------------------------------------------------------------ *)
(** ** The baseline when no store sells everything *)
(* ------------------------------------------------------------------ *)

Section MaxByFacts.
Context {A : Type}.
Variable key : A -> Q.

Lemma max_by_fold (l : list A) (x : A) :
  In (fold_left (fun best y => if Py.Qltb (key best) (key y) then y else best) l x) (x :: l)
  /\ forall y, In y (x :: l) ->
       (key y <= key (fold_left (fun best y => if Py.Qltb (key best) (key y) then y else best)
                        l x))%Q.
Proof.
  revert x. induction l as [|z l IH]; intro x; simpl.
  - split; [auto|]. intros y [<-|[]]. apply Qle_refl.
  - destruct (Py.Qltb (key x) (key z)) eqn:E.
    + apply Qltb_lt in E. destruct (IH z) as [H1 H2]. simpl in *. split; [tauto|].
      intros y [<-|Hy]; [|auto].
      specialize (H2 z (or_introl eq_refl)). lra.
    + apply Qltb_ge in E. destruct (IH x) as [H1 H2]. simpl in *. split; [tauto|].
      intros y [<-|[<-|Hy]]; auto.
      specialize (H2 x (or_introl eq_refl)). lra.
Qed.

Lemma max_by_Some (l : list A) (m : A) :
  Py.max_by key l = Some m -> In m l /\ forall y, In y l -> (key y <= key m)%Q.
Proof.
  destruct l as [|x l]; simpl; [discriminate|].
  intro H. inversion H. apply max_by_fold.
Qed.

Lemma max_by_None (l : list A) : Py.max_by key l = None <-> l = [].
Proof. destruct l; simpl; split; congruence. Qed.

End MaxByFacts.

Section MapValuesFacts.
Import PyDict.
Context {V W : Type}.
Variable F : V -> W.

Local Notation "'map_values' d" :=
  (map (fun kv : Z * V => (fst kv, F (snd kv))) d) (at level 10).

Lemma get_map_values (d : dict V) (k : Z) :
  get (map_values d) k = option_map F (get d k).
Proof.
  induction d as [|[k' v] d IH]; simpl; [reflexivity|].
  destruct (Z.eqb k k'); [reflexivity | exact IH].
Qed.

Lemma put_map_values (d : dict V) (k : Z) (x : V) :
  put (map_values d) k (F x) = map_values (put d k x).
Proof.
  induction d as [|[k' v] d IH]; simpl; [reflexivity|].
  destruct (Z.eqb k k'); simpl; [reflexivity | rewrite IH; reflexivity].
Qed.

End MapValuesFacts.

Section GroupedMapFacts.
Import PyDict.
Context {A B : Type}.
Variable key : A -> Z.
Variable f : A -> B.

Lemma append_map_values (d : dict (list A)) (k : Z) (v : A) :
  append (map (fun kv : Z * list A => (fst kv, map f (snd kv))) d) k (f v)
  = map (fun kv : Z * list A => (fst kv, map f (snd kv))) (append d k v).
Proof.
  unfold append, get_or. rewrite get_map_values.
  rewrite <- (put_map_values (map f)). f_equal.
  destruct (get d k) as [vs|]; simpl; [|reflexivity].
  rewrite map_app. reflexivity.
Qed.

Lemma grouped_map_values (l : list A) (d : dict (list A)) :
  fold_left (fun d x => append d (key x) (f x)) l
    (map (fun kv : Z * list A => (fst kv, map f (snd kv))) d)
  = map (fun kv : Z * list A => (fst kv, map f (snd kv))) (grouped key l d).
Proof.
  revert d. induction l as [|x l IH]; intro d; simpl; [reflexivity|].
  rewrite append_map_values. apply IH.
Qed.

End GroupedMapFacts.

Section DearestFacts.
Import PyDict BaselineSpec.
Local Open Scope Q_scope.
Context {ItemPrice : Type}.
Variables (store_id item_id : ItemPrice -> Z) (subtotal : ItemPrice -> Q).

(** [max(vals)] of the subtotals of a group. *)
Local Notation "'dearest' vs" :=
  (match Py.max_by (fun x : Q => x) (map subtotal vs) with Some m => m | None => 0 end)
  (at level 10, vs at level 9).

(** The baseline is the total of a store that sells everything, or,
    when there is none, the sum of the dearest offers of the items. *)
Lemma baseline_cases (l : list ItemPrice) :
  (exists s, sells_all store_id item_id l s = true
             /\ Baseline.calculate_single_store_cost store_id item_id subtotal l
                == store_total store_id subtotal l s)
  \/ ((forall s, sells_all store_id item_id l s = false)
      /\ Baseline.calculate_single_store_cost store_id item_id subtotal l
         = Py.fsum (map (fun kv : Z * list ItemPrice => dearest (snd kv))
                        (grouped item_id l []))).
Proof.
  pose proof (complete_stores_spec store_id item_id subtotal l) as Hspec.
  destruct (map fst (filter (fun kv : Z * list Z =>
                               Py.set_eqb (snd kv) (Py.to_set (map item_id l)))
                            (fold_left (fun d ip => set_add d (store_id ip) (item_id ip))
                                       l []))) as [|c cs] eqn:Ec.
  - right. split.
    + intro s. destruct (sells_all store_id item_id l s) eqn:E; [|reflexivity].
      apply Hspec in E. destruct E.
    + unfold Baseline.calculate_single_store_cost. rewrite Ec. cbv zeta.
      change (@nil (Z * list Q))
        with (map (fun kv : Z * list ItemPrice => (fst kv, map subtotal (snd kv))) []).
      rewrite (grouped_map_values item_id subtotal l []).
      unfold values. rewrite !map_map. reflexivity.
  - left. apply (single_store_cost_complete store_id item_id subtotal).
    exists c. apply Hspec. left. reflexivity.
Qed.

Lemma dearest_ge (vs : list ItemPrice) (p : ItemPrice) :
  In p vs -> subtotal p <= dearest vs.
Proof.
  intro Hp. destruct (Py.max_by (fun x : Q => x) (map subtotal vs)) as [m|] eqn:Em.
  - apply max_by_Some in Em. destruct Em as [_ Hm]. apply Hm, in_map, Hp.
  - apply max_by_None in Em. destruct vs; [destruct Hp | discriminate].
Qed.

Lemma dearest_nonneg (vs : list ItemPrice) :
  (forall p, In p vs -> 0 <= subtotal p) -> 0 <= dearest vs.
Proof.
  intro H. destruct (Py.max_by (fun x : Q => x) (map subtotal vs)) as [m|] eqn:Em; [|lra].
  apply max_by_Some in Em. destruct Em as [Hm _]. apply in_map_iff in Hm.
  destruct Hm as [p [<- Hp]]. apply H, Hp.
Qed.

(** One amount per group, nothing or at most an offer of the group: the
    amounts add up to at most the sum of the dearest offers. *)
Lemma cover_le_dearest (l : list ItemPrice) (pick : Z * list ItemPrice -> Q) :
  (forall ip, In ip l -> 0 <= subtotal ip) ->
  (forall kv, In kv (grouped item_id l []) ->
     pick kv == 0 \/ exists p, In p (snd kv) /\ pick kv <= subtotal p) ->
  Py.fsum (map pick (grouped item_id l []))
  <= Py.fsum (map (fun kv : Z * list ItemPrice => dearest (snd kv)) (grouped item_id l [])).
Proof.
  intros Hpos Hpick. apply fsum_map_le. intros [k vs] Hkv. simpl.
  assert (Hin : forall p, In p vs -> In p l).
  { intros p Hp.
    apply (grouped_Forall item_id (fun _ x => In x l)) in Hkv; [|simpl; tauto|auto].
    rewrite Forall_forall in Hkv. apply Hkv, Hp. }
  destruct (Hpick _ Hkv) as [E|[p [Hp Hle]]].
  - rewrite E. apply dearest_nonneg. intros p Hp. apply Hpos, Hin, Hp.
  - apply Qle_trans with (subtotal p); [exact Hle | apply dearest_ge, Hp].
Qed.

End DearestFacts.

Section AppNeverLoses.
Import Models PyDict CityLocationService AppShoppingOptimizer BaselineSpec RecentOfferSpec.
Local Open Scope Q_scope.

Local Notation "'dearest' vs" :=
  (match Py.max_by (fun x : Q => x) (map subtotal vs) with Some m => m | None => 0 end)
  (at level 10, vs at level 9).

Lemma dearest_sum_nonneg (ips : list ItemPrice) :
  (forall ip, In ip ips -> 0 <= subtotal ip) ->
  0 <= Py.fsum (map (fun kv : Z * list ItemPrice => dearest (snd kv))
                    (grouped item_id ips [])).
Proof.
  intro Hpos. apply fsum_nonneg. intros x Hx. apply in_map_iff in Hx.
  destruct Hx as [[k vs] [<- Hkv]]. simpl. apply dearest_nonneg.
  intros p Hp. apply Hpos.
  apply (grouped_Forall item_id (fun _ x => In x ips)) in Hkv; [|simpl; tauto|auto].
  rewrite Forall_forall in Hkv. apply Hkv, Hp.
Qed.

(** The total of the location-aware allocation: one amount per item,
    nothing or the subtotal of an offer of the item. *)
Lemma greedy_allocate_total (db : DB) (ips : list ItemPrice) (ms : Z) :
  exists pick : Z * list ItemPrice -> Q,
    Py.fsum (map total (fst (_greedy_allocate db ips ms)))
    == Py.fsum (map pick (grouped item_id ips []))
    /\ forall kv, In kv (grouped item_id ips []) ->
         pick kv == 0 \/ exists p, In p (snd kv) /\ pick kv == subtotal p.
Proof.
  unfold _greedy_allocate. cbv zeta.
  destruct (keys (store_item_best_of (group_by_item ips))) as [|k0 ks].
  { exists (fun _ => 0). split; [|intros; left; reflexivity].
    simpl. change (Py.fsum []) with 0. symmetry. apply fsum_zero. reflexivity. }
  pose proof (greedy_select_inv ips ms) as Hinv.
  destruct (greedy_select ips ms) as [sel bbi]. cbn [fst snd] in Hinv.
  destruct (place_items sel bbi (keys (group_by_item ips))) as [al out] eqn:Epl.
  cbn [fst].
  assert (Eal : al = fst (place_items sel bbi (keys (group_by_item ips))))
    by (rewrite Epl; reflexivity).
  exists (fun kv : Z * list ItemPrice =>
            match (match get bbi (fst kv) with
                   | Some b => if Py.mem (store_id b) sel then Some b else None
                   | None => None
                   end) with
            | Some b => subtotal b
            | None => 0
            end).
  split.
  - rewrite (fsum_perm (Permutation_map total (sort_by_perm _ _))), map_map.
    assert (Et : Py.fsum (map (fun kv => total (store_allocation db kv)) al)
                 == weight subtotal al).
    { unfold weight. apply fsum_map_eq. intros [sid its] _. reflexivity. }
    rewrite Et, Eal, place_items_file, file_weight, weight_nil, Qplus_0_l.
    unfold group_by_item. rewrite keys_map_snd. unfold keys. rewrite map_map.
    reflexivity.
  - intros [k vs] Hkv. cbn [fst snd].
    destruct (get bbi k) as [b|] eqn:Eb; [|left; reflexivity].
    destruct (Py.mem (store_id b) sel); [right | left; reflexivity].
    destruct (Hinv k b (get_Some_In _ _ Eb)) as [_ [Ek Hb]].
    destruct (@grouped_complete _ item_id ips [] b (NoDup_nil _) Hb) as [vs' [Hg Hin]].
    rewrite Ek in Hg.
    assert (Hnd : NoDup (keys (grouped item_id ips [])))
      by (apply grouped_keys_NoDup; constructor).
    assert (E : vs' = vs).
    { pose proof (In_get _ _ _ Hnd Hg). pose proof (In_get _ _ _ Hnd Hkv). congruence. }
    subst vs'. exists b. split; [assumption | reflexivity].
Qed.

Lemma greedy_allocate_le_dearest (db : DB) (ips : list ItemPrice) (ms : Z) :
  (forall ip, In ip ips -> 0 <= subtotal ip) ->
  Py.fsum (map total (fst (_greedy_allocate db ips ms)))
  <= Py.fsum (map (fun kv : Z * list ItemPrice => dearest (snd kv))
                  (grouped item_id ips [])).
Proof.
  intro Hpos. destruct (greedy_allocate_total db ips ms) as [pick [E Hpick]].
  rewrite E. apply (cover_le_dearest store_id item_id subtotal ips); [exact Hpos|].
  intros kv Hkv. destruct (Hpick kv Hkv) as [H|[p [Hp H]]]; [left; exact H | right].
  exists p. split; [assumption | rewrite H; lra].
Qed.

(** The location-aware allocation never costs more than the baseline. *)
Lemma greedy_allocate_never_loses (db : DB) (ips : list ItemPrice) (ms : Z) :
  well_formed item_id price quantity subtotal ips = true ->
  priced_below price INF ips = true ->
  Py.fsum (map total (fst (_greedy_allocate db ips ms)))
  <= _calculate_single_store_cost ips.
Proof.
  intros Hwf Hb. unfold _calculate_single_store_cost.
  destruct (baseline_cases store_id item_id subtotal ips) as [[s [Hs Hc]]|[_ Hc]].
  - rewrite Hc.
    apply (@greedy_allocate_cost ips s Hwf Hs (priced_below_spec _ _ Hb) db ms).
  - rewrite Hc. apply greedy_allocate_le_dearest.
    intros ip Hip. apply (well_formed_nonneg _ _ _ _ _ Hwf ip Hip).
Qed.

Lemma greedy_allocate_total_nonneg (db : DB) (ips : list ItemPrice) (ms : Z) :
  (forall ip, In ip ips -> 0 <= subtotal ip) ->
  0 <= Py.fsum (map total (fst (_greedy_allocate db ips ms))).
Proof.
  intro Hpos. destruct (greedy_allocate_total db ips ms) as [pick [E Hpick]].
  rewrite E. apply fsum_nonneg. intros x Hx. apply in_map_iff in Hx.
  destruct Hx as [[k vs] [<- Hkv]].
  destruct (Hpick _ Hkv) as [H|[p [Hp H]]]; rewrite H; [lra|].
  apply Hpos.
  apply (grouped_Forall item_id (fun _ x => In x ips)) in Hkv; [|simpl; tauto|auto].
  rewrite Forall_forall in Hkv. apply Hkv, Hp.
Qed.

End AppNeverLoses.

Section PercentFacts.
Local Open Scope Q_scope.

Lemma percent_bounds (x y : Q) : 0 <= x <= y -> 0 < y -> 0 <= x / y * 100 <= 100.
Proof.
  intros [H0 H1] Hy.
  assert (Ha : 0 <= x / y) by (apply Qle_shift_div_l; [assumption | lra]).
  assert (Hb : x / y <= 1) by (apply Qle_shift_div_r; [assumption | lra]).
  set (q := x / y) in *. lra.
Qed.

End PercentFacts.

Section AppSavings.
Import Models PyDict CityLocationService AppShoppingOptimizer BaselineSpec RecentOfferSpec.
Local Open Scope Q_scope.

Lemma priced_below_offers (db : DB) (now : Z) (sl : ShoppingList) (eligible : list Z) :
  prices_below INF db = true ->
  priced_below price INF (_get_item_prices db now sl eligible) = true.
Proof.
  unfold prices_below, priced_below. rewrite !forallb_forall. intros H ip Hip.
  apply app_get_item_prices_In in Hip.
  destruct Hip as [p [s [it [_ [_ [[Hin _] [_ ->]]]]]]]. simpl. apply H, Hin.
Qed.

Lemma optimize_for_user_city_savings
    (strip upper casefold nfkd : string -> string) (combining : ascii -> bool)
    (eligible : DB -> LatLng Q -> Q -> option string -> option string -> list Z)
    (db : DB) (now id : Z) (sl : ShoppingList)
    (user_uf user_city : option string) (radius_km : Q) :
  get_list (app_shopping_lists db) id = Some sl ->
  sane db sl = true ->
  prices_below INF db = true ->
  let r := optimize_for_user_city strip upper casefold nfkd combining eligible
             db now id user_uf user_city radius_km in
  0 <= total_cost r /\ total_cost r <= total_if_single_store r
  /\ savings r == total_if_single_store r - total_cost r
  /\ 0 <= savings r /\ 0 <= savings_percent r <= 100.
Proof.
  intros Hget Hsane Hbelow. cbv zeta. unfold optimize_for_user_city. rewrite Hget.
  assert (Hfail : forall msg ids,
            0 <= total_cost (failure msg ids)
            /\ total_cost (failure msg ids) <= total_if_single_store (failure msg ids)
            /\ savings (failure msg ids)
               == total_if_single_store (failure msg ids) - total_cost (failure msg ids)
            /\ 0 <= savings (failure msg ids)
            /\ 0 <= savings_percent (failure msg ids) <= 100).
  { intros msg ids. simpl. repeat split; lra. }
  destruct (items sl) as [|it its]; [apply Hfail|].
  destruct (falsy user_uf || falsy user_city); [apply Hfail|].
  destruct (resolve_city_centroid _ _ _ _ _ db user_uf user_city) as [center|];
    [|apply Hfail].
  destruct (eligible db center radius_km user_uf user_city) as [|e0 es]; [apply Hfail|].
  pose proof (app_item_prices_well_formed db now sl (e0 :: es) Hsane) as Hwf.
  pose proof (priced_below_offers db now sl (e0 :: es) Hbelow) as Hpb.
  destruct (_get_item_prices db now sl (e0 :: es)) as [|ip0 ips0]; [apply Hfail|].
  pose proof (greedy_allocate_never_loses db (ip0 :: ips0) (max_stores_or sl 3) Hwf Hpb)
    as Hle.
  pose proof (greedy_allocate_total_nonneg db (ip0 :: ips0) (max_stores_or sl 3)
                (fun ip Hip => well_formed_nonneg _ _ _ _ _ Hwf ip Hip)) as Hpos.
  destruct (_greedy_allocate db (ip0 :: ips0) (max_stores_or sl 3)) as [allocs out].
  cbn [fst] in Hle, Hpos.
  cbn [total_cost total_if_single_store savings savings_percent].
  set (T := Py.fsum (map total allocs)) in *.
  set (S := _calculate_single_store_cost (ip0 :: ips0)) in *.
  split; [exact Hpos|]. split; [exact Hle|]. split; [reflexivity|]. split; [lra|].
  destruct (Py.Qltb 0 S) eqn:E; [|lra].
  apply Qltb_lt in E. apply percent_bounds; [lra | exact E].
Qed.


End AppSavings.

Section GenericDearest.
Import Models PyDict ShoppingOptimizer AllocationEngineSpec BaselineSpec SavingsSpec.
Local Open Scope Q_scope.

Local Notation "'dearest' vs" :=
  (match Py.max_by (fun x : Q => x) (map subtotal vs) with Some m => m | None => 0 end)
  (at level 10, vs at level 9).

Variable ips : list ItemPrice.
Hypothesis Hpos : forall ip, In ip ips -> 0 <= subtotal ip.

Local Notation "'dearest_sum'" :=
  (Py.fsum (map (fun kv : Z * list ItemPrice => dearest (snd kv)) (grouped item_id ips []))).

Lemma file_le_dearest (pickf : Z * list ItemPrice -> option ItemPrice) :
  (forall kv b, pickf kv = Some b -> In b (snd kv)) ->
  weight subtotal
    (fold_left
       (fun d kv => match pickf kv with Some b => append d (store_id b) b | None => d end)
       (group_by_item ips) [])
  <= dearest_sum.
Proof.
  intro Hpick. rewrite file_weight, weight_nil, Qplus_0_l. unfold group_by_item.
  apply (cover_le_dearest store_id item_id subtotal ips); [exact Hpos|].
  intros kv Hkv. destruct (pickf kv) as [b|] eqn:E; [right | left; reflexivity].
  exists b. split; [apply (Hpick kv b E) | lra].
Qed.

Lemma file_sorted_le_dearest (pickf : Z * list ItemPrice -> option ItemPrice) :
  (forall kv b, pickf kv = Some b -> In b (snd kv)) ->
  weight subtotal
    (fold_left
       (fun d kv => match pickf kv with Some b => append d (store_id b) b | None => d end)
       (sort_prices (group_by_item ips)) [])
  <= dearest_sum.
Proof.
  intro Hpick. rewrite file_weight, weight_nil, Qplus_0_l.
  unfold sort_prices, group_by_item. rewrite map_map.
  apply (cover_le_dearest store_id item_id subtotal ips); [exact Hpos|].
  intros kv Hkv. cbn [fst snd].
  match goal with |- context [pickf ?x] => destruct (pickf x) as [b|] eqn:E end;
    [right | left; reflexivity].
  exists b. split; [|lra]. apply Hpick in E. cbn [snd] in E.
  apply sort_by_In in E. exact E.
Qed.

Lemma greedy_allocation_le_dearest (ms : Z) :
  weight subtotal (fst (greedy_allocation (group_by_item ips) ms)) <= dearest_sum.
Proof.
  unfold greedy_allocation. cbv zeta.
  pose proof (first_pass_file (sort_prices (group_by_item ips))) as Hfp.
  destruct (first_pass (sort_prices (group_by_item ips))) as [al ia]. cbn [fst] in Hfp.
  destruct (Z.ltb ms (Z.of_nat (List.length al))).
  - pose proof (redistribute_file
                  (kept_stores (sort_prices (group_by_item ips)) ia ms)
                  (sort_prices (group_by_item ips))
                  ([], [], required_exceed (sort_prices (group_by_item ips)) ms)) as Hr.
    match goal with |- context [_redistribute ?a ?b ?c ?d] =>
      set (R := _redistribute a b c d) end.
    replace (fst (let '(allocation, _, e0) := R in (allocation, e0)))
      with (fst (fst R)) by (destruct R as [[? ?] ?]; reflexivity).
    subst R. unfold _redistribute. rewrite Hr. cbn [fst].
    apply (file_sorted_le_dearest
             (fun kv => match best_in_top_of
                                (kept_stores (sort_prices (group_by_item ips)) ia ms)
                                (snd kv) with
                        | Some b => Some b
                        | None => hd_error (snd kv)
                        end)).
    intros kv b H.
    pose proof (best_in_top_of_spec
                  (kept_stores (sort_prices (group_by_item ips)) ia ms) (snd kv)) as Hb.
    destruct (best_in_top_of _ (snd kv)) as [b'|].
    + inversion H. subst. apply Hb.
    + apply hd_error_In, H.
  - cbn [fst]. rewrite Hfp.
    apply (file_sorted_le_dearest (fun kv => hd_error (snd kv))).
    intros kv b H. apply hd_error_In, H.
Qed.

(** Whatever the path, the generic allocation costs no more than the
    dearest offer of every item. *)
Lemma choose_allocation_le_dearest (ms : Z) :
  weight subtotal (fst (choose_allocation ips ms)) <= dearest_sum.
Proof.
  unfold choose_allocation. cbv zeta.
  destruct (exact_search_gate _ ms); [|apply greedy_allocation_le_dearest].
  destruct (_find_best_store_set _ _ ms) as [ [ [ | s0 rest] | ] missing];
    try apply greedy_allocation_le_dearest.
  cbn [fst]. rewrite allocate_in_file.
  apply (file_le_dearest
           (fun kv => if Py.mem (fst kv) missing then None
                      else best_in (s0 :: rest) (snd kv))).
  intros kv b H. destruct (Py.mem (fst kv) missing); [discriminate|].
  apply best_in_Some in H. apply H.
Qed.

End GenericDearest.

Section GenericSavings.
Import Models PyDict ShoppingOptimizer AllocationEngineSpec BaselineSpec SavingsSpec
       RecentOfferSpec.
Local Open Scope Q_scope.

Lemma has_complete_store_false (ips : list ItemPrice) (s : Z) :
  has_complete_store ips = false -> sells_all store_id item_id ips s = false.
Proof.
  intro H. destruct (sells_all store_id item_id ips s) eqn:E; [|reflexivity].
  assert (Hex : has_complete_store ips = true).
  { unfold has_complete_store. apply existsb_exists. exists s. split; [|exact E].
    apply candidate_stores_In. apply sells_all_iff in E. apply E. }
  congruence.
Qed.

Lemma optimize_allocation_never_loses
      (db : DB) (ips : list ItemPrice) (ms : Z)
      (allocs : list StoreAllocation) (e : bool) :
  well_formed item_id price quantity subtotal ips = true ->
  redistributes ips ms && has_complete_store ips = false ->
  _optimize_allocation db ips ms = Ok (allocs, e) ->
  0 <= Py.fsum (map total (_add_price_comparison allocs ips))
  /\ Py.fsum (map total (_add_price_comparison allocs ips))
     <= _calculate_single_store_cost ips.
Proof.
  intros Hwf Hcase Ho.
  assert (Hpos : forall ip, In ip ips -> 0 <= subtotal ip)
    by (intros ip Hip; apply (well_formed_nonneg _ _ _ _ _ Hwf ip Hip)).
  split.
  - unfold _optimize_allocation in Ho.
    pose proof (choose_allocation_sound ips ms) as [_ Hsound].
    destruct (choose_allocation ips ms) as [al e'].
    destruct (_allocation_to_result db al) as [r|] eqn:Er; simpl in Ho; [|discriminate].
    inversion Ho. subst r e'. clear Ho.
    rewrite (@allocs_total db al allocs ips
               (fun sid its Hin => proj1 (Hsound sid its Hin)) Er).
    unfold weight. apply fsum_nonneg. intros x Hx. apply in_map_iff in Hx.
    destruct Hx as [[sid its] [<- Hkv]]. cbn [snd]. apply fsum_nonneg.
    intros y Hy. apply in_map_iff in Hy. destruct Hy as [ip [<- Hip]].
    destruct (Hsound sid its Hkv) as [_ Hall]. rewrite Forall_forall in Hall.
    apply Hpos, (Hall ip Hip).
  - destruct (baseline_cases store_id item_id subtotal ips) as [[s [Hs Hc]]|[_ Hc]].
    + assert (Hex : has_complete_store ips = true).
      { unfold has_complete_store. apply existsb_exists. exists s. split; [|exact Hs].
        apply candidate_stores_In. apply sells_all_iff in Hs. apply Hs. }
      rewrite Hex, andb_true_r in Hcase.
      apply (@optimize_allocation_baseline db ips ms allocs e Hwf
               (ex_intro _ s Hs) Hcase Ho).
    + unfold _calculate_single_store_cost. rewrite Hc.
      unfold _optimize_allocation in Ho.
      pose proof (choose_allocation_sound ips ms) as [_ Hsound].
      pose proof (choose_allocation_le_dearest ips Hpos ms) as Hle.
      destruct (choose_allocation ips ms) as [al e'].
      destruct (_allocation_to_result db al) as [r|] eqn:Er; simpl in Ho; [|discriminate].
      inversion Ho. subst r e'. clear Ho.
      rewrite (@allocs_total db al allocs ips
                 (fun sid its Hin => proj1 (Hsound sid its Hin)) Er).
      exact Hle.
Qed.

Lemma optimize_savings (db : DB) (now id : Z) (sl : ShoppingList)
      (ips : list ItemPrice) (r : OptimizationResult) :
  get_list (shopping_lists db) id = Some sl ->
  _get_item_prices db now sl = Ok ips ->
  sane db sl = true ->
  redistributes ips (max_stores_or sl 3) && has_complete_store ips = false ->
  optimize db now id = Ok r ->
  0 <= total_cost r /\ total_cost r <= total_if_single_store r
  /\ 0 <= savings r /\ 0 <= savings_percent r <= 100.
Proof.
  intros Hget Hips Hsane Hcase. unfold optimize. rewrite Hget.
  destruct (items sl) as [|i0 its0];
    [intro H; inversion H; simpl; repeat split; lra|].
  rewrite Hips. simpl.
  pose proof (@generic_item_prices_well_formed db now sl ips Hsane Hips) as Hwf.
  destruct ips as [|ip0 ips0] eqn:Eips;
    [intro H; inversion H; simpl; repeat split; lra|].
  rewrite <- Eips in *. clear Eips ip0 ips0.
  destruct (_optimize_allocation db ips (max_stores_or sl 3)) as [[allocs e]|] eqn:Eo;
    simpl; [|discriminate].
  intro H. inversion H. subst r. clear H.
  cbn [total_cost total_if_single_store savings savings_percent].
  destruct (@optimize_allocation_never_loses db ips (max_stores_or sl 3) allocs e
              Hwf Hcase Eo) as [Hpos Hle].
  set (T := Py.fsum (map total (_add_price_comparison allocs ips))) in *.
  set (S := _calculate_single_store_cost ips) in *.
  split; [exact Hpos|]. split; [exact Hle|]. split; [lra|].
  unfold percent. destruct (Py.Qltb 0 S) eqn:E; [|lra].
  apply Qltb_lt in E. apply percent_bounds; [lra | exact E].
Qed.


End GenericSavings.

(* ------------------------------------------------------------------ *)
(** ** The comparison with the dearest offers *)
(* ------------------------------------------------------------------ *)

Section PriceComparison.
Import Models PyDict ShoppingOptimizer AllocationEngineSpec BaselineSpec RecentOfferSpec.
Local Open Scope Q_scope.

Lemma fold_add_sum {X} (g : X -> Q) (l : list X) (a : Q) :
  fold_left (fun acc x => acc + g x) l a == a + Py.fsum (map g l).
Proof.
  revert a. induction l as [|x l IH]; intro a; simpl.
  - change (Py.fsum []) with 0. lra.
  - rewrite IH, fsum_cons. lra.
Qed.

Lemma fold_fold_sum {X Y} (items : X -> list Y) (g : Y -> Q) (l : list X) (a : Q) :
  fold_left (fun acc x => fold_left (fun acc y => acc + g y) (items x) acc) l a
  == a + Py.fsum (map (fun x => Py.fsum (map g (items x))) l).
Proof.
  revert a. induction l as [|x l IH]; intro a; simpl.
  - change (Py.fsum []) with 0. lra.
  - rewrite IH, fold_add_sum, fsum_cons. lra.
Qed.

(** The offers of the item of an offer. *)
Lemma group_of_offer (ips : list ItemPrice) (ip : ItemPrice) :
  In ip ips ->
  In ip (get_or (group_by_item ips) (item_id ip) [])
  /\ forall q, In q (get_or (group_by_item ips) (item_id ip) []) <->
               In q ips /\ item_id q = item_id ip.
Proof.
  intro Hip. destruct (group_by_item_complete _ _ Hip) as [vs [Hg Hin]].
  unfold get_or. rewrite (In_get _ _ _ (group_by_item_NoDup ips) Hg).
  split; [exact Hin|]. intro q. split.
  - intro Hq. destruct (group_by_item_inv _ _ _ Hg) as [_ Hall].
    destruct (Hall q Hq). auto.
  - intros [Hq E]. destruct (group_by_item_complete _ _ Hq) as [vs' [Hg' Hin']].
    rewrite E in Hg'.
    pose proof (In_get _ _ _ (group_by_item_NoDup ips) Hg).
    pose proof (In_get _ _ _ (group_by_item_NoDup ips) Hg'). congruence.
Qed.

(** What [_add_price_comparison] writes on an allocated offer. *)
Lemma add_price_comparison_item (allocs : list StoreAllocation) (ips : list ItemPrice)
      (a' : StoreAllocation) (ip' : ItemPrice) :
  (forall a ip, In a allocs -> In ip (sa_items a) -> In ip ips) ->
  In a' (_add_price_comparison allocs ips) -> In ip' (sa_items a') ->
  exists a ip w,
    In a allocs /\ In ip (sa_items a) /\ In w ips /\ item_id w = item_id ip
    /\ sa_store_id a' = sa_store_id a /\ total a' = total a
    /\ (forall q, In q ips -> item_id q = item_id ip -> price q <= price w)
    /\ ip' = mkItemPrice (item_id ip) (canonical_id ip) (store_id ip) (store_name ip)
               (price ip) (quantity ip) (subtotal ip)
               (price w) (store_name w) ((price w - price ip) * quantity ip).
Proof.
  intros Hsound Ha Hip. unfold _add_price_comparison in Ha. cbv zeta in Ha.
  apply in_map_iff in Ha. destruct Ha as [a [<- Ha]]. cbn [sa_items] in Hip.
  apply in_map_iff in Hip. destruct Hip as [ip [<- Hip]].
  destruct (group_of_offer ips ip (Hsound a ip Ha Hip)) as [Hin Hgroup].
  destruct (Py.max_by price (get_or (group_by_item ips) (item_id ip) [])) as [w|] eqn:Ew.
  - apply max_by_Some in Ew. destruct Ew as [Hw Hmax].
    apply Hgroup in Hw. destruct Hw as [Hw Ewi].
    exists a, ip, w. repeat split; try assumption.
    intros q Hq Eq. apply Hmax, Hgroup. auto.
  - apply max_by_None in Ew. rewrite Ew in Hin. destruct Hin.
Qed.

Lemma worst_unit_ge (ip : ItemPrice) : price ip <= worst_price ip -> price ip <= worst_unit ip.
Proof.
  intro H. unfold worst_unit.
  destruct (negb (Qeq_bool (worst_price ip) 0) && Py.Qltb 0 (worst_price ip));
    [exact H | lra].
Qed.

Lemma optimize_potential (db : DB) (now id : Z) (sl : ShoppingList)
      (ips : list ItemPrice) (r : OptimizationResult) :
  get_list (shopping_lists db) id = Some sl ->
  _get_item_prices db now sl = Ok ips ->
  sane db sl = true ->
  optimize db now id = Ok r ->
  total_cost r <= total_worst_cost r
  /\ potential_savings r == total_worst_cost r - total_cost r
  /\ 0 <= potential_savings r
  /\ 0 <= potential_savings_percent r <= 100
  /\ forall a ip, In a (allocations r) -> In ip (sa_items a) ->
       price ip <= worst_price ip
       /\ item_savings ip == (worst_price ip - price ip) * quantity ip
       /\ 0 <= item_savings ip
       /\ (exists w, In w ips /\ item_id w = item_id ip /\ price w = worst_price ip
                     /\ store_name w = worst_store_name ip)
       /\ forall q, In q ips -> item_id q = item_id ip -> price q <= worst_price ip.
Proof.
  intros Hget Hips Hsane. unfold optimize. rewrite Hget.
  destruct (items sl) as [|i0 its0];
    [intro H; inversion H; simpl; repeat split; try lra; intros a ip []|].
  rewrite Hips. simpl.
  pose proof (@generic_item_prices_well_formed db now sl ips Hsane Hips) as Hwf.
  destruct ips as [|ip0 ips0] eqn:Eips;
    [intro H; inversion H; simpl; repeat split; try lra; intros a ip []|].
  rewrite <- Eips in *. clear Eips ip0 ips0.
  destruct (_optimize_allocation db ips (max_stores_or sl 3)) as [[allocs e]|] eqn:Eo;
    simpl; [|discriminate].
  intro H. inversion H. subst r. clear H.
  cbn [total_cost total_worst_cost potential_savings potential_savings_percent allocations].
  pose proof (fun a ip Ha Hip => proj1 (@optimize_allocation_sound db ips _ allocs e Eo a ip Ha Hip))
    as Hsound.
  assert (Hitem : forall a' ip', In a' (_add_price_comparison allocs ips) ->
            In ip' (sa_items a') ->
            price ip' <= worst_price ip'
            /\ item_savings ip' == (worst_price ip' - price ip') * quantity ip'
            /\ 0 <= item_savings ip'
            /\ (exists w, In w ips /\ item_id w = item_id ip' /\ price w = worst_price ip'
                          /\ store_name w = worst_store_name ip')
            /\ (forall q, In q ips -> item_id q = item_id ip' -> price q <= worst_price ip')
            /\ subtotal ip' == price ip' * quantity ip' /\ 0 <= quantity ip').
  { intros a' ip' Ha' Hip'.
    destruct (add_price_comparison_item allocs ips a' ip' Hsound Ha' Hip')
      as [a [ip [w [Ha [Hip [Hw [Ewi [_ [_ [Hmax ->]]]]]]]]]].
    cbn [price worst_price item_savings quantity item_id worst_store_name subtotal].
    pose proof (Hsound a ip Ha Hip) as Hin.
    destruct (well_formed_spec _ _ _ _ _ Hwf ip Hin) as [Esub [_ [Hq _]]].
    assert (Hle : price ip <= price w) by (apply Hmax; auto).
    split; [exact Hle|]. split; [reflexivity|].
    split; [apply Qmult_le_0_compat; [lra | exact Hq]|].
    split; [exists w; auto|]. split; [exact Hmax|]. split; assumption. }
  set (allocs' := _add_price_comparison allocs ips) in *.
  assert (Hcost : Py.fsum (map total allocs')
                  == Py.fsum (map (fun a => Py.fsum (map subtotal (sa_items a))) allocs')).
  { apply fsum_map_eq. intros a' Ha'. subst allocs'.
    unfold _add_price_comparison in Ha'. cbv zeta in Ha'.
    apply in_map_iff in Ha'. destruct Ha' as [a [<- Ha]]. cbn [total sa_items].
    unfold _optimize_allocation in Eo.
    pose proof (choose_allocation_sound ips (max_stores_or sl 3)) as [_ Hs].
    destruct (choose_allocation ips (max_stores_or sl 3)) as [al e'].
    destruct (_allocation_to_result db al) as [r|] eqn:Er; simpl in Eo; [|discriminate].
    inversion Eo. subst r e'.
    destruct (@allocation_to_result_spec db al allocs
                (fun sid its Hin => proj1 (Hs sid its Hin)) Er) as [_ Htot].
    rewrite (Htot a Ha), map_map. apply fsum_map_eq.
    intros ip _. destruct (Py.max_by _ _); reflexivity. }
  assert (Hworst :
    fold_left
      (fun acc a => fold_left (fun acc ip => acc + worst_unit ip * quantity ip) (sa_items a) acc)
      allocs' 0
    == Py.fsum (map (fun a => Py.fsum (map (fun ip => worst_unit ip * quantity ip)
                                            (sa_items a))) allocs')).
  { rewrite (fold_fold_sum sa_items (fun ip => worst_unit ip * quantity ip)). lra. }
  assert (Hle : Py.fsum (map total allocs')
                <= fold_left
                     (fun acc a =>
                        fold_left (fun acc ip => acc + worst_unit ip * quantity ip)
                                  (sa_items a) acc) allocs' 0).
  { rewrite Hcost, Hworst. apply fsum_map_le. intros a' Ha'. apply fsum_map_le.
    intros ip' Hip'.
    destruct (Hitem a' ip' Ha' Hip') as [H1 [_ [_ [_ [_ [Es Hq]]]]]].
    rewrite Es. apply Qmult_le_compat_r; [apply worst_unit_ge, H1 | exact Hq]. }
  assert (Hpos : 0 <= Py.fsum (map total allocs')).
  { rewrite Hcost. apply fsum_nonneg. intros x Hx. apply in_map_iff in Hx.
    destruct Hx as [a' [<- Ha']]. apply fsum_nonneg. intros y Hy.
    apply in_map_iff in Hy. destruct Hy as [ip' [<- Hip']].
    destruct (Hitem a' ip' Ha' Hip') as [_ [_ [_ [_ [_ [Es Hq]]]]]].
    rewrite Es. apply Qmult_le_0_compat; [|exact Hq].
    destruct (add_price_comparison_item allocs ips a' ip' Hsound Ha' Hip')
      as [a [ip [w' [Ha [Hip [_ [_ [_ [_ [_ E]]]]]]]]]].
    rewrite E. cbn [price].
    destruct (well_formed_spec _ _ _ _ _ Hwf ip (Hsound a ip Ha Hip)) as [_ [Hp _]].
    exact Hp. }
  set (T := Py.fsum (map total allocs')) in *.
  set (W := fold_left _ allocs' 0) in *.
  split; [exact Hle|]. split; [reflexivity|]. split; [lra|]. split.
  - unfold percent. destruct (Py.Qltb 0 W) eqn:E; [|lra].
    apply Qltb_lt in E. apply percent_bounds; [lra | exact E].
  - intros a' ip' Ha' Hip'.
    destruct (Hitem a' ip' Ha' Hip') as [H1 [H2 [H3 [H4 [H5 _]]]]].
    repeat split; assumption.
Qed.


End PriceComparison.

(* ------------------------------------------------------------------ *)
(** ** The order of the allocations *)
(* ------------------------------------------------------------------ *)

Section DescendingFacts.
Import ResultSpec.
Local Open Scope Q_scope.
Context {A : Type}.
Variable key : A -> Q.

Local Notation "'by_key_desc'" := (fun y x : A => Py.Qltb (key x) (key y)).

Lemma insert_by_descending (x : A) (l : list A) :
  descending (map key l) = true ->
  descending (map key (Py.insert_by by_key_desc x l)) = true.
Proof.
  induction l as [|y t IH]; simpl; [reflexivity|].
  rewrite andb_true_iff, forallb_forall. intros [Hy Ht].
  destruct (Py.Qltb (key x) (key y)) eqn:E; simpl.
  - apply Qltb_lt in E. rewrite IH by assumption. rewrite andb_true_r.
    apply forallb_forall. intros k Hk. apply in_map_iff in Hk.
    destruct Hk as [z [<- Hz]].
    apply (Permutation_in _ (insert_by_perm by_key_desc x t)) in Hz.
    destruct Hz as [->|Hz]; [apply Qle_bool_iff; lra | apply Hy, in_map, Hz].
  - apply Qltb_ge in E. rewrite Ht, andb_true_r.
    assert (Hall : forallb (fun k => Qle_bool k (key y)) (map key t) = true)
      by (apply forallb_forall, Hy).
    rewrite Hall, andb_true_r. apply andb_true_iff. split.
    + apply Qle_bool_iff, E.
    + apply forallb_forall. intros k Hk. apply Qle_bool_iff.
      apply Qle_trans with (key y); [apply Qle_bool_iff, Hy, Hk | exact E].
Qed.

(** [sort(key=key, reverse=True)] leaves the keys in descending order. *)
Lemma sort_by_descending (l : list A) :
  descending (map key (Py.sort_by by_key_desc l)) = true.
Proof.
  induction l as [|x l IH]; simpl; [reflexivity|].
  apply insert_by_descending, IH.
Qed.

End DescendingFacts.

Section AllocationOrder.
Import Models PyDict CityLocationService ResultSpec.

Lemma generic_allocations_descending (db : DB) (now id : Z)
      (r : ShoppingOptimizer.OptimizationResult) :
  ShoppingOptimizer.optimize db now id = Ok r ->
  descending (map ShoppingOptimizer.total (ShoppingOptimizer.allocations r)) = true.
Proof.
  unfold ShoppingOptimizer.optimize.
  destruct (get_list (shopping_lists db) id) as [sl|];
    [|intro H; inversion H; reflexivity].
  destruct (items sl) as [|i0 its0]; [intro H; inversion H; reflexivity|].
  destruct (ShoppingOptimizer._get_item_prices db now sl) as [ips|]; simpl; [|discriminate].
  destruct ips as [|ip0 ips0] eqn:Eips; [intro H; inversion H; reflexivity|].
  rewrite <- Eips. clear Eips ip0 ips0.
  unfold ShoppingOptimizer._optimize_allocation.
  destruct (ShoppingOptimizer.choose_allocation ips (max_stores_or sl 3)) as [al e].
  unfold ShoppingOptimizer._allocation_to_result.
  destruct (mapM _ al) as [rows|]; simpl; [|discriminate].
  intro H. inversion H. subst r. clear H.
  cbn [ShoppingOptimizer.allocations].
  unfold ShoppingOptimizer._add_price_comparison. rewrite map_map.
  cbn [ShoppingOptimizer.total].
  apply (sort_by_descending ShoppingOptimizer.total).
Qed.

Lemma app_allocations_descending
    (strip upper casefold nfkd : string -> string) (combining : ascii -> bool)
    (eligible : DB -> LatLng Q -> Q -> option string -> option string -> list Z)
    (db : DB) (now id : Z) (user_uf user_city : option string) (radius_km : Q) :
  descending
    (map AppShoppingOptimizer.total
       (AppShoppingOptimizer.allocations
          (AppShoppingOptimizer.optimize_for_user_city strip upper casefold nfkd
             combining eligible db now id user_uf user_city radius_km))) = true.
Proof.
  unfold AppShoppingOptimizer.optimize_for_user_city.
  destruct (get_list (app_shopping_lists db) id) as [sl|]; [|reflexivity].
  destruct (items sl) as [|it its]; [reflexivity|].
  destruct (AppShoppingOptimizer.falsy user_uf || AppShoppingOptimizer.falsy user_city);
    [reflexivity|].
  destruct (resolve_city_centroid _ _ _ _ _ db user_uf user_city) as [center|];
    [|reflexivity].
  destruct (eligible db center radius_km user_uf user_city) as [|e0 es]; [reflexivity|].
  destruct (AppShoppingOptimizer._get_item_prices db now sl (e0 :: es)) as [|ip0 ips0];
    [reflexivity|].
  unfold AppShoppingOptimizer._greedy_allocate. cbv zeta.
  destruct (keys (AppShoppingOptimizer.store_item_best_of _)); [reflexivity|].
  destruct (AppShoppingOptimizer.greedy_select _ _) as [sel bbi].
  destruct (AppShoppingOptimizer.place_items sel bbi _) as [al out].
  cbn [AppShoppingOptimizer.allocations].
  apply (sort_by_descending AppShoppingOptimizer.total).
Qed.

(** X12.  Both optimizers list their allocations by descending total:
    in every result no store allocation has a greater total than one listed
    before it. *)
Theorem allocations_by_descending_total :
  (forall (db : DB) (now id : Z) (r : ShoppingOptimizer.OptimizationResult),
      ShoppingOptimizer.optimize db now id = Ok r ->
      descending (map ShoppingOptimizer.total (ShoppingOptimizer.allocations r)) = true)
  /\ (forall (strip upper casefold nfkd : string -> string) (combining : ascii -> bool)
             (eligible : DB -> LatLng Q -> Q -> option string -> option string -> list Z)
             (db : DB) (now id : Z) (user_uf user_city : option string) (radius_km : Q),
      descending
        (map AppShoppingOptimizer.total
           (AppShoppingOptimizer.allocations
              (AppShoppingOptimizer.optimize_for_user_city strip upper casefold nfkd
                 combining eligible db now id user_uf user_city radius_km))) = true).
Proof.
  split; [exact generic_allocations_descending | exact app_allocations_descending].
Qed.

End AllocationOrder.

(* ------------------------------------------------------------------ *)
(** ** The stores within the radius *)
(* ------------------------------------------------------------------ *)

Section SetInsertFacts.
Import ShoppingOptimizer.

Lemma set_insert_In (l : list Z) (x y : Z) : In y (set_insert l x) <-> y = x \/ In y l.
Proof.
  unfold set_insert. destruct (Py.mem x l) eqn:E.
  - apply mem_In in E. split; [auto|]. intros [->|H]; assumption.
  - rewrite in_app_iff. simpl. split; [intros [H|[H|[]]]; auto | intros [H|H]; auto].
Qed.

Lemma set_insert_NoDup (l : list Z) (x : Z) : NoDup l -> NoDup (set_insert l x).
Proof.
  intro H. unfold set_insert. destruct (Py.mem x l) eqn:E; [assumption|].
  apply mem_not_In in E. apply NoDup_app; [assumption | repeat constructor; simpl; tauto|].
  intros y Hy [<-|[]]. contradiction.
Qed.

Lemma fold_set_insert_In (l acc : list Z) (y : Z) :
  In y (fold_left set_insert l acc) <-> In y l \/ In y acc.
Proof.
  revert acc. induction l as [|x l IH]; intro acc; simpl; [tauto|].
  rewrite IH, set_insert_In. split; [intros [H|[H|H]]; auto | intros [[H|H]|H]; auto].
Qed.

Lemma fold_set_insert_NoDup (l acc : list Z) :
  NoDup acc -> NoDup (fold_left set_insert l acc).
Proof.
  revert acc. induction l as [|x l IH]; intros acc H; simpl; [assumption|].
  apply IH, set_insert_NoDup, H.
Qed.

End SetInsertFacts.

Section EligibleFacts.
Import Models CityLocationService ShoppingOptimizer EligibleStores EligibleStoresSpec.
Variables (strip upper casefold nfkd : string -> string).
Variable combining : ascii -> bool.
Variable haversine : LatLng Q -> LatLng Q -> Q.
Variable cos_radians : Q -> Q.
Variable db : DB.
Variable user_center : LatLng Q.
Variable radius_km : Q.

Local Notation "'resolve' u c" :=
  (resolve_city_centroid strip upper casefold nfkd combining db (Some u) (Some c))
  (at level 10, u at level 9, c at level 9).
Local Notation "'inside' s" :=
  (within strip upper casefold nfkd combining haversine db user_center radius_km s)
  (at level 10, s at level 9).
Local Notation "'step'" :=
  (visit strip upper casefold nfkd combining haversine db user_center radius_km).

(** Every cached centroid is the centroid that would be resolved. *)
Local Notation "'sound' c" :=
  (forall (u ci : string) (v : option (LatLng Q)),
     cache_get c u ci = Some v -> v = resolve u ci)
  (at level 10, c at level 9).

Lemma cache_get_app (c : centroid_cache) (u ci u' ci' : string) (v : option (LatLng Q)) :
  cache_get (c ++ [(u, ci, v)]) u' ci'
  = match cache_get c u' ci' with
    | Some w => Some w
    | None => if String.eqb u' u && String.eqb ci' ci then Some v else None
    end.
Proof.
  induction c as [|[[a b] w] c IH]; simpl; [reflexivity|].
  destruct (String.eqb u' a && String.eqb ci' b); [reflexivity | exact IH].
Qed.

Lemma visit_spec (c : centroid_cache) (e : list Z) (s : Store) :
  sound c ->
  sound (fst (step (c, e) s))
  /\ snd (step (c, e) s) = if inside s then set_insert e (store_pk s) else e.
Proof.
  intro Hc. unfold visit, within, location_of.
  assert (Hmiss :
    let uf := upper (strip (or_empty (Models.uf s))) in
    let city := strip (or_empty (cidade s)) in
    sound (fst (if is_empty uf || is_empty city then (c, e)
                else
                  let hit := cache_get c uf city in
                  let s_center := match hit with Some v => v | None => resolve uf city end in
                  let cache := match hit with
                               | Some _ => c
                               | None => c ++ [(uf, city, s_center)]
                               end in
                  match s_center with
                  | None => (cache, e)
                  | Some c0 =>
                      if Qle_bool (haversine user_center c0) radius_km
                      then (cache, set_insert e (store_pk s))
                      else (cache, e)
                  end))
    /\ snd (if is_empty uf || is_empty city then (c, e)
            else
              let hit := cache_get c uf city in
              let s_center := match hit with Some v => v | None => resolve uf city end in
              let cache := match hit with
                           | Some _ => c
                           | None => c ++ [(uf, city, s_center)]
                           end in
              match s_center with
              | None => (cache, e)
              | Some c0 =>
                  if Qle_bool (haversine user_center c0) radius_km
                  then (cache, set_insert e (store_pk s))
                  else (cache, e)
              end)
       = if match (if is_empty uf || is_empty city then None else resolve uf city) with
            | Some c0 => Qle_bool (haversine user_center c0) radius_km
            | None => false
            end
         then set_insert e (store_pk s) else e).
  { cbv zeta.
    set (uf := upper (strip (or_empty (Models.uf s)))).
    set (city := strip (or_empty (cidade s))).
    destruct (is_empty uf || is_empty city); [split; [exact Hc | reflexivity]|].
    destruct (cache_get c uf city) as [v|] eqn:Eh.
    - rewrite <- (Hc uf city v Eh).
      destruct v as [c0|]; [|split; [exact Hc | reflexivity]].
      destruct (Qle_bool (haversine user_center c0) radius_km);
        (split; [exact Hc | reflexivity]).
    - assert (Hc' : sound (c ++ [(uf, city, resolve uf city)])).
      { intros u ci v. rewrite cache_get_app.
        destruct (cache_get c u ci) as [w|] eqn:Ew.
        - intro H. inversion H. subst. apply (Hc _ _ _ Ew).
        - destruct (String.eqb u uf && String.eqb ci city) eqn:Ek; [|discriminate].
          apply andb_true_iff in Ek. destruct Ek as [Eu Eci].
          apply String.eqb_eq in Eu, Eci. subst. intro H. inversion H. reflexivity. }
      destruct (resolve uf city) as [c0|]; [|split; [exact Hc' | reflexivity]].
      destruct (Qle_bool (haversine user_center c0) radius_km);
        (split; [exact Hc' | reflexivity]). }
  cbv zeta in Hmiss.
  destruct (lat s) as [la|]; [destruct (lng s) as [lo|]|]; try exact Hmiss.
  destruct (Qle_bool (haversine user_center (mkLatLng la lo)) radius_km);
    (split; [exact Hc | reflexivity]).
Qed.

Lemma visit_fold (stores : list Store) (c : centroid_cache) (e : list Z) :
  sound c ->
  snd (fold_left step stores (c, e))
  = fold_left set_insert (map store_pk (filter (fun s => inside s) stores)) e.
Proof.
  revert c e. induction stores as [|s stores IH]; intros c e Hc; [reflexivity|].
  cbn [fold_left filter].
  destruct (visit_spec c e s Hc) as [Hc' He].
  destruct (step (c, e) s) as [c' e']. cbn [fst snd] in Hc', He.
  rewrite (IH c' e' Hc'), He.
  destruct (inside s); reflexivity.
Qed.

Lemma filter_filter_andb {X} (f g : X -> bool) (l : list X) :
  filter g (filter f l) = filter (fun x => f x && g x) l.
Proof.
  induction l as [|x l IH]; simpl; [reflexivity|].
  destruct (f x); simpl; [destruct (g x); rewrite IH; reflexivity | exact IH].
Qed.

(** The cache of centroids changes nothing: the function is a filter on
    the table of stores. *)
Lemma eligible_stores_filter (user_uf user_city : option string) :
  _eligible_stores_by_city_radius strip upper casefold nfkd combining haversine
    cos_radians db user_center radius_km user_uf user_city
  = fold_left set_insert
      (map store_pk
         (filter (fun s => in_query cos_radians user_center radius_km user_uf s && inside s)
                 (lojas db)))
      [].
Proof.
  unfold _eligible_stores_by_city_radius. cbv zeta.
  rewrite visit_fold by (intros u ci v H; discriminate).
  rewrite filter_filter_andb. reflexivity.
Qed.

Lemma eligible_stores_In (user_uf user_city : option string) (id : Z) :
  In id (_eligible_stores_by_city_radius strip upper casefold nfkd combining haversine
           cos_radians db user_center radius_km user_uf user_city)
  <-> exists s, In s (lojas db) /\ store_pk s = id
                /\ in_query cos_radians user_center radius_km user_uf s = true
                /\ inside s = true.
Proof.
  rewrite eligible_stores_filter, fold_set_insert_In, in_map_iff. split.
  - intros [[s [E H]]|[]]. apply filter_In in H. destruct H as [Hs H].
    apply andb_true_iff in H. exists s. tauto.
  - intros [s [Hs [E [H1 H2]]]]. left. exists s. split; [assumption|].
    apply filter_In. split; [assumption|]. rewrite H1, H2. reflexivity.
Qed.

(** X13.  [_eligible_stores_by_city_radius] returns, without repetition,
    exactly the ids of the stores that pass the query (the UF of the user
    when given, and coordinates inside the bounding box or no coordinates
    and the UF of the user) and whose location (their coordinates, else the
    centroid of their city) lies within [radius_km] of the user's centroid
    by [haversine_km]; the cache of centroids changes nothing. *)
Theorem eligible_stores_characterised (user_uf user_city : option string) :
  NoDup (_eligible_stores_by_city_radius strip upper casefold nfkd combining haversine
           cos_radians db user_center radius_km user_uf user_city)
  /\ forall id,
       In id (_eligible_stores_by_city_radius strip upper casefold nfkd combining
                haversine cos_radians db user_center radius_km user_uf user_city)
       <-> exists s, In s (lojas db) /\ store_pk s = id
                     /\ in_query cos_radians user_center radius_km user_uf s = true
                     /\ inside s = true.
Proof.
  split; [|intro id; apply eligible_stores_In].
  rewrite eligible_stores_filter. apply fold_set_insert_NoDup. constructor.
Qed.

Lemma in_query_uf (u : string) (s : Store) :
  u <> EmptyString ->
  in_query cos_radians user_center radius_km (Some u) s = true -> uf s = Some u.
Proof.
  intros Hu H. unfold in_query in H. cbv zeta in H.
  apply andb_true_iff in H. destruct H as [H _].
  unfold AppShoppingOptimizer.falsy in H. destruct u as [|a u]; [congruence|].
  unfold opt_str_eqb, or_empty in H. destruct (uf s) as [x|]; [|discriminate].
  apply String.eqb_eq in H. congruence.
Qed.

(** X14.  When the user's UF is given, every eligible store is a row of
    [lojas] whose [uf] column equals it, and is located within the
    radius. *)
Theorem eligible_stores_same_uf (u : string) (user_city : option string) (id : Z) :
  u <> EmptyString ->
  In id (_eligible_stores_by_city_radius strip upper casefold nfkd combining haversine
           cos_radians db user_center radius_km (Some u) user_city) ->
  exists s, In s (lojas db) /\ store_pk s = id /\ uf s = Some u /\ inside s = true.
Proof.
  intros Hu H. apply eligible_stores_In in H. destruct H as [s [Hs [E [Hq Hw]]]].
  exists s. repeat split; try assumption. apply (@in_query_uf u s Hu Hq).
Qed.

(** X15.  Without a UF of the user, a store that lacks a coordinate is
    never eligible: the query keeps such a store only when its [uf] is the
    empty string, and the loop then skips it.  Every eligible store has
    both coordinates and lies within the radius by them. *)
Theorem eligible_stores_without_uf (user_uf user_city : option string) (id : Z) :
  upper (strip EmptyString) = EmptyString ->
  AppShoppingOptimizer.falsy user_uf = true ->
  In id (_eligible_stores_by_city_radius strip upper casefold nfkd combining haversine
           cos_radians db user_center radius_km user_uf user_city) ->
  exists s la lo,
    In s (lojas db) /\ store_pk s = id /\ lat s = Some la /\ lng s = Some lo
    /\ Qle_bool (haversine user_center (mkLatLng la lo)) radius_km = true.
Proof.
  intros Hblank Hf H. apply eligible_stores_In in H. destruct H as [s [Hs [E [Hq Hw]]]].
  unfold in_query in Hq. cbv zeta in Hq. rewrite Hf in Hq.
  unfold within, location_of in Hw.
  assert (Hno : opt_str_eqb (uf s) (or_empty user_uf) = true ->
                match
                  (if is_empty (upper (strip (or_empty (uf s))))
                      || is_empty (strip (or_empty (cidade s)))
                   then None
                   else resolve (upper (strip (or_empty (uf s))))
                                (strip (or_empty (cidade s))))
                with
                | Some c => Qle_bool (haversine user_center c) radius_km
                | None => false
                end = true -> False).
  { intros Hu Hc.
    assert (Eu : or_empty user_uf = EmptyString).
    { destruct user_uf as [[|a x]|]; try reflexivity. discriminate. }
    rewrite Eu in Hu. unfold opt_str_eqb in Hu. destruct (uf s) as [x|]; [|discriminate].
    apply String.eqb_eq in Hu. subst x. cbn [or_empty] in Hc.
    rewrite Hblank in Hc. discriminate. }
  destruct (lat s) as [la|] eqn:Ela; destruct (lng s) as [lo|] eqn:Elo.
  - exists s, la, lo. auto.
  - simpl in Hq. discriminate.
  - simpl in Hq. discriminate.
  - simpl in Hq. exfalso. apply Hno; assumption.
Qed.

End EligibleFacts.


(* ------------------------------------------------------------------ *)
(** ** The allocations stay within the radius *)
(* ------------------------------------------------------------------ *)

Section AllocationsWithinRadius.
Import Models PyDict CityLocationService AppShoppingOptimizer EligibleStoresSpec.

Lemma place_items_nonempty (selected : list Z) (bbi : dict ItemPrice) (ids : list Z) :
  forall sid its, In (sid, its) (fst (place_items selected bbi ids)) -> its <> [].
Proof.
  unfold place_items.
  apply (fold_left_inv
    (fun acc : dict (list ItemPrice) * list Z =>
       forall sid its, In (sid, its) (fst acc) -> its <> [])).
  - simpl. intros; contradiction.
  - intros [al out] iid _ Hal. simpl in *.
    destruct (get bbi iid) as [best|]; [|exact Hal].
    destruct (Py.mem (store_id best) selected); [|exact Hal].
    simpl. intros sid its Hin. apply append_In in Hin.
    destruct Hin as [[_ ->]|Hin]; [|apply (Hal _ _ Hin)].
    intro E. apply app_eq_nil in E. destruct E as [_ E]. discriminate.
Qed.

(** Every allocation of [_greedy_allocate] holds at least one offer, and
    its offers are offers of [item_prices] at its store. *)
Lemma greedy_allocate_offers (db : DB) (item_prices : list ItemPrice) (max_stores : Z)
      (a : StoreAllocation) :
  In a (fst (_greedy_allocate db item_prices max_stores)) ->
  sa_items a <> []
  /\ forall ip, In ip (sa_items a) -> In ip item_prices /\ store_id ip = sa_store_id a.
Proof.
  intro Ha.
  destruct (keys (store_item_best_of (group_by_item item_prices))) as [|c cs] eqn:Ec.
  { unfold _greedy_allocate in Ha. rewrite Ec in Ha. simpl in Ha. contradiction. }
  destruct (greedy_allocate_shape db item_prices max_stores) as [Hperm _];
    [rewrite Ec; discriminate|].
  pose proof (place_items_sound (fst (greedy_select item_prices max_stores))
                (snd (greedy_select item_prices max_stores))
                (greedy_select_keyed item_prices max_stores)
                (keys (group_by_item item_prices))) as [_ [Hal _]].
  pose proof (place_items_nonempty (fst (greedy_select item_prices max_stores))
                (snd (greedy_select item_prices max_stores))
                (keys (group_by_item item_prices))) as Hne.
  apply (Permutation_in _ Hperm) in Ha. apply in_map_iff in Ha.
  destruct Ha as [[sid its] [<- Hin]].
  destruct (store_allocation_id db (sid, its)) as [E1 [E2 _]]. rewrite E1, E2.
  cbn [fst snd]. split; [apply (Hne _ _ Hin)|].
  intros ip Hip. destruct (Hal _ _ Hin) as [_ Hits].
  destruct (Hits _ Hip) as [Hs [_ Hg]].
  apply get_Some_In, greedy_select_inv in Hg. tauto.
Qed.

Lemma optimize_for_user_city_within
    (strip upper casefold nfkd : string -> string) (combining : ascii -> bool)
    (haversine : LatLng Q -> LatLng Q -> Q) (cos_radians : Q -> Q)
    (db : DB) (now id : Z) (user_uf user_city : option string) (radius_km : Q)
    (a : StoreAllocation) :
  In a (allocations
          (optimize_for_user_city strip upper casefold nfkd combining
             (EligibleStores._eligible_stores_by_city_radius strip upper casefold nfkd
                combining haversine cos_radians)
             db now id user_uf user_city radius_km)) ->
  sa_items a <> []
  /\ exists center s,
       resolve_city_centroid strip upper casefold nfkd combining db user_uf user_city
       = Some center
       /\ In s (lojas db) /\ store_pk s = sa_store_id a /\ uf s = user_uf
       /\ within strip upper casefold nfkd combining haversine db center radius_km s = true.
Proof.
  unfold optimize_for_user_city.
  destruct (get_list (app_shopping_lists db) id) as [sl|]; [|intros []].
  destruct (items sl) as [|it its]; [intros []|].
  destruct (falsy user_uf || falsy user_city) eqn:Ef; [intros []|].
  destruct (resolve_city_centroid _ _ _ _ _ db user_uf user_city) as [center|];
    [|intros []].
  set (eligible := EligibleStores._eligible_stores_by_city_radius strip upper casefold
                     nfkd combining haversine cos_radians db center radius_km user_uf
                     user_city).
  assert (Hel : forall sid, In sid eligible ->
            exists s, In s (lojas db) /\ store_pk s = sid /\ uf s = user_uf
                      /\ within strip upper casefold nfkd combining haversine db center
                           radius_km s = true).
  { intros sid Hsid. apply orb_false_iff in Ef. destruct Ef as [Ef _].
    destruct user_uf as [u|]; [|discriminate].
    assert (Hu : u <> EmptyString) by (intro; subst u; discriminate).
    subst eligible. apply eligible_stores_In in Hsid.
    destruct Hsid as [s [Hs [E [Hq Hw]]]]. exists s.
    split; [assumption|]. split; [assumption|]. split; [|assumption].
    apply (@in_query_uf cos_radians center radius_km u s Hu Hq). }
  destruct eligible as [|e0 es] eqn:Ee; [intros []|].
  rewrite <- Ee in *.
  pose proof (fun ip => proj1 (app_get_item_prices_In db now sl eligible ip)) as Hips.
  destruct (_get_item_prices db now sl eligible) as [|ip0 ips0] eqn:Ei; [intros []|].
  rewrite <- Ei in *.
  pose proof (greedy_allocate_offers db (_get_item_prices db now sl eligible)
                (max_stores_or sl 3) a) as Hoff.
  destruct (_greedy_allocate db (_get_item_prices db now sl eligible)
              (max_stores_or sl 3)) as [allocs out].
  cbn [allocations fst]. intro Ha. destruct (Hoff Ha) as [Hne Hits].
  split; [assumption|]. exists center.
  destruct (sa_items a) as [|ip l] eqn:Eits; [congruence|].
  destruct (Hits ip (or_introl eq_refl)) as [Hin Hs].
  rewrite Ei in Hin. rewrite <- Ei in Hin.
  destruct (Hips ip Hin) as [p [s [it' [Hs' [Hpk [[_ [_ [Hk _]]] [_ ->]]]]]]].
  cbn [store_id] in Hs. apply mem_In in Hk. rewrite Hpk, Hs in Hk.
  destruct (Hel _ Hk) as [s2 H2]. exists s2. split; [reflexivity | exact H2].
Qed.

(** X16.  Whatever [optimize_for_user_city] allocates, it allocates
    nearby: with the eligible stores computed by
    [_eligible_stores_by_city_radius], every allocation of the result holds
    at least one offer and is at a row of [lojas] whose [uf] is the user's
    and whose location (its coordinates, else the centroid of its city) is
    within [radius_km] of the centroid resolved for the user's city. *)
Theorem allocations_within_radius
    (strip upper casefold nfkd : string -> string) (combining : ascii -> bool)
    (haversine : LatLng Q -> LatLng Q -> Q) (cos_radians : Q -> Q)
    (db : DB) (now id : Z) (user_uf user_city : option string) (radius_km : Q)
    (a : StoreAllocation) :
  In a (allocations
          (optimize_for_user_city strip upper casefold nfkd combining
             (EligibleStores._eligible_stores_by_city_radius strip upper casefold nfkd
                combining haversine cos_radians)
             db now id user_uf user_city radius_km)) ->
  sa_items a <> []
  /\ exists center s,
       resolve_city_centroid strip upper casefold nfkd combining db user_uf user_city
       = Some center
       /\ In s (lojas db) /\ store_pk s = sa_store_id a /\ uf s = user_uf
       /\ within strip upper casefold nfkd combining haversine db center radius_km s = true.
Proof. apply optimize_for_user_city_within. Qed.

End AllocationsWithinRadius.


(* ------------------------------------------------------------------ *)
(** ** Examples *)
(* ------------------------------------------------------------------ *)

Section OptimizerExamples.
Import Models CityLocationService BaselineSpec RecentOfferSpec AllocationEngineSpec
       SavingsSpec EligibleStoresSpec.
Local Open Scope Q_scope.

Lemma item_prices_well_formed_witness :
  sane Fixtures.db_two_stores Fixtures.two_items = true
  /\ (forall eligible,
        well_formed AppShoppingOptimizer.item_id AppShoppingOptimizer.price
          AppShoppingOptimizer.quantity AppShoppingOptimizer.subtotal
          (AppShoppingOptimizer._get_item_prices Fixtures.db_two_stores 100
             Fixtures.two_items eligible) = true)
  /\ (forall ips,
        ShoppingOptimizer._get_item_prices Fixtures.db_two_stores 100 Fixtures.two_items
        = Ok ips ->
        well_formed ShoppingOptimizer.item_id ShoppingOptimizer.price
          ShoppingOptimizer.quantity ShoppingOptimizer.subtotal ips = true).
Proof.
  split; [vm_compute; reflexivity|].
  apply (@item_prices_well_formed Fixtures.db_two_stores 100%Z Fixtures.two_items).
  vm_compute. reflexivity.
Defined.




Lemma eligible_stores_same_uf_witness :
  "PA"%string <> EmptyString
  /\ In 1%Z (EligibleStores._eligible_stores_by_city_radius Fixtures.same Fixtures.same
               Fixtures.lower Fixtures.same Fixtures.no_mark Fixtures.chessboard
               Fixtures.flat Fixtures.db_two_stores (mkLatLng (-(29 # 20)) (-(97 # 2)))
               10 (Some "PA"%string) (Some "Belem"%string))
  /\ exists s, In s (lojas Fixtures.db_two_stores) /\ store_pk s = 1%Z
               /\ uf s = Some "PA"%string
               /\ within Fixtures.same Fixtures.same Fixtures.lower Fixtures.same
                    Fixtures.no_mark Fixtures.chessboard Fixtures.db_two_stores
                    (mkLatLng (-(29 # 20)) (-(97 # 2))) 10 s = true.
Proof.
  split; [discriminate|]. split; [vm_compute; auto|].
  apply (@eligible_stores_same_uf Fixtures.same Fixtures.same Fixtures.lower
           Fixtures.same Fixtures.no_mark Fixtures.chessboard Fixtures.flat
           Fixtures.db_two_stores (mkLatLng (-(29 # 20)) (-(97 # 2))) 10
           "PA"%string (Some "Belem"%string) 1%Z).
  - discriminate.
  - vm_compute. auto.
Defined.

Lemma eligible_stores_without_uf_witness :
  Fixtures.same (Fixtures.same EmptyString) = EmptyString
  /\ AppShoppingOptimizer.falsy None = true
  /\ In 1%Z (EligibleStores._eligible_stores_by_city_radius Fixtures.same Fixtures.same
               Fixtures.lower Fixtures.same Fixtures.no_mark Fixtures.chessboard
               Fixtures.flat Fixtures.db_blank_city (mkLatLng 1 2) 10 None None)
  /\ exists s la lo,
       In s (lojas Fixtures.db_blank_city) /\ store_pk s = 1%Z
       /\ lat s = Some la /\ lng s = Some lo
       /\ Qle_bool (Fixtures.chessboard (mkLatLng 1 2) (mkLatLng la lo)) 10 = true.
Proof.
  split; [reflexivity|]. split; [reflexivity|]. split; [vm_compute; auto|].
  apply (@eligible_stores_without_uf Fixtures.same Fixtures.same Fixtures.lower
           Fixtures.same Fixtures.no_mark Fixtures.chessboard Fixtures.flat
           Fixtures.db_blank_city (mkLatLng 1 2) 10 None None 1%Z).
  - reflexivity.
  - reflexivity.
  - vm_compute. auto.
Defined.

Lemma allocations_within_radius_witness :
  exists a,
    In a (AppShoppingOptimizer.allocations
            (AppShoppingOptimizer.optimize_for_user_city Fixtures.same Fixtures.same
               Fixtures.lower Fixtures.same Fixtures.no_mark
               (EligibleStores._eligible_stores_by_city_radius Fixtures.same
                  Fixtures.same Fixtures.lower Fixtures.same Fixtures.no_mark
                  Fixtures.chessboard Fixtures.flat)
               Fixtures.db_two_stores 100 1 (Some "PA"%string) (Some "Belem"%string) 10))
    /\ AppShoppingOptimizer.sa_items a <> []
    /\ exists center s,
         resolve_city_centroid Fixtures.same Fixtures.same Fixtures.lower Fixtures.same
           Fixtures.no_mark Fixtures.db_two_stores (Some "PA"%string)
           (Some "Belem"%string) = Some center
         /\ In s (lojas Fixtures.db_two_stores)
         /\ store_pk s = AppShoppingOptimizer.sa_store_id a
         /\ uf s = Some "PA"%string
         /\ within Fixtures.same Fixtures.same Fixtures.lower Fixtures.same
              Fixtures.no_mark Fixtures.chessboard Fixtures.db_two_stores center 10 s = true.
Proof.
  eexists. split; [vm_compute; left; reflexivity|].
  apply (@allocations_within_radius Fixtures.same Fixtures.same Fixtures.lower
           Fixtures.same Fixtures.no_mark Fixtures.chessboard Fixtures.flat
           Fixtures.db_two_stores 100%Z 1%Z (Some "PA"%string) (Some "Belem"%string) 10).
  vm_compute. left. reflexivity.
Defined.

End OptimizerExamples.


(* ------------------------------------------------------------------ *)
(** ** The endpoint for a local list *)
(* ------------------------------------------------------------------ *)

Section FileFacts.
Import PyDict.
Context {A B : Type}.

Lemma to_set_NoDup_id (l : list Z) : NoDup l -> Py.to_set l = l.
Proof.
  induction 1 as [|x l Hx Hnd IH]; simpl; [reflexivity|].
  rewrite IH. f_equal. apply filter_all. intros y Hy.
  apply negb_true_iff, Z.eqb_neq. intros ->. contradiction.
Qed.

Lemma append_flat_perm (d : dict (list A)) (k : Z) (v : A) :
  Permutation (flat_map snd (append d k v)) (flat_map snd d ++ [v]).
Proof.
  unfold append. induction d as [|[k' vs] d IH].
  - simpl. apply Permutation_refl.
  - simpl. destruct (Z.eqb k k') eqn:E.
    + apply Z.eqb_eq in E. subst k'. unfold get_or. simpl. rewrite Z.eqb_refl. simpl.
      rewrite <- !app_assoc. apply Permutation_app_head, Permutation_app_comm.
    + apply Z.eqb_neq in E. rewrite get_or_cons_other by assumption.
      simpl. rewrite <- app_assoc. apply Permutation_app_head, IH.
Qed.

(** The elements filed in a dictionary of lists are the elements picked. *)
Lemma file_perm (pick : B -> option A) (key : A -> Z) (l : list B) (d : dict (list A)) :
  Permutation
    (flat_map snd
       (fold_left (fun d x => match pick x with Some b => append d (key b) b | None => d end)
                  l d))
    (flat_map snd d
     ++ flat_map (fun x => match pick x with Some b => [b] | None => [] end) l).
Proof.
  revert d. induction l as [|x l IH]; intro d; simpl.
  - rewrite app_nil_r. apply Permutation_refl.
  - rewrite IH. destruct (pick x) as [b|]; [|apply Permutation_refl].
    rewrite append_flat_perm, <- app_assoc. apply Permutation_refl.
Qed.

Lemma flat_map_map_comm {C D} (f : C -> list D) (g : D -> A) (l : list C) :
  map g (flat_map f l) = flat_map (fun x => map g (f x)) l.
Proof.
  induction l as [|x l IH]; simpl; [reflexivity|]. rewrite map_app, IH. reflexivity.
Qed.

Lemma flat_map_of_map {C D} (f : C -> D) (g : D -> list A) (l : list C) :
  flat_map g (map f l) = flat_map (fun x => g (f x)) l.
Proof. induction l as [|x l IH]; simpl; [reflexivity|]. rewrite IH. reflexivity. Qed.

Lemma flat_map_option_filter (p : B -> bool) (l : list B) :
  flat_map (fun x => if p x then [x] else []) l = filter p l.
Proof.
  induction l as [|x l IH]; simpl; [reflexivity|]. rewrite IH. destruct (p x); reflexivity.
Qed.

Lemma fsum_filter_map (p : B -> bool) (f : B -> Q) (l : list B) :
  (Py.fsum (map f (filter p l)) == Py.fsum (map (fun x => if p x then f x else 0) l))%Q.
Proof.
  induction l as [|x l IH]; simpl; [reflexivity|].
  destruct (p x); simpl; rewrite ?fsum_cons, IH; lra.
Qed.

End FileFacts.

Section WorstCostFacts.
Import Models PyDict AppShoppingOptimizer.
Local Open Scope Q_scope.

(** [max(candidates)] for the offers of item [iid], 0 when there is none. *)
Local Notation "'worst_of' ips iid" :=
  (match Py.max_by (fun x : Q => x)
           (map subtotal (filter (fun ip => Z.eqb (item_id ip) iid) ips)) with
   | Some m => m
   | None => 0
   end) (at level 10, ips at level 9, iid at level 9).

Lemma worst_cost_sum (ips : list ItemPrice) (ids : list Z) :
  AppShoppingRouter.worst_cost ips ids == Py.fsum (map (fun iid => worst_of ips iid) ids).
Proof.
  unfold AppShoppingRouter.worst_cost.
  assert (H : forall acc,
    fold_left
      (fun total_worst_cost iid =>
         match Py.max_by (fun x : Q => x)
                 (map subtotal (filter (fun ip => Z.eqb (item_id ip) iid) ips)) with
         | Some m => total_worst_cost + m
         | None => total_worst_cost
         end) ids acc
    == acc + Py.fsum (map (fun iid => worst_of ips iid) ids)).
  { induction ids as [|x l IH]; intro acc; simpl.
    - change (Py.fsum []) with 0. lra.
    - rewrite IH, fsum_cons.
      destruct (Py.max_by _ _); lra. }
  rewrite <- (Qplus_0_l (Py.fsum _)). rewrite <- H. cbv zeta.
  apply Qeq_refl.
Qed.

(** The items that [_greedy_allocate] allocates: those whose running best
    offer is at a selected store; no item is allocated twice. *)
Lemma greedy_allocate_items (db : DB) (ips : list ItemPrice) (ms : Z) :
  keys (store_item_best_of (group_by_item ips)) <> [] ->
  let sel := fst (greedy_select ips ms) in
  let bbi := snd (greedy_select ips ms) in
  let pick := fun iid =>
    match get bbi iid with
    | Some b => if Py.mem (store_id b) sel then Some b else None
    | None => None
    end in
  Permutation
    (flat_map sa_items (fst (_greedy_allocate db ips ms)))
    (flat_map (fun iid => match pick iid with Some b => [b] | None => [] end)
              (keys (group_by_item ips))).
Proof.
  intros Hne sel bbi pick.
  destruct (greedy_allocate_shape db ips ms Hne) as [Hperm _].
  rewrite (Permutation_flat_map sa_items Hperm), flat_map_of_map.
  assert (E : flat_map (fun kv => sa_items (store_allocation db kv))
                (fst (place_items sel bbi (keys (group_by_item ips))))
              = flat_map snd (fst (place_items sel bbi (keys (group_by_item ips))))).
  { apply flat_map_ext. intros [sid its]. reflexivity. }
  fold sel bbi. rewrite E, place_items_file.
  apply (file_perm pick store_id (keys (group_by_item ips)) []).
Qed.

(** The total of the allocation is at most the total of the dearest
    offers of the allocated items. *)
Lemma greedy_allocate_le_worst (db : DB) (ips : list ItemPrice) (ms : Z) :
  Py.fsum (map total (fst (_greedy_allocate db ips ms)))
  <= AppShoppingRouter.worst_cost ips
       (AppShoppingRouter.allocated_item_ids (fst (_greedy_allocate db ips ms))).
Proof.
  destruct (keys (store_item_best_of (group_by_item ips))) as [|k0 ks] eqn:Ek.
  { unfold _greedy_allocate. rewrite Ek. simpl.
    unfold AppShoppingRouter.worst_cost. simpl. apply Qle_refl. }
  assert (Hne : keys (store_item_best_of (group_by_item ips)) <> [])
    by (rewrite Ek; discriminate).
  pose proof (greedy_allocate_items db ips ms Hne) as Hitems. cbv zeta in Hitems.
  destruct (greedy_allocate_shape db ips ms Hne) as [Hperm _].
  pose proof (greedy_select_inv ips ms) as Hinv.
  set (sel := fst (greedy_select ips ms)) in *.
  set (bbi := snd (greedy_select ips ms)) in *.
  set (ids := keys (group_by_item ips)) in *.
  set (pick := fun iid =>
         match get bbi iid with
         | Some b => if Py.mem (store_id b) sel then Some b else None
         | None => None
         end) in *.
  assert (Hpick : forall iid b, pick iid = Some b -> item_id b = iid /\ In b ips).
  { intros iid b H. unfold pick in H. destruct (get bbi iid) as [b'|] eqn:Eb; [|discriminate].
    destruct (Py.mem (store_id b') sel); [|discriminate]. inversion H. subst b'.
    destruct (Hinv iid b (get_Some_In _ _ Eb)) as [_ [H1 H2]]. auto. }
  set (placed := fun iid => match pick iid with Some _ => true | None => false end).
  assert (Hids : Permutation
                   (flat_map (fun a => map item_id (sa_items a))
                             (fst (_greedy_allocate db ips ms)))
                   (filter placed ids)).
  { rewrite <- flat_map_map_comm. rewrite (Permutation_map item_id Hitems).
    rewrite flat_map_map_comm, <- flat_map_option_filter.
    assert (E : flat_map (fun x => map item_id
                            match pick x with Some b => [b] | None => [] end) ids
                = flat_map (fun x => if placed x then [x] else []) ids).
    { apply flat_map_ext. intro iid. unfold placed.
      destruct (pick iid) as [b|] eqn:Ep; [|reflexivity].
      simpl. rewrite (proj1 (Hpick _ _ Ep)). reflexivity. }
    rewrite E. apply Permutation_refl. }
  assert (Hnd : NoDup (filter placed ids)).
  { apply NoDup_filter. apply app_group_by_item_NoDup. }
  unfold AppShoppingRouter.allocated_item_ids.
  rewrite to_set_NoDup_id
    by (apply (Permutation_NoDup (Permutation_sym Hids)), Hnd).
  rewrite worst_cost_sum.
  rewrite (fsum_perm (Permutation_map _ Hids)).
  rewrite (fsum_filter_map placed).
  (* the total, item by item *)
  rewrite (fsum_perm (Permutation_map total Hperm)), map_map.
  assert (Et : Py.fsum (map (fun kv => total (store_allocation db kv))
                            (fst (place_items sel bbi ids)))
               == weight subtotal (fst (place_items sel bbi ids))).
  { unfold weight. apply fsum_map_eq. intros [sid its] _. reflexivity. }
  rewrite Et, place_items_file.
  match goal with |- weight subtotal ?F <= _ =>
    assert (HF : weight subtotal F
                 == weight subtotal []
                    + Py.fsum (map (fun x => match pick x with
                                             | Some b => subtotal b
                                             | None => 0
                                             end) ids))
      by (apply (file_weight subtotal pick store_id ids []));
    rewrite HF
  end.
  rewrite weight_nil, Qplus_0_l.
  apply fsum_map_le. intros iid Hiid. cbv beta. unfold placed.
  destruct (pick iid) as [b|] eqn:Ep; [|apply Qle_refl].
  destruct (Hpick _ _ Ep) as [Hb1 Hb2].
  apply (@dearest_ge ItemPrice subtotal
           (filter (fun ip => Z.eqb (item_id ip) iid) ips) b).
  apply filter_In. split; [assumption | apply Z.eqb_eq, Hb1].
Qed.

End WorstCostFacts.


Section PayloadOffers.
Import Models PyDict RecentOfferSpec BaselineSpec AppShoppingOptimizer.
Local Open Scope Q_scope.

(** An offer built for the temporary list of the endpoint is filed under
    its product, which is a product of the request. *)
Lemma temp_offer (db : DB) (now : Z) (data : AppShoppingRouter.AppOptimizationIn)
      (eligible : list Z) (ip : ItemPrice) :
  In ip (_get_item_prices db now (AppShoppingRouter.temp_list data) eligible) ->
  item_id ip = canonical_id ip
  /\ In (canonical_id ip)
        (map AppShoppingRouter.oi_canonical_id (AppShoppingRouter.od_items data)).
Proof.
  intro H. apply app_get_item_prices_In in H.
  destruct H as [p [s [it [_ [_ [_ [Hit ->]]]]]]]. cbn [item_id canonical_id].
  destruct (item_of_product_Some _ _ Hit) as [Hin _].
  unfold AppShoppingRouter.temp_list in Hin. cbn [items] in Hin.
  apply in_map_iff in Hin. destruct Hin as [x [<- Hx]]. cbn [item_pk item_canonical_id].
  split; [reflexivity | apply in_map, Hx].
Qed.

Lemma temp_offers_well_formed (db : DB) (now : Z)
      (data : AppShoppingRouter.AppOptimizationIn) (eligible : list Z) :
  PayloadSpec.valid data = true ->
  PayloadSpec.prices_nonneg db = true ->
  well_formed item_id price quantity subtotal
    (_get_item_prices db now (AppShoppingRouter.temp_list data) eligible) = true.
Proof.
  intros Hv Hn. unfold PayloadSpec.valid in Hv. rewrite !andb_true_iff in Hv.
  destruct Hv as [_ Hq]. rewrite forallb_forall in Hq.
  unfold PayloadSpec.prices_nonneg in Hn. rewrite forallb_forall in Hn.
  apply well_formed_intro. intros ip Hip.
  apply app_get_item_prices_In in Hip.
  destruct Hip as [p [s [it [_ [_ [[Hin _] [Hit ->]]]]]]]. cbn [subtotal price quantity item_id].
  destruct (item_of_product_Some _ _ Hit) as [Hit' Hcan].
  pose proof Hit' as Hx. unfold AppShoppingRouter.temp_list in Hx. cbn [items] in Hx.
  apply in_map_iff in Hx. destruct Hx as [x [Ex Hx]].
  split; [reflexivity|]. split; [apply Qle_bool_iff, Hn, Hin|]. split.
  - rewrite <- Ex. cbn [item_quantity]. apply Qlt_le_weak, Qltb_lt, Hq, Hx.
  - intros ip' Hip' E. apply app_get_item_prices_In in Hip'.
    destruct Hip' as [p' [s' [it' [_ [_ [_ [Hit2 ->]]]]]]]. cbn [item_id quantity] in *.
    destruct (item_of_product_Some _ _ Hit2) as [Hit2' _].
    assert (Epk : forall y, In y (items (AppShoppingRouter.temp_list data)) ->
                            item_pk y = item_canonical_id y).
    { intros y Hy. unfold AppShoppingRouter.temp_list in Hy. cbn [items] in Hy.
      apply in_map_iff in Hy. destruct Hy as [z [<- _]]. reflexivity. }
    rewrite (Epk _ Hit'), (Epk _ Hit2') in E. rewrite E in Hit2.
    rewrite Hit in Hit2. inversion Hit2. reflexivity.
Qed.

(** The items left outside the selected stores have offers. *)
Lemma greedy_outside_In (db : DB) (ips : list ItemPrice) (ms iid : Z) :
  In iid (snd (_greedy_allocate db ips ms)) -> In iid (map item_id ips).
Proof.
  intro H. apply app_group_by_item_keys.
  destruct (keys (store_item_best_of (group_by_item ips))) as [|c cs] eqn:Ec.
  { unfold _greedy_allocate in H. rewrite Ec in H. exact H. }
  destruct (greedy_allocate_shape db ips ms) as [_ Hout]; [rewrite Ec; discriminate|].
  rewrite Hout in H.
  apply (place_items_sound (fst (greedy_select ips ms)) (snd (greedy_select ips ms))
           (greedy_select_keyed ips ms) (keys (group_by_item ips))) in H.
  tauto.
Qed.

Lemma max0_inert (x : Q) : 0 <= x -> AppShoppingRouter.max0 x == x.
Proof.
  intro H. unfold AppShoppingRouter.max0. destruct (Py.Qltb 0 x) eqn:E; [reflexivity|].
  apply Qltb_ge in E. lra.
Qed.

Lemma percent_range (x y : Q) :
  0 <= x <= y -> 0 <= AppShoppingRouter.percent x y <= 100.
Proof.
  intro H. unfold AppShoppingRouter.percent.
  destruct (Py.Qltb 0 y) eqn:Ey; simpl; [|lra].
  destruct (Py.Qltb 0 x); [|lra].
  apply percent_bounds; [exact H | apply Qltb_lt, Ey].
Qed.

End PayloadOffers.

Section PayloadTotals.
Import Models PyDict CityLocationService RecentOfferSpec BaselineSpec.
Import AppShoppingRouter PayloadSpec.
Local Open Scope Q_scope.
Variables (strip upper casefold nfkd : string -> string).
Variable combining : ascii -> bool.
Variable haversine : LatLng Q -> LatLng Q -> Q.
Variable cos_radians : Q -> Q.
Variable isoformat : Z -> string.

Local Notation "'endpoint'" :=
  (optimize_local_payload strip upper casefold nfkd combining haversine cos_radians
     isoformat).

Lemma payload_totals (db : DB) (produtos_canonicos : list CanonicalProduct) (now : Z)
      (data : AppOptimizationIn) (current_user : AppUser)
      (out : AppOptimizationResultOut) :
  valid data = true ->
  prices_nonneg db = true ->
  prices_below AppShoppingOptimizer.INF db = true ->
  endpoint db produtos_canonicos now data current_user = Returned out ->
  0 <= total_cost out /\ total_cost out <= total_if_single_store out
  /\ savings out == total_if_single_store out - total_cost out
  /\ 0 <= savings_percent out <= 100
  /\ total_cost out <= total_worst_cost out
  /\ potential_savings out == total_worst_cost out - total_cost out
  /\ 0 <= potential_savings_percent out <= 100.
Proof.
  intros Hv Hn Hb. unfold optimize_local_payload.
  assert (Hfail : forall msg,
            Returned (failure msg data) = Returned out ->
            0 <= total_cost out /\ total_cost out <= total_if_single_store out
            /\ savings out == total_if_single_store out - total_cost out
            /\ 0 <= savings_percent out <= 100
            /\ total_cost out <= total_worst_cost out
            /\ potential_savings out == total_worst_cost out - total_cost out
            /\ 0 <= potential_savings_percent out <= 100).
  { intros msg H. inversion H. subst out. simpl. repeat split; lra. }
  destruct (od_items data) as [|i0 is0]; [discriminate|].
  destruct (AppShoppingOptimizer.falsy (state current_user)
            || AppShoppingOptimizer.falsy (city current_user)); [apply Hfail|].
  destruct (resolve_city_centroid _ _ _ _ _ db _ _) as [center|]; [|apply Hfail].
  destruct (EligibleStores._eligible_stores_by_city_radius _ _ _ _ _ _ _ db center _ _ _)
    as [|e0 es]; [apply Hfail|].
  pose proof (temp_offers_well_formed db now data (e0 :: es) Hv Hn) as Hwf.
  pose proof (priced_below_offers db now (temp_list data) (e0 :: es) Hb) as Hpb.
  destruct (AppShoppingOptimizer._get_item_prices db now (temp_list data) (e0 :: es))
    as [|ip0 ips0]; [apply Hfail|].
  pose proof (greedy_allocate_never_loses db (ip0 :: ips0) (od_max_stores data) Hwf Hpb)
    as Hle.
  pose proof (greedy_allocate_total_nonneg db (ip0 :: ips0) (od_max_stores data)
                (fun ip Hip => well_formed_nonneg _ _ _ _ _ Hwf ip Hip)) as Hpos.
  pose proof (greedy_allocate_le_worst db (ip0 :: ips0) (od_max_stores data)) as Hw.
  destruct (AppShoppingOptimizer._greedy_allocate db (ip0 :: ips0) (od_max_stores data))
    as [allocs outs].
  cbn [fst] in Hle, Hpos, Hw.
  intro H. inversion H. subst out. clear H.
  cbn [total_cost total_if_single_store savings savings_percent total_worst_cost
       potential_savings potential_savings_percent].
  set (T := Py.fsum (map AppShoppingOptimizer.total allocs)) in *.
  set (S := AppShoppingOptimizer._calculate_single_store_cost (ip0 :: ips0)) in *.
  set (W := worst_cost (ip0 :: ips0) (allocated_item_ids allocs)) in *.
  pose proof (@max0_inert (S - T)) as Hs.
  pose proof (@max0_inert (W - T)) as Hp.
  split; [exact Hpos|]. split; [exact Hle|]. split; [apply Hs; lra|].
  split; [apply percent_range; lra|]. split; [exact Hw|]. split; [apply Hp; lra|].
  apply percent_range; lra.
Qed.


End PayloadTotals.


Section PayloadCoverage.
Import Models PyDict CityLocationService AllocationEngineSpec.
Import AppShoppingRouter PayloadSpec.
Local Open Scope Q_scope.
Variables (strip upper casefold nfkd : string -> string).
Variable combining : ascii -> bool.
Variable haversine : LatLng Q -> LatLng Q -> Q.
Variable cos_radians : Q -> Q.
Variable isoformat : Z -> string.

Local Notation "'endpoint'" :=
  (optimize_local_payload strip upper casefold nfkd combining haversine cos_radians
     isoformat).
Local Notation "'offers'" :=
  (offers_in_radius strip upper casefold nfkd combining haversine cos_radians).

(** The answers of the endpoint: a failure, or the answer computed from
    the offers within the radius. *)
Lemma payload_cases (db : DB) (produtos_canonicos : list CanonicalProduct) (now : Z)
      (data : AppOptimizationIn) (current_user : AppUser)
      (out : AppOptimizationResultOut) :
  endpoint db produtos_canonicos now data current_user = Returned out ->
  (exists msg, out = failure msg data)
  \/ (exists eligible names,
        let ips := offers db now data current_user in
        let allocs :=
          fst (AppShoppingOptimizer._greedy_allocate db ips (od_max_stores data)) in
        let outs :=
          snd (AppShoppingOptimizer._greedy_allocate db ips (od_max_stores data)) in
        let without :=
          filter (fun cid =>
                    negb (Py.mem cid
                            (Py.to_set (map AppShoppingOptimizer.canonical_id ips))))
                 (map oi_canonical_id (od_items data)) in
        ips <> []
        /\ (forall ip, In ip ips ->
              AppShoppingOptimizer.item_id ip = AppShoppingOptimizer.canonical_id ip
              /\ In (AppShoppingOptimizer.canonical_id ip)
                    (map oi_canonical_id (od_items data)))
        /\ success out = true
        /\ allocations out = map (allocation_out db names) allocs
        /\ items_without_price out = without
        /\ items_outside_selected_stores out = Py.sort_by Z.ltb (Py.to_set outs)
        /\ unoptimized_prices out = flat_map (unoptimized_price isoformat ips) outs
        /\ fallback_prices out
           = flat_map (fallback_price isoformat
                         (AppShoppingOptimizer._get_fallback_prices db without eligible))
                      without).
Proof.
  unfold optimize_local_payload, offers_in_radius.
  destruct (od_items data) as [|i0 is0] eqn:Ei; [discriminate|]. rewrite <- Ei.
  destruct (AppShoppingOptimizer.falsy (state current_user)
            || AppShoppingOptimizer.falsy (city current_user));
    [intro H; inversion H; left; eauto|].
  destruct (resolve_city_centroid _ _ _ _ _ db _ _) as [center|];
    [|intro H; inversion H; left; eauto].
  destruct (EligibleStores._eligible_stores_by_city_radius _ _ _ _ _ _ _ db center _ _ _)
    as [|e0 es] eqn:Ee; [intro H; inversion H; left; eauto|].
  pose proof (temp_offer db now data (e0 :: es)) as Htemp.
  destruct (AppShoppingOptimizer._get_item_prices db now (temp_list data) (e0 :: es))
    as [|ip0 ips0] eqn:Eips; [intro H; inversion H; left; eauto|].
  destruct (AppShoppingOptimizer._greedy_allocate db (ip0 :: ips0) (od_max_stores data))
    as [allocs outs].
  intro H. inversion H. subst out. clear H. right.
  exists (e0 :: es),
         (name_by_id produtos_canonicos (map item_canonical_id (items (temp_list data)))).
  cbn [fst snd success allocations items_without_price items_outside_selected_stores
       unoptimized_prices fallback_prices].
  assert (Ec : map item_canonical_id (items (temp_list data))
               = map oi_canonical_id (od_items data)).
  { unfold temp_list. cbn [items]. rewrite map_map. reflexivity. }
  split; [discriminate|]. split; [exact Htemp|].
  unfold temp_list in *. cbn [items] in *. rewrite <- Ec.
  repeat split; reflexivity.
Qed.

Lemma allocated_iff (db : DB) (names : dict string)
      (allocs : list AppShoppingOptimizer.StoreAllocation)
      (out : AppOptimizationResultOut) (cid : Z) :
  allocations out = map (allocation_out db names) allocs ->
  (allocated out cid <->
   exists a ip, In a allocs /\ In ip (AppShoppingOptimizer.sa_items a)
                /\ AppShoppingOptimizer.canonical_id ip = cid).
Proof.
  intro E. unfold allocated. rewrite E. split.
  - intros [a' [it [Ha [Hit Hc]]]]. apply in_map_iff in Ha. destruct Ha as [a [<- Ha]].
    cbn [allocation_out so_items] in Hit. apply in_map_iff in Hit.
    destruct Hit as [ip [<- Hip]]. exists a, ip. auto.
  - intros [a [ip [Ha [Hip Hc]]]].
    exists (allocation_out db names a). eexists.
    split; [apply in_map, Ha|]. split.
    + cbn [allocation_out so_items].
      apply in_map_iff. exists ip. split; [reflexivity | exact Hip].
    + exact Hc.
Qed.

Lemma payload_partition_holds
      (db : DB) (produtos_canonicos : list CanonicalProduct) (now : Z)
      (data : AppOptimizationIn) (current_user : AppUser)
      (out : AppOptimizationResultOut) (cid : Z) :
  endpoint db produtos_canonicos now data current_user = Returned out ->
  In cid (map oi_canonical_id (od_items data)) ->
  (allocated out cid /\ ~ In cid (items_outside_selected_stores out)
   /\ ~ In cid (items_without_price out))
  \/ (~ allocated out cid /\ In cid (items_outside_selected_stores out)
      /\ ~ In cid (items_without_price out))
  \/ (~ allocated out cid /\ ~ In cid (items_outside_selected_stores out)
      /\ In cid (items_without_price out)).
Proof.
  intros H Hcid. apply payload_cases in H.
  destruct H as [[msg ->]|[eligible [names H]]].
  { right. right. simpl. split; [intros [a [it [[] _]]]|]. split; [tauto | assumption]. }
  cbv zeta in H.
  set (ips := offers db now data current_user) in *.
  destruct H as [_ [Htemp [_ [Eal [Ew [Eo _]]]]]].
  pose proof (allocated_iff db names _ out cid Eal) as Hal.
  rewrite Ew, Eo. clear Ew Eo.
  assert (Hout : In cid (Py.sort_by Z.ltb
                   (Py.to_set (snd (AppShoppingOptimizer._greedy_allocate db ips
                                      (od_max_stores data)))))
                 <-> In cid (snd (AppShoppingOptimizer._greedy_allocate db ips
                                    (od_max_stores data)))).
  { rewrite sort_by_In, to_set_In. tauto. }
  assert (Hwo : In cid (filter (fun cid =>
                          negb (Py.mem cid
                                  (Py.to_set (map AppShoppingOptimizer.canonical_id ips))))
                          (map oi_canonical_id (od_items data)))
                <-> ~ In cid (map AppShoppingOptimizer.canonical_id ips)).
  { rewrite filter_In, negb_true_iff, mem_not_In, to_set_In. tauto. }
  rewrite Hout, Hwo, Hal. clear Hout Hwo Hal.
  assert (Hsound : forall a ip,
            In a (fst (AppShoppingOptimizer._greedy_allocate db ips (od_max_stores data))) ->
            In ip (AppShoppingOptimizer.sa_items a) -> In ip ips).
  { intros a ip Ha Hip.
    apply (proj2 (greedy_allocate_offers db ips (od_max_stores data) a Ha) ip Hip). }
  destruct (in_dec Z.eq_dec cid (map AppShoppingOptimizer.canonical_id ips)) as [Hp|Hp].
  - apply in_map_iff in Hp. destruct Hp as [ip [Ec Hip]].
    destruct (Htemp ip Hip) as [Eid _].
    pose proof (greedy_allocate_partition db ips (od_max_stores data) ip Hip) as Hpart.
    rewrite Eid, Ec in Hpart.
    assert (Hin : In cid (map AppShoppingOptimizer.canonical_id ips))
      by (apply in_map_iff; eauto).
    assert (Hsame : app_allocates
                      (fst (AppShoppingOptimizer._greedy_allocate db ips
                              (od_max_stores data))) cid
                    <-> exists a ip0,
                          In a (fst (AppShoppingOptimizer._greedy_allocate db ips
                                       (od_max_stores data)))
                          /\ In ip0 (AppShoppingOptimizer.sa_items a)
                          /\ AppShoppingOptimizer.canonical_id ip0 = cid).
    { unfold app_allocates. split; intros [a [ip0 [Ha [Hip0 E]]]]; exists a, ip0;
        (split; [assumption|]; split; [assumption|]);
        destruct (Htemp ip0 (Hsound a ip0 Ha Hip0)) as [E0 _]; congruence. }
    rewrite Hsame in Hpart.
    destruct (in_dec Z.eq_dec cid
                (snd (AppShoppingOptimizer._greedy_allocate db ips (od_max_stores data))))
      as [Ho|Ho].
    + right. left. split; [intro Ha; apply Hpart in Ha; contradiction|]. tauto.
    + left. split; [apply Hpart, Ho|]. tauto.
  - right. right. split; [|split; [|exact Hp]].
    + intros [a [ip [Ha [Hip E]]]]. apply Hp. apply in_map_iff.
      exists ip. split; [exact E | apply (Hsound a ip Ha Hip)].
    + intro Ho. apply greedy_outside_In in Ho. apply in_map_iff in Ho.
      destruct Ho as [ip [E Hip]]. apply Hp. apply in_map_iff. exists ip.
      destruct (Htemp ip Hip) as [E0 _]. split; [congruence | assumption].
Qed.

(** X18.  In every answer of [optimize_local_payload] each requested
    product is in exactly one of three places: the items of some
    allocation, [items_outside_selected_stores], or [items_without_price]. *)
Theorem payload_partition
      (db : DB) (produtos_canonicos : list CanonicalProduct) (now : Z)
      (data : AppOptimizationIn) (current_user : AppUser)
      (out : AppOptimizationResultOut) (cid : Z) :
  endpoint db produtos_canonicos now data current_user = Returned out ->
  In cid (map oi_canonical_id (od_items data)) ->
  (allocated out cid /\ ~ In cid (items_outside_selected_stores out)
   /\ ~ In cid (items_without_price out))
  \/ (~ allocated out cid /\ In cid (items_outside_selected_stores out)
      /\ ~ In cid (items_without_price out))
  \/ (~ allocated out cid /\ ~ In cid (items_outside_selected_stores out)
      /\ In cid (items_without_price out)).
Proof. apply payload_partition_holds. Qed.

Lemma fallback_keyed (db : DB) (ids eligible : list Z) (cid : Z)
      (fp : AppShoppingOptimizer.FallbackPrice) :
  get (AppShoppingOptimizer._get_fallback_prices db ids eligible) cid = Some fp ->
  AppShoppingOptimizer.fp_canonical_id fp = cid.
Proof.
  unfold AppShoppingOptimizer._get_fallback_prices.
  destruct ids as [|i0 ids0]; [discriminate|].
  destruct eligible as [|e0 es]; [discriminate|].
  cbv zeta. intro H.
  match type of H with get (fold_left _ ?rows []) _ = _ =>
    pose proof (fallback_fold_spec rows cid) as Hspec
  end.
  rewrite H in Hspec. destruct Hspec as [[p [s [_ [_ ->]]]] _]. reflexivity.
Qed.

Lemma payload_prices_hold
      (db : DB) (produtos_canonicos : list CanonicalProduct) (now : Z)
      (data : AppOptimizationIn) (current_user : AppUser)
      (out : AppOptimizationResultOut) :
  endpoint db produtos_canonicos now data current_user = Returned out ->
  success out = true ->
  (forall cid, In cid (map oi_canonical_id (od_items data)) ->
     (In cid (items_without_price out)
      <-> forall ip, In ip (offers db now data current_user) ->
                     AppShoppingOptimizer.canonical_id ip <> cid))
  /\ (forall cid, In cid (items_outside_selected_stores out) ->
        exists u, In u (unoptimized_prices out) /\ fo_canonical_id u = cid)
  /\ (forall u, In u (unoptimized_prices out) ->
        In (fo_canonical_id u) (items_outside_selected_stores out)
        /\ (exists ip, In ip (offers db now data current_user)
                       /\ AppShoppingOptimizer.canonical_id ip = fo_canonical_id u
                       /\ AppShoppingOptimizer.store_id ip = fo_store_id u
                       /\ AppShoppingOptimizer.price ip = fo_price u)
        /\ forall ip, In ip (offers db now data current_user) ->
                      AppShoppingOptimizer.canonical_id ip = fo_canonical_id u ->
                      fo_price u <= AppShoppingOptimizer.price ip)
  /\ (forall f, In f (fallback_prices out) ->
        In (fo_canonical_id f) (items_without_price out)).
Proof.
  intros H Hs. apply payload_cases in H.
  destruct H as [[msg ->]|[eligible [names H]]]; [discriminate|].
  cbv zeta in H.
  set (ips := offers db now data current_user) in *.
  destruct H as [_ [Htemp [_ [_ [Ew [Eo [Eu Ef]]]]]]].
  rewrite Ew, Eo, Eu, Ef. clear Ew Eo Eu Ef.
  set (outs := snd (AppShoppingOptimizer._greedy_allocate db ips (od_max_stores data))).
  assert (Hout : forall cid, In cid (Py.sort_by Z.ltb (Py.to_set outs)) <-> In cid outs).
  { intro cid. rewrite sort_by_In, to_set_In. tauto. }
  split; [|split; [|split]].
  - intros cid Hcid. rewrite filter_In, negb_true_iff, mem_not_In, to_set_In. split.
    + intros [_ Hn] ip Hip E. apply Hn. apply in_map_iff. eauto.
    + intro Hn. split; [assumption|]. intro Hin. apply in_map_iff in Hin.
      destruct Hin as [ip [E Hip]]. apply (Hn ip Hip E).
  - intros cid Hcid. apply Hout in Hcid.
    pose proof (greedy_outside_In db ips (od_max_stores data) cid Hcid) as Hin.
    apply in_map_iff in Hin. destruct Hin as [ip [E Hip]].
    destruct (Py.min_by AppShoppingOptimizer.price
                (filter (fun ip => Z.eqb (AppShoppingOptimizer.item_id ip) cid) ips))
      as [best|] eqn:Eb.
    + destruct (min_by_Some _ _ Eb) as [Hb _]. apply filter_In in Hb.
      destruct Hb as [Hb1 Hb2]. apply Z.eqb_eq in Hb2.
      eexists. split.
      * apply in_flat_map. exists cid. split; [exact Hcid|].
        unfold unoptimized_price. rewrite Eb. left. reflexivity.
      * cbn [fo_canonical_id]. destruct (Htemp best Hb1) as [E0 _]. congruence.
    + apply min_by_None in Eb.
      assert (Hf : In ip (filter (fun ip => Z.eqb (AppShoppingOptimizer.item_id ip) cid)
                                 ips))
        by (apply filter_In; split; [assumption | apply Z.eqb_eq, E]).
      rewrite Eb in Hf. destruct Hf.
  - intros u Hu. apply in_flat_map in Hu. destruct Hu as [iid [Hiid Hu]].
    unfold unoptimized_price in Hu.
    destruct (Py.min_by AppShoppingOptimizer.price
                (filter (fun ip => Z.eqb (AppShoppingOptimizer.item_id ip) iid) ips))
      as [best|] eqn:Eb; [|destruct Hu].
    destruct Hu as [<-|[]]. cbn [fo_canonical_id fo_store_id fo_price].
    destruct (min_by_Some _ _ Eb) as [Hb Hmin]. apply filter_In in Hb.
    destruct Hb as [Hb1 Hb2]. apply Z.eqb_eq in Hb2.
    destruct (Htemp best Hb1) as [E0 _].
    split; [apply Hout; congruence|]. split; [exists best; auto|].
    intros ip Hip E. apply Hmin. apply filter_In. split; [assumption|].
    apply Z.eqb_eq. destruct (Htemp ip Hip) as [E1 _]. congruence.
  - intros f Hf. apply in_flat_map in Hf. destruct Hf as [cid [Hcid Hf]].
    unfold fallback_price in Hf.
    match type of Hf with context [get ?m cid] =>
      destruct (get m cid) as [fp|] eqn:Eg; [|destruct Hf]
    end.
    destruct Hf as [<-|[]]. cbn [fo_canonical_id].
    rewrite (fallback_keyed _ _ _ _ Eg). exact Hcid.
Qed.

(** X19.  In a successful answer of [optimize_local_payload] a requested
    product is in [items_without_price] exactly when it has no recent offer
    at a store within the radius; [unoptimized_prices] holds an entry for
    each product of [items_outside_selected_stores] and for no other, and
    the entry quotes the lowest recent price of the product within the
    radius, at a store that offers it; [fallback_prices] quotes only
    products of [items_without_price]. *)
Theorem payload_prices_outside
      (db : DB) (produtos_canonicos : list CanonicalProduct) (now : Z)
      (data : AppOptimizationIn) (current_user : AppUser)
      (out : AppOptimizationResultOut) :
  endpoint db produtos_canonicos now data current_user = Returned out ->
  success out = true ->
  (forall cid, In cid (map oi_canonical_id (od_items data)) ->
     (In cid (items_without_price out)
      <-> forall ip, In ip (offers db now data current_user) ->
                     AppShoppingOptimizer.canonical_id ip <> cid))
  /\ (forall cid, In cid (items_outside_selected_stores out) ->
        exists u, In u (unoptimized_prices out) /\ fo_canonical_id u = cid)
  /\ (forall u, In u (unoptimized_prices out) ->
        In (fo_canonical_id u) (items_outside_selected_stores out)
        /\ (exists ip, In ip (offers db now data current_user)
                       /\ AppShoppingOptimizer.canonical_id ip = fo_canonical_id u
                       /\ AppShoppingOptimizer.store_id ip = fo_store_id u
                       /\ AppShoppingOptimizer.price ip = fo_price u)
        /\ forall ip, In ip (offers db now data current_user) ->
                      AppShoppingOptimizer.canonical_id ip = fo_canonical_id u ->
                      fo_price u <= AppShoppingOptimizer.price ip)
  /\ (forall f, In f (fallback_prices out) ->
        In (fo_canonical_id f) (items_without_price out)).
Proof. apply payload_prices_hold. Qed.

End PayloadCoverage.


Section PayloadExamples.
Import Models CityLocationService RecentOfferSpec AppShoppingRouter PayloadSpec.
Local Open Scope Q_scope.

Local Notation "'endpoint'" :=
  (optimize_local_payload Fixtures.same Fixtures.same Fixtures.lower Fixtures.same
     Fixtures.no_mark Fixtures.chessboard Fixtures.flat Py.str_of_Z).
Local Notation "'offers'" :=
  (offers_in_radius Fixtures.same Fixtures.same Fixtures.lower Fixtures.same
     Fixtures.no_mark Fixtures.chessboard Fixtures.flat).


Lemma payload_partition_witness :
  exists out,
    endpoint Fixtures.db_payload Fixtures.produtos 100%Z Fixtures.payload
      Fixtures.user_belem = Returned out
    /\ ((allocated out 2 /\ ~ In 2%Z (items_outside_selected_stores out)
         /\ ~ In 2%Z (items_without_price out))
        \/ (~ allocated out 2 /\ In 2%Z (items_outside_selected_stores out)
            /\ ~ In 2%Z (items_without_price out))
        \/ (~ allocated out 2 /\ ~ In 2%Z (items_outside_selected_stores out)
            /\ In 2%Z (items_without_price out))).
Proof.
  eexists. split; [vm_compute; reflexivity|].
  apply (@payload_partition Fixtures.same Fixtures.same Fixtures.lower Fixtures.same
           Fixtures.no_mark Fixtures.chessboard Fixtures.flat Py.str_of_Z
           Fixtures.db_payload Fixtures.produtos 100%Z Fixtures.payload
           Fixtures.user_belem).
  - vm_compute. reflexivity.
  - simpl. auto.
Defined.

Lemma payload_prices_outside_witness :
  exists out,
    endpoint Fixtures.db_payload Fixtures.produtos 100%Z Fixtures.payload
      Fixtures.user_belem = Returned out
    /\ success out = true
    /\ items_outside_selected_stores out = [2%Z]
    /\ items_without_price out = [3%Z]
    /\ (forall u, In u (unoptimized_prices out) ->
          In (fo_canonical_id u) (items_outside_selected_stores out)
          /\ (exists ip, In ip (offers Fixtures.db_payload 100%Z Fixtures.payload
                                  Fixtures.user_belem)
                         /\ AppShoppingOptimizer.canonical_id ip = fo_canonical_id u
                         /\ AppShoppingOptimizer.store_id ip = fo_store_id u
                         /\ AppShoppingOptimizer.price ip = fo_price u)
          /\ forall ip, In ip (offers Fixtures.db_payload 100%Z Fixtures.payload
                                 Fixtures.user_belem) ->
                        AppShoppingOptimizer.canonical_id ip = fo_canonical_id u ->
                        fo_price u <= AppShoppingOptimizer.price ip).
Proof.
  eexists. split; [vm_compute; reflexivity|]. split; [reflexivity|].
  split; [vm_compute; reflexivity|]. split; [vm_compute; reflexivity|].
  apply (@payload_prices_outside Fixtures.same Fixtures.same Fixtures.lower Fixtures.same
           Fixtures.no_mark Fixtures.chessboard Fixtures.flat Py.str_of_Z
           Fixtures.db_payload Fixtures.produtos 100%Z Fixtures.payload
           Fixtures.user_belem).
  - vm_compute. reflexivity.
  - reflexivity.
Defined.

End PayloadExamples.


(* ------------------------------------------------------------------ *)
(** ** The distance and the latitude band of the store query *)
(* ------------------------------------------------------------------ *)

Section HaversineBounds.
Import CityLocationService.
Local Open Scope R_scope.

Lemma PI_lower : 3137 / 1000 < PI.
Proof.
  pose proof (PI_2_3_7_ineq 1) as [H _].
  unfold sum_f_R0, tg_alt, PI_2_3_7_tg, Ratan_seq in H. simpl in H.
  lra.
Qed.

Lemma asin_le (x y : R) : -1 <= x -> x <= y -> y <= 1 -> asin x <= asin y.
Proof.
  intros Hx Hxy Hy.
  destruct (Rle_lt_dec (asin x) (asin y)) as [H|H]; [assumption|].
  exfalso.
  pose proof (asin_bound x) as [Hx1 Hx2]. pose proof (asin_bound y) as [Hy1 Hy2].
  assert (Hs : sin (asin y) < sin (asin x)) by (apply sin_increasing_1; lra).
  rewrite !sin_asin in Hs by lra. lra.
Qed.

(** The arc sine of the square root is at least half the difference of
    the latitudes, in radians. *)
Lemma haversine_asin_lower (lat1 lat2 dlng t : R) :
  - (PI / 2) <= lat1 <= PI / 2 -> - (PI / 2) <= lat2 <= PI / 2 ->
  0 <= t <= PI / 2 -> (t = (lat2 - lat1) / 2 \/ t = - ((lat2 - lat1) / 2)) ->
  t <= asin (sqrt (sin ((lat2 - lat1) / 2) * sin ((lat2 - lat1) / 2)
                   + cos lat1 * cos lat2 * sin (dlng / 2) * sin (dlng / 2))).
Proof.
  intros H1 H2 Ht Hcase.
  pose proof (haversine_h_bounds lat1 lat2 dlng) as [Hh0 Hh1].
  set (h := sin ((lat2 - lat1) / 2) * sin ((lat2 - lat1) / 2)
            + cos lat1 * cos lat2 * sin (dlng / 2) * sin (dlng / 2)) in *.
  assert (Hc1 : 0 <= cos lat1) by (apply cos_ge_0; lra).
  assert (Hc2 : 0 <= cos lat2) by (apply cos_ge_0; lra).
  assert (Hst : 0 <= sin t) by (apply sin_ge_0; pose proof PI_RGT_0; lra).
  assert (Hsq : sin t * sin t <= h).
  { assert (E : sin t * sin t = sin ((lat2 - lat1) / 2) * sin ((lat2 - lat1) / 2)).
    { destruct Hcase as [-> | ->]; [reflexivity|]. rewrite sin_neg. ring. }
    rewrite E. unfold h.
    assert (0 <= cos lat1 * cos lat2 * (sin (dlng / 2) * sin (dlng / 2))).
    { apply Rmult_le_pos; [apply Rmult_le_pos; assumption|]. nra. }
    lra. }
  assert (Hle : sin t <= sqrt h).
  { rewrite <- (sqrt_square (sin t)) by assumption. apply sqrt_le_1_alt, Hsq. }
  assert (Hs1 : sqrt h <= 1).
  { rewrite <- sqrt_1. apply sqrt_le_1_alt, Hh1. }
  rewrite <- (asin_sin t) at 1 by lra.
  apply asin_le; lra.
Qed.

Lemma haversine_km_bounds (a b : LatLng R) :
  -90 <= ll_lat a <= 90 -> -90 <= ll_lat b <= 90 ->
  exists d, haversine_km a b = Some d
            /\ 111 * Rabs (ll_lat b - ll_lat a) <= d
            /\ d <= 6371 * PI.
Proof.
  intros Ha Hb. eexists. split; [apply haversine_km_value|].
  pose proof PI_lower as Hpi. pose proof PI_RGT_0 as Hpi0.
  set (s := sqrt _).
  split.
  - unfold radians in s.
    assert (H1 : - (PI / 2) <= ll_lat a * PI / 180 <= PI / 2) by (split; nra).
    assert (H2 : - (PI / 2) <= ll_lat b * PI / 180 <= PI / 2) by (split; nra).
    unfold Rabs. destruct (Rcase_abs (ll_lat b - ll_lat a)) as [Hneg|Hpos].
    + assert (Hlow : - ((ll_lat b * PI / 180 - ll_lat a * PI / 180) / 2) <= asin s).
      { subst s.
        apply (@haversine_asin_lower (ll_lat a * PI / 180) (ll_lat b * PI / 180)
                 ((ll_lng b - ll_lng a) * PI / 180)
                 (- ((ll_lat b * PI / 180 - ll_lat a * PI / 180) / 2)) H1 H2);
          [split; nra | right; reflexivity]. }
      nra.
    + assert (Hlow : (ll_lat b * PI / 180 - ll_lat a * PI / 180) / 2 <= asin s).
      { subst s.
        apply (@haversine_asin_lower (ll_lat a * PI / 180) (ll_lat b * PI / 180)
                 ((ll_lng b - ll_lng a) * PI / 180)
                 ((ll_lat b * PI / 180 - ll_lat a * PI / 180) / 2) H1 H2);
          [split; nra | left; reflexivity]. }
      nra.
  - pose proof (asin_bound s) as [_ Hs]. lra.
Qed.


End HaversineBounds.

Section HaversineExamples.
Import CityLocationService.
Local Open Scope R_scope.


End HaversineExamples.


(* ------------------------------------------------------------------ *)
(** ** What the location-aware optimizer writes *)
(* ------------------------------------------------------------------ *)

Section AppSavedFacts.
Import Models PyDict CityLocationService AllocationEngineSpec.
Import AppShoppingOptimizer AppSavedOptimization.
Local Open Scope Q_scope.

(** [chosen_by_item] files an allocated offer under its item, and has no
    entry for an item that has none. *)
Lemma chosen_by_item_get (allocs : list StoreAllocation) (k : Z) :
  match get (chosen_by_item allocs) k with
  | Some c => In c (flat_map sa_items allocs) /\ item_id c = k
  | None => forall ip, In ip (flat_map sa_items allocs) -> item_id ip <> k
  end.
Proof.
  unfold chosen_by_item.
  induction (flat_map sa_items allocs) as [|x l IH] using rev_ind; [simpl; tauto|].
  rewrite fold_left_app. simpl.
  destruct (Z.eq_dec k (item_id x)) as [->|Hne].
  - rewrite get_put_same. split; [apply in_or_app; simpl; auto | reflexivity].
  - rewrite get_put_other by congruence.
    destruct (get (fold_left (fun d ip => put d (item_id ip) ip) l []) k) as [c|].
    + destruct IH. split; [apply in_or_app; auto | assumption].
    + intros ip Hip. apply in_app_or in Hip. destruct Hip as [Hip|[<-|[]]]; auto.
Qed.

(** No item is allocated twice. *)
Lemma greedy_allocate_once (db : DB) (ips : list ItemPrice) (ms : Z) :
  NoDup (map item_id (flat_map sa_items (fst (_greedy_allocate db ips ms)))).
Proof.
  destruct (keys (store_item_best_of (group_by_item ips))) as [|k0 ks] eqn:Ek.
  { unfold _greedy_allocate. rewrite Ek. simpl. constructor. }
  assert (Hne : keys (store_item_best_of (group_by_item ips)) <> [])
    by (rewrite Ek; discriminate).
  pose proof (greedy_allocate_items db ips ms Hne) as Hitems. cbv zeta in Hitems.
  pose proof (greedy_select_inv ips ms) as Hinv.
  set (sel := fst (greedy_select ips ms)) in *.
  set (bbi := snd (greedy_select ips ms)) in *.
  set (pick := fun iid =>
         match get bbi iid with
         | Some b => if Py.mem (store_id b) sel then Some b else None
         | None => None
         end) in *.
  set (placed := fun iid => match pick iid with Some _ => true | None => false end).
  apply (Permutation_NoDup
           (l := filter placed (keys (group_by_item ips))));
    [|apply NoDup_filter, app_group_by_item_NoDup].
  rewrite (Permutation_map item_id Hitems).
  rewrite flat_map_map_comm, <- flat_map_option_filter.
  assert (E : flat_map (fun x => map item_id
                          match pick x with Some b => [b] | None => [] end)
                (keys (group_by_item ips))
              = flat_map (fun x => if placed x then [x] else [])
                  (keys (group_by_item ips))).
  { apply flat_map_ext. intro iid. unfold placed.
    destruct (pick iid) as [b|] eqn:Ep; [|reflexivity].
    simpl. unfold pick in Ep. destruct (get bbi iid) as [b'|] eqn:Eb; [|discriminate].
    destruct (Py.mem (store_id b') sel); [|discriminate]. inversion Ep. subst b'.
    destruct (Hinv iid b (get_Some_In _ _ Eb)) as [_ [H1 _]]. rewrite H1. reflexivity. }
  rewrite E. apply Permutation_refl.
Qed.

Lemma NoDup_map_inj {X} (f : X -> Z) (l : list X) (a b : X) :
  NoDup (map f l) -> In a l -> In b l -> f a = f b -> a = b.
Proof.
  induction l as [|x l IH]; simpl; [tauto|].
  intros Hnd Ha Hb E. inversion Hnd as [|? ? Hx Hnd']. subst.
  destruct Ha as [->|Ha], Hb as [->|Hb]; auto.
  - exfalso. apply Hx. rewrite E. apply in_map, Hb.
  - exfalso. apply Hx. rewrite <- E. apply in_map, Ha.
Qed.

(** What [_save_optimization] writes after [_greedy_allocate]. *)
Lemma save_after_greedy (db : DB) (ips : list ItemPrice) (ms now : Z) (sl : Saved)
      (total_cost savings : Q) :
  let allocs := fst (_greedy_allocate db ips ms) in
  let sl' := _save_optimization now sl allocs total_cost savings in
  list_columns sl'
  = mkListColumns (Some "optimized"%string) (Some total_cost) (Some savings) (Some now)
  /\ map ic_item_id (item_columns sl') = map ic_item_id (item_columns sl)
  /\ forall item', In item' (item_columns sl') ->
       (forall a ip, In a allocs -> In ip (sa_items a) ->
          item_id ip = ic_item_id item' ->
          best_price item' = Some (price ip)
          /\ best_store_id item' = Some (sa_store_id a))
       /\ (~ app_allocates allocs (ic_item_id item') -> In item' (item_columns sl)).
Proof.
  intros allocs sl'. split; [reflexivity|]. split.
  - subst sl'. unfold _save_optimization. cbn [item_columns]. rewrite map_map.
    apply map_ext. intro item. destruct (get _ _); reflexivity.
  - intros item' Hin. subst sl'. unfold _save_optimization in Hin.
    cbn [item_columns] in Hin. apply in_map_iff in Hin. destruct Hin as [item [E Hitem]].
    pose proof (chosen_by_item_get allocs (ic_item_id item)) as Hget.
    destruct (get (chosen_by_item allocs) (ic_item_id item)) as [c|].
    + destruct Hget as [Hc Ek]. subst item'. cbn [ic_item_id best_price best_store_id].
      split.
      * intros a ip Ha Hip Eid.
        assert (Hip' : In ip (flat_map sa_items allocs))
          by (apply in_flat_map; eauto).
        assert (ip = c).
        { apply (NoDup_map_inj item_id (flat_map sa_items allocs));
            [apply greedy_allocate_once | assumption | assumption | congruence]. }
        subst c. split; [reflexivity|]. f_equal.
        apply (proj2 (greedy_allocate_offers db ips ms a Ha) ip Hip).
      * intro Hn. exfalso. apply Hn. apply in_flat_map in Hc.
        destruct Hc as [a [Ha Hc]]. exists a, c. auto.
    + subst item'. split; [|intros _; exact Hitem].
      intros a ip Ha Hip Eid. exfalso.
      apply (Hget ip); [apply in_flat_map; eauto | exact Eid].
Qed.

Lemma saved_by_optimize_spec
    (strip upper casefold nfkd : string -> string) (combining : ascii -> bool)
    (eligible : DB -> LatLng Q -> Q -> option string -> option string -> list Z)
    (db : DB) (now saved_at id : Z) (user_uf user_city : option string) (radius_km : Q)
    (sl : Saved) :
  let r := optimize_for_user_city strip upper casefold nfkd combining eligible
             db now id user_uf user_city radius_km in
  let sl' := saved_by_optimize strip upper casefold nfkd combining eligible
               db now saved_at id user_uf user_city radius_km sl in
  (success r = false -> sl' = sl)
  /\ (success r = true ->
      list_columns sl'
      = mkListColumns (Some "optimized"%string) (Some (total_cost r)) (Some (savings r))
          (Some saved_at)
      /\ map ic_item_id (item_columns sl') = map ic_item_id (item_columns sl)
      /\ forall item', In item' (item_columns sl') ->
           (forall a ip, In a (allocations r) -> In ip (sa_items a) ->
              item_id ip = ic_item_id item' ->
              best_price item' = Some (price ip)
              /\ best_store_id item' = Some (sa_store_id a))
           /\ (~ app_allocates (allocations r) (ic_item_id item') ->
               In item' (item_columns sl))).
Proof.
  intros r sl'. subst sl'. unfold saved_by_optimize. fold r. split.
  - intro H. rewrite H. reflexivity.
  - intro H. rewrite H.
    assert (Hr : exists ips ms, allocations r = fst (_greedy_allocate db ips ms)).
    { subst r. revert H. unfold optimize_for_user_city.
      destruct (get_list (app_shopping_lists db) id) as [l|]; [|discriminate].
      destruct (items l); [discriminate|].
      destruct (falsy user_uf || falsy user_city); [discriminate|].
      destruct (resolve_city_centroid _ _ _ _ _ db user_uf user_city); [|discriminate].
      destruct (eligible db _ radius_km user_uf user_city) as [|e0 es]; [discriminate|].
      destruct (_get_item_prices db now l (e0 :: es)) as [|ip0 ips0]; [discriminate|].
      intros _. exists (ip0 :: ips0), (max_stores_or l 3).
      destruct (_greedy_allocate db (ip0 :: ips0) (max_stores_or l 3)). reflexivity. }
    destruct Hr as [ips [ms Hr]]. rewrite Hr.
    apply (save_after_greedy db ips ms saved_at sl (total_cost r) (savings r)).
Qed.

(** X21.  A run of [optimize_for_user_city] that fails writes nothing.  A
    run that succeeds marks the list [optimized] with the [total_cost] and
    the [savings] of the result, and writes [best_price] and
    [best_store_id] of every allocated item from its allocated offer; an
    item that is in no allocation keeps the values it had, they are not
    cleared. *)
Theorem app_save_writes_allocated_items
    (strip upper casefold nfkd : string -> string) (combining : ascii -> bool)
    (eligible : DB -> LatLng Q -> Q -> option string -> option string -> list Z)
    (db : DB) (now saved_at id : Z) (user_uf user_city : option string) (radius_km : Q)
    (sl : Saved) :
  let r := optimize_for_user_city strip upper casefold nfkd combining eligible
             db now id user_uf user_city radius_km in
  let sl' := saved_by_optimize strip upper casefold nfkd combining eligible
               db now saved_at id user_uf user_city radius_km sl in
  (success r = false -> sl' = sl)
  /\ (success r = true ->
      list_columns sl'
      = mkListColumns (Some "optimized"%string) (Some (total_cost r)) (Some (savings r))
          (Some saved_at)
      /\ map ic_item_id (item_columns sl') = map ic_item_id (item_columns sl)
      /\ forall item', In item' (item_columns sl') ->
           (forall a ip, In a (allocations r) -> In ip (sa_items a) ->
              item_id ip = ic_item_id item' ->
              best_price item' = Some (price ip)
              /\ best_store_id item' = Some (sa_store_id a))
           /\ (~ app_allocates (allocations r) (ic_item_id item') ->
               In item' (item_columns sl))).
Proof. apply saved_by_optimize_spec. Qed.

End AppSavedFacts.


(* ------------------------------------------------------------------ *)
(** ** What the generic optimizer writes, read back *)
(* ------------------------------------------------------------------ *)

Section DictEndFacts.
Import PyDict.
Context {V : Type}.

Lemma put_absent (d : dict V) (k : Z) (v : V) :
  get d k = None -> put d k v = d ++ [(k, v)].
Proof.
  induction d as [|[k' v'] d IH]; simpl; [reflexivity|].
  destruct (Z.eqb k k'); [discriminate|]. intro H. rewrite IH by assumption. reflexivity.
Qed.

Lemma get_app_last (d : dict V) (k : Z) (v : V) :
  ~ In k (keys d) -> get (d ++ [(k, v)]) k = Some v.
Proof.
  induction d as [|[k' v'] d IH]; simpl; intro H.
  - rewrite Z.eqb_refl. reflexivity.
  - destruct (Z.eqb_spec k k') as [->|_]; [exfalso; apply H; auto|].
    apply IH. intro Hin. apply H. auto.
Qed.

Lemma put_app_last (d : dict V) (k : Z) (v v' : V) :
  ~ In k (keys d) -> put (d ++ [(k, v)]) k v' = d ++ [(k, v')].
Proof.
  induction d as [|[k0 v0] d IH]; simpl; intro H.
  - rewrite Z.eqb_refl. reflexivity.
  - destruct (Z.eqb_spec k k0) as [->|_]; [exfalso; apply H; auto|].
    rewrite IH; [reflexivity|]. intro Hin. apply H. auto.
Qed.

End DictEndFacts.

Section SortedIdFacts.
Import ResultSpec.
Local Open Scope Q_scope.
Context {A : Type}.
Variable key : A -> Q.

(** [sort(key=key, reverse=True)] changes nothing in a list that is in
    descending order. *)
Lemma sort_by_descending_id (l : list A) :
  descending (map key l) = true ->
  Py.sort_by (fun y x : A => Py.Qltb (key x) (key y)) l = l.
Proof.
  induction l as [|x t IH]; simpl; [reflexivity|].
  rewrite andb_true_iff, forallb_forall. intros [Hx Ht].
  rewrite IH by assumption.
  destruct t as [|y t']; [reflexivity|]. simpl.
  assert (Hle : key y <= key x) by (apply Qle_bool_iff, Hx; left; reflexivity).
  destruct (Py.Qltb (key x) (key y)) eqn:E; [|reflexivity].
  apply Qltb_lt in E. lra.
Qed.

End SortedIdFacts.

Section VisitRowsFacts.
Import Models PyDict ShoppingOptimizer OptimizedItems ShoppingRouter.
Local Open Scope Q_scope.
Variable db : DB.
Variable produtos_canonicos : list AppShoppingRouter.CanonicalProduct.
Variable prices_by_item : dict (list ItemPrice).
Variable id : Z.

Local Notation "'visit'" := (visit_rows db produtos_canonicos prices_by_item).
Local Notation "'shown'" := (item_out db produtos_canonicos prices_by_item).
Local Notation "'row_of' a" :=
  (fun item_price : ItemPrice =>
     mkOptimizedShoppingItem id (sa_store_id a) (item_id item_price) (price item_price)
       (quantity item_price) (subtotal item_price) 1)
  (at level 10, a at level 9).

(** The entry of the answer for an allocation. *)
Local Notation "'entry_of' a" :=
  (mkStoreAllocationOut (sa_store_id a) (sa_store_name a) (sa_store_address a)
     (map (fun ip => shown (row_of a ip)) (sa_items a)) (total a))
  (at level 10, a at level 9).

Lemma visit_rows_app (l1 l2 : list OptimizedShoppingItem) (acc : dict StoreAllocationOut) :
  visit (l1 ++ l2) acc = bind (visit l1 acc) (visit l2).
Proof.
  revert acc. induction l1 as [|x l1 IH]; intro acc; simpl; [reflexivity|].
  destruct (visit_row db produtos_canonicos prices_by_item acc x) as [acc'|]; simpl;
    [apply IH | reflexivity].
Qed.

(** The rows of a store whose entry is the last of the dictionary go to
    that entry. *)
Lemma visit_rows_entry (rows : list OptimizedShoppingItem) (acc : dict StoreAllocationOut)
      (sid : Z) (e : StoreAllocationOut) :
  ~ In sid (keys acc) ->
  (forall row, In row rows -> os_store_id row = sid) ->
  visit rows (acc ++ [(sid, e)])
  = Ok (acc ++ [(sid, mkStoreAllocationOut (so_store_id e) (so_store_name e)
                        (so_store_address e) (so_items e ++ map shown rows)
                        (fold_left Qplus (map os_subtotal rows) (so_total e)))]).
Proof.
  intro Hk. revert e. induction rows as [|row rows IH]; intros e Hrows.
  - simpl. rewrite app_nil_r. destruct e. reflexivity.
  - cbn [visit_rows]. unfold visit_row.
    rewrite (Hrows row (or_introl eq_refl)), get_app_last by assumption.
    cbn [bind]. rewrite put_app_last by assumption. cbn [bind].
    rewrite IH by (intros r Hr; apply Hrows; right; exact Hr).
    cbn [so_store_id so_store_name so_store_address so_items so_total map fold_left].
    rewrite <- app_assoc. reflexivity.
Qed.

(** The rows of one allocation make one entry, after the entries made
    before. *)
Lemma visit_rows_alloc (a : StoreAllocation) (acc : dict StoreAllocationOut) :
  ~ In (sa_store_id a) (keys acc) ->
  sa_items a <> [] ->
  match get_store db (sa_store_id a) with
  | Some s => store_display_name s
  | None => Ok "Desconhecido"%string
  end = Ok (sa_store_name a) ->
  sa_store_address a
  = match get_store db (sa_store_id a) with
    | Some s => (fmt (endereco s) ++ ", " ++ fmt (cidade s))%string
    | None => EmptyString
    end ->
  total a = Py.fsum (map subtotal (sa_items a)) ->
  visit (map (row_of a) (sa_items a)) acc = Ok (acc ++ [(sa_store_id a, entry_of a)]).
Proof.
  intros Hk Hne Hname Haddr Htot.
  destruct (sa_items a) as [|i0 its] eqn:Ei; [congruence|].
  cbn [map visit_rows]. unfold visit_row. cbn [os_store_id].
  assert (Hg : get acc (sa_store_id a) = None) by (apply get_None_keys, Hk).
  rewrite Hg, Hname. cbn [bind]. rewrite put_absent by assumption. cbn [bind].
  rewrite visit_rows_entry; [|assumption|].
  - cbn [so_store_id so_store_name so_store_address so_items so_total].
    rewrite <- Haddr, Htot. do 4 f_equal.
    simpl. rewrite !map_map. reflexivity.
  - intros row Hrow. apply in_map_iff in Hrow. destruct Hrow as [ip [<- _]]. reflexivity.
Qed.

Lemma visit_rows_allocs (allocs : list StoreAllocation) (acc : dict StoreAllocationOut) :
  NoDup (map sa_store_id allocs) ->
  (forall a, In a allocs -> ~ In (sa_store_id a) (keys acc)) ->
  (forall a, In a allocs ->
     sa_items a <> []
     /\ match get_store db (sa_store_id a) with
        | Some s => store_display_name s
        | None => Ok "Desconhecido"%string
        end = Ok (sa_store_name a)
     /\ sa_store_address a
        = match get_store db (sa_store_id a) with
          | Some s => (fmt (endereco s) ++ ", " ++ fmt (cidade s))%string
          | None => EmptyString
          end
     /\ total a = Py.fsum (map subtotal (sa_items a))) ->
  visit (new_rows id allocs) acc
  = Ok (acc ++ map (fun a => (sa_store_id a, entry_of a)) allocs).
Proof.
  revert acc. induction allocs as [|a allocs IH]; intros acc Hnd Hacc Hall.
  - simpl. rewrite app_nil_r. reflexivity.
  - unfold new_rows. cbn [flat_map]. fold (new_rows id allocs).
    rewrite visit_rows_app.
    destruct (Hall a (or_introl eq_refl)) as [H1 [H2 [H3 H4]]].
    rewrite (visit_rows_alloc a acc (Hacc a (or_introl eq_refl)) H1 H2 H3 H4).
    cbn [bind]. inversion Hnd as [|? ? Hx Hnd']. subst.
    rewrite IH; [cbn [map]; rewrite <- app_assoc; reflexivity | assumption | |].
    + intros b Hb Hin. unfold keys in Hin. rewrite map_app in Hin.
      apply in_app_or in Hin. destruct Hin as [Hin|[Hin|[]]].
      * apply (Hacc b (or_intror Hb)). exact Hin.
      * simpl in Hin. apply Hx. rewrite Hin. apply in_map, Hb.
    + intros b Hb. apply Hall. right. exact Hb.
Qed.

End VisitRowsFacts.


Section RoundTripFacts.
Import Models PyDict ShoppingOptimizer OptimizedItems ShoppingRouter ResultSpec.
Local Open Scope Q_scope.

Lemma find_both {X} (f g : X -> bool) (l : list X) (x : X) :
  find f l = Some x -> (forall y, f y = true -> g y = true) ->
  find (fun y => f y && g y) l = Some x.
Proof.
  intros H Hg. induction l as [|y l IH]; simpl in *; [discriminate|].
  destruct (f y) eqn:E; simpl.
  - rewrite (Hg y E). exact H.
  - apply IH, H.
Qed.

Lemma saved_rows (rows : list OptimizedShoppingItem) (id : Z)
      (allocs : list StoreAllocation) :
  filter (fun row => Z.eqb (os_shopping_list_id row) id)
         (filter (fun row => negb (Z.eqb (os_shopping_list_id row) id)) rows
          ++ new_rows id allocs)
  = new_rows id allocs.
Proof.
  rewrite filter_app.
  assert (E1 : filter (fun row => Z.eqb (os_shopping_list_id row) id)
                 (filter (fun row => negb (Z.eqb (os_shopping_list_id row) id)) rows) = []).
  { induction rows as [|x rows IH]; simpl; [reflexivity|].
    destruct (Z.eqb (os_shopping_list_id x) id) eqn:E; simpl; [exact IH|].
    rewrite E. exact IH. }
  rewrite E1. simpl. apply filter_all. intros row Hrow.
  unfold new_rows in Hrow. apply in_flat_map in Hrow. destruct Hrow as [a [_ Hrow]].
  apply in_map_iff in Hrow. destruct Hrow as [ip [<- _]]. apply Z.eqb_refl.
Qed.

(** The name and the address that [_allocation_to_result] gives to an
    allocation are those of the row of [lojas] with its id. *)
Lemma allocation_to_result_names (db : DB) (al : dict (list ItemPrice))
      (allocs : list StoreAllocation) :
  _allocation_to_result db al = Ok allocs ->
  forall a, In a allocs ->
    match get_store db (sa_store_id a) with
    | Some s => store_display_name s
    | None => Ok "Desconhecido"%string
    end = Ok (sa_store_name a)
    /\ sa_store_address a
       = match get_store db (sa_store_id a) with
         | Some s => (fmt (endereco s) ++ ", " ++ fmt (cidade s))%string
         | None => EmptyString
         end.
Proof.
  unfold _allocation_to_result.
  destruct (mapM _ al) as [rows|] eqn:E; simpl; [|discriminate].
  intro H. inversion H. subst allocs. clear H.
  apply mapM_Ok in E. intros a Ha. apply sort_by_In in Ha.
  induction E as [|[sid its] r al rows Hf E IH]; simpl in Ha; [destruct Ha|].
  apply in_app_or in Ha. destruct Ha as [Ha|Ha]; [|apply IH, Ha].
  destruct its as [|i0 its]; [inversion Hf; subst; destruct Ha|].
  destruct (match get_store db sid with
            | Some s => store_display_name s
            | None => Ok "Desconhecido"%string
            end) as [name|] eqn:En; simpl in Hf; [|discriminate].
  inversion Hf. subst r. destruct Ha as [<-|[]]. cbn [sa_store_id sa_store_name
    sa_store_address]. split; [exact En | reflexivity].
Qed.

(** A successful run of [optimize], step by step. *)
Lemma optimize_success (db : DB) (now id : Z) (sl : ShoppingList)
      (r : OptimizationResult) :
  get_list (shopping_lists db) id = Some sl ->
  optimize db now id = Ok r ->
  success r = true ->
  exists ips allocs e,
    _get_item_prices db now sl = Ok ips
    /\ _optimize_allocation db ips (max_stores_or sl 3) = Ok (allocs, e)
    /\ allocations r = _add_price_comparison allocs ips
    /\ total_cost r = Py.fsum (map total (allocations r))
    /\ savings r = total_if_single_store r - total_cost r
    /\ total_worst_cost r
       = fold_left
           (fun acc a =>
              fold_left (fun acc ip => acc + worst_unit ip * quantity ip) (sa_items a) acc)
           (allocations r) 0
    /\ potential_savings r = total_worst_cost r - total_cost r.
Proof.
  intros Hget. unfold optimize. rewrite Hget.
  destruct (items sl) as [|i0 its0]; [intro H; inversion H; subst; discriminate|].
  destruct (_get_item_prices db now sl) as [ips|]; simpl; [|discriminate].
  destruct ips as [|ip0 ips0] eqn:Eips; [intro H; inversion H; subst; discriminate|].
  rewrite <- Eips. clear Eips ip0 ips0.
  destruct (_optimize_allocation db ips (max_stores_or sl 3)) as [[allocs e]|] eqn:Eo;
    simpl; [|discriminate].
  intros H _. inversion H. subst r. clear H.
  exists ips, allocs, e. cbn [allocations total_cost savings total_if_single_store
    total_worst_cost potential_savings].
  split; [reflexivity|]. split; [exact Eo|]. repeat split; reflexivity.
Qed.

(** What the allocations of a successful run are made of. *)
Lemma optimize_allocations_wf (db : DB) (ips : list ItemPrice) (ms : Z)
      (allocs : list StoreAllocation) (e : bool) :
  _optimize_allocation db ips ms = Ok (allocs, e) ->
  NoDup (map sa_store_id (_add_price_comparison allocs ips))
  /\ forall a, In a (_add_price_comparison allocs ips) ->
       sa_items a <> []
       /\ match get_store db (sa_store_id a) with
          | Some s => store_display_name s
          | None => Ok "Desconhecido"%string
          end = Ok (sa_store_name a)
       /\ sa_store_address a
          = match get_store db (sa_store_id a) with
            | Some s => (fmt (endereco s) ++ ", " ++ fmt (cidade s))%string
            | None => EmptyString
            end
       /\ total a = Py.fsum (map subtotal (sa_items a)).
Proof.
  unfold _optimize_allocation.
  pose proof (choose_allocation_sound ips ms) as [Hnd Hsound].
  destruct (choose_allocation ips ms) as [al e']. cbn [fst] in Hnd, Hsound.
  destruct (_allocation_to_result db al) as [res|] eqn:Er; simpl; [|discriminate].
  intro H. inversion H. subst res e'. clear H.
  assert (Hne : forall sid its, In (sid, its) al -> its <> [])
    by (intros sid its Hin; apply (Hsound _ _ Hin)).
  destruct (@allocation_to_result_spec db al allocs Hne Er) as [Hperm Htot].
  pose proof (@allocation_to_result_names db al allocs Er) as Hnames.
  assert (Eids : map sa_store_id (_add_price_comparison allocs ips) = map sa_store_id allocs).
  { unfold _add_price_comparison. rewrite map_map. reflexivity. }
  split.
  - rewrite Eids. apply (Permutation_NoDup (l := keys al)); [|exact Hnd].
    symmetry. apply allocs_store_ids, Hperm.
  - intros a' Ha'. unfold _add_price_comparison in Ha'. cbv zeta in Ha'.
    apply in_map_iff in Ha'. destruct Ha' as [a [<- Ha]].
    cbn [sa_items sa_store_id sa_store_name sa_store_address total].
    destruct (Hnames a Ha) as [Hn Haddr].
    assert (Hin : In (sa_store_id a, sa_items a) al).
    { apply (Permutation_in _ Hperm).
      apply (in_map (fun a => (sa_store_id a, sa_items a))), Ha. }
    split.
    + intro E. apply map_eq_nil in E. apply (Hne _ _ Hin E).
    + split; [exact Hn|]. split; [exact Haddr|].
      rewrite (Htot a Ha), map_map. f_equal. apply map_ext. intro ip.
      destruct (Py.max_by _ _); reflexivity.
Qed.

End RoundTripFacts.


Section RoundTrip.
Import Models PyDict ShoppingOptimizer OptimizedItems ShoppingRouter ResultSpec.
Local Open Scope Q_scope.
Variable db : DB.
Variable produtos_canonicos : list AppShoppingRouter.CanonicalProduct.

(** The update of [_add_price_comparison] on one offer. *)
Local Notation "'compared' ips item" :=
  (match Py.max_by price (get_or (group_by_item ips) (item_id item) []) with
   | Some worst =>
       mkItemPrice (item_id item) (canonical_id item) (store_id item) (store_name item)
         (price item) (quantity item) (subtotal item) (price worst) (store_name worst)
         ((price worst - price item) * quantity item)
   | None => item
   end) (at level 10, ips at level 9, item at level 9).

Local Notation "'row' id sid ip" :=
  (mkOptimizedShoppingItem id sid (item_id ip) (price ip) (quantity ip) (subtotal ip) 1)
  (at level 10, id at level 9, sid at level 9, ip at level 9).

(** The stored row of an allocated offer is shown with the fields of the
    offer, and counts for the same amount in the total at the worst
    prices. *)
Lemma shown_item (ips : list ItemPrice) (id sid : Z) (ip : ItemPrice) :
  In ip ips ->
  let it := item_out db produtos_canonicos (group_by_item ips)
              (row id sid (compared ips ip)) in
  io_item_id it = item_id (compared ips ip)
  /\ io_quantity it = quantity (compared ips ip)
  /\ io_price it = price (compared ips ip)
  /\ io_subtotal it = subtotal (compared ips ip)
  /\ worst_unit_out it * io_quantity it
     == worst_unit (compared ips ip) * quantity (compared ips ip).
Proof.
  intros Hip it. subst it.
  destruct (group_of_offer ips ip Hip) as [Hin _].
  destruct (Py.max_by price (get_or (group_by_item ips) (item_id ip) [])) as [w|] eqn:Em.
  - unfold item_out. cbn [os_item_id os_price os_quantity os_subtotal item_id price
      quantity subtotal]. rewrite Em.
    destruct (Qeq_bool (price w) (price ip)) eqn:Eq; cbn [negb];
      cbn [io_item_id io_quantity io_price io_subtotal];
      (split; [reflexivity|]); (split; [reflexivity|]); (split; [reflexivity|]);
      (split; [reflexivity|]);
      unfold worst_unit_out, worst_unit;
      cbn [io_worst_price io_price io_quantity worst_price price quantity].
    + apply Qeq_bool_iff in Eq. simpl.
      destruct (negb (Qeq_bool (price w) 0) && Py.Qltb 0 (price w));
        [rewrite Eq|]; reflexivity.
    + reflexivity.
  - apply max_by_None in Em. rewrite Em in Hin. destruct Hin.
Qed.

Lemma round_trip (st : Saved) (now saved_at id u : Z) (sl : ShoppingList)
      (r : OptimizationResult) :
  get_list (shopping_lists db) id = Some sl ->
  user_id (list_columns st id) = u ->
  optimize db now id = Ok r ->
  success r = true ->
  match get_optimization db (saved_by_optimize db now saved_at id st) produtos_canonicos
          now id u with
  | Returned out =>
      map (fun a => (so_store_id a, so_store_name a, so_store_address a, so_total a,
                     map (fun it => (io_item_id it, io_quantity it, io_price it,
                                     io_subtotal it)) (so_items a)))
          (out_allocations out)
      = map (fun a => (sa_store_id a, sa_store_name a, sa_store_address a, total a,
                       map (fun ip => (item_id ip, quantity ip, price ip, subtotal ip))
                           (sa_items a)))
            (allocations r)
      /\ out_total_cost out = total_cost r
      /\ out_savings out == savings r
      /\ out_total_if_single_store out == total_if_single_store r
      /\ out_total_worst_cost out == total_worst_cost r
      /\ out_potential_savings out == potential_savings r
      /\ out_items_without_price out = []
  | RaisedZeroDivisionError => ~ savings r == 0 /\ total_if_single_store r == 0
  | _ => False
  end.
Proof.
  intros Hget Hu Hopt Hs.
  destruct (@optimize_success db now id sl r Hget Hopt Hs)
    as [ips [allocs [e [Hips [Hoa [Eal [Etc [Esv [Ewc Eps]]]]]]]]].
  pose proof (@generic_allocations_descending db now id r Hopt) as Hdesc.
  destruct (@optimize_allocations_wf db ips (max_stores_or sl 3) allocs e Hoa)
    as [Hnd Hwf].
  pose proof (@optimize_allocation_sound db ips (max_stores_or sl 3) allocs e Hoa) as Hsound.
  rewrite <- Eal in Hnd, Hwf.
  assert (Epk : list_pk sl = id).
  { unfold get_list in Hget. apply find_some in Hget. apply Z.eqb_eq, Hget. }
  unfold saved_by_optimize. rewrite Hget, Hopt, Hs.
  unfold get_optimization, _save_optimization.
  cbn [list_columns optimized_shopping_items].
  match goal with |- context [find ?F (shopping_lists db)] =>
    assert (Hfind : find F (shopping_lists db) = Some sl)
  end.
  { apply (@find_both _ (fun l => Z.eqb (list_pk l) id)
             (fun l => Z.eqb (user_id (if Z.eqb (list_pk l) (list_pk sl)
                                       then mkListColumns
                                              (user_id (list_columns st (list_pk l)))
                                              (Some "optimized"%string)
                                              (Some (total_cost r)) (Some (savings r))
                                              (Some saved_at)
                                       else list_columns st (list_pk l))) u)
             (shopping_lists db) sl Hget).
    intros y Hy. apply Z.eqb_eq in Hy. rewrite Hy.
    destruct (Z.eqb id (list_pk sl)); cbn [user_id]; rewrite Hu; apply Z.eqb_refl. }
  rewrite Hfind. clear Hfind. rewrite Z.eqb_refl. cbn [status total_savings].
  rewrite Hips, saved_rows.
  rewrite (@visit_rows_allocs db produtos_canonicos (group_by_item ips) (list_pk sl)
             (allocations r) [] Hnd (fun a _ H => H) Hwf).
  cbn [app]. unfold values. rewrite map_map. cbn [snd].
  rewrite (sort_by_descending_id so_total)
    by (rewrite map_map; cbn [so_total]; exact Hdesc).
  set (outs := map _ (allocations r)).
  assert (Etot : map so_total outs = map total (allocations r)).
  { subst outs. rewrite map_map. reflexivity. }
  assert (Ecost : Py.fsum (map so_total outs) = total_cost r)
    by (rewrite Etot, Etc; reflexivity).
  rewrite Ecost.
  assert (Eworst :
    fold_left
      (fun acc alloc =>
         fold_left (fun acc it => acc + worst_unit_out it * io_quantity it)
                   (so_items alloc) acc) outs 0
    == total_worst_cost r).
  { rewrite Ewc, !fold_fold_sum. apply Qplus_comp; [reflexivity|].
    subst outs. rewrite map_map. cbn [so_items].
    apply fsum_map_eq. intros a' Ha'. rewrite map_map.
    rewrite Eal in Ha'. unfold _add_price_comparison in Ha'. cbv zeta in Ha'.
    apply in_map_iff in Ha'. destruct Ha' as [a [<- Ha]]. cbn [sa_items sa_store_id].
    rewrite !map_map. apply fsum_map_eq. intros ip Hip.
    apply (@shown_item ips (list_pk sl) (sa_store_id a) ip (proj1 (Hsound a ip Ha Hip))). }
  assert (Eview :
    map (fun a => (so_store_id a, so_store_name a, so_store_address a, so_total a,
                   map (fun it => (io_item_id it, io_quantity it, io_price it,
                                   io_subtotal it)) (so_items a))) outs
    = map (fun a => (sa_store_id a, sa_store_name a, sa_store_address a, total a,
                     map (fun ip => (item_id ip, quantity ip, price ip, subtotal ip))
                         (sa_items a))) (allocations r)).
  { subst outs. rewrite map_map. apply map_ext. intro a.
    cbn [so_store_id so_store_name so_store_address so_total so_items].
    rewrite map_map. f_equal. apply map_ext. intro ip.
    unfold item_out. cbn [os_item_id os_price os_quantity os_subtotal].
    destruct (Py.max_by price _) as [w|];
      [destruct (negb (Qeq_bool (price w) (price ip)))|]; reflexivity. }
  assert (Hdone : forall pct,
    (fun out =>
       map (fun a => (so_store_id a, so_store_name a, so_store_address a, so_total a,
                      map (fun it => (io_item_id it, io_quantity it, io_price it,
                                      io_subtotal it)) (so_items a)))
           (out_allocations out)
       = map (fun a => (sa_store_id a, sa_store_name a, sa_store_address a, total a,
                        map (fun ip => (item_id ip, quantity ip, price ip, subtotal ip))
                            (sa_items a))) (allocations r)
       /\ out_total_cost out = total_cost r
       /\ out_savings out == savings r
       /\ out_total_if_single_store out == total_if_single_store r
       /\ out_total_worst_cost out == total_worst_cost r
       /\ out_potential_savings out == potential_savings r
       /\ out_items_without_price out = [])
      (mkOptimizationResultOut true
         (if Z.ltb 0 (max_stores_or sl 3)
             && Z.ltb (max_stores_or sl 3) (Z.of_nat (List.length outs))
          then msg_not_limited (List.length outs) (max_stores_or sl 3)
          else msg_optimized (List.length outs))
         outs (total_cost r) (total_cost r + or_zero (Some (savings r)))
         (or_zero (Some (savings r))) pct
         (fold_left
            (fun acc alloc =>
               fold_left (fun acc it => acc + worst_unit_out it * io_quantity it)
                         (so_items alloc) acc) outs 0)
         (fold_left
            (fun acc alloc =>
               fold_left (fun acc it => acc + worst_unit_out it * io_quantity it)
                         (so_items alloc) acc) outs 0 - total_cost r)
         (if Py.Qltb 0
               (fold_left
                  (fun acc alloc =>
                     fold_left (fun acc it => acc + worst_unit_out it * io_quantity it)
                               (so_items alloc) acc) outs 0)
          then (fold_left
                  (fun acc alloc =>
                     fold_left (fun acc it => acc + worst_unit_out it * io_quantity it)
                               (so_items alloc) acc) outs 0 - total_cost r)
               / fold_left
                   (fun acc alloc =>
                      fold_left (fun acc it => acc + worst_unit_out it * io_quantity it)
                                (so_items alloc) acc) outs 0 * 100
          else 0) [])).
  { intro pct. cbv beta.
    cbn [out_allocations out_total_cost out_savings out_total_if_single_store
         out_total_worst_cost out_potential_savings out_items_without_price].
    assert (Eoz : or_zero (Some (savings r)) == savings r).
    { unfold or_zero. destruct (Qeq_bool (savings r) 0) eqn:E; [|reflexivity].
      apply Qeq_bool_iff in E. rewrite E. reflexivity. }
    split; [exact Eview|]. split; [reflexivity|]. split; [exact Eoz|].
    split; [rewrite Eoz, Esv; ring|]. split; [exact Eworst|].
    split; [rewrite Eworst, Eps; reflexivity | reflexivity]. }
  destruct (Qeq_bool (savings r) 0) eqn:E0; [apply Hdone|].
  destruct (Qeq_bool (total_cost r + savings r) 0) eqn:E1; [|apply Hdone].
  apply Qeq_bool_iff in E1. split.
  - intro H. apply Qeq_bool_iff in H. congruence.
  - rewrite Esv in E1. rewrite <- E1. ring.
Qed.


Lemma reads_back (st : Saved) (now saved_at id u : Z) (sl : ShoppingList)
      (ips : list ItemPrice) (r : OptimizationResult) :
  get_list (shopping_lists db) id = Some sl ->
  user_id (list_columns st id) = u ->
  _get_item_prices db now sl = Ok ips ->
  RecentOfferSpec.sane db sl = true ->
  AllocationEngineSpec.redistributes ips (max_stores_or sl 3)
  && SavingsSpec.has_complete_store ips = false ->
  optimize db now id = Ok r ->
  success r = true ->
  exists out,
    get_optimization db (saved_by_optimize db now saved_at id st) produtos_canonicos
      now id u = Returned out
    /\ out_total_cost out = total_cost r
    /\ out_savings out == savings r
    /\ 0 <= out_savings out
    /\ out_total_cost out <= out_total_if_single_store out.
Proof.
  intros Hget Hu Hips Hsane Hcase Hopt Hs.
  pose proof (@round_trip st now saved_at id u sl r Hget Hu Hopt Hs) as Hrt.
  destruct (@optimize_savings db now id sl ips r Hget Hips Hsane Hcase Hopt)
    as [H0 [H1 [H2 _]]].
  destruct (@optimize_success db now id sl r Hget Hopt Hs)
    as [_ [_ [_ [_ [_ [_ [_ [Esv _]]]]]]]].
  destruct (get_optimization db _ produtos_canonicos now id u) as [out| | |];
    try contradiction.
  - destruct Hrt as [_ [Ec [Es [Et _]]]]. exists out.
    split; [reflexivity|]. split; [exact Ec|]. split; [exact Es|].
    split; [rewrite Es; exact H2 | rewrite Ec, Et; exact H1].
  - destruct Hrt as [Hn Hz]. exfalso. apply Hn. rewrite Esv. lra.
Qed.


End RoundTrip.

Section RoundTripExamples.
Import Models ShoppingOptimizer OptimizedItems ShoppingRouter.
Local Open Scope Q_scope.



End RoundTripExamples.


Section SaveFrame.
Import Models ShoppingOptimizer OptimizedItems.

Lemma filter_other_rows (rows : list OptimizedShoppingItem) (id other : Z)
      (allocs : list StoreAllocation) :
  other <> id ->
  filter (fun row => Z.eqb (os_shopping_list_id row) other)
         (filter (fun row => negb (Z.eqb (os_shopping_list_id row) id)) rows
          ++ new_rows id allocs)
  = filter (fun row => Z.eqb (os_shopping_list_id row) other) rows.
Proof.
  intro Hne. rewrite filter_app.
  assert (E2 : filter (fun row => Z.eqb (os_shopping_list_id row) other)
                 (new_rows id allocs) = []).
  { unfold new_rows. induction allocs as [|a allocs IH]; [reflexivity|].
    cbn [flat_map]. rewrite filter_app, IH, app_nil_r.
    induction (sa_items a) as [|ip its IHi]; [reflexivity|].
    cbn [map filter os_shopping_list_id].
    destruct (Z.eqb_spec id other) as [E|_]; [congruence | exact IHi]. }
  rewrite E2, app_nil_r.
  induction rows as [|x rows IH]; simpl; [reflexivity|].
  destruct (Z.eqb_spec (os_shopping_list_id x) id) as [E|E]; simpl.
  - rewrite E. destruct (Z.eqb_spec id other) as [E'|_]; [congruence | exact IH].
  - rewrite IH. reflexivity.
Qed.

Lemma saved_by_optimize_frame (db : DB) (now saved_at id other : Z) (st : Saved) :
  other <> id ->
  let st' := saved_by_optimize db now saved_at id st in
  filter (fun row => Z.eqb (os_shopping_list_id row) other) (optimized_shopping_items st')
  = filter (fun row => Z.eqb (os_shopping_list_id row) other) (optimized_shopping_items st)
  /\ list_columns st' other = list_columns st other
  /\ (forall i, user_id (list_columns st' i) = user_id (list_columns st i))
  /\ optimized_shopping_items
       (saved_by_optimize db now saved_at id st')
     = optimized_shopping_items st'
  /\ forall i, list_columns (saved_by_optimize db now saved_at id st') i
               = list_columns st' i.
Proof.
  intros Hne st'. subst st'. unfold saved_by_optimize.
  destruct (get_list (shopping_lists db) id) as [sl|] eqn:Hget; [|repeat split].
  assert (Epk : list_pk sl = id).
  { unfold get_list in Hget. apply find_some in Hget. apply Z.eqb_eq, Hget. }
  destruct (optimize db now id) as [r|]; [|repeat split].
  destruct (success r); [|repeat split].
  unfold _save_optimization. cbn [optimized_shopping_items list_columns]. rewrite Epk.
  split; [apply filter_other_rows, Hne|].
  split; [destruct (Z.eqb_spec other id); [contradiction | reflexivity]|].
  split; [intro i; destruct (Z.eqb i id); reflexivity|].
  split.
  - f_equal. rewrite filter_app.
    assert (E2 : filter (fun row => negb (Z.eqb (os_shopping_list_id row) id))
                   (new_rows id (allocations r)) = []).
    { unfold new_rows. induction (allocations r) as [|a allocs IH]; [reflexivity|].
      cbn [flat_map]. rewrite filter_app, IH, app_nil_r.
      induction (sa_items a) as [|ip its IHi]; [reflexivity|].
      cbn [map filter os_shopping_list_id]. rewrite Z.eqb_refl. exact IHi. }
    rewrite E2, app_nil_r.
    induction (optimized_shopping_items st) as [|x rows IH]; simpl; [reflexivity|].
    destruct (negb (Z.eqb (os_shopping_list_id x) id)) eqn:E; simpl;
      [rewrite E, IH|]; [reflexivity | exact IH].
  - intro i. destruct (Z.eqb i id); reflexivity.
Qed.

(** X24.  A run of [optimize] for one list leaves the saved rows and the
    columns of every other list as they were, and never changes the owner
    of a list; the rows of its own list are replaced, not added to, so
    that repeating the run (same tables, same clocks) changes nothing
    more. *)
Theorem save_touches_one_list (db : DB) (now saved_at id other : Z) (st : Saved) :
  other <> id ->
  let st' := saved_by_optimize db now saved_at id st in
  filter (fun row => Z.eqb (os_shopping_list_id row) other) (optimized_shopping_items st')
  = filter (fun row => Z.eqb (os_shopping_list_id row) other) (optimized_shopping_items st)
  /\ list_columns st' other = list_columns st other
  /\ (forall i, user_id (list_columns st' i) = user_id (list_columns st i))
  /\ optimized_shopping_items
       (saved_by_optimize db now saved_at id st')
     = optimized_shopping_items st'
  /\ forall i, list_columns (saved_by_optimize db now saved_at id st') i
               = list_columns st' i.
Proof. apply saved_by_optimize_frame. Qed.

End SaveFrame.

Section SaveFrameExamples.
Import Models ShoppingOptimizer OptimizedItems.

Lemma save_touches_one_list_witness :
  2%Z <> 1%Z
  /\ let st' := saved_by_optimize Fixtures.db_two_stores 100 200 1 Fixtures.nothing_saved in
     filter (fun row => Z.eqb (os_shopping_list_id row) 2) (optimized_shopping_items st')
     = filter (fun row => Z.eqb (os_shopping_list_id row) 2)
              (optimized_shopping_items Fixtures.nothing_saved)
     /\ list_columns st' 2 = list_columns Fixtures.nothing_saved 2
     /\ (forall i, user_id (list_columns st' i)
                   = user_id (list_columns Fixtures.nothing_saved i))
     /\ optimized_shopping_items
          (saved_by_optimize Fixtures.db_two_stores 100 200 1 st')
        = optimized_shopping_items st'
     /\ forall i, list_columns (saved_by_optimize Fixtures.db_two_stores 100 200 1 st') i
                  = list_columns st' i.
Proof.
  split; [discriminate|].
  apply (@save_touches_one_list Fixtures.db_two_stores 100%Z 200%Z 1%Z 2%Z
           Fixtures.nothing_saved).
  discriminate.
Defined.

End SaveFrameExamples.
